(** * N.E.K.O web scraper: region-aware multi-source aggregation

    A shallow embedding of [utils/web_scraper.py]: the region selector,
    the platform fetchers, the two orchestrators and the context-search
    pipeline, followed by the properties established about them.

    Conventions of the embedding
    - a Python [str] is a list of Unicode code points ([PyStr.str]);
      source literals are written [U "..."] and decoded from UTF-8;
    - JSON-like Python values are [PyVal.pyval]; a [dict] is an
      association list read with first-match lookup;
    - code that may raise lives in the [result] type, network effects are
      threaded through an explicit request log;
    - what the code obtains from the outside (locale, stored cookies, HTTP
      responses, the assistant's reply, parsed HTML) is a field of [World]. *)

From Stdlib Require Import String Ascii ZArith NArith Bool Lia Arith PeanoNat List
  Permutation.
Import ListNotations.

Set Implicit Arguments.
Set Warnings "-register-all".

(* ================================================================== *)
(** ** Python strings *)
(* ================================================================== *)

Module PyStr.

Definition str := list N.

Fixpoint bytes_of (s : string) : list N :=
  match s with
  | EmptyString => []
  | String c t => N_of_ascii c :: bytes_of t
  end.

(** UTF-8 decoding of a source literal (well-formed input assumed; a
    truncated sequence is dropped). *)
Fixpoint utf8_decode (l : list N) : str :=
  match l with
  | [] => []
  | b0 :: t =>
    if (b0 <? 128)%N then b0 :: utf8_decode t
    else match t with
    | [] => []
    | b1 :: t1 =>
      if (b0 <? 224)%N then ((b0 mod 32) * 64 + b1 mod 64)%N :: utf8_decode t1
      else match t1 with
      | [] => []
      | b2 :: t2 =>
        if (b0 <? 240)%N
        then (((b0 mod 16) * 64 + b1 mod 64) * 64 + b2 mod 64)%N :: utf8_decode t2
        else match t2 with
        | [] => []
        | b3 :: t3 =>
          ((((b0 mod 8) * 64 + b1 mod 64) * 64 + b2 mod 64) * 64 + b3 mod 64)%N
            :: utf8_decode t3
        end
      end
    end
  end.

Definition U (s : string) : str := utf8_decode (bytes_of s).
Arguments U : simpl never.

Fixpoint str_eqb (a b : str) : bool :=
  match a, b with
  | [], [] => true
  | x :: a', y :: b' => (x =? y)%N && str_eqb a' b'
  | _, _ => false
  end.

Definition in_range (lo hi c : N) : bool := ((lo <=? c) && (c <=? hi))%N.

(** [str.isspace] on one code point; also the class [\s] of [re]. *)
Definition is_space (c : N) : bool :=
  in_range 9 13 c || in_range 28 32 c || (c =? 133)%N || (c =? 160)%N
  || (c =? 5760)%N || in_range 8192 8202 c || (c =? 8232)%N || (c =? 8233)%N
  || (c =? 8239)%N || (c =? 8287)%N || (c =? 12288)%N.

(** Starts of the blocks of ten decimal digits: the code points of
    category Nd (Unicode 14.0, the tables of Python 3.11), which come in
    runs of ten, digit zero first, in the Basic Multilingual Plane and
    beyond it; the class [\d] of [re] on [str] patterns. *)
Definition digit_blocks : list N :=
  [48; 1632; 1776; 1984; 2406; 2534; 2662; 2790; 2918; 3046; 3174; 3302;
   3430; 3558; 3664; 3792; 3872; 4160; 4240; 6112; 6160; 6470; 6608; 6784;
   6800; 6992; 7088; 7232; 7248; 42528; 43216; 43264; 43472; 43504; 43600;
   44016; 65296;
   66720; 68912; 69734; 69872; 69942; 70096; 70384; 70736; 70864; 71248;
   71360; 71472; 71904; 72016; 72784; 73040; 73120; 92768; 92864; 93008;
   120782; 120792; 120802; 120812; 120822; 123200; 123632; 125264;
   130032]%N.

Definition is_digit (c : N) : bool :=
  existsb (fun lo => in_range lo (lo + 9) c) digit_blocks.

(** The class [\w]: letters, digits and the underscore.  Outside ASCII the
    letters are approximated by the Latin-1 supplement and every code point
    from U+0100 on that is not white space. *)
Definition is_word (c : N) : bool :=
  in_range 48 57 c || in_range 65 90 c || in_range 97 122 c || (c =? 95)%N
  || is_digit c
  || (in_range 192 255 c && negb (c =? 215)%N && negb (c =? 247)%N)
  || ((256 <=? c)%N && negb (is_space c)).

Fixpoint lstrip_by (f : N -> bool) (s : str) : str :=
  match s with
  | [] => []
  | c :: t => if f c then lstrip_by f t else s
  end.

Definition rstrip_by (f : N -> bool) (s : str) : str :=
  rev (lstrip_by f (rev s)).

Definition strip_by (f : N -> bool) (s : str) : str :=
  rstrip_by f (lstrip_by f s).

(** [s.strip()] *)
Definition strip (s : str) : str := strip_by is_space s.

(** [s.strip(chars)] *)
Definition strip_chars (chars : str) (s : str) : str :=
  strip_by (fun c => existsb (N.eqb c) chars) s.

(** [s.split()]: maximal runs of non-space characters.  [cur] is the run
    being read, most recent character first. *)
Fixpoint split_ws_aux (cur : str) (s : str) : list str :=
  match s with
  | [] => match cur with [] => [] | _ => [rev cur] end
  | c :: t =>
    if is_space c
    then match cur with
         | [] => split_ws_aux [] t
         | _ => rev cur :: split_ws_aux [] t
         end
    else split_ws_aux (c :: cur) t
  end.

Definition split_ws (s : str) : list str := split_ws_aux [] s.

(** [s.split(d)] for a one-character separator: empty fields are kept. *)
Fixpoint split_char_aux (d : N) (cur : str) (s : str) : list str :=
  match s with
  | [] => [rev cur]
  | c :: t =>
    if (c =? d)%N then rev cur :: split_char_aux d [] t
    else split_char_aux d (c :: cur) t
  end.

Definition split_char (d : N) (s : str) : list str := split_char_aux d [] s.

(** [sep.join(parts)] *)
Fixpoint join (sep : str) (parts : list str) : str :=
  match parts with
  | [] => []
  | [x] => x
  | x :: rest => x ++ sep ++ join sep rest
  end.

Fixpoint startswith (p s : str) : bool :=
  match p, s with
  | [], _ => true
  | x :: p', y :: s' => (x =? y)%N && startswith p' s'
  | _ :: _, [] => false
  end.

(** [p in s] *)
Fixpoint contains (p s : str) : bool :=
  startswith p s || match s with [] => false | _ :: t => contains p t end.

(** [s.replace(a, b)] for single characters. *)
Definition replace_char (a b : N) (s : str) : str :=
  map (fun c => if (c =? a)%N then b else c) s.

(** [s.lower()], on the ASCII letters (locale names are ASCII). *)
Definition lower_char (c : N) : N := if in_range 65 90 c then (c + 32)%N else c.
Definition lower (s : str) : str := map lower_char s.

(** [l[:n]] with Python's reading of a negative bound. *)
Definition slice_to (A : Type) (n : Z) (l : list A) : list A :=
  if (0 <=? n)%Z then firstn (Z.to_nat n) l
  else firstn (length l - Z.to_nat (- n)) l.

(** [len(x) >= n] and friends compare in [int]. *)
Definition len (A : Type) (l : list A) : Z := Z.of_nat (length l).

Definition nonempty (A : Type) (l : list A) : bool :=
  match l with [] => false | _ => true end.

(** Decimal rendering of an [int]. *)
Fixpoint digits_aux (fuel : nat) (n : N) (acc : str) : str :=
  match fuel with
  | O => acc
  | S f =>
    let acc' := (48 + n mod 10)%N :: acc in
    if (n <? 10)%N then acc' else digits_aux f (n / 10)%N acc'
  end.

Definition str_of_N (n : N) : str := digits_aux (S (N.to_nat (N.log2 n))) n [].

Definition str_of_Z (z : Z) : str :=
  if (z <? 0)%Z then 45%N :: str_of_N (Z.to_N (- z)) else str_of_N (Z.to_N z).

End PyStr.

Import PyStr.

(* ================================================================== *)
(** ** The fragment of [re] the module uses *)
(* ================================================================== *)

Module Regex.

Inductive re : Type :=
| Lit (c : N)                 (* one literal character *)
| Cls (f : N -> bool)         (* a character class *)
| Dot                         (* [.]: anything but a newline *)
| Bol                         (* [^] *)
| Eol                         (* [$]: the end, or before a final newline *)
| Eps
| Seq (a b : re)
| Alt (a b : re)
| Star (greedy : bool) (a : re).

(** Case folding of [re.IGNORECASE] on [str] patterns, as far as ASCII
    pattern letters are concerned: the 52 ASCII letters and the four
    letters U+0130, U+0131, U+017F and U+212A. *)
Definition fold_case (c : N) : N :=
  if in_range 65 90 c then (c + 32)%N
  else if (c =? 304)%N || (c =? 305)%N then 105%N
  else if (c =? 383)%N then 115%N
  else if (c =? 8490)%N then 107%N
  else c.

Definition chr_eq (ic : bool) (p c : N) : bool :=
  if ic then (fold_case p =? fold_case c)%N else (p =? c)%N.

(** Backtracking matcher with the priorities of [re]: alternatives left
    to right, greedy stars longest first, lazy stars shortest first.
    [bos] tells whether the position is the beginning of the string; the
    continuation [k] receives the rest of the subject. *)
Fixpoint m (ic : bool) (r : re) (bos : bool) (s : str)
    (k : bool -> str -> option str) {struct r} : option str :=
  match r with
  | Lit c =>
    match s with
    | x :: t => if chr_eq ic c x then k false t else None
    | [] => None
    end
  | Cls f =>
    match s with
    | x :: t => if f x then k false t else None
    | [] => None
    end
  | Dot =>
    match s with
    | x :: t => if (x =? 10)%N then None else k false t
    | [] => None
    end
  | Bol => if bos then k bos s else None
  | Eol =>
    match s with
    | [] => k bos s
    | [c] => if (c =? 10)%N then k bos s else None
    | _ => None
    end
  | Eps => k bos s
  | Seq a b => m ic a bos s (fun bos' s' => m ic b bos' s' k)
  | Alt a b =>
    match m ic a bos s k with
    | Some x => Some x
    | None => m ic b bos s k
    end
  | Star g a =>
    (fix loop (n : nat) (bos0 : bool) (s0 : str) {struct n} : option str :=
       match n with
       | O => k bos0 s0
       | S n' =>
         let more :=
           m ic a bos0 s0
             (fun bos' s' =>
                if length s' <? length s0 then loop n' bos' s' else None) in
         if g
         then match more with Some x => Some x | None => k bos0 s0 end
         else match k bos0 s0 with Some x => Some x | None => more end
       end) (S (length s)) bos s
  end.

(** Length of the match of [r] starting exactly here, if any. *)
Definition match_here (ic : bool) (r : re) (bos : bool) (s : str) : option nat :=
  match m ic r bos s (fun _ rest => Some rest) with
  | Some rest => Some (length s - length rest)
  | None => None
  end.

(** [re.search]: offset and length of the leftmost match. *)
Fixpoint search_from (ic : bool) (r : re) (bos : bool) (off : nat) (s : str)
  : option (nat * nat) :=
  match match_here ic r bos s with
  | Some n => Some (off, n)
  | None =>
    match s with
    | [] => None
    | _ :: t => search_from ic r false (S off) t
    end
  end.

Definition search (ic : bool) (r : re) (s : str) : option (nat * nat) :=
  search_from ic r true 0 s.

(** [re.sub(r, rep, s)] for a pattern that matches no empty string:
    every non-overlapping match, leftmost first, is replaced by [rep].
    [skip] counts the characters of the current match still to be dropped. *)
Fixpoint sub_aux (ic : bool) (r : re) (rep : str) (skip : nat) (bos : bool)
    (s : str) : str :=
  match s with
  | [] => []
  | c :: t =>
    match skip with
    | S n => sub_aux ic r rep n false t
    | O =>
      match match_here ic r bos s with
      | Some (S n) => rep ++ sub_aux ic r rep n false t
      | _ => c :: sub_aux ic r rep 0 false t
      end
    end
  end.

Definition sub (ic : bool) (r : re) (rep : str) (s : str) : str :=
  sub_aux ic r rep 0 true s.

(** [re.split(r, s)[0]] for a pattern that matches no empty string: the
    text before the leftmost match, the whole string when there is none. *)
Definition split_head (ic : bool) (r : re) (s : str) : str :=
  match search ic r s with
  | Some (off, _) => firstn off s
  | None => s
  end.

(** Pattern builders. *)
Fixpoint lits (s : str) : re :=
  match s with
  | [] => Eps
  | [c] => Lit c
  | c :: t => Seq (Lit c) (lits t)
  end.

Fixpoint alts (l : list re) : re :=
  match l with
  | [] => Cls (fun _ => false)
  | [r] => r
  | r :: t => Alt r (alts t)
  end.

Fixpoint seqs (l : list re) : re :=
  match l with
  | [] => Eps
  | [r] => r
  | r :: t => Seq r (seqs t)
  end.

Definition plus (a : re) : re := Seq a (Star true a).
Definition opt (a : re) : re := Alt a Eps.
Definition word (s : string) : re := lits (U s).
Definition one_of (s : string) : re :=
  let cs := U s in Cls (fun c => existsb (N.eqb c) cs).

Definition ws : re := Cls is_space.
Definition non_ws : re := Cls (fun c => negb (is_space c)).
Definition digit : re := Cls is_digit.
Definition word_char : re := Cls is_word.

End Regex.

Import Regex.

(* ================================================================== *)
(** ** Window-title cleaning *)
(* ================================================================== *)

Module Title.

(** [[-–—]] *)
Definition dash : re := one_of "-–—".

(** The shape [\s*[-–—]\s*(name1|name2|...).*$] of the first six rules. *)
Definition app_suffix (names : list re) : re :=
  seqs [Star true ws; dash; Star true ws; alts names; Star true Dot; Eol].

(** [\.ext\s*$] *)
Definition ext_suffix (ext : re) : re :=
  seqs [Lit 46; ext; Star true ws; Eol].

(** [patterns_to_remove], in the order of the source. *)
Definition patterns_to_remove : list re :=
  [ app_suffix [word "Google Chrome"; word "Mozilla Firefox"; word "Microsoft Edge";
                word "Opera"; word "Safari"; word "Brave"];
    app_suffix [word "Visual Studio Code"; word "VS Code"; word "VSCode"];
    app_suffix [word "记事本"; Seq (word "Notepad") (Star true (Lit 43));
                word "Sublime Text"; word "Atom"];
    app_suffix [word "Microsoft Word"; word "Excel"; word "PowerPoint"];
    app_suffix [word "QQ音乐"; word "网易云音乐"; word "酷狗音乐"; word "Spotify"];
    app_suffix [word "哔哩哔哩"; word "bilibili"; word "YouTube"; word "优酷";
                word "爱奇艺"; word "腾讯视频"];
    (* \s*[-–—]\s*\d+\s*$ *)
    seqs [Star true ws; dash; Star true ws; plus digit; Star true ws; Eol];
    (* ^\*\s* *)
    seqs [Bol; Lit 42; Star true ws];
    (* \s*\[.*?\]\s*$ *)
    seqs [Star true ws; Lit 91; Star false Dot; Lit 93; Star true ws; Eol];
    (* \s*\(.*?\)\s*$ *)
    seqs [Star true ws; Lit 40; Star false Dot; Lit 41; Star true ws; Eol];
    (* https?://\S+ *)
    seqs [word "http"; opt (Lit 115); word "://"; plus non_ws];
    (* www\.\S+ *)
    seqs [word "www."; plus non_ws];
    ext_suffix (word "py");
    ext_suffix (word "js");
    ext_suffix (Seq (word "htm") (opt (Lit 108)));
    ext_suffix (word "css");
    ext_suffix (word "md");
    ext_suffix (word "txt");
    ext_suffix (word "json") ].

(** [\s*[-–—|]\s*], the separator of the fallback split. *)
Definition part_separator : re :=
  seqs [Star true ws; one_of "-–—|"; Star true ws].

(** The substitution loop: every rule in turn, case-insensitively. *)
Definition remove_patterns (title : str) : str :=
  fold_left (fun cleaned pattern => sub true pattern [] cleaned) patterns_to_remove title.

Definition clean_window_title (title : str) : str :=
  match title with
  | [] => []
  | _ =>
    let cleaned := remove_patterns title in
    let cleaned := join (U " ") (split_ws cleaned) in
    let cleaned :=
      if (len cleaned <? 3)%Z
      then let part0 := split_head false part_separator title in
           if (3 <=? len part0)%Z then strip part0 else cleaned
      else cleaned in
    slice_to 100 cleaned
  end.

End Title.

Import Title.

(* ================================================================== *)
(** ** Python values, exceptions and effects *)
(* ================================================================== *)

Module PyVal.

(** Values of parsed JSON and of the result dictionaries.  JSON numbers
    are integers here; a [dict] is an association list, looked up from the
    front. *)
Inductive pyval : Type :=
| PNone
| PBool (b : bool)
| PInt (z : Z)
| PStr (s : str)
| PList (l : list pyval)
| PDict (d : list (str * pyval)).

(** Truth value testing. *)
Definition truthy (v : pyval) : bool :=
  match v with
  | PNone => false
  | PBool b => b
  | PInt z => negb (z =? 0)%Z
  | PStr s => nonempty s
  | PList l => nonempty l
  | PDict d => nonempty d
  end.

(** [a or b] *)
Definition py_or (a b : pyval) : pyval := if truthy a then a else b.

Inductive exn_class : Type :=
| ImportError | ValueError | AttributeError | TypeError | KeyError
| HTTPStatusError | OtherException.

(** An instance of [Exception]: its class and [str(e)].  What is not an
    [Exception] (cancellation, interpreter exit) is outside the model. *)
Record exn : Type := Exn { exn_kind : exn_class; exn_str : str }.

Inductive result (A : Type) : Type :=
| Ok (a : A)
| Raise (e : exn).

Arguments Ok {A} a.
Arguments Raise {A} e.

Definition rbind (A B : Type) (r : result A) (f : A -> result B) : result B :=
  match r with
  | Ok a => f a
  | Raise e => Raise e
  end.

(** [try: r except Exception as e: h e] *)
Definition rcatch (A : Type) (r : result A) (h : exn -> result A) : result A :=
  match r with
  | Ok a => Ok a
  | Raise e => h e
  end.

Definition type_name (v : pyval) : str :=
  match v with
  | PNone => U "NoneType"
  | PBool _ => U "bool"
  | PInt _ => U "int"
  | PStr _ => U "str"
  | PList _ => U "list"
  | PDict _ => U "dict"
  end.

Definition no_attribute (v : pyval) (name : str) : exn :=
  Exn AttributeError
      (U "'" ++ type_name v ++ U "' object has no attribute '" ++ name ++ U "'").

Fixpoint lookup (A : Type) (k : str) (d : list (str * A)) : option A :=
  match d with
  | [] => None
  | (k', v) :: rest => if str_eqb k k' then Some v else lookup k rest
  end.

(** [v.get(k, default)]; only a [dict] has the method. *)
Definition py_get (v : pyval) (k : str) (default : pyval) : result pyval :=
  match v with
  | PDict d => Ok (match lookup k d with Some x => x | None => default end)
  | _ => Raise (no_attribute v (U "get"))
  end.

(** [v[k]] with a string key. *)
Definition py_item (v : pyval) (k : str) : result pyval :=
  match v with
  | PDict d =>
    match lookup k d with
    | Some x => Ok x
    | None => Raise (Exn KeyError (U "'" ++ k ++ U "'"))
    end
  | PStr _ => Raise (Exn TypeError (U "string indices must be integers, not 'str'"))
  | PList _ =>
    Raise (Exn TypeError (U "list indices must be integers or slices, not str"))
  | _ => Raise (Exn TypeError (U "'" ++ type_name v ++ U "' object is not subscriptable"))
  end.

(** [k in v] for a string key. *)
Definition py_has_key (v : pyval) (k : str) : result bool :=
  match v with
  | PDict d => Ok (match lookup k d with Some _ => true | None => false end)
  | PList l =>
    Ok (existsb (fun x => match x with PStr s => str_eqb s k | _ => false end) l)
  | PStr s => Ok (contains k s)
  | _ => Raise (Exn TypeError
                  (U "argument of type '" ++ type_name v ++ U "' is not iterable"))
  end.

(** The elements a [for] loop visits. *)
Definition py_iter (v : pyval) : result (list pyval) :=
  match v with
  | PList l => Ok l
  | PDict d => Ok (map (fun kv => PStr (fst kv)) d)
  | PStr s => Ok (map (fun c => PStr [c]) s)
  | _ => Raise (Exn TypeError (U "'" ++ type_name v ++ U "' object is not iterable"))
  end.

(** [v[:n]] *)
Definition py_slice_to (v : pyval) (n : Z) : result pyval :=
  match v with
  | PList l => Ok (PList (slice_to n l))
  | PStr s => Ok (PStr (slice_to n s))
  | PDict _ => Raise (Exn TypeError (U "unhashable type: 'slice'"))
  | _ => Raise (Exn TypeError (U "'" ++ type_name v ++ U "' object is not subscriptable"))
  end.

Definition is_dict (v : pyval) : bool := match v with PDict _ => true | _ => false end.
Definition is_str (v : pyval) : bool := match v with PStr _ => true | _ => false end.
Definition is_list (v : pyval) : bool := match v with PList _ => true | _ => false end.

(** [v == n] for an integer literal ([bool] is a subclass of [int]). *)
Definition py_eq_int (v : pyval) (n : Z) : bool :=
  match v with
  | PInt z => (z =? n)%Z
  | PBool b => ((if b then 1 else 0) =? n)%Z
  | _ => false
  end.

(** [v == s] for a string literal. *)
Definition py_eq_str (v : pyval) (s : str) : bool :=
  match v with
  | PStr x => str_eqb x s
  | _ => false
  end.

(** [repr(v)] (string escapes are not rendered) and [str(v)], the text an
    f-string inserts. *)
Fixpoint py_repr (v : pyval) : str :=
  match v with
  | PNone => U "None"
  | PBool b => if b then U "True" else U "False"
  | PInt z => str_of_Z z
  | PStr s => U "'" ++ s ++ U "'"
  | PList l => U "[" ++ join (U ", ") (map py_repr l) ++ U "]"
  | PDict d =>
    U "{"
    ++ join (U ", ")
         (map (fun kv => match kv with
                         | (k, x) => U "'" ++ k ++ U "': " ++ py_repr x
                         end) d)
    ++ U "}"
  end.

Definition py_str (v : pyval) : str :=
  match v with
  | PStr s => s
  | _ => py_repr v
  end.

(** The argument of an [re] function must be a string. *)
Definition as_str (v : pyval) : result str :=
  match v with
  | PStr s => Ok s
  | _ => Raise (Exn TypeError (U "expected string or bytes-like object"))
  end.

(** *** Effects: exceptions over a log of the network requests issued *)

Definition Log := list str.

Definition M (A : Type) : Type := Log -> result A * Log.

Definition ret (A : Type) (a : A) : M A := fun l => (Ok a, l).

Definition raise (A : Type) (e : exn) : M A := fun l => (Raise e, l).
Arguments raise {A} e.

Definition bind (A B : Type) (c : M A) (f : A -> M B) : M B :=
  fun l =>
    match c l with
    | (Ok a, l') => f a l'
    | (Raise e, l') => (Raise e, l')
    end.

(** A pure step that may raise. *)
Definition lift (A : Type) (r : result A) : M A := fun l => (r, l).

(** [try: c except Exception as e: h e]; requests made before the
    exception stay in the log. *)
Definition try_except (A : Type) (c : M A) (h : exn -> M A) : M A :=
  fun l =>
    match c l with
    | (Ok a, l') => (Ok a, l')
    | (Raise e, l') => h e l'
    end.

(** One network request to [endpoint], answered by [answer]. *)
Definition request (A : Type) (endpoint : str) (answer : result A) : M A :=
  fun l => (answer, l ++ [endpoint]).

End PyVal.

Import PyVal.

Declare Scope py_scope.
Delimit Scope py_scope with py.
Notation "x <- c ;; k" := (bind c (fun x => k))
  (at level 61, c at next level, right associativity) : py_scope.
Notation "x <~ r ;; k" := (rbind r (fun x => k))
  (at level 61, r at next level, right associativity) : py_scope.
Open Scope py_scope.

(** The result dictionaries every fetcher returns. *)
Definition success_with (key : str) (items : list pyval) : pyval :=
  PDict [(U "success", PBool true); (key, PList items)].

Definition failure (error : str) : pyval :=
  PDict [(U "success", PBool false); (U "error", PStr error)].

(* ================================================================== *)
(** ** The outside world *)
(* ================================================================== *)

(** One cell of the Weibo hot-search table, as BeautifulSoup presents it:
    the text and [href] of its first [a] and the text of its first [span],
    texts already read with [get_text(strip=True)]. *)
Record TdItem : Type := Td {
  td_a : option (str * option str);
  td_span : option str
}.

(** One search hit, as [parse_baidu_results] and [parse_google_results]
    build it: three strings, [url] empty when the link has no [href]. *)
Record SearchItem : Type := MkItem {
  item_title : str;
  item_abstract : str;
  item_url : str
}.

(** What the code reads of an HTTP response. *)
Record Response : Type := MkResponse {
  status_code : Z;
  final_url : str;                 (* [str(response.url)], after redirects *)
  json : result pyval;             (* [response.json()] *)
  td_items : list TdItem;          (* [soup.find_all('td', class_='td-02')] *)
  trend_links : list str;          (* texts of ['.trend-card__list li a'] *)
  tweet_texts : list str;          (* [re.findall] of the tweet texts *)
  screen_names : list str;         (* [re.findall] of the screen names *)
  search_hits : Z -> list SearchItem
    (* the hits a result-page parser called with this limit has collected
       when it reaches its final [results[:limit]] *)
}.

Record World : Type := MkWorld {
  (* locale module *)
  getlocale : result (option str);              (* [locale.getlocale()[0]] *)
  getdefaultlocale : option (result (option str)); (* absent on recent Pythons *)
  (* credential provider *)
  platform_cookies : str -> list (str * str);   (* [_get_platform_cookies] *)
  bilibili_api_installed : bool;
  (* network *)
  homepage_get_videos : result pyval;           (* [bilibili_api.homepage] *)
  http_get : str -> result Response;
  (* library functions left abstract *)
  json_loads : str -> result pyval;
  quote : str -> str;
  format_tenths : Z -> Z -> str;                (* [f"{a / b:.1f}"], a float *)
  (* desktop and assistant *)
  active_window_title : result (option str);    (* [gw.getActiveWindow().title] *)
  on_windows : bool;
  pygetwindow_installed : bool;
  assistant_config : result unit;               (* [ConfigManager], [ChatOpenAI(...)] *)
  assistant : str -> result str                 (* reply to the prompt for a title *)
}.

(** [response.raise_for_status()] *)
Definition raise_for_status (r : Response) : result unit :=
  if (400 <=? status_code r)%Z && (status_code r <? 600)%Z
  then Raise (Exn HTTPStatusError (U "HTTP status " ++ str_of_Z (status_code r)))
  else Ok tt.

(* ================================================================== *)
(** ** Region selector *)
(* ================================================================== *)

Module Region.

Definition mainland_china_locales : list str :=
  [U "zh_cn"; U "chinese_china"; U "chinese_simplified_china"].

(** [loc.split('.')[0]] *)
Definition before_dot (loc : str) : str := hd [] (split_char 46 loc).

Definition normalize_locale (loc : str) : str :=
  match loc with
  | [] => []
  | _ =>
    let loc := lower loc in
    let loc := replace_char 45 95 loc in
    if existsb (N.eqb 46) loc then before_dot loc else loc
  end.

Definition check_locale (loc : str) : bool :=
  let normalized := normalize_locale loc in
  match normalized with
  | [] => false
  | _ =>
    if existsb (str_eqb normalized) mainland_china_locales then true
    else if startswith (U "zh_cn") normalized then true
    else if contains (U "chinese") normalized && contains (U "china") normalized
         then true
    else false
  end.

(** The body of one [try] block: read a locale name and test it. *)
Definition probe (reading : result (option str)) : result bool :=
  loc <~ reading ;;
  Ok (match loc with
      | Some s => nonempty s && check_locale s
      | None => false
      end).

(** Both handlers ([except ValueError: pass] and [except Exception] with a
    debug log line) fall through to the next attempt. *)
Definition swallow (e : exn) : result bool :=
  match exn_kind e with
  | ValueError => Ok false
  | _ => Ok false
  end.

(** The fallback [is_china_region] of the module (bound when
    [utils.language_utils] cannot be imported). *)
Definition is_china_region (w : World) : result bool :=
  found <~ rcatch (probe (getlocale w)) swallow ;;
  if found then Ok true
  else
    found <~ rcatch (probe (match getdefaultlocale w with
                            | Some reading => reading
                            | None => Ok None
                            end)) swallow ;;
    if found then Ok true else Ok false.

End Region.

Import Region.

(* ================================================================== *)
(** ** Loops and small helpers shared by the fetchers *)
(* ================================================================== *)

(** How a loop body leaves: on to the next element ([continue] or the end
    of the body), or out of the loop ([break]). *)
Inductive step (A : Type) : Type :=
| Next (acc : A)
| Break (acc : A).

Arguments Next {A} acc.
Arguments Break {A} acc.

(** [for x in xs: body], threading the variables the body assigns. *)
Fixpoint for_each (X A : Type) (body : X -> A -> result (step A))
    (xs : list X) (acc : A) : result A :=
  match xs with
  | [] => Ok acc
  | x :: rest =>
    s <~ body x acc ;;
    match s with
    | Next a => for_each body rest a
    | Break a => Ok a
    end
  end.

(** [enumerate(xs, start)] *)
Fixpoint enumerate (X : Type) (start : Z) (xs : list X) : list (Z * X) :=
  match xs with
  | [] => []
  | x :: rest => (start, x) :: enumerate (start + 1) rest
  end.

(** [[f(x) for x in xs if keep(x)]], where both may raise. *)
Fixpoint comprehension (X Y : Type) (keep : X -> result bool)
    (f : X -> result Y) (xs : list X) : result (list Y) :=
  match xs with
  | [] => Ok []
  | x :: rest =>
    b <~ keep x ;;
    if b
    then y <~ f x ;; ys <~ comprehension keep f rest ;; Ok (y :: ys)
    else comprehension keep f rest
  end.

(** [v.get(k1, d1).get(k2, d2)] *)
Definition get2 (v : pyval) (k1 : str) (d1 : pyval) (k2 : str) (d2 : pyval)
  : result pyval :=
  x <~ py_get v k1 d1 ;; py_get x k2 d2.

Definition digit_value (c : N) : Z :=
  match find (fun lo => in_range lo (lo + 9) c) digit_blocks with
  | Some lo => Z.of_N (c - lo)
  | None => 0
  end.

(** [int(s)] on a string of decimal digits. *)
Definition int_of_digits (s : str) : Z :=
  fold_left (fun acc c => acc * 10 + digit_value c)%Z s 0%Z.

(** [s[off : off + n]] *)
Definition substring (off n : nat) (s : str) : str := firstn n (skipn off s).

Definition re_digits : re := plus digit.           (* \d+ *)
Definition re_spaces : re := plus ws.              (* \s+ *)
Definition re_tag : re :=                          (* <[^>]+> *)
  seqs [Lit 60; plus (Cls (fun c => negb (c =? 62)%N)); Lit 62].
Definition re_tco : re :=                          (* https://t\.co/\w+ *)
  seqs [word "https://t.co/"; plus word_char].
Definition re_room : re :=                         (* 直播间：(\d+) *)
  seqs [word "直播间："; plus digit].

(** [re.sub(r'\s+', ' ', re.sub(r'<[^>]+>', '', text)).strip()] *)
Definition strip_html (text : str) : str :=
  strip (sub false re_spaces (U " ") (sub false re_tag [] text)).

(** [re.sub(r'https://t\.co/\w+', '', text).strip()] *)
Definition strip_tco (text : str) : str := strip (sub false re_tco [] text).

(** [urllib.parse.quote] accepts strings only. *)
Definition py_quote (w : World) (v : pyval) : result str :=
  match v with
  | PStr s => Ok (quote w s)
  | _ => Raise (Exn TypeError (U "quote_from_bytes() expected bytes"))
  end.

(* ================================================================== *)
(** ** Platform fetchers: trending and public content *)
(* ================================================================== *)

Module Fetchers.

(** The four cookie fields [_get_bilibili_credential] hands to
    [bilibili_api.Credential]. *)
Record Credential : Type := MkCredential {
  sessdata : str;
  bili_jct : str;
  buvid3 : str;
  dedeuserid : str
}.

Definition cookie (cookies : list (str * str)) (name : str) : str :=
  match lookup name cookies with
  | Some v => v
  | None => []
  end.

Definition _get_bilibili_credential (w : World) : option Credential :=
  if bilibili_api_installed w
  then
    let cookies := platform_cookies w (U "bilibili") in
    match cookies with
    | [] => None
    | _ => Some (MkCredential (cookie cookies (U "SESSDATA"))
                              (cookie cookies (U "bili_jct"))
                              (cookie cookies (U "buvid3"))
                              (cookie cookies (U "DedeUserID")))
    end
  else None.   (* except ImportError: return None *)

(** Names of the endpoints, as they appear in the request log. *)
Definition bilibili_homepage_api : str := U "bilibili_api.homepage.get_videos".
Definition weibo_summary_url : str := U "https://s.weibo.com/top/summary?cate=realtimehot".
Definition weibo_hotsearch_url : str := U "https://weibo.com/ajax/side/hotSearch".
Definition reddit_popular_url (limit : Z) : str :=
  U "https://www.reddit.com/r/popular/hot.json?limit=" ++ str_of_Z limit.
Definition trends24_url : str := U "https://trends24.in/".

(** *** Bilibili home-page recommendations *)

(** One turn of the loop over [items]. *)
Definition bilibili_video (limit : Z) (item : pyval) (videos : list pyval)
  : result (step (list pyval)) :=
  bvid <~ py_get item (U "bvid") (PStr []) ;;
  if negb (truthy bvid) then Ok (Next videos)
  else
    rcmd_reason <~ py_get item (U "rcmd_reason") (PDict []) ;;
    rcmd_reason_text <~ (if is_dict rcmd_reason
                         then py_get rcmd_reason (U "content") (PStr [])
                         else Ok (PStr (py_str rcmd_reason))) ;;
    v_title <~ py_get item (U "title") (PStr []) ;;
    v_desc <~ py_get item (U "desc") (PStr []) ;;
    v_author <~ get2 item (U "owner") (PDict []) (U "name") (PStr []) ;;
    v_view <~ get2 item (U "stat") (PDict []) (U "view") (PInt 0) ;;
    v_like <~ get2 item (U "stat") (PDict []) (U "like") (PInt 0) ;;
    v_id <~ py_get item (U "id") (PInt 0) ;;
    v_goto <~ py_get item (U "goto") (PStr []) ;;
    let videos :=
      videos ++
      [PDict [(U "title", v_title); (U "desc", v_desc); (U "author", v_author);
              (U "view", v_view); (U "like", v_like); (U "bvid", bvid);
              (U "url", PStr (U "https://www.bilibili.com/video/" ++ py_str bvid));
              (U "id", v_id); (U "goto", v_goto);
              (U "rcmd_reason", rcmd_reason_text)]] in
    if (limit <=? len videos)%Z then Ok (Break videos) else Ok (Next videos).

Definition bilibili_videos (limit : Z) (res : pyval) : result (list pyval) :=
  if truthy res
  then
    data <~ py_get res (U "data") res ;;
    items <~ py_get data (U "item") (PList []) ;;
    items <~ py_iter items ;;
    for_each (bilibili_video limit) items []
  else Ok [].

Definition fetch_bilibili_trending (w : World) (limit : Z) : M pyval :=
  try_except
    (if bilibili_api_installed w
     then
       let credential := _get_bilibili_credential w in
       res <- request bilibili_homepage_api (homepage_get_videos w) ;;
       videos <- lift (bilibili_videos limit res) ;;
       ret (success_with (U "videos") videos)
     else raise (Exn ImportError (U "No module named 'bilibili_api'")))
    (fun e =>
       match exn_kind e with
       | ImportError => ret (failure (U "bilibili_api 库未安装"))
       | _ => ret (failure (exn_str e))
       end).

(** *** Weibo hot search: public AJAX endpoint (the fallback) *)

Definition weibo_fallback_entry (w : World) (item : pyval) : result pyval :=
  word <~ py_get item (U "word") (PStr []) ;;
  raw_hot <~ py_get item (U "raw_hot") (PInt 0) ;;
  note <~ py_get item (U "note") (PStr []) ;;
  rank <~ py_get item (U "rank") (PInt 0) ;;
  link <~ (if truthy word
           then q <~ py_quote w word ;; Ok (U "https://s.weibo.com/weibo?q=" ++ q)
           else Ok []) ;;
  Ok (PDict [(U "word", word); (U "raw_hot", raw_hot); (U "note", note);
             (U "rank", rank); (U "url", PStr link)]).

Definition weibo_fallback_body (w : World) (limit : Z) (response : Response)
  : result pyval :=
  _ <~ raise_for_status response ;;
  data <~ json response ;;
  if negb (is_dict data) then Ok (failure (U "API返回格式异常"))
  else
    ok <~ py_get data (U "ok") PNone ;;
    if py_eq_int ok 1
    then
      realtime <~ get2 data (U "data") (PDict []) (U "realtime") (PList []) ;;
      realtime <~ py_slice_to realtime limit ;;
      realtime <~ py_iter realtime ;;
      trending_list <~
        comprehension
          (fun item => is_ad <~ py_get item (U "is_ad") PNone ;; Ok (negb (truthy is_ad)))
          (weibo_fallback_entry w) realtime ;;
      Ok (success_with (U "trending") trending_list)
    else Ok (failure (U "微博API返回错误")).

Definition _fetch_weibo_trending_fallback (w : World) (limit : Z) : M pyval :=
  try_except
    (response <- request weibo_hotsearch_url (http_get w weibo_hotsearch_url) ;;
     lift (weibo_fallback_body w limit response))
    (fun e => ret (failure (exn_str e))).

(** *** Weibo hot search: desktop page (the primary strategy) *)

(** One turn of the loop over the table cells; [i] is the index of
    [enumerate]. *)
Definition weibo_row (limit : Z) (row : Z * TdItem) (trending_list : list pyval)
  : result (step (list pyval)) :=
  let (i, td) := row in
  if (limit <=? len trending_list)%Z then Ok (Break trending_list)
  else
    match td_a td with
    | Some (word, href_attr) =>
      if nonempty word
      then
        let href := match href_attr with Some h => h | None => [] end in
        let href := if nonempty href && negb (startswith (U "http") href)
                    then U "https://s.weibo.com" ++ href else href in
        let hot_text := match td_span td with Some t => t | None => [] end in
        let raw_hot := match search false re_digits hot_text with
                       | Some (off, n) => int_of_digits (substring off n hot_text)
                       | None => 0%Z
                       end in
        let note := if nonempty hot_text
                    then strip (sub false re_digits [] hot_text) else [] in
        Ok (Next (trending_list ++
                  [PDict [(U "word", PStr word); (U "raw_hot", PInt raw_hot);
                          (U "note", PStr note); (U "rank", PInt (i + 1));
                          (U "url", PStr href)]]))
      else Ok (Next trending_list)
    | None => Ok (Next trending_list)
    end.

Definition fetch_weibo_trending (w : World) (limit : Z) : M pyval :=
  try_except
    (response <- request weibo_summary_url (http_get w weibo_summary_url) ;;
     if contains (U "passport") (final_url response)
     then _fetch_weibo_trending_fallback w limit
     else
       match td_items response with
       | [] => _fetch_weibo_trending_fallback w limit
       | rows =>
         trending_list <- lift (for_each (weibo_row limit) (enumerate 0 rows) []) ;;
         match trending_list with
         | [] => _fetch_weibo_trending_fallback w limit
         | _ => ret (success_with (U "trending") trending_list)
         end
       end)
    (fun e => _fetch_weibo_trending_fallback w limit).

(** *** Reddit *)

(** Comparisons and arithmetic on the score need a number. *)
Definition as_number (v : pyval) : result Z :=
  match v with
  | PInt z => Ok z
  | PBool b => Ok (if b then 1 else 0)%Z
  | _ => Raise (Exn TypeError
                  (U "'>=' not supported between instances of '" ++ type_name v
                   ++ U "' and 'int'"))
  end.

Definition _format_score (w : World) (count : pyval) : result str :=
  n <~ as_number count ;;
  if (1000000 <=? n)%Z then Ok (format_tenths w n 1000000 ++ U "M")
  else if (1000 <=? n)%Z then Ok (format_tenths w n 1000 ++ U "K")
  else if (0 <? n)%Z then Ok (py_str count)
  else Ok (U "0").

(** The dictionary both Reddit fetchers build from a post's [data]. *)
Definition reddit_post (w : World) (pd : pyval) : result pyval :=
  p_title <~ py_get pd (U "title") (PStr []) ;;
  subreddit <~ py_get pd (U "subreddit") (PStr []) ;;
  score <~ py_get pd (U "score") (PInt 0) ;;
  score <~ _format_score w score ;;
  permalink <~ py_get pd (U "permalink") (PStr []) ;;
  Ok (PDict [(U "title", p_title);
             (U "subreddit", PStr (U "r/" ++ py_str subreddit));
             (U "score", PStr score);
             (U "url", PStr (U "https://www.reddit.com" ++ py_str permalink))]).

(** [item.get('data', {}).get('over_18')] is truthy. *)
Definition over_18 (item : pyval) : result bool :=
  flag <~ get2 item (U "data") (PDict []) (U "over_18") PNone ;;
  Ok (truthy flag).

(** [data.get('data', {}).get('children', [])[:limit]] *)
Definition reddit_children (data : pyval) (limit : Z) : result (list pyval) :=
  children <~ get2 data (U "data") (PDict []) (U "children") (PList []) ;;
  children <~ py_slice_to children limit ;;
  py_iter children.

Definition reddit_popular_row (w : World) (item : pyval) (posts : list pyval)
  : result (step (list pyval)) :=
  pd <~ py_get item (U "data") (PDict []) ;;
  flag <~ py_get pd (U "over_18") PNone ;;
  if truthy flag then Ok (Next posts)
  else post <~ reddit_post w pd ;; Ok (Next (posts ++ [post])).

Definition fetch_reddit_popular (w : World) (limit : Z) : M pyval :=
  try_except
    (response <- request (reddit_popular_url limit)
                         (http_get w (reddit_popular_url limit)) ;;
     lift (data <~ json response ;;
           children <~ reddit_children data limit ;;
           posts <~ for_each (reddit_popular_row w) children [] ;;
           match posts with
           | [] => Ok (failure (U "Reddit返回空数据"))
           | _ => Ok (success_with (U "posts") posts)
           end))
    (fun e => ret (failure (exn_str e))).

(** *** Twitter trends *)

Definition twitter_trend (w : World) (trend_text : str) : pyval :=
  PDict [(U "word", PStr trend_text);
         (U "url", PStr (U "https://twitter.com/search?q=" ++ quote w trend_text))].

Definition fetch_twitter_trending (w : World) (limit : Z) : M pyval :=
  try_except
    (response <- request trends24_url (http_get w trends24_url) ;;
     let trending_list :=
       map (twitter_trend w)
           (filter (fun t => nonempty t) (slice_to limit (trend_links response))) in
     match trending_list with
     | [] => ret (failure (U "无法获取Twitter热门"))
     | _ => ret (success_with (U "trending") trending_list)
     end)
    (fun e => ret (failure (U "无法获取Twitter热门"))).

(* ------------------------------------------------------------------ *)
(** *** Personal feeds (credentials required) *)

Definition bilibili_feed_url : str :=
  U "https://api.bilibili.com/x/polymer/web-dynamic/v1/feed/all".
Definition weibo_feed_url : str :=
  U "https://m.weibo.cn/api/container/getIndex?containerid=102803".
Definition reddit_hot_url (limit : Z) : str :=
  U "https://www.reddit.com/hot.json?limit=" ++ str_of_Z limit.
Definition twitter_home_url : str := U "https://twitter.com/home".
Definition twitter_timeline_url (limit : Z) : str :=
  U "https://api.twitter.com/1.1/statuses/home_timeline.json?tweet_mode=extended&count="
  ++ str_of_Z limit.

(** **** Bilibili dynamics *)

Definition safe_dict (d : pyval) (key : str) : pyval :=
  match d with
  | PDict l =>
    match lookup key l with
    | Some (PDict x) => PDict x
    | _ => PDict []
    end
  | _ => PDict []
  end.

Definition skipped_dynamic_types : list str :=
  [U "DYNAMIC_TYPE_AD"; U "DYNAMIC_TYPE_APPLET"; U "DYNAMIC_TYPE_NONE"].

Definition live_placeholder : pyval := PStr (U "快来我的直播间看看吧！").

(** Title and link read from a [live_play_info] dictionary. *)
Definition live_from_play_info (play_info live_title : pyval) (specific_url : str)
  : result (pyval * str) :=
  if is_dict play_info
  then
    live_title <~ py_get play_info (U "title") live_title ;;
    room_id <~ py_get play_info (U "room_id") PNone ;;
    Ok (live_title,
        if truthy room_id then U "https://live.bilibili.com/" ++ py_str room_id
        else specific_url)
  else Ok (live_title, specific_url).

(** The inner [try] of the live-stream case; on any exception the title
    and the link keep their values. *)
Definition live_details (w : World) (major raw_text : pyval) (specific_url : str)
  : pyval * str :=
  let attempt :=
    a <~ py_get major (U "live_rcmd") PNone ;;
    b <~ py_get major (U "live") PNone ;;
    let live_rcmd := py_or a b in
    if is_dict live_rcmd
    then
      content_str <~ py_get live_rcmd (U "content") PNone ;;
      match content_str with
      | PStr c =>
        if startswith (U "{") c
        then
          parsed <~ json_loads w c ;;
          play_info <~ py_get parsed (U "live_play_info") PNone ;;
          live_from_play_info play_info raw_text specific_url
        else
          play_info <~ py_get live_rcmd (U "live_play_info") PNone ;;
          live_from_play_info play_info raw_text specific_url
      | _ =>
        play_info <~ py_get live_rcmd (U "live_play_info") PNone ;;
        live_from_play_info play_info raw_text specific_url
      end
    else Ok (raw_text, specific_url) in
  match attempt with
  | Ok p => p
  | Raise _ => (raw_text, specific_url)
  end.

(** The [match major_type] statement: the synopsis (not yet a checked
    string) and the canonical link. *)
Definition dynamic_content (w : World) (major desc_text : pyval)
    (dynamic_type dynamic_id : str) : result (pyval * str) :=
  let raw_text := desc_text in
  let specific_url := U "https://t.bilibili.com/" ++ dynamic_id in
  major_type <~ py_get major (U "type") PNone ;;
  if py_eq_str major_type (U "MAJOR_TYPE_ARCHIVE") then
    let archive := safe_dict major (U "archive") in
    bvid <~ py_get archive (U "bvid") (PStr []) ;;
    a_title <~ py_get archive (U "title") (PStr []) ;;
    Ok (PStr (U "[发布了新视频] " ++ py_str a_title),
        if truthy bvid then U "https://www.bilibili.com/video/" ++ py_str bvid
        else specific_url)
  else if py_eq_str major_type (U "MAJOR_TYPE_DRAW") then
    Ok (if truthy raw_text then PStr (U "[图文动态] " ++ py_str raw_text)
        else PStr (U "[分享了图片]"),
        specific_url)
  else if py_eq_str major_type (U "MAJOR_TYPE_ARTICLE") then
    let article := safe_dict major (U "article") in
    article_id <~ py_get article (U "id") (PStr []) ;;
    a_title <~ py_get article (U "title") (PStr []) ;;
    Ok (PStr (U "[发布了专栏文章] " ++ py_str a_title),
        if truthy article_id
        then U "https://www.bilibili.com/read/cv" ++ py_str article_id
        else specific_url)
  else if py_eq_str major_type (U "MAJOR_TYPE_LIVE_RCMD") then
    let (live_title, link) := live_details w major raw_text specific_url in
    Ok (PStr (U "[正在直播] " ++ py_str (py_or live_title live_placeholder)), link)
  else if str_eqb dynamic_type (U "DYNAMIC_TYPE_LIVE_RCMD") then
    text <~ as_str raw_text ;;
    Ok (PStr (U "[正在直播] " ++ py_str (py_or raw_text live_placeholder)),
        match search false re_room text with
        | Some (off, n) =>
          U "https://live.bilibili.com/" ++ substring (off + 4) (n - 4) text
        | None => specific_url
        end)
  else if str_eqb dynamic_type (U "DYNAMIC_TYPE_FORWARD") then
    Ok (if truthy raw_text then PStr (U "[转发动态] " ++ py_str raw_text)
        else PStr (U "[转发了动态]"),
        specific_url)
  else Ok (py_or raw_text (PStr (U "发布了新动态")), specific_url).

(** The body of the per-item [try]. *)
Definition bilibili_dynamic (w : World) (limit : Z) (item : pyval)
    (dynamic_list : list pyval) : result (step (list pyval)) :=
  id_str <~ py_get item (U "id_str") (PStr []) ;;
  let dynamic_id := py_str id_str in
  d_type <~ py_get item (U "type") (PStr []) ;;
  let dynamic_type := py_str d_type in
  if existsb (str_eqb dynamic_type) skipped_dynamic_types then Ok (Next dynamic_list)
  else
    let modules := safe_dict item (U "modules") in
    let module_author := safe_dict modules (U "module_author") in
    name <~ py_get module_author (U "name") PNone ;;
    let author := py_or name (PStr (U "未知UP主")) in
    pub <~ py_get module_author (U "pub_time") PNone ;;
    let pub_time := py_or pub (PStr (U "刚刚")) in
    let module_dynamic := safe_dict modules (U "module_dynamic") in
    let major := safe_dict module_dynamic (U "major") in
    let desc := safe_dict module_dynamic (U "desc") in
    text <~ py_get desc (U "text") PNone ;;
    let raw_text := py_or text (PStr []) in
    cu <~ dynamic_content w major raw_text dynamic_type dynamic_id ;;
    let (content, specific_url) := cu in
    content <~ as_str content ;;
    let content := strip (sub false re_spaces (U " ") content) in
    let content := match content with [] => U "分享了新动态" | _ => content end in
    let final_content := U "UP主【" ++ py_str author ++ U "】: " ++ content in
    let dynamic_list :=
      dynamic_list ++
      [PDict [(U "dynamic_id", PStr dynamic_id); (U "type", PStr dynamic_type);
              (U "timestamp", pub_time); (U "author", author);
              (U "content", PStr final_content); (U "url", PStr specific_url);
              (U "base_url", PStr (U "https://t.bilibili.com/" ++ dynamic_id))]] in
    if (limit <=? len dynamic_list)%Z then Ok (Break dynamic_list)
    else Ok (Next dynamic_list).

(** One turn of the loop: non-dictionaries are passed over, and a failure
    while reading an item is logged and the item skipped. *)
Definition bilibili_dynamic_row (w : World) (limit : Z) (item : pyval)
    (dynamic_list : list pyval) : result (step (list pyval)) :=
  if negb (is_dict item) then Ok (Next dynamic_list)
  else rcatch (bilibili_dynamic w limit item dynamic_list)
              (fun item_e => Ok (Next dynamic_list)).

Definition bilibili_dynamics (w : World) (limit : Z) (data : pyval) : result pyval :=
  code <~ (if is_dict data then py_get data (U "code") PNone else Ok PNone) ;;
  if negb (is_dict data) || negb (py_eq_int code 0)
  then Ok (failure (U "API请求失败"))
  else
    items <~ py_get data (U "data") PNone ;;
    items <~ (if is_dict items then py_get items (U "items") (PList [])
              else Ok (PList [])) ;;
    items <~ py_iter items ;;
    dynamic_list <~ for_each (bilibili_dynamic_row w limit) items [] ;;
    Ok (success_with (U "dynamics") dynamic_list).

Definition fetch_bilibili_personal_dynamic (w : World) (limit : Z) : M pyval :=
  try_except
    (match _get_bilibili_credential w with
     | None => ret (failure (U "未提供Bilibili认证信息"))
     | Some credential =>
       response <- request bilibili_feed_url (http_get w bilibili_feed_url) ;;
       lift (_ <~ raise_for_status response ;;
             data <~ json response ;;
             bilibili_dynamics w limit data)
     end)
    (fun e => ret (failure (exn_str e))).

(** **** Weibo follow feed *)

Definition weibo_status (limit : Z) (card : pyval) (weibo_list : list pyval)
  : result (step (list pyval)) :=
  card_type <~ py_get card (U "card_type") PNone ;;
  if negb (py_eq_int card_type 9) then Ok (Next weibo_list)
  else
    mblog <~ py_get card (U "mblog") PNone ;;
    if negb (truthy mblog) then Ok (Next weibo_list)
    else
      user <~ py_get mblog (U "user") (PDict []) ;;
      name <~ py_get user (U "screen_name") PNone ;;
      let author := py_or name (PStr (U "未知博主")) in
      text <~ py_get mblog (U "text") PNone ;;
      let clean_text := strip_html (py_str (py_or text (PStr []))) in
      retweet_flag <~ py_get mblog (U "retweeted_status") PNone ;;
      clean_text <~
        (if truthy retweet_flag
         then
           retweet <~ py_item mblog (U "retweeted_status") ;;
           rt_name <~ get2 retweet (U "user") (PDict []) (U "screen_name") PNone ;;
           let rt_author := py_or rt_name (PStr (U "原博主")) in
           rt_text <~ py_get retweet (U "text") PNone ;;
           let rt_clean_text := strip_html (py_str (py_or rt_text (PStr []))) in
           Ok (clean_text ++ U " // [转发动态] @" ++ py_str rt_author ++ U ": "
               ++ rt_clean_text)
         else Ok clean_text) ;;
      let display_text :=
        match clean_text with [] => U "[分享了图片/动态]" | _ => clean_text end in
      let final_content := U "博主【" ++ py_str author ++ U "】: " ++ display_text in
      mid1 <~ py_get mblog (U "mid") PNone ;;
      mid2 <~ py_get mblog (U "id") (PStr []) ;;
      let mid := py_or mid1 mid2 in
      created <~ py_get mblog (U "created_at") PNone ;;
      let weibo_list :=
        weibo_list ++
        [PDict [(U "author", author); (U "content", PStr final_content);
                (U "timestamp", py_or created (PStr []));
                (U "url", PStr (U "https://m.weibo.cn/detail/" ++ py_str mid))]] in
      if (limit <=? len weibo_list)%Z then Ok (Break weibo_list)
      else Ok (Next weibo_list).

Definition weibo_statuses (limit : Z) (response : Response) : result pyval :=
  if negb (status_code response =? 200)%Z
  then Ok (failure (U "API请求失败，状态码: " ++ str_of_Z (status_code response)))
  else
    data <~ json response ;;
    ok <~ py_get data (U "ok") PNone ;;
    if negb (py_eq_int ok 1)
    then Ok (failure (U "微博凭证已过期，请去浏览器重新获取"))
    else
      cards <~ get2 data (U "data") (PDict []) (U "cards") (PList []) ;;
      cards <~ py_iter cards ;;
      weibo_list <~ for_each (weibo_status limit) cards [] ;;
      match weibo_list with
      | [] => Ok (failure (U "未解析到微博内容"))
      | _ => Ok (success_with (U "statuses") weibo_list)
      end.

Definition fetch_weibo_personal_dynamic (w : World) (limit : Z) : M pyval :=
  try_except
    (let weibo_cookies := platform_cookies w (U "weibo") in
     match weibo_cookies with
     | [] => ret (failure (U "未找到 config/weibo_cookies.json"))
     | _ =>
       let sub_token :=
         if nonempty (cookie weibo_cookies (U "SUB"))
         then cookie weibo_cookies (U "SUB") else cookie weibo_cookies (U "sub") in
       match sub_token with
       | [] => ret (failure (U "缺少核心登录凭证 SUB"))
       | _ =>
         response <- request weibo_feed_url (http_get w weibo_feed_url) ;;
         lift (weibo_statuses limit response)
       end
     end)
    (fun e => ret (failure (exn_str e))).

(** **** Reddit subscriptions *)

Definition fetch_reddit_personal_dynamic (w : World) (limit : Z) : M pyval :=
  try_except
    (let reddit_cookies := platform_cookies w (U "reddit") in
     match reddit_cookies with
     | [] => ret (failure (U "未配置 config/reddit_cookies.json"))
     | _ =>
       response <- request (reddit_hot_url limit) (http_get w (reddit_hot_url limit)) ;;
       lift (data <~ json response ;;
             children <~ reddit_children data limit ;;
             posts <~ comprehension
                        (fun item => adult <~ over_18 item ;; Ok (negb adult))
                        (fun item => pd <~ py_get item (U "data") (PDict []) ;;
                                     reddit_post w pd)
                        children ;;
             Ok (success_with (U "posts") posts))
     end)
    (fun e => ret (failure (exn_str e))).

(** **** Twitter timeline *)

Fixpoint scraped_tweets (texts names : list str) : list pyval :=
  match texts with
  | [] => []
  | text :: texts' =>
    PDict [(U "author",
            PStr (U "@" ++ match names with n :: _ => n | [] => U "Unknown" end));
           (U "content", PStr (strip_tco text));
           (U "timestamp", PStr (U "刚刚"))]
    :: scraped_tweets texts' (tl names)
  end.

Definition _fetch_twitter_personal_web_scraping (w : World) (limit : Z)
    (cookies : list (str * str)) : M pyval :=
  try_except
    (res <- request twitter_home_url (http_get w twitter_home_url) ;;
     if contains (U "login") (final_url res) || contains (U "logout") (final_url res)
     then ret (failure (U "Twitter Cookie 已过期，网页端拒绝访问"))
     else
       let tweets := scraped_tweets (slice_to limit (tweet_texts res))
                                    (screen_names res) in
       match tweets with
       | [] => ret (failure (U "网页正则抓取失败，页面结构可能已变更"))
       | _ => ret (success_with (U "tweets") tweets)
       end)
    (fun e => ret (failure (exn_str e))).

Definition timeline_tweet (tweet : pyval) (tweets : list pyval)
  : result (step (list pyval)) :=
  user <~ py_get tweet (U "user") (PDict []) ;;
  name <~ py_get user (U "screen_name") PNone ;;
  let author := py_or name (PStr (U "Unknown")) in
  full_text <~ py_get tweet (U "full_text") PNone ;;
  short_text <~ py_get tweet (U "text") PNone ;;
  let text := py_str (py_or (py_or full_text short_text) (PStr [])) in
  let clean_text := strip_tco text in
  is_rt <~ py_has_key tweet (U "retweeted_status") ;;
  clean_text <~
    (if is_rt
     then
       rt <~ py_item tweet (U "retweeted_status") ;;
       rt_user <~ get2 rt (U "user") (PDict []) (U "screen_name") (PStr (U "Unknown")) ;;
       rt_full <~ py_get rt (U "full_text") PNone ;;
       let rt_clean_text := strip_tco (py_str (py_or rt_full (PStr []))) in
       Ok (U "RT @" ++ py_str rt_user ++ U ": " ++ rt_clean_text)
     else Ok clean_text) ;;
  created <~ py_get tweet (U "created_at") (PStr []) ;;
  Ok (Next (tweets ++
            [PDict [(U "author", PStr (U "@" ++ py_str author));
                    (U "content", PStr clean_text);
                    (U "timestamp", created)]])).

Definition timeline_tweets (limit : Z) (data : pyval) : result pyval :=
  match data with
  | PList l =>
    tweets <~ for_each timeline_tweet (slice_to limit l) [] ;;
    match tweets with
    | [] => Ok (failure (U "未解析到推文内容"))
    | _ => Ok (success_with (U "tweets") tweets)
    end
  | _ => Ok (failure (U "API 返回数据格式异常"))
  end.

Definition fetch_twitter_personal_dynamic (w : World) (limit : Z) : M pyval :=
  try_except
    (let twitter_cookies := platform_cookies w (U "twitter") in
     match twitter_cookies with
     | [] => ret (failure (U "未配置 config/twitter_cookies.json"))
     | _ =>
       response <- request (twitter_timeline_url limit)
                           (http_get w (twitter_timeline_url limit)) ;;
       if negb (status_code response =? 200)%Z
       then _fetch_twitter_personal_web_scraping w limit twitter_cookies
       else lift (data <~ json response ;; timeline_tweets limit data)
     end)
    (fun e => ret (failure (exn_str e))).

End Fetchers.

Import Fetchers.

(* ================================================================== *)
(** ** Orchestrators *)
(* ================================================================== *)

Module Orchestrator.

(** [await asyncio.gather(a, b, return_exceptions=True)]: both branches
    run to completion, an exception of a branch becomes its entry.  The
    branches run concurrently, each behind a random sleep, and neither reads
    the log, so the values are those of every schedule.  The log below
    lists the requests of the first branch before those of the second:
    that is one schedule among the interleavings the event loop may
    produce, and nothing is stated about a gather's log beyond what holds
    of every interleaving ([concurrent]). *)
Definition gather2 (A : Type) (a b : M A) : M (result A * result A) :=
  fun l =>
    let (ra, l1) := a l in
    let (rb, l2) := b l1 in
    (Ok (ra, rb), l2).

(** [x = {'success': False, 'error': str(x)} if isinstance(x, Exception)
    else x] *)
Definition isolate (x : result pyval) : pyval :=
  match x with
  | Ok v => v
  | Raise e => failure (exn_str e)
  end.

(** [r.get('success')] is truthy. *)
Definition succeeded (r : pyval) : result bool :=
  s <~ py_get r (U "success") PNone ;; Ok (truthy s).

(** One region's half of [fetch_public_content]. *)
Definition public_fan_out (region key_a key_b : str) (task_a task_b : M pyval)
  : M pyval :=
  rs <- gather2 task_a task_b ;;
  let result_a := isolate (fst rs) in
  let result_b := isolate (snd rs) in
  ok_a <- lift (succeeded result_a) ;;
  both_failed <- (if ok_a then ret false
                  else ok_b <- lift (succeeded result_b) ;; ret (negb ok_b)) ;;
  if both_failed
  then ret (PDict [(U "success", PBool false);
                   (U "error", PStr (U "无法获取任何热门内容"));
                   (U "region", PStr region);
                   (key_a, result_a); (key_b, result_b)])
  else ret (PDict [(U "success", PBool true); (U "region", PStr region);
                   (key_a, result_a); (key_b, result_b)]).

(** [fetch_public_content] over arbitrary branch coroutines. *)
Definition public_content_of (china_region : result bool)
    (bilibili_task weibo_task reddit_task twitter_task : M pyval) : M pyval :=
  try_except
    (china <- lift china_region ;;
     if china
     then public_fan_out (U "china") (U "bilibili") (U "weibo")
                         bilibili_task weibo_task
     else public_fan_out (U "non-china") (U "reddit") (U "twitter")
                         reddit_task twitter_task)
    (fun e => ret (failure (exn_str e))).

Definition fetch_public_content (w : World)
    (bilibili_limit douyin_limit kuaishou_limit weibo_limit reddit_limit
     twitter_limit : Z) : M pyval :=
  public_content_of (is_china_region w)
    (fetch_bilibili_trending w bilibili_limit)
    (fetch_weibo_trending w weibo_limit)
    (fetch_reddit_popular w reddit_limit)
    (fetch_twitter_trending w twitter_limit).

(** One region's half of [fetch_personal_dynamics]. *)
Definition personal_fan_out (region key_a key_b : str) (task_a task_b : M pyval)
  : M pyval :=
  rs <- gather2 task_a task_b ;;
  let dyn_a := isolate (fst rs) in
  let dyn_b := isolate (snd rs) in
  ret (PDict [(U "success", PBool true); (U "region", PStr region);
              (key_a, dyn_a); (key_b, dyn_b)]).

(** [fetch_personal_dynamics] over arbitrary branch coroutines. *)
Definition personal_dynamics_of (china_region : result bool)
    (bilibili_task weibo_task reddit_task twitter_task : M pyval) : M pyval :=
  try_except
    (china <- lift china_region ;;
     if china
     then personal_fan_out (U "china") (U "bilibili_dynamic") (U "weibo_dynamic")
                           bilibili_task weibo_task
     else personal_fan_out (U "non-china") (U "reddit_dynamic") (U "twitter_dynamic")
                           reddit_task twitter_task)
    (fun e => ret (failure (exn_str e))).

Definition fetch_personal_dynamics (w : World) (limit : Z) : M pyval :=
  personal_dynamics_of (is_china_region w)
    (fetch_bilibili_personal_dynamic w limit)
    (fetch_weibo_personal_dynamic w limit)
    (fetch_reddit_personal_dynamic w limit)
    (fetch_twitter_personal_dynamic w limit).

End Orchestrator.

Import Orchestrator.

(* ================================================================== *)
(** ** Context-search pipeline *)
(* ================================================================== *)

Module Context.

(** [raw_title[:30] + '...' if len(raw_title) > 30 else raw_title] *)
Definition sanitize (raw_title : str) : str :=
  if (30 <? len raw_title)%Z then slice_to 30 raw_title ++ U "..." else raw_title.

(** [get_active_window_title(include_raw=True)]: the sanitized and the
    raw title, [None] on any failure. *)
Definition get_active_window_title (w : World) : option (str * str) :=
  if negb (on_windows w) then None
  else if negb (pygetwindow_installed w) then None
  else match active_window_title w with
       | Ok (Some raw_title) => Some (sanitize raw_title, raw_title)
       | Ok None => None
       | Raise _ => None
       end.

(** [^[\d\.\-\*\)\]】]+\s*] *)
Definition re_list_marker : re :=
  seqs [Bol;
        plus (Cls (fun c => is_digit c || existsb (N.eqb c) (U ".-*)]】")));
        Star true ws].

Definition clean_line (line : str) : str :=
  strip_chars (U ".,;:，。；：") (sub false re_list_marker [] (strip line)).

(** The loop over the lines of the reply. *)
Fixpoint keywords (lines : list str) (queries : list str) : list str :=
  match lines with
  | [] => queries
  | line :: rest =>
    let line := clean_line line in
    if nonempty line && (2 <=? len line)%Z
    then let queries := queries ++ [line] in
         if (3 <=? len queries)%Z then queries else keywords rest queries
    else keywords rest queries
  end.

(** [while len(queries) < 3 and clean_title: queries.append(clean_title)] *)
Definition pad_queries (queries : list str) (clean_title : str) : list str :=
  match clean_title with
  | [] => queries
  | _ => queries ++ repeat clean_title (3 - length queries)
  end.

Definition assistant_endpoint : str := U "ChatOpenAI.ainvoke".

Definition generate_diverse_queries (w : World) (window_title : str) : M (list str) :=
  try_except
    (_ <- lift (assistant_config w) ;;
     china_region <- lift (is_china_region w) ;;
     content <- request assistant_endpoint (assistant w window_title) ;;
     let queries := keywords (split_char 10 (strip content)) [] in
     let queries :=
       if (len queries <? 3)%Z
       then pad_queries queries (clean_window_title window_title)
       else queries in
     ret (slice_to 3 queries))
    (fun e =>
       let clean_title := clean_window_title window_title in
       ret [clean_title; clean_title; clean_title]).

(** A search function's result dictionary. *)
Inductive SearchResult : Type :=
| Found (query : str) (results : list SearchItem)
    (* {'success': True, 'query': ..., 'results': ...} *)
| NotFound (error : str) (query : option str).
    (* {'success': False, 'error': ..., ['query': ...]} *)

(** [parse_baidu_results] and [parse_google_results] end in
    [return results[:limit]]. *)
Definition parse_results (response : Response) (limit : Z) : list SearchItem :=
  slice_to limit (search_hits response limit).

Definition search_with (w : World) (url_of : str -> str) (query : str) (limit : Z)
  : M SearchResult :=
  try_except
    (if negb (nonempty query) || (len (strip query) <? 2)%Z
     then ret (NotFound (U "搜索关键词太短") None)
     else
       let query := strip query in
       response <- request (url_of query) (http_get w (url_of query)) ;;
       _ <- lift (raise_for_status response) ;;
       match parse_results response limit with
       | [] => ret (NotFound (U "未能解析到搜索结果") (Some query))
       | results => ret (Found query results)
       end)
    (fun e => ret (NotFound (exn_str e) None)).

Definition search_google (w : World) (query : str) (limit : Z) : M SearchResult :=
  search_with w
    (fun q => U "https://www.google.com/search?q=" ++ quote w q ++ U "&hl=en")
    query limit.

Definition search_baidu (w : World) (query : str) (limit : Z) : M SearchResult :=
  search_with w (fun q => U "https://www.baidu.com/s?wd=" ++ quote w q) query limit.

(** [asyncio.gather] over the list [tasks] with [return_exceptions=True]:
    one entry per task, in the order of [tasks].  The tasks run concurrently
    and none reads the log: the values are those of every schedule, while
    the log follows the schedule that runs them in the order of [tasks];
    statements about it are made up to the order of the requests. *)
Fixpoint gather (A : Type) (tasks : list (M A)) : M (list (result A)) :=
  match tasks with
  | [] => ret []
  | task :: rest =>
    fun l =>
      let (r, l1) := task l in
      match gather rest l1 with
      | (Ok rs, l2) => (Ok (r :: rs), l2)
      | (Raise e, l2) => (Raise e, l2)
      end
  end.

(** The loop over [zip(valid_queries, gather_results)]. *)
Fixpoint collect (valid_queries : list str)
    (gather_results : list (result SearchResult))
    (all_results : list SearchItem) (successful_queries : list str)
  : list SearchItem * list str :=
  match valid_queries, gather_results with
  | query :: qs, search_result :: rs =>
    match search_result with
    | Ok (Found _ ((_ :: _) as results)) =>
      collect qs rs (all_results ++ results) (successful_queries ++ [query])
    | _ => collect qs rs all_results successful_queries
    end
  | _, _ => (all_results, successful_queries)
  end.

(** [result.get('url') or result.get('title')] *)
Definition dedup_key (r : SearchItem) : str :=
  if nonempty (item_url r) then item_url r else item_title r.

(** The deduplication loop with its two accumulators. *)
Fixpoint deduplicate (all_results : list SearchItem) (seen_keys : list str)
    (unique_results : list SearchItem) : list SearchItem :=
  match all_results with
  | [] => unique_results
  | r :: rest =>
    let key := dedup_key r in
    if nonempty key && negb (existsb (str_eqb key) seen_keys)
    then deduplicate rest (key :: seen_keys) (unique_results ++ [r])
    else deduplicate rest seen_keys unique_results
  end.

(** From the gathered branch results to [unique_results[:limit * 2]]. *)
Definition merge_results (limit : Z) (valid_queries : list str)
    (gather_results : list (result SearchResult)) : list SearchItem :=
  let (all_results, _) := collect valid_queries gather_results [] [] in
  slice_to (limit * 2) (deduplicate all_results [] []).

Definition valid_query (q : str) : bool := nonempty q && (2 <=? len q)%Z.

Definition py_item_of (r : SearchItem) : pyval :=
  PDict [(U "title", PStr (item_title r)); (U "abstract", PStr (item_abstract r));
         (U "url", PStr (item_url r))].

Definition py_strs (l : list str) : pyval := PList (map PStr l).

Definition no_keywords (sanitized_title : str) : pyval :=
  PDict [(U "success", PBool false); (U "error", PStr (U "无法提取有效搜索关键词"));
         (U "window_title", PStr sanitized_title)].

(** The check that ends the pipeline before any search is made. *)
Definition unusable (search_queries : list str) : bool :=
  negb (nonempty search_queries)
  || forallb (fun q => negb (valid_query q)) search_queries.

(** ConcurrentSearch, Deduplicate and the final dictionary. *)
Definition search_phase (w : World) (china_region : bool) (sanitized_title : str)
    (search_queries : list str) (limit : Z) : M pyval :=
  let search_func := if china_region then search_baidu w else search_google w in
  let valid_queries := filter valid_query search_queries in
  match valid_queries with
  | [] => ret (no_keywords sanitized_title)
  | _ =>
    gather_results <- gather (map (fun query => search_func query limit)
                                  valid_queries) ;;
    let successful_queries := snd (collect valid_queries gather_results [] []) in
    let unique_results := merge_results limit valid_queries gather_results in
    match unique_results with
    | [] =>
      ret (PDict [(U "success", PBool false);
                  (U "error", PStr (U "所有查询均未获得搜索结果"));
                  (U "window_title", PStr sanitized_title);
                  (U "search_queries", py_strs search_queries)])
    | _ =>
      ret (PDict [(U "success", PBool true);
                  (U "window_title", PStr sanitized_title);
                  (U "search_queries", py_strs successful_queries);
                  (U "search_results", PList (map py_item_of unique_results));
                  (U "region",
                   PStr (if china_region then U "china" else U "non-china"))])
    end
  end.

Definition fetch_window_context_content (w : World) (limit : Z) : M pyval :=
  try_except
    (china_region <- lift (is_china_region w) ;;
     match get_active_window_title w with
     | None => ret (failure (U "无法获取当前活跃窗口标题"))
     | Some (sanitized_title, raw) =>
       search_queries <- generate_diverse_queries w (clean_window_title raw) ;;
       if unusable search_queries then ret (no_keywords sanitized_title)
       else search_phase w china_region sanitized_title search_queries limit
     end)
    (fun e => ret (failure (exn_str e))).

End Context.

Import Context.

(* ================================================================== *)
(** ** Predicates and sample inputs used in the statements *)
(* ================================================================== *)

(** A locale reading that succeeded with a recognised mainland name. *)
Definition recognised (reading : result (option str)) : bool :=
  match reading with
  | Ok (Some s) => nonempty s && check_locale s
  | _ => false
  end.

Definition default_reading (w : World) : result (option str) :=
  match getdefaultlocale w with
  | Some reading => reading
  | None => Ok None
  end.

(** The value and the request log of a run started with an empty log. *)
Definition value_of (A : Type) (c : M A) : result A := fst (c []).
Definition requests_of (A : Type) (c : M A) : Log := snd (c []).

(** The pair of branches and of envelope keys a region selects. *)
Definition active (A : Type) (china : bool) (a b c d : A) : A * A :=
  if china then (a, b) else (c, d).

Definition public_keys (china : bool) : str * str :=
  active china (U "bilibili") (U "weibo") (U "reddit") (U "twitter").

Definition personal_keys (china : bool) : str * str :=
  active china (U "bilibili_dynamic") (U "weibo_dynamic")
               (U "reddit_dynamic") (U "twitter_dynamic").

(** [env.get(key)] *)
Definition field (env : pyval) (key : str) : result pyval := py_get env key PNone.

(** A machine without network, cookies, locale or desktop. *)
Definition unreachable : exn := Exn OtherException (U "All connection attempts failed").

Definition bare_world : World :=
  MkWorld (Ok None) None (fun _ => []) false
          (Raise unreachable) (fun _ => Raise unreachable)
          (fun _ => Raise (Exn ValueError (U "Expecting value")))
          (fun s => s) (fun _ _ => [])
          (Ok None) false false
          (Ok tt) (fun _ => Raise unreachable).

(** A coroutine that raises [e], and one that returns [v]. *)
Definition raising (e : exn) : M pyval := raise e.
Definition returning (v : pyval) : M pyval := ret v.

(** [asyncio.TimeoutError()]: its [str] is empty. *)
Definition timeout_error : exn := Exn OtherException [].

Definition one_video : pyval :=
  PDict [(U "bvid", PStr (U "BV1xx411c7mD")); (U "title", PStr (U "demo"))].

(** A table cell the primary Weibo strategy can turn into an entry: it
    has a link with a non-empty text. *)
Definition parseable (td : TdItem) : bool :=
  match td_a td with
  | Some (word, _) => nonempty word
  | None => false
  end.

(** The primary Weibo endpoint denies: the request raises, the final URL
    is a passport redirect, or the page has no parseable hot-search row. *)
Definition primary_denied (w : World) : Prop :=
  match http_get w weibo_summary_url with
  | Raise _ => True
  | Ok response =>
    contains (U "passport") (final_url response) = true
    \/ forallb (fun td => negb (parseable td)) (td_items response) = true
  end.

(** A world whose Weibo desktop page redirects to the login wall while the
    public AJAX endpoint answers with one topic. *)
Definition hot_topic : pyval :=
  PDict [(U "word", PStr (U "rocq")); (U "raw_hot", PInt 42); (U "rank", PInt 1)].

Definition login_wall : Response :=
  MkResponse 200 (U "https://passport.weibo.com/visitor/visitor") (Ok PNone)
             [] [] [] [] (fun _ => []).

Definition ajax_answer : Response :=
  MkResponse 200 weibo_hotsearch_url
             (Ok (PDict [(U "ok", PInt 1);
                         (U "data", PDict [(U "realtime", PList [hot_topic])])]))
             [] [] [] [] (fun _ => []).

Definition walled_world : World :=
  MkWorld (Ok (Some (U "zh_CN"))) None (fun _ => []) false
          (Raise unreachable)
          (fun u => if str_eqb u weibo_summary_url then Ok login_wall
                    else if str_eqb u weibo_hotsearch_url then Ok ajax_answer
                    else Raise unreachable)
          (fun _ => Raise (Exn ValueError (U "Expecting value")))
          (fun s => s) (fun _ _ => [])
          (Ok None) false false
          (Ok tt) (fun _ => Raise unreachable).

(** A world whose Weibo cookie file has entries but no SUB token. *)
Definition tokenless_world : World :=
  MkWorld (Ok (Some (U "zh_CN"))) None
          (fun p => if str_eqb p (U "weibo") then [(U "SCF", U "abc")] else [])
          true
          (Raise unreachable) (fun _ => Raise unreachable)
          (fun _ => Raise (Exn ValueError (U "Expecting value")))
          (fun s => s) (fun _ _ => [])
          (Ok None) false false
          (Ok tt) (fun _ => Raise unreachable).

(** The keys under which the fetchers return their item lists. *)
Definition item_keys : list str :=
  [U "videos"; U "trending"; U "posts"; U "dynamics"; U "statuses"; U "tweets"].

(** Every item list of a returned dictionary has at most [n] entries. *)
Definition payload_within (n : Z) (r : result pyval) : Prop :=
  forall v key items,
    r = Ok v -> In key item_keys -> field v key = Ok (PList items) ->
    (len items <= n)%Z.

(** A world in which Bilibili's home page recommends one video. *)
Definition video_world : World :=
  MkWorld (Ok (Some (U "zh_CN"))) None (fun _ => []) true
          (Ok (PDict [(U "item", PList [one_video])]))
          (fun _ => Raise unreachable)
          (fun _ => Raise (Exn ValueError (U "Expecting value")))
          (fun s => s) (fun _ _ => [])
          (Ok None) false false
          (Ok tt) (fun _ => Raise unreachable).

(** The post both Reddit fetchers build from a listing child. *)
Definition post_of (w : World) (item : pyval) : result pyval :=
  pd <~ py_get item (U "data") (PDict []) ;; reddit_post w pd.

(** [kept_posts w children posts]: [posts] are, in order, the posts built
    from those [children] whose [over_18] flag is falsy; every child with
    a truthy flag is passed over. *)
Inductive kept_posts (w : World) : list pyval -> list pyval -> Prop :=
| kept_nil : kept_posts w [] []
| kept_skip (item : pyval) (rest posts : list pyval) :
    over_18 item = Ok true -> kept_posts w rest posts ->
    kept_posts w (item :: rest) posts
| kept_keep (item post : pyval) (rest posts : list pyval) :
    over_18 item = Ok false -> post_of w item = Ok post ->
    kept_posts w rest posts ->
    kept_posts w (item :: rest) (post :: posts).

(** A Reddit listing with one adult and one ordinary post. *)
Definition listing : pyval :=
  PDict [(U "data",
          PDict [(U "children",
                  PList [PDict [(U "data", PDict [(U "title", PStr (U "nsfw"));
                                                  (U "over_18", PBool true)])];
                         PDict [(U "data", PDict [(U "title", PStr (U "safe"));
                                                  (U "over_18", PBool false)])]])])].

Definition reddit_world : World :=
  MkWorld (Ok (Some (U "en_US"))) None
          (fun _ => [(U "reddit_session", U "token")]) false
          (Raise unreachable)
          (fun _ => Ok (MkResponse 200 [] (Ok listing) [] [] [] [] (fun _ => [])))
          (fun _ => Raise (Exn ValueError (U "Expecting value")))
          (fun s => s) (fun _ _ => [])
          (Ok None) false false
          (Ok tt) (fun _ => Raise unreachable).

(** [re.search(r, s) is not None] *)
Definition has_match (ic : bool) (r : re) (s : str) : bool :=
  match search ic r s with
  | Some _ => true
  | None => false
  end.

(** No white space other than single U+0020 characters between words:
    [after_space] tells whether the previous position was a space (or the
    beginning), where a further space is not allowed; the string must not
    end after a space. *)
Fixpoint single_spaced (after_space : bool) (s : str) : bool :=
  match s with
  | [] => negb after_space
  | c :: t =>
    if is_space c
    then (c =? 32)%N && negb after_space && single_spaced true t
    else single_spaced false t
  end.

Definition is_nil (A : Type) (l : list A) : bool :=
  match l with [] => true | _ => false end.

Definition whitespace_normal (s : str) : bool :=
  match s with
  | [] => true
  | _ => single_spaced true s
  end.

(** A title from which [clean_window_title] has nothing to remove: no
    removal rule matches anywhere in it, its white space is already
    normal, and it does not exceed the hundred characters kept. *)
Definition already_clean (s : str) : bool :=
  forallb (fun pattern => negb (has_match true pattern s)) patterns_to_remove
  && whitespace_normal s
  && (len s <=? 100)%Z.

(** The hits a gathered branch contributes: those of a successful search
    with a non-empty result list. *)
Definition contribution (search_result : result SearchResult) : list SearchItem :=
  match search_result with
  | Ok (Found _ results) => results
  | _ => []
  end.

(** The first hit of [l] that has the key [key]. *)
Definition first_with_key (key : str) (l : list SearchItem) : option SearchItem :=
  find (fun r => str_eqb (dedup_key r) key) l.

(** The deduplication loop without its output accumulator. *)
Fixpoint fresh_hits (seen_keys : list str) (l : list SearchItem) : list SearchItem :=
  match l with
  | [] => []
  | r :: rest =>
    let key := dedup_key r in
    if nonempty key && negb (existsb (str_eqb key) seen_keys)
    then r :: fresh_hits (key :: seen_keys) rest
    else fresh_hits seen_keys rest
  end.

(** A search branch together with the moment it completed. *)
Record Branch : Type := MkBranch {
  branch_result : result SearchResult;
  finished_at : nat
}.

(** What [asyncio.gather] hands back for these branches: the results in
    the order the tasks were passed, whenever each of them finished. *)
Definition gathered (branches : list Branch) : list (result SearchResult) :=
  map branch_result branches.

Fixpoint insert_by_finish (b : Branch) (sorted : list Branch) : list Branch :=
  match sorted with
  | [] => [b]
  | x :: rest =>
    if finished_at b <? finished_at x then b :: x :: rest
    else x :: insert_by_finish b rest
  end.

(** The branches in the order they completed. *)
Definition completion_order (branches : list Branch) : list Branch :=
  fold_right insert_by_finish [] branches.

(** The merge as the specification words it: first occurrence wins in the
    order the branches completed. *)
Definition spec_merge_by_completion (limit : Z) (branches : list Branch)
  : list SearchItem :=
  slice_to (limit * 2)
    (fresh_hits [] (concat (map contribution (gathered (completion_order branches))))).

(** Two branches that found the same URL; the second one finished first. *)
Definition hit_of_first_query : SearchItem :=
  MkItem (U "Rocq, first query") [] (U "https://rocq-prover.org/").
Definition hit_of_second_query : SearchItem :=
  MkItem (U "Rocq, second query") [] (U "https://rocq-prover.org/").

Definition racing_branches : list Branch :=
  [MkBranch (Ok (Found (U "rocq") [hit_of_first_query])) 2;
   MkBranch (Ok (Found (U "rocq prover") [hit_of_second_query])) 1].

(** The usable keyword lines of the assistant's reply for a title; [None]
    when the configuration or the call raised (a timeout included). *)
Definition assistant_lines (w : World) (window_title : str) : option (list str) :=
  match assistant_config w with
  | Raise _ => None
  | Ok _ =>
    match assistant w window_title with
    | Raise _ => None
    | Ok content => Some (keywords (split_char 10 (strip content)) [])
    end
  end.

(** The assistant call failed: it raised, or gave fewer than three usable
    lines. *)
Definition assistant_failed (w : World) (window_title : str) : bool :=
  match assistant_lines w window_title with
  | None => true
  | Some lines => (len lines <? 3)%Z
  end.

(** A Windows desktop whose active window is titled "- 12 - 12", with an
    assistant that times out. *)
Definition desktop_world : World :=
  MkWorld (Ok (Some (U "en_US"))) None (fun _ => []) false
          (Raise unreachable) (fun _ => Raise unreachable)
          (fun _ => Raise (Exn ValueError (U "Expecting value")))
          (fun s => s) (fun _ _ => [])
          (Ok (Some (U "- 12 - 12"))) true true
          (Ok tt) (fun _ => Raise timeout_error).

(** The same desktop with an ordinary title. *)
Definition manual_world : World :=
  MkWorld (Ok (Some (U "en_US"))) None (fun _ => []) false
          (Raise unreachable) (fun _ => Raise unreachable)
          (fun _ => Raise (Exn ValueError (U "Expecting value")))
          (fun s => s) (fun _ _ => [])
          (Ok (Some (U "Rocq Prover manual - Mozilla Firefox"))) true true
          (Ok tt) (fun _ => Raise timeout_error).

(** What a body of the shape "append, then test the limit" does to the
    list: nothing, or one more entry, leaving at once when the limit is
    reached. *)
Definition appends_then_checks (limit : Z) (acc : list pyval)
    (s : step (list pyval)) : Prop :=
  match s with
  | Next a => a = acc \/ (exists x, a = acc ++ [x] /\ (len a < limit)%Z)
  | Break a => exists x, a = acc ++ [x]
  end.

(** A body that never leaves the loop and appends at most one entry per
    element. *)
Definition appends_at_most_one (acc : list pyval) (s : step (list pyval)) : Prop :=
  match s with
  | Next a => a = acc \/ exists x, a = acc ++ [x]
  | Break a => False
  end.

(** Destructs the bindings and the two-way tests of a body that was run
    to [Ok]. *)
Ltac step_through H :=
  repeat match type of H with
         | rbind ?r _ = Ok _ =>
           let E := fresh "E" in
           destruct r eqn:E; cbn [rbind] in H; [|discriminate H]
         | (if ?b then _ else _) = Ok _ =>
           let E := fresh "E" in destruct b eqn:E
         | (let (_, _) := ?p in _) = Ok _ =>
           let E := fresh "E" in destruct p eqn:E
         end.

(* ================================================================== *)
(** ** Single-content variants *)
(* ================================================================== *)

(** [d[k] = v] on a dictionary held as an association list: the value of
    an existing key is replaced where it stands, a new key goes last. *)
Fixpoint dict_set (A : Type) (k : str) (v : A) (d : list (str * A))
  : list (str * A) :=
  match d with
  | [] => [(k, v)]
  | (k', v') :: rest =>
    if str_eqb k k' then (k', v) :: rest else (k', v') :: dict_set k v rest
  end.

(** A dictionary display [{k1: v1, k2: v2, ...}]. *)
Definition dict_literal (A : Type) (pairs : list (str * A)) : list (str * A) :=
  fold_left (fun d kv => dict_set (fst kv) (snd kv) d) pairs [].

Module Single.

(** [_fetch_content_by_region]; the two log messages are left out.  The
    region is probed before the [try]. *)
Definition _fetch_content_by_region (w : World)
    (china_fetch_func non_china_fetch_func : Z -> M pyval)
    (limit : Z) (content_key : str) : M pyval :=
  china_region <- lift (is_china_region w) ;;
  let region := if china_region then U "china" else U "non-china" in
  try_except
    (res <- (if china_region then china_fetch_func limit
             else non_china_fetch_func limit) ;;
     lift (success <~ py_get res (U "success") (PBool false) ;;
           let response :=
             dict_literal [(U "success", success); (U "region", PStr region);
                           (content_key, res)] in
           s <~ py_get res (U "success") PNone ;;
           if truthy s then Ok (PDict response)
           else
             e <~ py_get res (U "error") PNone ;;
             if truthy e
             then e' <~ py_get res (U "error") PNone ;;
                  Ok (PDict (dict_set (U "error") e' response))
             else Ok (PDict response)))
    (fun e => ret (failure (exn_str e))).

Definition fetch_video_content (w : World) (limit : Z) : M pyval :=
  _fetch_content_by_region w (fetch_bilibili_trending w) (fetch_reddit_popular w)
    limit (U "video").

Definition fetch_news_content (w : World) (limit : Z) : M pyval :=
  _fetch_content_by_region w (fetch_weibo_trending w) (fetch_twitter_trending w)
    limit (U "news").

End Single.

Import Single.

(** The two shapes of a fetcher's result. *)
Definition fetch_result_shape (v : pyval) : Prop :=
  (exists msg, v = failure msg)
  \/ (exists key items, In key item_keys /\ v = success_with key items).

(** [requested l l' options]: the run extended the log [l] to [l'] by one
    of the request sequences [options]. *)
Definition requested (l l' : Log) (options : list (list str)) : Prop :=
  exists extra, In extra options /\ l' = l ++ extra.

(** A run that returned a well-shaped dictionary after one of the request
    sequences [options]. *)
Definition ran (c : M pyval) (l : Log) (options : list (list str)) : Prop :=
  exists v l', c l = (Ok v, l') /\ fetch_result_shape v /\ requested l l' options.

Ltac shape_failure := left; eexists; reflexivity.
Ltac shape_success :=
  right; eexists; eexists; split; [|reflexivity]; cbn [In item_keys]; tauto.

(** The verdict of [is_china_region] as a plain boolean. *)
Definition domestic (w : World) : bool :=
  recognised (getlocale w) || recognised (default_reading w).

(** A mobile API that answers with one Weibo post. *)
Definition one_card : pyval :=
  PDict [(U "card_type", PInt 9);
         (U "mblog", PDict [(U "text", PStr (U "hello")); (U "mid", PStr (U "42"))])].

Definition feed_world : World :=
  MkWorld (Ok (Some (U "zh_CN"))) None
          (fun _ => [(U "SUB", U "token")]) true
          (Ok (PDict [(U "item", PList [one_video])]))
          (fun u => if str_eqb u weibo_feed_url
                    then Ok (MkResponse 200 [] (Ok (PDict [(U "ok", PInt 1);
                               (U "data", PDict [(U "cards", PList [one_card])])]))
                               [] [] [] [] (fun _ => []))
                    else Raise unreachable)
          (fun _ => Raise (Exn ValueError (U "Expecting value")))
          (fun s => s) (fun _ _ => [])
          (Ok None) false false
          (Ok tt) (fun _ => Raise unreachable).

(** Every request sequence of [first] followed by one of [second]. *)
Definition sequences (first second : list (list str)) : list (list str) :=
  flat_map (fun a => map (fun b => a ++ b) second) first.

(** [interleaving a b c]: [c] merges [a] and [b], each kept in its order. *)
Inductive interleaving : list str -> list str -> list str -> Prop :=
| interleaving_nil : interleaving [] [] []
| interleaving_left (x : str) (a b c : list str) :
    interleaving a b c -> interleaving (x :: a) b (x :: c)
| interleaving_right (x : str) (a b c : list str) :
    interleaving a b c -> interleaving a (x :: b) (x :: c).

(** [concurrent l l' first second]: the run extended the log [l] to [l'] by
    the requests of two concurrent branches, one of the sequences [first]
    and one of the sequences [second], merged in some order. *)
Definition concurrent (l l' : Log) (first second : list (list str)) : Prop :=
  exists a b extra,
    In a first /\ In b second /\ interleaving a b extra /\ l' = l ++ extra.

(* ================================================================== *)
(** ** Formatters *)
(* ================================================================== *)

Module Format.

Definition newline : str := [10%N].

(** [f"{i}. {text}"] *)
Definition numbered (i : Z) (text : str) : str := str_of_Z i ++ U ". " ++ text.

(** [enumerate(items[:limit], 1)] *)
Definition listed (items : pyval) (limit : Z) : result (list (Z * pyval)) :=
  sliced <~ py_slice_to items limit ;;
  elements <~ py_iter sliced ;;
  Ok (enumerate 1 elements).

Definition bilibili_video_lines (row : Z * pyval) (output_lines : list str)
  : result (step (list str)) :=
  let (i, video) := row in
  v_title <~ py_get video (U "title") (PStr []) ;;
  author <~ py_get video (U "author") (PStr []) ;;
  rcmd_reason <~ py_get video (U "rcmd_reason") (PStr []) ;;
  let output_lines := output_lines ++ [numbered i (py_str v_title)] in
  let output_lines := output_lines ++ [U "   UP主: " ++ py_str author] in
  Ok (Next (if truthy rcmd_reason
            then output_lines ++ [U "   推荐理由: " ++ py_str rcmd_reason]
            else output_lines)).

Definition _format_bilibili_videos (videos : pyval) (limit : Z) : result (list str) :=
  rows <~ listed videos limit ;;
  output_lines <~ for_each bilibili_video_lines rows [U "【B站首页推荐】"] ;;
  Ok (output_lines ++ [[]]).

Definition reddit_post_lines (row : Z * pyval) (output_lines : list str)
  : result (step (list str)) :=
  let (i, post) := row in
  p_title <~ py_get post (U "title") (PStr []) ;;
  subreddit <~ py_get post (U "subreddit") (PStr []) ;;
  score <~ py_get post (U "score") (PStr []) ;;
  let output_lines := output_lines ++ [numbered i (py_str p_title)] in
  Ok (Next (if truthy subreddit
            then output_lines
                 ++ [U "   " ++ py_str subreddit ++ U " | " ++ py_str score
                     ++ U " upvotes"]
            else output_lines)).

Definition _format_reddit_posts (posts : pyval) (limit : Z) : result (list str) :=
  rows <~ listed posts limit ;;
  output_lines <~ for_each reddit_post_lines rows [U "【Reddit Hot Posts】"] ;;
  Ok (output_lines ++ [[]]).

Definition weibo_topic_lines (row : Z * pyval) (output_lines : list str)
  : result (step (list str)) :=
  let (i, item) := row in
  word <~ py_get item (U "word") (PStr []) ;;
  note <~ py_get item (U "note") (PStr []) ;;
  let line := numbered i (py_str word) in
  let line := if truthy note then line ++ U " [" ++ py_str note ++ U "]" else line in
  Ok (Next (output_lines ++ [line])).

Definition _format_weibo_trending (trending_list : pyval) (limit : Z)
  : result (list str) :=
  rows <~ listed trending_list limit ;;
  output_lines <~ for_each weibo_topic_lines rows [U "【微博热议话题】"] ;;
  Ok (output_lines ++ [[]]).

Definition twitter_topic_lines (row : Z * pyval) (output_lines : list str)
  : result (step (list str)) :=
  let (i, item) := row in
  word <~ py_get item (U "word") (PStr []) ;;
  tweet_count <~ py_get item (U "tweet_count") (PStr []) ;;
  let line := numbered i (py_str word) in
  let line := if truthy tweet_count && negb (py_eq_str tweet_count (U "N/A"))
              then line ++ U " (" ++ py_str tweet_count ++ U " tweets)" else line in
  Ok (Next (output_lines ++ [line])).

Definition _format_twitter_trending (trending_list : pyval) (limit : Z)
  : result (list str) :=
  rows <~ listed trending_list limit ;;
  output_lines <~ for_each twitter_topic_lines rows [U "【Twitter Trending Topics】"] ;;
  Ok (output_lines ++ [[]]).

(** [data = content.get(key, {}); if data.get('success'): output_lines.extend(
    formatter(data.get(list_key, [])))] with the default limit of five. *)
Definition extend_with (content : pyval) (key list_key : str)
    (formatter : pyval -> Z -> result (list str)) (output_lines : list str)
  : result (list str) :=
  data <~ py_get content key (PDict []) ;;
  ok <~ py_get data (U "success") PNone ;;
  if truthy ok
  then items <~ py_get data list_key (PList []) ;;
       lines <~ formatter items 5%Z ;;
       Ok (output_lines ++ lines)
  else Ok output_lines.

Definition unavailable_cn : str := U "暂时无法获取推荐内容".
Definition unavailable_en : str := U "Unable to fetch trending content at the moment".

Definition format_trending_content (trending_content : pyval) : result str :=
  region <~ py_get trending_content (U "region") (PStr (U "china")) ;;
  if py_eq_str region (U "china")
  then
    output_lines <~ extend_with trending_content (U "bilibili") (U "videos")
                      _format_bilibili_videos [] ;;
    output_lines <~ extend_with trending_content (U "weibo") (U "trending")
                      _format_weibo_trending output_lines ;;
    match output_lines with
    | [] => Ok unavailable_cn
    | _ => Ok (join newline output_lines)
    end
  else
    output_lines <~ extend_with trending_content (U "reddit") (U "posts")
                      _format_reddit_posts [] ;;
    output_lines <~ extend_with trending_content (U "twitter") (U "trending")
                      _format_twitter_trending output_lines ;;
    match output_lines with
    | [] => Ok unavailable_en
    | _ => Ok (join newline output_lines)
    end.

(** The common shape of [format_video_content] and [format_news_content]. *)
Definition format_single (content : pyval) (key : str)
    (cn_key : str) (cn_formatter : pyval -> Z -> result (list str)) (cn_sorry : str)
    (en_key : str) (en_formatter : pyval -> Z -> result (list str)) (en_sorry : str)
  : result str :=
  region <~ py_get content (U "region") (PStr (U "china")) ;;
  data <~ py_get content key (PDict []) ;;
  ok <~ py_get data (U "success") PNone ;;
  if py_eq_str region (U "china")
  then if truthy ok
       then items <~ py_get data cn_key (PList []) ;;
            output_lines <~ cn_formatter items 5%Z ;;
            Ok (join newline output_lines)
       else Ok cn_sorry
  else if truthy ok
       then items <~ py_get data en_key (PList []) ;;
            output_lines <~ en_formatter items 5%Z ;;
            Ok (join newline output_lines)
       else Ok en_sorry.

Definition format_video_content (video_content : pyval) : result str :=
  format_single video_content (U "video")
    (U "videos") _format_bilibili_videos (U "暂时无法获取视频推荐内容")
    (U "posts") _format_reddit_posts (U "Unable to fetch trending posts at the moment").

Definition format_news_content (news_content : pyval) : result str :=
  format_single news_content (U "news")
    (U "trending") _format_weibo_trending (U "暂时无法获取热议话题")
    (U "trending") _format_twitter_trending
    (U "Unable to fetch trending topics at the moment").

(** *** Personal dynamics *)

Definition dynamic_lines (row : Z * pyval) (output_lines : list str)
  : result (step (list str)) :=
  let (i, item) := row in
  author <~ py_get item (U "author") (PStr (U "未知")) ;;
  timestamp <~ py_get item (U "timestamp") (PStr []) ;;
  content <~ py_get item (U "content") (PStr []) ;;
  Ok (Next (output_lines
            ++ [numbered i (py_str author ++ U " (" ++ py_str timestamp ++ U ")")]
            ++ [U "   内容: " ++ py_str content])).

Definition subscribed_post_lines (row : Z * pyval) (output_lines : list str)
  : result (step (list str)) :=
  let (i, item) := row in
  p_title <~ py_get item (U "title") PNone ;;
  subreddit <~ py_get item (U "subreddit") PNone ;;
  score <~ py_get item (U "score") PNone ;;
  Ok (Next (output_lines
            ++ [numbered i (py_str p_title)]
            ++ [U "   Subreddit: " ++ py_str subreddit ++ U " | Score: "
                ++ py_str score ++ U " upvotes"])).

Definition tweet_lines (row : Z * pyval) (output_lines : list str)
  : result (step (list str)) :=
  let (i, item) := row in
  author <~ py_get item (U "author") PNone ;;
  content <~ py_get item (U "content") PNone ;;
  Ok (Next (output_lines ++ [numbered i (py_str author ++ U ": " ++ py_str content)])).

(** One entry of the [platforms] table: the section of a platform whose
    branch succeeded with a non-empty list, five items at most. *)
Definition platform_section (data : pyval) (key heading list_key : str)
    (item_lines : Z * pyval -> list str -> result (step (list str)))
    (output_lines : list str) : result (list str) :=
  dyn_data <~ py_get data key (PDict []) ;;
  ok <~ py_get dyn_data (U "success") PNone ;;
  if truthy ok
  then
    items <~ py_get dyn_data list_key (PList []) ;;
    if truthy items
    then
      rows <~ listed items 5%Z ;;
      output_lines <~ for_each item_lines rows
                        (output_lines ++ [U "【" ++ heading ++ U "】"]) ;;
      Ok (output_lines ++ [[]])
    else Ok output_lines
  else Ok output_lines.

Definition nothing_cn : str := U "暂时无法获取关注动态".
Definition nothing_en : str := U "No personal timeline available".

(** ["\n".join(output_lines).strip() or sorry] *)
Definition stripped_or (output_lines : list str) (sorry : str) : str :=
  match strip (join newline output_lines) with
  | [] => sorry
  | text => text
  end.

Definition format_personal_dynamics (data : pyval) : result str :=
  region <~ py_get data (U "region") (PStr (U "china")) ;;
  if py_eq_str region (U "china")
  then
    output_lines <~ platform_section data (U "bilibili_dynamic")
                      (U "B站关注UP主动态") (U "dynamics") dynamic_lines [] ;;
    output_lines <~ platform_section data (U "weibo_dynamic")
                      (U "微博个人关注动态") (U "statuses") dynamic_lines output_lines ;;
    Ok (stripped_or output_lines nothing_cn)
  else
    output_lines <~ platform_section data (U "reddit_dynamic")
                      (U "Reddit Subscribed Posts") (U "posts")
                      subscribed_post_lines [] ;;
    output_lines <~ platform_section data (U "twitter_dynamic")
                      (U "Twitter Timeline") (U "tweets") tweet_lines output_lines ;;
    Ok (stripped_or output_lines nothing_en).

End Format.

Import Format.

(** The list a loop step leaves behind. *)
Definition step_value (A : Type) (s : step A) : A :=
  match s with
  | Next a => a
  | Break a => a
  end.

Definition all_dicts (items : list pyval) : Prop :=
  Forall (fun x => is_dict x = true) items.

(** A result that is a failure, or a success whose items, stored under
    [key], are all dictionaries. *)
Definition returns_items (key : str) (v : pyval) : Prop :=
  (exists msg, v = failure msg)
  \/ (exists items, v = success_with key items /\ all_dicts items).

Definition dict_items (key : str) (r : result pyval) : Prop :=
  forall v, r = Ok v -> returns_items key v.

(** A loop body that only ever appends dictionaries. *)
Definition appends_dicts (acc : list pyval) (s : step (list pyval)) : Prop :=
  exists extra, step_value s = acc ++ extra /\ all_dicts extra.

Ltac appended_none := exists []; split; [now rewrite app_nil_r|constructor].
Ltac appended_one :=
  eexists [_]; split; [reflexivity|constructor; [reflexivity|constructor]].

(** A loop body of a formatter that, for a dictionary, appends between one
    and [k] lines and never stops the loop. *)
Definition renders (k : nat)
    (item_lines : Z * pyval -> list str -> result (step (list str))) : Prop :=
  forall i x acc,
    is_dict x = true ->
    exists extra,
      item_lines (i, x) acc = Ok (Next (acc ++ extra))
      /\ 1 <= length extra <= k.

(** [x.get(k, '')] of a dictionary [x]. *)
Definition entry (x : pyval) (k : str) : pyval :=
  match x with
  | PDict d => match lookup k d with Some v => v | None => PStr [] end
  | _ => PStr []
  end.

(** The items a list formatter visits with their numbers,
    [enumerate(items[:limit], 1)], for a limit that is not negative. *)
Definition shown (items : list pyval) (limit : Z) : list (Z * pyval) :=
  enumerate 1 (firstn (Z.to_nat limit) items).

(** The lines [_format_bilibili_videos] appends for the [i]-th video. *)
Definition video_block (row : Z * pyval) : list str :=
  let (i, video) := row in
  [numbered i (py_str (entry video (U "title")));
   U "   UP主: " ++ py_str (entry video (U "author"))]
  ++ (if truthy (entry video (U "rcmd_reason"))
      then [U "   推荐理由: " ++ py_str (entry video (U "rcmd_reason"))]
      else []).

(** The lines [_format_reddit_posts] appends for the [i]-th post. *)
Definition post_block (row : Z * pyval) : list str :=
  let (i, post) := row in
  [numbered i (py_str (entry post (U "title")))]
  ++ (if truthy (entry post (U "subreddit"))
      then [U "   " ++ py_str (entry post (U "subreddit")) ++ U " | "
            ++ py_str (entry post (U "score")) ++ U " upvotes"]
      else []).

(** The line [_format_weibo_trending] appends for the [i]-th topic. *)
Definition weibo_topic_block (row : Z * pyval) : list str :=
  let (i, item) := row in
  [if truthy (entry item (U "note"))
   then numbered i (py_str (entry item (U "word")))
        ++ U " [" ++ py_str (entry item (U "note")) ++ U "]"
   else numbered i (py_str (entry item (U "word")))].

(** The line [_format_twitter_trending] appends for the [i]-th topic. *)
Definition twitter_topic_block (row : Z * pyval) : list str :=
  let (i, item) := row in
  [if truthy (entry item (U "tweet_count"))
      && negb (py_eq_str (entry item (U "tweet_count")) (U "N/A"))
   then numbered i (py_str (entry item (U "word")))
        ++ U " (" ++ py_str (entry item (U "tweet_count")) ++ U " tweets)"
   else numbered i (py_str (entry item (U "word")))].

(** A loop body that, for a dictionary, appends the lines of [block] and
    never stops the loop. *)
Definition appends (block : Z * pyval -> list str)
    (item_lines : Z * pyval -> list str -> result (step (list str))) : Prop :=
  forall i x acc,
    is_dict x = true ->
    item_lines (i, x) acc = Ok (Next (acc ++ block (i, x))).

(** The opening bracket of every section heading. *)
Definition heading_mark : N := 12304%N.

Definition headed (lines : list str) : Prop :=
  exists s rest, lines = (heading_mark :: s) :: rest.

(** A list formatter that, for dictionaries, returns lines under a
    heading. *)
Definition heads_its_lines (formatter : pyval -> Z -> result (list str)) : Prop :=
  forall items limit,
    all_dicts items -> exists lines, formatter (PList items) limit = Ok lines /\ headed lines.

(** The test [dyn_data.get('success') and dyn_data.get(list_key, [])] of
    [format_personal_dynamics]. *)
Definition offers (branch : pyval) (list_key : str) : bool :=
  match field branch (U "success"), py_get branch list_key (PList []) with
  | Ok s, Ok items => truthy s && truthy items
  | _, _ => false
  end.

Definition region_name (china : bool) : str :=
  if china then U "china" else U "non-china".

(** The list keys of the two branches a region selects. *)
Definition public_list_keys (china : bool) : str * str :=
  active china (U "videos") (U "trending") (U "posts") (U "trending").

Definition personal_list_keys (china : bool) : str * str :=
  active china (U "dynamics") (U "statuses") (U "posts") (U "tweets").

(** The guard [not query or len(query.strip()) < 2] of the search
    functions. *)
Definition too_short (query : str) : bool :=
  negb (nonempty query) || (len (strip query) <? 2)%Z.

Definition google_url (w : World) (q : str) : str :=
  U "https://www.google.com/search?q=" ++ quote w q ++ U "&hl=en".

Definition baidu_url (w : World) (q : str) : str :=
  U "https://www.baidu.com/s?wd=" ++ quote w q.

(** The search engine of a region. *)
Definition search_url (w : World) (china : bool) (q : str) : str :=
  if china then baidu_url w q else google_url w q.

Definition search_of (w : World) (china : bool) : str -> Z -> M SearchResult :=
  if china then search_baidu w else search_google w.

(** The requests a list of searches issues, in the order of the queries. *)
Definition searches (w : World) (china : bool) (queries : list str) : list str :=
  concat (map (fun q => if too_short q then [] else [search_url w china (strip q)])
              queries).

(* ================================================================== *)
(** ** Cookie management endpoints (cookies_login_router.py) *)
(* ================================================================== *)

Module Router.

(** What an endpoint raises: an [HTTPException], which FastAPI turns into
    a response with that status, or any other [Exception]. *)
Inductive raised : Type :=
| HTTPException (status_code : Z) (detail : str)
| Exception (e : exn).

Inductive outcome (A : Type) : Type :=
| Return (a : A)
| Raised (r : raised).

Arguments Return {A} a.
Arguments Raised {A} r.

(** The calls that change the stored credentials. *)
Inductive call : Type :=
| SaveCookies (platform : str) (cookies : list (str * str)) (encrypt : option bool)
    (* [save_cookies_to_file(platform, cookies[, encrypt=...])] *)
| Unlink (platform : str).
    (* [COOKIE_FILES[platform].unlink()] *)

Definition Calls := list call.

(** An endpoint body: it may raise, and it extends the list of calls. *)
Definition H (A : Type) : Type := Calls -> outcome A * Calls.

Definition pure (A : Type) (a : A) : H A := fun s => (Return a, s).

(** [raise HTTPException(status_code=..., detail=...)] *)
Definition throw (A : Type) (status_code : Z) (detail : str) : H A :=
  fun s => (Raised (HTTPException status_code detail), s).
Arguments throw {A} status_code detail.

Definition and_then (A B : Type) (c : H A) (f : A -> H B) : H B :=
  fun s =>
    match c s with
    | (Return a, s') => f a s'
    | (Raised r, s') => (Raised r, s')
    end.

Definition outcome_of (A : Type) (r : result A) : outcome A :=
  match r with
  | Ok a => Return a
  | Raise e => Raised (Exception e)
  end.

(** A call that reads or computes. *)
Definition consult (A : Type) (r : result A) : H A := fun s => (outcome_of r, s).

(** A call that changes the stored credentials; it is recorded whether or
    not it raises. *)
Definition mutate (A : Type) (c : call) (r : result A) : H A :=
  fun s => (outcome_of r, s ++ [c]).

(** [try: body  except HTTPException: raise
    except Exception: raise HTTPException(500, detail)] *)
Definition guarded (A : Type) (detail : str) (body : H A) : H A :=
  fun s =>
    match body s with
    | (Raised (Exception _), s') => (Raised (HTTPException 500 detail), s')
    | other => other
    end.

(** [try: body  except Exception: raise HTTPException(500, detail)];
    [HTTPException] is an [Exception]. *)
Definition caught (A : Type) (detail : str) (body : H A) : H A :=
  fun s =>
    match body s with
    | (Raised _, s') => (Raised (HTTPException 500 detail), s')
    | other => other
    end.

(** [str(e)]; Starlette prints an [HTTPException] as ["{status}: {detail}"]. *)
Definition raised_str (r : raised) : str :=
  match r with
  | Exception e => exn_str e
  | HTTPException status_code detail => str_of_Z status_code ++ U ": " ++ detail
  end.

(** [try: body  except Exception as e: return handler(str(e))] *)
Definition recovered (A : Type) (body : H A) (handler : str -> A) : H A :=
  fun s =>
    match body s with
    | (Raised r, s') => (Return (handler (raised_str r)), s')
    | other => other
    end.

Notation "x <== c ;; k" := (and_then c (fun x => k))
  (at level 61, c at next level, right associativity).

(** What the router imports from [utils.cookies_login], and the string
    method it uses.  The imported functions raise no [HTTPException]. *)
Record Backend : Type := MkBackend {
  supported_platforms : result (list (str * pyval));
    (* [login_manager.get_supported_platforms()], a dict of dicts *)
  parse_cookie_string : str -> result (list (str * str));
  save_cookies_to_file : str -> list (str * str) -> option bool -> result bool;
  load_cookies_from_file : str -> result (list (str * str));
    (* [None] and the empty dict are the empty list *)
  cookie_file : str -> result (option bool);
    (* [COOKIE_FILES.get(platform)] and, when it is there, [.exists()] *)
  unlink : str -> result unit;
  capitalize : str -> str  (* [str.capitalize] *)
}.

(** The validated request body the handlers receive.  [encrypt] is an
    [Optional[bool]] declared with [Field(False)]: it is [None] only when
    the request gave an explicit null, see [validate]. *)
Record CookieSubmit : Type := MkCookieSubmit {
  platform : str;
  cookie_string : str;
  encrypt : option bool
}.

(** A field of the JSON body: left out, [null], or given with a value that
    validates to [a]. *)
Inductive json_field (A : Type) : Type :=
| Absent
| Null
| Given (a : A).

Arguments Absent {A}.
Arguments Null {A}.
Arguments Given {A} a.

(** A JSON body with its two required strings and, maybe, [encrypt]. *)
Record CookieRequest : Type := MkCookieRequest {
  json_platform : str;
  json_cookie_string : str;
  json_encrypt : json_field bool
}.

(** The validation of [CookieSubmit]: [platform] of 2 to 20 characters,
    [cookie_string] of 5 to 8192, and [encrypt] with its default [False]
    when the body leaves it out.  A body that fails it never reaches a
    handler. *)
Definition validate (r : CookieRequest) : option CookieSubmit :=
  if (2 <=? len (json_platform r))%Z && (len (json_platform r) <=? 20)%Z
     && (5 <=? len (json_cookie_string r))%Z
     && (len (json_cookie_string r) <=? 8192)%Z
  then Some (MkCookieSubmit (json_platform r) (json_cookie_string r)
               (match json_encrypt r with
                | Absent => Some false
                | Null => None
                | Given e => Some e
                end))
  else None.

(** The alternatives of [suspicious_pattern]. *)
Definition needles : list str :=
  [U "<script"; U "javascript:"; U "onload="; U "eval("; U "UNION SELECT"; U "../"].

(** [(<script|javascript:|onload=|eval\(|UNION SELECT|\.\./)] *)
Definition suspicious_pattern : re := alts (map lits needles).

(** [suspicious_pattern.search(s)] with [re.IGNORECASE] finds a match. *)
Definition suspicious (s : str) : bool :=
  match search true suspicious_pattern s with
  | Some _ => true
  | None => false
  end.

Definition platform_validations : list (str * list str) :=
  [(U "bilibili", [U "SESSDATA"]);
   (U "douyin", [U "sessionid"; U "ttwid"]);
   (U "kuaishou", [U "kuaishou.server.web_st"; U "userId"]);
   (U "weibo", [U "SUB"]);
   (U "twitter", [U "auth_token"]);
   (U "reddit", [U "reddit_session"])].

(** [key in d] *)
Definition has_key (A : Type) (key : str) (d : list (str * A)) : bool :=
  match lookup key d with
  | Some _ => true
  | None => false
  end.

(** [[field for field in required_fields if field not in cookies]] of the
    platform's entry, nothing when the platform has no entry. *)
Definition missing_fields (platform : str) (cookies : list (str * str)) : list str :=
  match lookup platform platform_validations with
  | Some required_fields =>
    filter (fun field => negb (has_key field cookies)) required_fields
  | None => []
  end.

Definition unsupported (platform : str) : str := U "不支持的平台: " ++ platform.

(** *** GET /platforms *)

Definition platform_entry (entry : str * pyval) : result (str * pyval) :=
  let (platform, info) := entry in
  name <~ py_item info (U "name") ;;
  methods <~ py_item info (U "methods") ;;
  default_method <~ py_item info (U "default_method") ;;
  Ok (platform, PDict [(U "name", name); (U "methods", methods);
                       (U "default_method", default_method)]).

Definition get_supported_platforms (b : Backend) : H pyval :=
  caught (U "获取支持的平台失败")
    (platforms <== consult (supported_platforms b) ;;
     data <== consult (comprehension (fun _ => Ok true) platform_entry platforms) ;;
     pure (PDict [(U "success", PBool true); (U "data", PDict data)])).

(** *** POST /cookies/save *)

Definition save_cookie (b : Backend) (data : CookieSubmit) : H pyval :=
  guarded (U "保存Cookie失败")
    (if suspicious (cookie_string data)
     then throw 403 (U "检测到非法/危险字符，请求已被系统拦截。")
     else
       platforms <== consult (supported_platforms b) ;;
       if negb (has_key (platform data) platforms)
       then throw 400 (unsupported (platform data))
       else
         cookies <== consult (parse_cookie_string b (cookie_string data)) ;;
         if negb (nonempty cookies)
         then throw 400 (U "未提取到有效的 Cookie 键值对，请检查格式")
         else
           let missing := missing_fields (platform data) cookies in
           if nonempty missing
           then throw 400 (U "格式错误：未检测到核心字段 " ++ join (U ", ") missing)
           else
             let encrypt := match encrypt data with
                            | Some e => e
                            | None => true
                            end in
             success <== mutate (SaveCookies (platform data) cookies (Some encrypt))
                           (save_cookies_to_file b (platform data) cookies
                              (Some encrypt)) ;;
             if success
             then pure (PDict
                    [(U "success", PBool true);
                     (U "message",
                      PStr (U "✅ " ++ capitalize b (platform data)
                            ++ U " 凭证已安全保存！"));
                     (U "data",
                      PDict [(U "platform", PStr (platform data));
                             (U "cookies_count", PInt (len cookies));
                             (U "encrypted", PBool encrypt)])])
             else throw 500 (U "保存失败，请检查服务器目录权限")).

(** *** GET /cookies/status *)

Definition cookie_status (cookies : list (str * str)) : pyval :=
  PDict [(U "has_cookies", PBool (nonempty cookies));
         (U "cookies_count", PInt (if nonempty cookies then len cookies else 0))].

(** The loop over the platforms; [data] is [result["data"]]. *)
Fixpoint status_loop (b : Backend) (platforms : list str)
    (data : list (str * pyval)) : H (list (str * pyval)) :=
  match platforms with
  | [] => pure data
  | platform :: rest =>
    cookies <== consult (load_cookies_from_file b platform) ;;
    status_loop b rest (dict_set platform (cookie_status cookies) data)
  end.

Definition get_all_cookies_status (b : Backend) : H pyval :=
  caught (U "获取Cookie状态失败")
    (platforms <== consult (supported_platforms b) ;;
     data <== status_loop b (map fst platforms)
                [(U "platforms", PDict platforms)] ;;
     pure (PDict [(U "success", PBool true); (U "data", PDict data)])).

(** *** GET /cookies/{platform} *)

Definition get_platform_cookies (b : Backend) (platform : str) : H pyval :=
  guarded (U "获取平台Cookie失败")
    (platforms <== consult (supported_platforms b) ;;
     if negb (has_key platform platforms)
     then throw 400 (unsupported platform)
     else
       cookies <== consult (load_cookies_from_file b platform) ;;
       if negb (nonempty cookies)
       then pure (PDict [(U "success", PBool true);
                         (U "data", PDict [(U "platform", PStr platform);
                                           (U "has_cookies", PBool false);
                                           (U "cookies_count", PInt 0)])])
       else pure (PDict [(U "success", PBool true);
                         (U "data",
                          PDict [(U "platform", PStr platform);
                                 (U "has_cookies", PBool true);
                                 (U "cookies_count", PInt (len cookies));
                                 (U "cookie_names",
                                  PList (map (fun kv => PStr (fst kv)) cookies))])])).

(** *** DELETE /cookies/{platform} *)

Definition delete_platform_cookies (b : Backend) (platform : str) : H pyval :=
  guarded (U "删除平台Cookie失败")
    (platforms <== consult (supported_platforms b) ;;
     if negb (has_key platform platforms)
     then throw 400 (unsupported platform)
     else
       file <== consult (cookie_file b platform) ;;
       match file with
       | Some true =>
         _ <== mutate (Unlink platform) (unlink b platform) ;;
         pure (PDict [(U "success", PBool true);
                      (U "message",
                       PStr (U "✅ " ++ capitalize b platform ++ U " Cookie已删除"))])
       | _ =>
         pure (PDict [(U "success", PBool true);
                      (U "message",
                       PStr (capitalize b platform ++ U " Cookie文件不存在"))])
       end).

(** *** POST /save_cookie (the legacy endpoint) *)

Definition legacy_reply (success : bool) (msg : str) : pyval :=
  PDict [(U "success", PBool success); (U "msg", PStr msg)].

(** The field the legacy endpoint requires of a platform, with the name
    its message gives it. *)
Definition legacy_check (platform : str) : option (str * str) :=
  if str_eqb platform (U "weibo") then Some (U "SUB", U "SUB")
  else if str_eqb platform (U "twitter") then Some (U "auth_token", U "auth_token")
  else if str_eqb platform (U "douyin") then Some (U "sessionid", U "sessionid")
  else if str_eqb platform (U "kuaishou")
       then Some (U "kuaishou.server.web_st", U "web_st")
  else None.

Definition legacy_missing (platform : str) (cookies : list (str * str))
  : option str :=
  match legacy_check platform with
  | Some (field, shown) => if has_key field cookies then None else Some shown
  | None => None
  end.

Definition api_save_cookie (b : Backend) (data : CookieSubmit) : H pyval :=
  recovered
    (cookies <== consult (parse_cookie_string b (cookie_string data)) ;;
     if negb (nonempty cookies)
     then pure (legacy_reply false (U "未提取到有效的 Cookie 键值对，请检查格式。"))
     else
       match legacy_missing (platform data) cookies with
       | Some shown =>
         pure (legacy_reply false (U "❌ 格式错误：未检测到核心字段 " ++ shown))
       | None =>
         success <== mutate (SaveCookies (platform data) cookies None)
                       (save_cookies_to_file b (platform data) cookies None) ;;
         if success
         then pure (legacy_reply true
                      (U "✅ " ++ capitalize b (platform data)
                       ++ U " 凭证已安全保存！"))
         else pure (legacy_reply false (U "❌ 保存失败，请检查服务器目录权限。"))
       end)
    (fun text => legacy_reply false (U "❌ 保存失败: " ++ text)).

End Router.

(** The status codes an endpoint may answer with. *)
Definition answers (A : Type) (o : Router.outcome A) (codes : list Z) : Prop :=
  match o with
  | Router.Return _ => True
  | Router.Raised (Router.HTTPException status_code _) => In status_code codes
  | Router.Raised (Router.Exception _) => False
  end.

(** A backend that knows Weibo and saves whatever it is given. *)
Definition open_backend : Router.Backend :=
  Router.MkBackend
    (Ok [(U "weibo", PDict [(U "name", PStr (U "Weibo"));
                            (U "methods", PList [PStr (U "cookie")]);
                            (U "default_method", PStr (U "cookie"))])])
    (fun s => Ok [(U "SUB", s)])
    (fun _ _ _ => Ok true)
    (fun _ => Ok [(U "SUB", U "secret")])
    (fun _ => Ok (Some true))
    (fun _ => Ok tt)
    (fun s => s).

(** The submission passes every check of [save_cookie] and is stored. *)
Definition accepted (b : Router.Backend) (data : Router.CookieSubmit)
    (cookies : list (str * str)) (encrypt : bool) : Prop :=
  Router.suspicious (Router.cookie_string data) = false
  /\ (exists platforms,
        Router.supported_platforms b = Ok platforms
        /\ Router.has_key (Router.platform data) platforms = true)
  /\ Router.parse_cookie_string b (Router.cookie_string data) = Ok cookies
  /\ cookies <> []
  /\ (forall required_fields,
        lookup (Router.platform data) Router.platform_validations
        = Some required_fields ->
        Forall (fun field => Router.has_key field cookies = true) required_fields)
  /\ encrypt = match Router.encrypt data with Some e => e | None => true end
  /\ Router.save_cookies_to_file b (Router.platform data) cookies (Some encrypt)
     = Ok true.

(** The submission passes the checks of the legacy endpoint and is
    stored. *)
Definition legacy_accepted (b : Router.Backend) (data : Router.CookieSubmit)
    (cookies : list (str * str)) : Prop :=
  Router.parse_cookie_string b (Router.cookie_string data) = Ok cookies
  /\ cookies <> []
  /\ Router.legacy_missing (Router.platform data) cookies = None
  /\ Router.save_cookies_to_file b (Router.platform data) cookies None = Ok true.

(** The platform is supported and its cookie file exists. *)
Definition deletable (b : Router.Backend) (platform : str) : Prop :=
  (exists platforms,
      Router.supported_platforms b = Ok platforms
      /\ Router.has_key platform platforms = true)
  /\ Router.cookie_file b platform = Ok (Some true).

(** The names of the stored cookies, when they can be read. *)
Definition cookie_names (r : result (list (str * str))) : option (list str) :=
  match r with
  | Ok cookies => Some (map fst cookies)
  | Raise _ => None
  end.

(** A backend like [open_backend] whose stored Weibo token differs. *)
Definition other_backend : Router.Backend :=
  Router.MkBackend
    (Router.supported_platforms open_backend)
    (Router.parse_cookie_string open_backend)
    (Router.save_cookies_to_file open_backend)
    (fun _ => Ok [(U "SUB", U "another secret")])
    (Router.cookie_file open_backend)
    (Router.unlink open_backend)
    (Router.capitalize open_backend).

Ltac run_endpoint :=
  unfold Router.guarded, Router.caught, Router.recovered, Router.and_then,
    Router.consult, Router.mutate, Router.throw, Router.pure, Router.outcome_of.

(* ================================================================== *)
(** ** Search and context formatters, and the test entry point *)
(* ================================================================== *)

Module Report.

(** The dictionary a search function returns. *)
Definition py_search_result (r : SearchResult) : pyval :=
  match r with
  | Found query results =>
    PDict [(U "success", PBool true); (U "query", PStr query);
           (U "results", PList (map py_item_of results))]
  | NotFound error None =>
    PDict [(U "success", PBool false); (U "error", PStr error)]
  | NotFound error (Some query) =>
    PDict [(U "success", PBool false); (U "error", PStr error);
           (U "query", PStr query)]
  end.

(** The loop body shared by the two search formatters. *)
Definition search_result_lines (row : Z * pyval) (output_lines : list str)
  : result (step (list str)) :=
  let (i, item) := row in
  r_title <~ py_get item (U "title") (PStr []) ;;
  let output_lines := output_lines ++ [numbered i (py_str r_title)] in
  abstract <~ py_get item (U "abstract") PNone ;;
  output_lines <~
    (if truthy abstract
     then abstract <~ py_item item (U "abstract") ;;
          shown <~ py_slice_to abstract 150 ;;
          Ok (output_lines ++ [U "   " ++ py_str shown ++ U "..."])
     else Ok output_lines) ;;
  Ok (Next (output_lines ++ [[]])).

(** [enumerate(search_result.get('results', []), 1)] *)
Definition result_rows (search_result : pyval) : result (list (Z * pyval)) :=
  results <~ py_get search_result (U "results") (PList []) ;;
  elements <~ py_iter results ;;
  Ok (enumerate 1 elements).

Definition format_baidu_search_results (search_result : pyval) : result str :=
  ok <~ py_get search_result (U "success") PNone ;;
  if negb (truthy ok)
  then error <~ py_get search_result (U "error") (PStr (U "未知错误")) ;;
       Ok (U "搜索失败: " ++ py_str error)
  else
    query <~ py_get search_result (U "query") (PStr []) ;;
    rows <~ result_rows search_result ;;
    output_lines <~ for_each search_result_lines rows
                      [(U "【关于「" ++ py_str query ++ U "」的搜索结果】") ++ newline] ;;
    results <~ py_get search_result (U "results") PNone ;;
    if truthy results then Ok (join newline output_lines)
    else Ok (U "未找到相关结果").

Definition format_search_results (w : World) (search_result : pyval) : result str :=
  china_region <~ is_china_region w ;;
  ok <~ py_get search_result (U "success") PNone ;;
  if negb (truthy ok)
  then
    if china_region
    then error <~ py_get search_result (U "error") (PStr (U "未知错误")) ;;
         Ok (U "搜索失败: " ++ py_str error)
    else error <~ py_get search_result (U "error") (PStr (U "Unknown error")) ;;
         Ok (U "Search failed: " ++ py_str error)
  else
    query <~ py_get search_result (U "query") (PStr []) ;;
    rows <~ result_rows search_result ;;
    output_lines <~ for_each search_result_lines rows
                      [(if china_region
                        then U "【关于「" ++ py_str query ++ U "」的搜索结果】"
                        else U "【Search results for「" ++ py_str query ++ U "」】")
                       ++ newline] ;;
    results <~ py_get search_result (U "results") PNone ;;
    let output_lines :=
      if negb (truthy results)
      then output_lines ++ [if china_region then U "未找到相关结果"
                            else U "No results found"]
      else output_lines in
    Ok (join newline output_lines).

(** [', '.join(v)] *)
Fixpoint join_items (i : Z) (elements : list pyval) : result (list str) :=
  match elements with
  | [] => Ok []
  | PStr s :: rest => more <~ join_items (i + 1) rest ;; Ok (s :: more)
  | x :: _ =>
    Raise (Exn TypeError (U "sequence item " ++ str_of_Z i
                          ++ U ": expected str instance, " ++ type_name x
                          ++ U " found"))
  end.

Definition py_join (sep : str) (v : pyval) : result str :=
  match v with
  | PNone | PBool _ | PInt _ => Raise (Exn TypeError (U "can only join an iterable"))
  | _ => elements <~ py_iter v ;;
         parts <~ join_items 0 elements ;;
         Ok (join sep parts)
  end.

(** The loop body of [format_window_context_content]. *)
Definition context_result_lines (china_region : bool) (row : Z * pyval)
    (output_lines : list str) : result (step (list str)) :=
  let (i, item) := row in
  r_title <~ py_get item (U "title") (PStr []) ;;
  let output_lines := output_lines ++ [numbered i (py_str r_title)] in
  abstract <~ py_get item (U "abstract") PNone ;;
  output_lines <~
    (if truthy abstract
     then abstract <~ py_get item (U "abstract") (PStr []) ;;
          shown <~ py_slice_to abstract 150 ;;
          Ok (output_lines ++ [U "   " ++ py_str shown ++ U "..."])
     else Ok output_lines) ;;
  url <~ py_get item (U "url") PNone ;;
  if truthy url
  then url <~ py_get item (U "url") (PStr []) ;;
       Ok (Next (output_lines
                 ++ [(if china_region then U "   链接: " else U "   Link: ")
                     ++ py_str url]))
  else Ok (Next output_lines).

Definition format_window_context_content (w : World) (content : pyval)
  : result str :=
  china_region <~ is_china_region w ;;
  ok <~ py_get content (U "success") PNone ;;
  if negb (truthy ok)
  then
    if china_region
    then error <~ py_get content (U "error") (PStr (U "未知错误")) ;;
         Ok (U "获取窗口上下文失败: " ++ py_str error)
    else error <~ py_get content (U "error") (PStr (U "Unknown error")) ;;
         Ok (U "Failed to fetch window context: " ++ py_str error)
  else
    window_title <~ py_get content (U "window_title") (PStr []) ;;
    search_queries <~ py_get content (U "search_queries") (PList []) ;;
    results <~ py_get content (U "search_results") (PList []) ;;
    let output_lines :=
      [(if china_region then U "【当前活跃窗口】" else U "【Active Window】")
       ++ py_str window_title] in
    output_lines <~
      (if truthy search_queries
       then joined <~ py_join (U ", ") search_queries ;;
            Ok (output_lines
                ++ [(if china_region then U "【搜索关键词】"
                     else U "【Search Keywords】") ++ joined])
       else Ok output_lines) ;;
    let output_lines :=
      output_lines ++ [[]; if china_region then U "【相关信息】"
                           else U "【Related Information】"] in
    elements <~ py_iter results ;;
    output_lines <~ for_each (context_result_lines china_region)
                      (enumerate 1 elements) output_lines ;;
    let output_lines :=
      if negb (truthy results)
      then output_lines ++ [if china_region then U "未找到相关信息"
                            else U "No related information found"]
      else output_lines in
    Ok (join newline output_lines).

(** *** The test entry point *)

(** ["=" * 50] *)
Definition rule : str := repeat 61%N 50.

Definition banner (china_region : bool) : list str :=
  if china_region
  then [U "检测到中文区域"; U "正在获取热门内容（B站、微博）..."]
  else [U "检测到非中文区域"; U "正在获取热门内容（Reddit、Twitter）..."].

(** [main] calls [format_public_content], a name the module never binds. *)
Definition name_error : exn :=
  Exn OtherException (U "name 'format_public_content' is not defined").

(** [main]; it returns the lines it has printed. *)
Definition main (w : World) : M (list str) :=
  china_region <- lift (is_china_region w) ;;
  let printed := banner china_region ++ [newline ++ rule] in
  trending_content <- fetch_public_content w 5 10 10 5 5 5 ;;
  success <- lift (py_item trending_content (U "success")) ;;
  printed <- (if truthy success then raise name_error
              else error <- lift (py_get trending_content (U "error") PNone) ;;
                   ret (printed ++ [U "获取公共热点失败: " ++ py_str error])) ;;
  let printed := printed ++ [rule; newline ++ rule] in
  personal_content <- fetch_personal_dynamics w 5 ;;
  success <- lift (py_item personal_content (U "success")) ;;
  printed <- (if truthy success
              then text <- lift (format_personal_dynamics personal_content) ;;
                   ret (printed ++ [text])
              else error <- lift (py_get personal_content (U "error") PNone) ;;
                   ret (printed ++ [U "获取个人动态失败: " ++ py_str error])) ;;
  ret (printed ++ [rule]).

End Report.

Import Report.

(** A character [normalize_locale] leaves alone. *)
Definition settled (c : N) : bool :=
  (lower_char c =? c)%N && negb (c =? 45)%N.

(** The two shapes of the dictionary the context pipeline returns. *)
Definition context_shape (env : pyval) : Prop :=
  (field env (U "success") = Ok (PBool false)
   /\ exists error, field env (U "error") = Ok (PStr error))
  \/ (field env (U "success") = Ok (PBool true)
      /\ exists window_title queries items,
           field env (U "window_title") = Ok (PStr window_title)
           /\ field env (U "search_queries") = Ok (py_strs queries)
           /\ field env (U "search_results") = Ok (PList (map py_item_of items))).

Definition context_apology (china : bool) : str :=
  if china then U "获取窗口上下文失败: " else U "Failed to fetch window context: ".

Definition search_apology (china : bool) : str :=
  if china then U "搜索失败: " else U "Search failed: ".

(** The case analysis of a search function's body; [bound] is the lemma
    that bounds a slice. *)
Ltac search_script bound :=
  unfold search_with, too_short, try_except, bind, request, lift, ret;
  match goal with
  | |- context [if ?c then (fun _ => (Ok (NotFound _ None), _)) else _] =>
    destruct c
  end;
  [eexists; rewrite app_nil_r; split; [reflexivity|]; split; [reflexivity|];
   intros ? ? ?; discriminate
  |match goal with
   | |- context [http_get ?w ?u] => destruct (http_get w u) as [?|?]
   end;
   [match goal with
    | |- context [raise_for_status ?r] => destruct (raise_for_status r) as [[]|?]
    end;
    [unfold parse_results;
     match goal with
     | |- context [slice_to ?n ?hits] => destruct (slice_to n hits) as [|? ?] eqn:?
     end;
     [eexists; split; [reflexivity|]; split; [discriminate|];
      intros ? ? ?; discriminate
     |eexists; split; [reflexivity|]; split; [discriminate|];
      let H := fresh "H" in
      intros ? ? H; inversion H; subst;
      split; [reflexivity|]; split; [discriminate|];
      intros ?;
      match goal with
      | E : slice_to _ _ = _ :: _ |- _ => rewrite <- E
      end;
      now apply bound]
    |eexists; split; [reflexivity|]; split; [discriminate|];
     intros ? ? ?; discriminate]
   |eexists; split; [reflexivity|]; split; [discriminate|];
    intros ? ? ?; discriminate]].

(** A world in which Bilibili's home page recommends three videos. *)
Definition crowded_world : World :=
  MkWorld (Ok (Some (U "zh_CN"))) None (fun _ => []) true
          (Ok (PDict [(U "item", PList [one_video; one_video; one_video])]))
          (fun _ => Raise unreachable)
          (fun _ => Raise (Exn ValueError (U "Expecting value")))
          (fun s => s) (fun _ _ => [])
          (Ok None) false false
          (Ok tt) (fun _ => Raise unreachable).

(** The usable lines of a reply: its lines, cleaned, those of at least two
    characters, the first three of them, in the order of the reply. *)
Definition usable_lines (content : str) : list str :=
  firstn 3 (filter valid_query (map clean_line (split_char 10 (strip content)))).

(** What query generation returns: the usable lines of the reply, then
    copies of the re-cleaned title up to three queries (none when that
    title is empty); three copies when the configuration or the call
    raised. *)
Definition expected_queries (w : World) (window_title : str) : list str :=
  let clean_title := clean_window_title window_title in
  match assistant_lines w window_title with
  | None => [clean_title; clean_title; clean_title]
  | Some lines =>
    lines ++ (if nonempty clean_title then repeat clean_title (3 - length lines)
              else [])
  end.

(** The desktop of [manual_world] with an assistant whose reply has two
    usable lines and a third that cleans to nothing. *)
Definition terse_world : World :=
  MkWorld (Ok (Some (U "en_US"))) None (fun _ => []) false
          (Raise unreachable) (fun _ => Raise unreachable)
          (fun _ => Raise (Exn ValueError (U "Expecting value")))
          (fun s => s) (fun _ _ => [])
          (Ok (Some (U "Rocq Prover manual - Mozilla Firefox"))) true true
          (Ok tt)
          (fun _ => Ok (U "1. rocq" ++ [10%N] ++ U "2) prover;" ++ [10%N] ++ U "-")).

(* ================================================================== *)
(** ** Properties *)
(* ================================================================== *)

(** *** Strings *)

Lemma str_eqb_eq (a b : str) : str_eqb a b = true <-> a = b.
Proof.
  revert b; induction a as [|x a IH]; intros [|y b]; simpl; split;
    try congruence; try reflexivity.
  - intros H. apply andb_true_iff in H as [Hx Hab].
    apply N.eqb_eq in Hx. apply IH in Hab. congruence.
  - intros H. inversion H; subst. rewrite N.eqb_refl. simpl. now apply IH.
Qed.

Lemma str_eqb_refl (a : str) : str_eqb a a = true.
Proof. now apply str_eqb_eq. Qed.

Lemma nonempty_length (A : Type) (l : list A) : nonempty l = true <-> l <> [].
Proof. destruct l; simpl; split; congruence. Qed.

(** *** Region selector *)

Lemma guarded_probe (reading : result (option str)) :
  rcatch (probe reading) swallow = Ok (recognised reading).
Proof.
  destruct reading as [[s|]|e]; simpl; try reflexivity.
  unfold swallow. now destruct (exn_kind e).
Qed.

Lemma is_china_region_value (w : World) :
  is_china_region w = Ok (recognised (getlocale w) || recognised (default_reading w)).
Proof.
  unfold is_china_region. fold (default_reading w).
  rewrite !guarded_probe. simpl.
  destruct (recognised (getlocale w)); simpl; [reflexivity|].
  now destruct (recognised (default_reading w)).
Qed.

Lemma is_china_region_total (w : World) : exists b, is_china_region w = Ok b.
Proof. eexists. apply is_china_region_value. Qed.

Lemma recognised_inv (reading : result (option str)) :
  recognised reading = true ->
  exists s, reading = Ok (Some s) /\ s <> [] /\ check_locale s = true.
Proof.
  destruct reading as [[s|]|e]; simpl; try discriminate.
  intros H. apply andb_true_iff in H as [Hn Hc].
  exists s. repeat split; auto. now apply nonempty_length.
Qed.

(** C8. Whatever the locale module answers (a name, no name, an empty or
    malformed name, an exception), [is_china_region] returns a boolean and
    never raises; it answers Domestic only when one of the two readings
    succeeded with a non-empty name that [check_locale] recognises, so
    every detection failure is classified International. *)
Theorem C8_region_never_raises (w : World) :
  exists b, is_china_region w = Ok b
    /\ (b = true ->
        exists s, (getlocale w = Ok (Some s) \/ getdefaultlocale w = Some (Ok (Some s)))
                  /\ s <> [] /\ check_locale s = true)
    /\ (recognised (getlocale w) = false ->
        recognised (default_reading w) = false -> b = false).
Proof.
  exists (recognised (getlocale w) || recognised (default_reading w)).
  split; [apply is_china_region_value|]. split.
  - intros H. apply orb_true_iff in H as [H|H].
    + apply recognised_inv in H as (s & Hs & Hne & Hc). exists s. auto.
    + apply recognised_inv in H as (s & Hs & Hne & Hc). exists s.
      repeat split; auto. right. unfold default_reading in Hs.
      destruct (getdefaultlocale w); [now subst|discriminate].
  - intros -> ->. reflexivity.
Qed.

(** A reading that raised, gave no name or an empty name is never
    recognised. *)
Lemma failed_reading_unrecognised (e : exn) :
  recognised (Raise e) = false /\ recognised (Ok None) = false
  /\ recognised (Ok (Some [])) = false.
Proof. repeat split. Qed.

Example region_zh_cn_utf8 : check_locale (U "zh_CN.UTF-8") = true.
Proof. reflexivity. Qed.

Example region_zh_tw : check_locale (U "zh_TW") = false.
Proof. reflexivity. Qed.

Example region_windows_name : check_locale (U "Chinese (Simplified)_China.936") = true.
Proof. reflexivity. Qed.

(** *** Orchestrators *)

Lemma succeeded_failure (msg : str) : succeeded (failure msg) = Ok false.
Proof. reflexivity. Qed.

Lemma succeeded_success (key : str) (items : list pyval) :
  succeeded (success_with key items) = Ok true.
Proof. reflexivity. Qed.

(** The envelope of the public aggregation: its success flag is the
    disjunction of the two branches' flags, and each branch is stored
    under its key, an exception having become a failure dictionary. *)
Lemma public_envelope (china : bool) (ta tb tc td : M pyval) (l l1 l2 : Log)
    (ra rb : result pyval) (oa ob : bool) :
  fst (active china ta tb tc td) l = (ra, l1) ->
  snd (active china ta tb tc td) l1 = (rb, l2) ->
  succeeded (isolate ra) = Ok oa ->
  succeeded (isolate rb) = Ok ob ->
  exists env,
    public_content_of (Ok china) ta tb tc td l = (Ok env, l2)
    /\ field env (U "success") = Ok (PBool (oa || ob))
    /\ field env (fst (public_keys china)) = Ok (isolate ra)
    /\ field env (snd (public_keys china)) = Ok (isolate rb).
Proof.
  intros Ha Hb Hoa Hob.
  unfold public_content_of, try_except, bind, lift.
  destruct china; cbn [active fst snd] in Ha, Hb;
    unfold public_fan_out, bind, gather2, lift, ret;
    rewrite Ha, Hb; cbn [fst snd]; rewrite Hoa;
    destruct oa; cbn [orb]; try rewrite Hob; try destruct ob; cbn [negb];
    eexists; (split; [reflexivity|]); repeat split; reflexivity.
Qed.

(** The envelope of the personal aggregation: the flag is the constant
    [True]. *)
Lemma personal_envelope (china : bool) (ta tb tc td : M pyval) (l l1 l2 : Log)
    (ra rb : result pyval) :
  fst (active china ta tb tc td) l = (ra, l1) ->
  snd (active china ta tb tc td) l1 = (rb, l2) ->
  exists env,
    personal_dynamics_of (Ok china) ta tb tc td l = (Ok env, l2)
    /\ field env (U "success") = Ok (PBool true)
    /\ field env (fst (personal_keys china)) = Ok (isolate ra)
    /\ field env (snd (personal_keys china)) = Ok (isolate rb).
Proof.
  intros Ha Hb.
  unfold personal_dynamics_of, try_except, bind, lift.
  destruct china; cbn [active fst snd] in Ha, Hb;
    unfold personal_fan_out, bind, gather2, ret;
    rewrite Ha, Hb; cbn [fst snd];
    eexists; (split; [reflexivity|]); repeat split; reflexivity.
Qed.

(** Neither orchestrator lets an exception out: whatever the region probe
    and the branches do, a dictionary is returned. *)
Lemma public_content_returns (china_region : result bool) (ta tb tc td : M pyval)
    (l : Log) :
  exists env l', public_content_of china_region ta tb tc td l = (Ok env, l').
Proof.
  unfold public_content_of, try_except, bind, lift, ret.
  destruct china_region as [china|e]; [|eauto].
  destruct china; unfold public_fan_out, bind, gather2, lift, ret.
  - destruct (ta l) as [ra l1]; destruct (tb l1) as [rb l2]; cbn [fst snd].
    destruct (succeeded (isolate ra)) as [[|]|ea]; cbn; eauto.
    destruct (succeeded (isolate rb)) as [[|]|eb]; cbn; eauto.
  - destruct (tc l) as [ra l1]; destruct (td l1) as [rb l2]; cbn [fst snd].
    destruct (succeeded (isolate ra)) as [[|]|ea]; cbn; eauto.
    destruct (succeeded (isolate rb)) as [[|]|eb]; cbn; eauto.
Qed.

Lemma personal_dynamics_returns (china_region : result bool) (ta tb tc td : M pyval)
    (l : Log) :
  exists env l', personal_dynamics_of china_region ta tb tc td l = (Ok env, l').
Proof.
  unfold personal_dynamics_of, try_except, bind, lift, ret.
  destruct china_region as [china|e]; [|eauto].
  destruct china; unfold personal_fan_out, bind, gather2, ret.
  - destruct (ta l) as [ra l1]; destruct (tb l1) as [rb l2]; eauto.
  - destruct (tc l) as [ra l1]; destruct (td l1) as [rb l2]; eauto.
Qed.

(** C1 (evaluation at the failing input). On a machine outside China with
    no stored cookies both personal fetchers fail fast, yet the envelope
    of [fetch_personal_dynamics] carries [success: True]; the public
    aggregation reports [False] in the same situation
    ([public_envelope]). *)
Theorem C1_personal_success_when_both_fail :
  exists env reddit twitter,
    value_of (fetch_personal_dynamics bare_world 10) = Ok env
    /\ field env (U "reddit_dynamic") = Ok reddit
    /\ field env (U "twitter_dynamic") = Ok twitter
    /\ succeeded reddit = Ok false
    /\ succeeded twitter = Ok false
    /\ field env (U "success") = Ok (PBool true).
Proof.
  eexists. eexists. eexists.
  split; [vm_compute; reflexivity|].
  repeat split; vm_compute; reflexivity.
Qed.

(** The public aggregation at the same input reports failure. *)
Example public_both_fail :
  exists env,
    value_of (fetch_public_content bare_world 10 10 10 10 10 10) = Ok env
    /\ field env (U "success") = Ok (PBool false).
Proof. eexists. split; vm_compute; reflexivity. Qed.

(** C2 (counterexample). A branch that raises an exception whose [str] is
    empty, next to a branch that succeeds: the envelope is successful and
    the faulty branch is recorded as failed, but with the empty string as
    its error. *)
Lemma C2_counterexample_empty_error :
  exists env branch,
    value_of (public_content_of (Ok true)
                (raising timeout_error)
                (returning (success_with (U "trending") []))
                (returning PNone) (returning PNone)) = Ok env
    /\ field env (U "success") = Ok (PBool true)
    /\ field env (U "bilibili") = Ok branch
    /\ field branch (U "success") = Ok (PBool false)
    /\ field branch (U "error") = Ok (PStr [])
    /\ ~ (exists msg, msg <> [] /\ field branch (U "error") = Ok (PStr msg)).
Proof.
  eexists. eexists.
  split; [vm_compute; reflexivity|].
  repeat split; try (vm_compute; reflexivity).
  intros (msg & Hne & H). vm_compute in H. congruence.
Qed.

(** C2 (amended). In both aggregations and both regions, when one branch
    raises [e] and the other returns a successful dictionary [r], the
    envelope is returned with [success: True], the faulty branch stored as
    [{'success': False, 'error': str(e)}] and [r] stored untouched; and
    whatever the branches do, even if both fail or raise, a dictionary is
    returned rather than an exception. *)
Theorem C2_fault_isolated (china : bool) (ta tb tc td : M pyval) :
  (forall l l1 l2 e r,
      fst (active china ta tb tc td) l = (Raise e, l1) ->
      snd (active china ta tb tc td) l1 = (Ok r, l2) ->
      succeeded r = Ok true ->
      (exists env,
          public_content_of (Ok china) ta tb tc td l = (Ok env, l2)
          /\ field env (U "success") = Ok (PBool true)
          /\ field env (fst (public_keys china)) = Ok (failure (exn_str e))
          /\ field env (snd (public_keys china)) = Ok r)
      /\ (exists env,
          personal_dynamics_of (Ok china) ta tb tc td l = (Ok env, l2)
          /\ field env (U "success") = Ok (PBool true)
          /\ field env (fst (personal_keys china)) = Ok (failure (exn_str e))
          /\ field env (snd (personal_keys china)) = Ok r))
  /\ (forall l l1 l2 e r,
      fst (active china ta tb tc td) l = (Ok r, l1) ->
      snd (active china ta tb tc td) l1 = (Raise e, l2) ->
      succeeded r = Ok true ->
      (exists env,
          public_content_of (Ok china) ta tb tc td l = (Ok env, l2)
          /\ field env (U "success") = Ok (PBool true)
          /\ field env (fst (public_keys china)) = Ok r
          /\ field env (snd (public_keys china)) = Ok (failure (exn_str e)))
      /\ (exists env,
          personal_dynamics_of (Ok china) ta tb tc td l = (Ok env, l2)
          /\ field env (U "success") = Ok (PBool true)
          /\ field env (fst (personal_keys china)) = Ok r
          /\ field env (snd (personal_keys china)) = Ok (failure (exn_str e))))
  /\ (forall china_region l,
      (exists env l', public_content_of china_region ta tb tc td l = (Ok env, l'))
      /\ (exists env l', personal_dynamics_of china_region ta tb tc td l = (Ok env, l'))).
Proof.
  split; [|split].
  - intros l l1 l2 e r Ha Hb Hr. split.
    + destruct (public_envelope china ta tb tc td l Ha Hb
                  (succeeded_failure (exn_str e)) Hr) as (env & H1 & H2 & H3 & H4).
      exists env. auto.
    + destruct (personal_envelope china ta tb tc td l Ha Hb)
        as (env & H1 & H2 & H3 & H4).
      exists env. auto.
  - intros l l1 l2 e r Ha Hb Hr. split.
    + destruct (public_envelope china ta tb tc td l Ha Hb
                  Hr (succeeded_failure (exn_str e))) as (env & H1 & H2 & H3 & H4).
      exists env. auto.
    + destruct (personal_envelope china ta tb tc td l Ha Hb)
        as (env & H1 & H2 & H3 & H4).
      exists env. auto.
  - intros china_region l. split.
    + apply public_content_returns.
    + apply personal_dynamics_returns.
Qed.

(** A run of the statement above: Bilibili's branch raises, Weibo's
    succeeds. *)
Lemma C2_fault_isolated_witness :
  exists env,
    public_content_of (Ok true) (raising unreachable)
      (returning (success_with (U "trending") [])) (returning PNone)
      (returning PNone) [] = (Ok env, [])
    /\ field env (U "success") = Ok (PBool true)
    /\ field env (U "bilibili") = Ok (failure (exn_str unreachable))
    /\ field env (U "weibo") = Ok (success_with (U "trending") []).
Proof.
  destruct (C2_fault_isolated true (raising unreachable)
              (returning (success_with (U "trending") [])) (returning PNone)
              (returning PNone)) as [H _].
  destruct (H [] [] [] unreachable (success_with (U "trending") [])
              eq_refl eq_refl eq_refl) as [Hpub _].
  exact Hpub.
Defined.

(** *** Weibo hot search: primary strategy and fallback *)

(** The fallback issues exactly one request, never raises, and its value
    does not depend on the requests made before. *)
Lemma fallback_returns (w : World) (limit : Z) :
  exists v, forall l,
    _fetch_weibo_trending_fallback w limit l = (Ok v, l ++ [weibo_hotsearch_url]).
Proof.
  unfold _fetch_weibo_trending_fallback, try_except, bind, request, lift, ret.
  destruct (http_get w weibo_hotsearch_url) as [response|e]; [|eauto].
  destruct (weibo_fallback_body w limit response); eauto.
Qed.

Lemma fallback_run (w : World) (limit : Z) (l : Log) :
  _fetch_weibo_trending_fallback w limit l
  = (value_of (_fetch_weibo_trending_fallback w limit), l ++ [weibo_hotsearch_url]).
Proof.
  destruct (fallback_returns w limit) as [v Hv].
  unfold value_of. rewrite !Hv. reflexivity.
Qed.

Lemma unparseable_rows (limit : Z) (rows : list TdItem) :
  forallb (fun td => negb (parseable td)) rows = true ->
  forall i, for_each (weibo_row limit) (enumerate i rows) [] = Ok [].
Proof.
  induction rows as [|td rows IH]; intros H i; [reflexivity|].
  simpl in H. apply andb_true_iff in H as [Htd Hrows].
  cbn [enumerate for_each]. unfold weibo_row at 1.
  destruct (limit <=? len (@nil pyval))%Z; [reflexivity|].
  unfold parseable in Htd.
  destruct (td_a td) as [[word href]|].
  - apply negb_true_iff in Htd. rewrite Htd. cbn [rbind]. now apply IH.
  - cbn [rbind]. now apply IH.
Qed.

Lemma denied_runs_fallback (w : World) (limit : Z) (l : Log) :
  primary_denied w ->
  fetch_weibo_trending w limit l
  = _fetch_weibo_trending_fallback w limit (l ++ [weibo_summary_url]).
Proof.
  destruct (fallback_returns w limit) as [v Hv].
  unfold primary_denied, fetch_weibo_trending, try_except, bind, request.
  destruct (http_get w weibo_summary_url) as [response|e]; [|reflexivity].
  intros [Hurl|Hrows].
  - rewrite Hurl, !Hv. reflexivity.
  - destruct (contains (U "passport") (final_url response));
      [rewrite !Hv; reflexivity|].
    destruct (td_items response) as [|td rows] eqn:Erows;
      [rewrite !Hv; reflexivity|].
    unfold lift. rewrite (unparseable_rows limit (td :: rows) Hrows 0%Z).
    rewrite !Hv. reflexivity.
Qed.

(** C3. When the desktop endpoint of the Weibo trending fetcher raises,
    lands on a passport (login) URL or shows no parseable hot-search row,
    the fetcher requests the public AJAX endpoint next and returns exactly
    what the fallback returns; nothing of the primary failure reaches the
    caller. *)
Theorem C3_weibo_fallback_transparent (w : World) (limit : Z) (l : Log) :
  primary_denied w ->
  fst (fetch_weibo_trending w limit l)
  = value_of (_fetch_weibo_trending_fallback w limit)
  /\ snd (fetch_weibo_trending w limit l)
     = l ++ [weibo_summary_url; weibo_hotsearch_url].
Proof.
  intros H. rewrite (denied_runs_fallback w limit l H), fallback_run.
  cbn [fst snd]. split; [reflexivity|].
  rewrite <- app_assoc. reflexivity.
Qed.

(** The login-wall scenario: the caller receives the fallback's topics. *)
Lemma C3_weibo_fallback_transparent_witness :
  primary_denied walled_world
  /\ fst (fetch_weibo_trending walled_world 10 [])
     = value_of (_fetch_weibo_trending_fallback walled_world 10)
  /\ snd (fetch_weibo_trending walled_world 10 [])
     = [] ++ [weibo_summary_url; weibo_hotsearch_url].
Proof.
  assert (H : primary_denied walled_world) by (left; vm_compute; reflexivity).
  split; [exact H|].
  exact (C3_weibo_fallback_transparent walled_world 10 [] H).
Defined.

Example walled_world_result :
  exists trending,
    value_of (fetch_weibo_trending walled_world 10)
    = Ok (success_with (U "trending") trending)
    /\ length trending = 1.
Proof. eexists. split; vm_compute; reflexivity. Qed.

(** *** Credential gating of the personal fetchers *)

Lemma literal_nonempty (s : str) : nonempty s = true -> s <> [].
Proof. apply nonempty_length. Qed.

(** C4. A personal fetcher whose cookie lookup yields the empty mapping
    returns a failure dictionary with a non-empty error and leaves the
    request log as it found it; the Weibo fetcher does the same when the
    mapping has no SUB token under either spelling. *)
Theorem C4_credential_gate (w : World) (limit : Z) (l : Log) :
  (platform_cookies w (U "bilibili") = [] ->
   exists msg, msg <> []
     /\ fetch_bilibili_personal_dynamic w limit l = (Ok (failure msg), l))
  /\ (platform_cookies w (U "weibo") = [] ->
      exists msg, msg <> []
        /\ fetch_weibo_personal_dynamic w limit l = (Ok (failure msg), l))
  /\ (cookie (platform_cookies w (U "weibo")) (U "SUB") = [] ->
      cookie (platform_cookies w (U "weibo")) (U "sub") = [] ->
      exists msg, msg <> []
        /\ fetch_weibo_personal_dynamic w limit l = (Ok (failure msg), l))
  /\ (platform_cookies w (U "reddit") = [] ->
      exists msg, msg <> []
        /\ fetch_reddit_personal_dynamic w limit l = (Ok (failure msg), l))
  /\ (platform_cookies w (U "twitter") = [] ->
      exists msg, msg <> []
        /\ fetch_twitter_personal_dynamic w limit l = (Ok (failure msg), l)).
Proof.
  repeat split.
  - intros H. exists (U "未提供Bilibili认证信息").
    split; [apply literal_nonempty; reflexivity|].
    unfold fetch_bilibili_personal_dynamic, _get_bilibili_credential, try_except.
    rewrite H. destruct (bilibili_api_installed w); reflexivity.
  - intros H. exists (U "未找到 config/weibo_cookies.json").
    split; [apply literal_nonempty; reflexivity|].
    unfold fetch_weibo_personal_dynamic, try_except. rewrite H. reflexivity.
  - intros HSUB Hsub.
    unfold fetch_weibo_personal_dynamic, try_except.
    destruct (platform_cookies w (U "weibo")) as [|c cs] eqn:E.
    + exists (U "未找到 config/weibo_cookies.json").
      split; [apply literal_nonempty; reflexivity|reflexivity].
    + exists (U "缺少核心登录凭证 SUB").
      split; [apply literal_nonempty; reflexivity|].
      rewrite HSUB, Hsub. reflexivity.
  - intros H. exists (U "未配置 config/reddit_cookies.json").
    split; [apply literal_nonempty; reflexivity|].
    unfold fetch_reddit_personal_dynamic, try_except. rewrite H. reflexivity.
  - intros H. exists (U "未配置 config/twitter_cookies.json").
    split; [apply literal_nonempty; reflexivity|].
    unfold fetch_twitter_personal_dynamic, try_except. rewrite H. reflexivity.
Qed.

(** The gate at work: no cookies at all, and a Weibo mapping without the
    SUB token. *)
Lemma C4_credential_gate_witness :
  (exists msg, msg <> []
     /\ fetch_bilibili_personal_dynamic bare_world 10 [] = (Ok (failure msg), []))
  /\ (exists msg, msg <> []
     /\ fetch_weibo_personal_dynamic bare_world 10 [] = (Ok (failure msg), []))
  /\ (exists msg, msg <> []
     /\ fetch_weibo_personal_dynamic tokenless_world 10 [] = (Ok (failure msg), []))
  /\ (exists msg, msg <> []
     /\ fetch_reddit_personal_dynamic bare_world 10 [] = (Ok (failure msg), []))
  /\ (exists msg, msg <> []
     /\ fetch_twitter_personal_dynamic bare_world 10 [] = (Ok (failure msg), [])).
Proof.
  destruct (C4_credential_gate bare_world 10 []) as (Hb & Hw & _ & Hr & Ht).
  destruct (C4_credential_gate tokenless_world 10 []) as (_ & _ & Hs & _ & _).
  split; [exact (Hb eq_refl)|].
  split; [exact (Hw eq_refl)|].
  split; [exact (Hs eq_refl eq_refl)|].
  split; [exact (Hr eq_refl)|exact (Ht eq_refl)].
Defined.

(** *** Truncation *)

Lemma len_app_one (A : Type) (l : list A) (x : A) : len (l ++ [x]) = (len l + 1)%Z.
Proof. unfold len. rewrite length_app. simpl. lia. Qed.

Lemma len_nil (A : Type) : len (@nil A) = 0%Z.
Proof. reflexivity. Qed.

Lemma slice_to_bound (A : Type) (n : Z) (l : list A) :
  (0 <= n)%Z -> (len (slice_to n l) <= n)%Z.
Proof.
  intros Hn. unfold slice_to, len.
  destruct (0 <=? n)%Z eqn:E; [|lia].
  pose proof (firstn_le_length (Z.to_nat n) l). lia.
Qed.

Lemma payload_failure (n : Z) (msg : str) : payload_within n (Ok (failure msg)).
Proof.
  intros v key items Hv _ H. inversion Hv; subst v.
  unfold field, failure, py_get, lookup in H.
  destruct (str_eqb key (U "success")); [discriminate|].
  destruct (str_eqb key (U "error")); discriminate.
Qed.

Lemma payload_success (n : Z) (key : str) (items : list pyval) :
  (len items <= n)%Z -> payload_within n (Ok (success_with key items)).
Proof.
  intros Hlen v key' items' Hv _ H. inversion Hv; subst v.
  unfold field, success_with, py_get, lookup in H.
  destruct (str_eqb key' (U "success")); [discriminate|].
  destruct (str_eqb key' key); [|discriminate].
  now inversion H; subst.
Qed.

Lemma payload_raise (n : Z) (e : exn) : payload_within n (Raise e).
Proof. intros v key items Hv. discriminate. Qed.

(** Loop invariants: [P] holds whenever the body is entered, [Q] when the
    loop is left. *)
Lemma for_each_inv (X A : Type) (P Q : A -> Prop)
    (body : X -> A -> result (step A)) :
  (forall x acc s, P acc -> body x acc = Ok s ->
     match s with Next a => P a | Break a => Q a end) ->
  (forall a, P a -> Q a) ->
  forall xs acc r, P acc -> for_each body xs acc = Ok r -> Q r.
Proof.
  intros Hbody HPQ. induction xs as [|x xs IH]; intros acc r HP H.
  - cbn in H. inversion H; subst. now apply HPQ.
  - cbn [for_each] in H. destruct (body x acc) as [s|e] eqn:E; [|discriminate].
    cbn [rbind] in H. specialize (Hbody x acc s HP E).
    destruct s as [a|a].
    + now apply (IH a).
    + inversion H; subst. exact Hbody.
Qed.

Lemma append_check_loop (X : Type) (limit : Z)
    (body : X -> list pyval -> result (step (list pyval))) :
  (forall x acc s, body x acc = Ok s -> appends_then_checks limit acc s) ->
  forall xs r, (1 <= limit)%Z -> for_each body xs [] = Ok r -> (len r <= limit)%Z.
Proof.
  intros Hbody xs r Hlimit H.
  apply (for_each_inv (fun a => len a < limit)%Z (fun a => len a <= limit)%Z)
    with (body := body) (xs := xs) (acc := @nil pyval); auto.
  - intros x acc s HP E. specialize (Hbody x acc s E).
    destruct s as [a|a]; simpl in Hbody.
    + destruct Hbody as [->|(y & -> & Hlt)]; auto.
    + destruct Hbody as (y & ->). rewrite len_app_one. lia.
  - intros a Ha. lia.
  - rewrite len_nil. lia.
Qed.

Lemma at_most_one_loop (X : Type)
    (body : X -> list pyval -> result (step (list pyval))) :
  (forall x acc s, body x acc = Ok s -> appends_at_most_one acc s) ->
  forall xs acc r, for_each body xs acc = Ok r ->
    (len r <= len acc + len xs)%Z.
Proof.
  intros Hbody. induction xs as [|x xs IH]; intros acc r H.
  - cbn in H. inversion H; subst. unfold len. simpl. lia.
  - cbn [for_each] in H. destruct (body x acc) as [s|e] eqn:E; [|discriminate].
    cbn [rbind] in H. specialize (Hbody x acc s E).
    destruct s as [a|a]; [|contradiction].
    apply IH in H. unfold len in *. cbn [length].
    destruct Hbody as [->|(y & ->)]; [lia|].
    rewrite length_app in H. simpl in H. lia.
Qed.

Lemma comprehension_length (X Y : Type) (keep : X -> result bool)
    (f : X -> result Y) (xs : list X) (ys : list Y) :
  comprehension keep f xs = Ok ys -> (len ys <= len xs)%Z.
Proof.
  revert ys. induction xs as [|x xs IH]; intros ys H.
  - cbn in H. inversion H; subst. unfold len; simpl; lia.
  - cbn [comprehension] in H.
    destruct (keep x) as [[|]|e]; cbn [rbind] in H; try discriminate.
    + destruct (f x) as [y|e]; cbn [rbind] in H; [|discriminate].
      destruct (comprehension keep f xs) as [ys'|e]; cbn [rbind] in H;
        [|discriminate].
      inversion H; subst. specialize (IH ys' eq_refl).
      unfold len in *. simpl. lia.
    + apply IH in H. unfold len in *. simpl. lia.
Qed.

(** A slice that is then iterated has at most [limit] elements. *)
Lemma sliced_iter_length (v : pyval) (limit : Z) (sliced : pyval) (xs : list pyval) :
  (0 <= limit)%Z ->
  py_slice_to v limit = Ok sliced -> py_iter sliced = Ok xs ->
  (len xs <= limit)%Z.
Proof.
  intros Hl Hs Hi. destruct v; cbn in Hs; try discriminate;
    inversion Hs; subst sliced; cbn in Hi; inversion Hi; subst xs.
  - pose proof (slice_to_bound s Hl) as H. unfold len in *.
    now rewrite length_map.
  - now apply slice_to_bound.
Qed.

Lemma bilibili_video_step (limit : Z) (item : pyval) (videos : list pyval)
    (s : step (list pyval)) :
  bilibili_video limit item videos = Ok s -> appends_then_checks limit videos s.
Proof.
  unfold bilibili_video. intros H. step_through H;
    inversion H; subst; cbn; eauto.
  right. eexists. split; [reflexivity|].
  match goal with E : (limit <=? _)%Z = false |- _ => now apply Z.leb_gt in E end.
Qed.

Lemma bilibili_dynamic_step (w : World) (limit : Z) (item : pyval)
    (dynamic_list : list pyval) (s : step (list pyval)) :
  bilibili_dynamic_row w limit item dynamic_list = Ok s ->
  appends_then_checks limit dynamic_list s.
Proof.
  unfold bilibili_dynamic_row. destruct (negb (is_dict item)).
  - intros H. inversion H; subst. cbn. auto.
  - destruct (bilibili_dynamic w limit item dynamic_list) as [s'|e] eqn:E;
      cbn [rcatch]; intros H; inversion H; subst; [|cbn; auto].
    unfold bilibili_dynamic in E. step_through E;
      inversion E; subst; cbn; eauto.
    right. eexists. split; [reflexivity|].
    match goal with E : (limit <=? _)%Z = false |- _ => now apply Z.leb_gt in E end.
Qed.

Lemma weibo_status_step (limit : Z) (card : pyval) (weibo_list : list pyval)
    (s : step (list pyval)) :
  weibo_status limit card weibo_list = Ok s ->
  appends_then_checks limit weibo_list s.
Proof.
  unfold weibo_status. intros H. step_through H;
    inversion H; subst; cbn; eauto;
    right; eexists; (split; [reflexivity|]);
    match goal with E : (limit <=? _)%Z = false |- _ => now apply Z.leb_gt in E end.
Qed.

Lemma weibo_row_step (limit : Z) (row : Z * TdItem) (trending_list : list pyval)
    (s : step (list pyval)) :
  (len trending_list <= limit)%Z ->
  weibo_row limit row trending_list = Ok s ->
  match s with
  | Next a => (len a <= limit)%Z
  | Break a => (len a <= limit)%Z
  end.
Proof.
  unfold weibo_row. destruct row as [i td]. intros Hlen H.
  destruct (limit <=? len trending_list)%Z eqn:E.
  - inversion H; subst. exact Hlen.
  - apply Z.leb_gt in E.
    destruct (td_a td) as [[word href]|]; [|inversion H; subst; exact Hlen].
    destruct (nonempty word); inversion H; subst; [|exact Hlen].
    rewrite len_app_one. lia.
Qed.

Lemma reddit_popular_row_step (w : World) (item : pyval) (posts : list pyval)
    (s : step (list pyval)) :
  reddit_popular_row w item posts = Ok s -> appends_at_most_one posts s.
Proof.
  unfold reddit_popular_row. intros H. step_through H;
    inversion H; subst; cbn; eauto.
Qed.

Lemma timeline_tweet_step (tweet : pyval) (tweets : list pyval)
    (s : step (list pyval)) :
  timeline_tweet tweet tweets = Ok s -> appends_at_most_one tweets s.
Proof.
  unfold timeline_tweet. intros H. step_through H;
    inversion H; subst; cbn; eauto.
Qed.

Lemma reddit_children_length (data : pyval) (limit : Z) (children : list pyval) :
  (0 <= limit)%Z -> reddit_children data limit = Ok children ->
  (len children <= limit)%Z.
Proof.
  unfold reddit_children. intros Hl H. step_through H.
  eapply sliced_iter_length; eauto.
Qed.

Lemma scraped_tweets_length (texts names : list str) :
  length (scraped_tweets texts names) = length texts.
Proof.
  revert names. induction texts as [|t texts IH]; intros names; simpl; auto.
Qed.

(** Every fetcher, one by one. *)

Lemma bilibili_trending_bounded (w : World) (limit : Z) (l : Log) :
  (1 <= limit)%Z -> payload_within limit (fst (fetch_bilibili_trending w limit l)).
Proof.
  intros Hl. unfold fetch_bilibili_trending, try_except, bind, request, lift, ret, raise.
  destruct (bilibili_api_installed w); [|apply payload_failure].
  destruct (homepage_get_videos w) as [res|e];
    [|destruct (exn_kind e); apply payload_failure].
  destruct (bilibili_videos limit res) as [videos|e] eqn:E;
    [|destruct (exn_kind e); apply payload_failure].
  apply payload_success. unfold bilibili_videos in E.
  destruct (truthy res); [|inversion E; subst; rewrite len_nil; lia].
  step_through E.
  eapply append_check_loop; eauto using bilibili_video_step.
Qed.

Lemma weibo_fallback_bounded (w : World) (limit : Z) (l : Log) :
  (0 <= limit)%Z ->
  payload_within limit (fst (_fetch_weibo_trending_fallback w limit l)).
Proof.
  intros Hl. unfold _fetch_weibo_trending_fallback, try_except, bind, request, lift, ret.
  destruct (http_get w weibo_hotsearch_url) as [response|e]; [|apply payload_failure].
  destruct (weibo_fallback_body w limit response) as [v|e] eqn:E;
    [|apply payload_failure].
  unfold weibo_fallback_body in E. step_through E; inversion E; subst;
    try apply payload_failure.
  apply payload_success.
  match goal with
  | H : comprehension _ _ _ = Ok _ |- _ => apply comprehension_length in H
  end.
  match goal with
  | Hs : py_slice_to _ _ = Ok _, Hi : py_iter _ = Ok _ |- _ =>
    pose proof (sliced_iter_length _ Hl Hs Hi)
  end.
  lia.
Qed.

Lemma weibo_trending_bounded (w : World) (limit : Z) (l : Log) :
  (0 <= limit)%Z -> payload_within limit (fst (fetch_weibo_trending w limit l)).
Proof.
  intros Hl. unfold fetch_weibo_trending, try_except, bind, request, lift, ret.
  destruct (http_get w weibo_summary_url) as [response|e];
    [|now apply weibo_fallback_bounded].
  destruct (contains (U "passport") (final_url response));
    [destruct (_fetch_weibo_trending_fallback w limit (l ++ [weibo_summary_url]))
       as [[v|e] l'] eqn:E;
     [change (Ok v) with (fst (Ok v, l')); rewrite <- E|];
     now apply weibo_fallback_bounded|].
  destruct (td_items response) as [|td rows];
    [destruct (_fetch_weibo_trending_fallback w limit (l ++ [weibo_summary_url]))
       as [[v|e] l'] eqn:E;
     [change (Ok v) with (fst (Ok v, l')); rewrite <- E|];
     now apply weibo_fallback_bounded|].
  destruct (for_each (weibo_row limit) (enumerate 0 (td :: rows)) [])
    as [trending_list|e] eqn:E; [|now apply weibo_fallback_bounded].
  assert (len trending_list <= limit)%Z as Hlen.
  { apply (for_each_inv (fun a : list pyval => len a <= limit)%Z
                        (fun a : list pyval => len a <= limit)%Z)
      with (body := weibo_row limit) (xs := enumerate 0 (td :: rows))
           (acc := @nil pyval); auto.
    intros x acc s HP Hs. pose proof (@weibo_row_step limit x acc s HP Hs) as H.
    now destruct s. }
  destruct trending_list as [|t ts].
  - destruct (_fetch_weibo_trending_fallback w limit (l ++ [weibo_summary_url]))
      as [[v|e] l'] eqn:E';
      [change (Ok v) with (fst (Ok v, l')); rewrite <- E'|];
      now apply weibo_fallback_bounded.
  - now apply payload_success.
Qed.

Lemma reddit_popular_bounded (w : World) (limit : Z) (l : Log) :
  (0 <= limit)%Z -> payload_within limit (fst (fetch_reddit_popular w limit l)).
Proof.
  intros Hl. unfold fetch_reddit_popular, try_except, bind, request, lift, ret.
  destruct (http_get w (reddit_popular_url limit)) as [response|e];
    [|apply payload_failure].
  match goal with
  | |- context [match ?c with Ok _ => _ | Raise _ => _ end] =>
    destruct c as [v|e] eqn:E
  end; [|apply payload_failure].
  step_through E; inversion E; subst; [apply payload_failure|].
  apply payload_success.
  match goal with
  | H : for_each _ _ _ = Ok _ |- _ =>
    apply (@at_most_one_loop _ _ (@reddit_popular_row_step w)) in H
  end.
  match goal with
  | H : reddit_children _ _ = Ok _ |- _ =>
    apply (@reddit_children_length _ _ _ Hl) in H
  end.
  rewrite len_nil in *. lia.
Qed.

Lemma twitter_trending_bounded (w : World) (limit : Z) (l : Log) :
  (0 <= limit)%Z -> payload_within limit (fst (fetch_twitter_trending w limit l)).
Proof.
  intros Hl. unfold fetch_twitter_trending, try_except, bind, request, ret.
  destruct (http_get w trends24_url) as [response|e]; [|apply payload_failure].
  destruct (map (twitter_trend w)
              (filter (fun t => nonempty t) (slice_to limit (trend_links response))))
    as [|t ts] eqn:E; [apply payload_failure|].
  apply payload_success. rewrite <- E. unfold len. rewrite length_map.
  pose proof (slice_to_bound (trend_links response) Hl) as Hs.
  unfold len in Hs. etransitivity; [|exact Hs].
  apply Nat2Z.inj_le, filter_length_le.
Qed.

Lemma bilibili_personal_bounded (w : World) (limit : Z) (l : Log) :
  (1 <= limit)%Z ->
  payload_within limit (fst (fetch_bilibili_personal_dynamic w limit l)).
Proof.
  intros Hl.
  unfold fetch_bilibili_personal_dynamic, try_except, bind, request, lift, ret.
  destruct (_get_bilibili_credential w); [|apply payload_failure].
  destruct (http_get w bilibili_feed_url) as [response|e]; [|apply payload_failure].
  match goal with
  | |- context [match ?c with Ok _ => _ | Raise _ => _ end] =>
    destruct c as [v|e] eqn:E
  end; [|apply payload_failure].
  step_through E. unfold bilibili_dynamics in E. step_through E;
    inversion E; subst; try apply payload_failure.
  apply payload_success.
  eapply append_check_loop; eauto using bilibili_dynamic_step.
Qed.

Lemma weibo_personal_bounded (w : World) (limit : Z) (l : Log) :
  (1 <= limit)%Z ->
  payload_within limit (fst (fetch_weibo_personal_dynamic w limit l)).
Proof.
  intros Hl.
  unfold fetch_weibo_personal_dynamic, try_except, bind, request, lift, ret.
  destruct (platform_cookies w (U "weibo")) as [|c cs]; [apply payload_failure|].
  match goal with
  | |- context [match ?t with [] => _ | _ :: _ => _ end] => destruct t
  end; [apply payload_failure|].
  destruct (http_get w weibo_feed_url) as [response|e]; [|apply payload_failure].
  destruct (weibo_statuses limit response) as [v|e] eqn:E; [|apply payload_failure].
  unfold weibo_statuses in E. step_through E;
    inversion E; subst; try apply payload_failure.
  apply payload_success.
  eapply append_check_loop; eauto using weibo_status_step.
Qed.

Lemma reddit_personal_bounded (w : World) (limit : Z) (l : Log) :
  (0 <= limit)%Z ->
  payload_within limit (fst (fetch_reddit_personal_dynamic w limit l)).
Proof.
  intros Hl.
  unfold fetch_reddit_personal_dynamic, try_except, bind, request, lift, ret.
  destruct (platform_cookies w (U "reddit")) as [|c cs]; [apply payload_failure|].
  destruct (http_get w (reddit_hot_url limit)) as [response|e];
    [|apply payload_failure].
  match goal with
  | |- context [match ?c with Ok _ => _ | Raise _ => _ end] =>
    destruct c as [v|e] eqn:E
  end; [|apply payload_failure].
  step_through E. inversion E; subst.
  apply payload_success.
  match goal with
  | H : comprehension _ _ _ = Ok _ |- _ => apply comprehension_length in H
  end.
  match goal with
  | H : reddit_children _ _ = Ok _ |- _ =>
    apply (@reddit_children_length _ _ _ Hl) in H
  end.
  lia.
Qed.

Lemma twitter_scraping_bounded (w : World) (limit : Z)
    (cookies : list (str * str)) (l : Log) :
  (0 <= limit)%Z ->
  payload_within limit (fst (_fetch_twitter_personal_web_scraping w limit cookies l)).
Proof.
  intros Hl.
  unfold _fetch_twitter_personal_web_scraping, try_except, bind, request, ret.
  destruct (http_get w twitter_home_url) as [res|e]; [|apply payload_failure].
  destruct (contains (U "login") (final_url res)
            || contains (U "logout") (final_url res)); [apply payload_failure|].
  destruct (scraped_tweets (slice_to limit (tweet_texts res)) (screen_names res))
    as [|t ts] eqn:E; [apply payload_failure|].
  apply payload_success. rewrite <- E. unfold len.
  rewrite scraped_tweets_length.
  pose proof (slice_to_bound (tweet_texts res) Hl) as Hs. unfold len in Hs. lia.
Qed.

Lemma twitter_personal_bounded (w : World) (limit : Z) (l : Log) :
  (0 <= limit)%Z ->
  payload_within limit (fst (fetch_twitter_personal_dynamic w limit l)).
Proof.
  intros Hl.
  unfold fetch_twitter_personal_dynamic, try_except, bind, request, lift, ret.
  destruct (platform_cookies w (U "twitter")) as [|c cs]; [apply payload_failure|].
  destruct (http_get w (twitter_timeline_url limit)) as [response|e];
    [|apply payload_failure].
  destruct (negb (status_code response =? 200)%Z).
  - destruct (_fetch_twitter_personal_web_scraping w limit (c :: cs)
                (l ++ [twitter_timeline_url limit])) as [[v|e] l'] eqn:E;
      [|apply payload_failure].
    change (Ok v) with (fst (Ok v, l')). rewrite <- E.
    now apply twitter_scraping_bounded.
  - match goal with
    | |- context [match ?c with Ok _ => _ | Raise _ => _ end] =>
      destruct c as [v|e] eqn:E
    end; [|apply payload_failure].
    step_through E. unfold timeline_tweets in E.
    match type of E with
    | match ?d with PList _ => _ | _ => _ end = Ok _ =>
      destruct d as [| | | |tl|]; try (inversion E; subst; apply payload_failure)
    end.
    step_through E; inversion E; subst; [apply payload_failure|].
    apply payload_success.
    match goal with
    | H : for_each _ _ _ = Ok _ |- _ =>
      apply (@at_most_one_loop _ _ timeline_tweet_step) in H
    end.
    pose proof (slice_to_bound tl Hl) as Hs.
    rewrite len_nil in *. lia.
Qed.

(** At [limit = 0], with one item upstream, the fetchers that append
    before they test the limit return that item. *)
Lemma overshoot_at_zero :
  (exists videos,
      value_of (fetch_bilibili_trending video_world 0)
      = Ok (success_with (U "videos") videos)
      /\ len videos = 1%Z
      /\ ~ payload_within 0 (value_of (fetch_bilibili_trending video_world 0)))
  /\ (exists statuses,
      value_of (fetch_weibo_personal_dynamic feed_world 0)
      = Ok (success_with (U "statuses") statuses)
      /\ len statuses = 1%Z
      /\ ~ payload_within 0 (value_of (fetch_weibo_personal_dynamic feed_world 0))).
Proof.
  split.
  - eexists. split; [vm_compute; reflexivity|]. split; [reflexivity|].
    intros H.
    specialize (H _ (U "videos") _ eq_refl (or_introl eq_refl) eq_refl).
    vm_compute in H. congruence.
  - eexists. split; [vm_compute; reflexivity|]. split; [reflexivity|].
    intros H.
    specialize (H _ (U "statuses") _ eq_refl
                  (or_intror (or_intror (or_intror (or_intror (or_introl eq_refl)))))
                  eq_refl).
    vm_compute in H. congruence.
Qed.

(** C5 (code bug). Called with [limit = 0] on a home page that recommends
    one video, [fetch_bilibili_trending] succeeds with a list of one video,
    and so does [fetch_weibo_personal_dynamic] with one post in the feed:
    they append an item and only then test the limit.  The seven fetchers
    that test before appending, or slice the upstream list, keep to every
    limit from 0 on, whatever the upstream answers; from 1 on all ten keep
    to it. *)
Theorem C5_limit_zero_overshoot :
  ((exists videos,
       value_of (fetch_bilibili_trending video_world 0)
       = Ok (success_with (U "videos") videos)
       /\ len videos = 1%Z
       /\ ~ payload_within 0 (value_of (fetch_bilibili_trending video_world 0)))
   /\ (exists statuses,
       value_of (fetch_weibo_personal_dynamic feed_world 0)
       = Ok (success_with (U "statuses") statuses)
       /\ len statuses = 1%Z
       /\ ~ payload_within 0
            (value_of (fetch_weibo_personal_dynamic feed_world 0))))
  /\ (forall (w : World) (limit : Z) (l : Log) (cookies : list (str * str)),
        (0 <= limit)%Z ->
        payload_within limit (fst (fetch_weibo_trending w limit l))
        /\ payload_within limit (fst (_fetch_weibo_trending_fallback w limit l))
        /\ payload_within limit (fst (fetch_reddit_popular w limit l))
        /\ payload_within limit (fst (fetch_twitter_trending w limit l))
        /\ payload_within limit (fst (fetch_reddit_personal_dynamic w limit l))
        /\ payload_within limit
             (fst (_fetch_twitter_personal_web_scraping w limit cookies l))
        /\ payload_within limit (fst (fetch_twitter_personal_dynamic w limit l)))
  /\ (forall (w : World) (limit : Z) (l : Log),
        (1 <= limit)%Z ->
        payload_within limit (fst (fetch_bilibili_trending w limit l))
        /\ payload_within limit (fst (fetch_bilibili_personal_dynamic w limit l))
        /\ payload_within limit (fst (fetch_weibo_personal_dynamic w limit l))).
Proof.
  split; [exact overshoot_at_zero|]. split.
  - intros w limit l cookies H0. repeat split.
    + now apply weibo_trending_bounded.
    + now apply weibo_fallback_bounded.
    + now apply reddit_popular_bounded.
    + now apply twitter_trending_bounded.
    + now apply reddit_personal_bounded.
    + now apply twitter_scraping_bounded.
    + now apply twitter_personal_bounded.
  - intros w limit l H1. repeat split.
    + now apply bilibili_trending_bounded.
    + now apply bilibili_personal_bounded.
    + now apply weibo_personal_bounded.
Qed.

(** With three videos upstream the limit cuts the list: two videos at
    [limit = 2], one at [limit = 1], and one again at [limit = 0], where
    the sibling [fetch_weibo_trending] returns none. *)
Example limit_truncates :
  (exists videos,
      value_of (fetch_bilibili_trending crowded_world 2)
      = Ok (success_with (U "videos") videos) /\ len videos = 2%Z)
  /\ (exists videos,
      value_of (fetch_bilibili_trending crowded_world 1)
      = Ok (success_with (U "videos") videos) /\ len videos = 1%Z)
  /\ (exists videos,
      value_of (fetch_bilibili_trending crowded_world 0)
      = Ok (success_with (U "videos") videos) /\ len videos = 1%Z)
  /\ value_of (fetch_weibo_trending walled_world 0)
     = Ok (success_with (U "trending") []).
Proof.
  split; [eexists; split; [vm_compute; reflexivity|reflexivity]|].
  split; [eexists; split; [vm_compute; reflexivity|reflexivity]|].
  split; [eexists; split; [vm_compute; reflexivity|reflexivity]|].
  vm_compute. reflexivity.
Qed.

(** *** Reddit: posts marked over_18 are left out *)

Lemma kept_posts_app (w : World) (children : list pyval) (acc posts : list pyval) :
  for_each (reddit_popular_row w) children acc = Ok posts ->
  exists new, posts = acc ++ new /\ kept_posts w children new.
Proof.
  revert acc posts. induction children as [|item rest IH]; intros acc posts H.
  - cbn in H. inversion H; subst. exists []. rewrite app_nil_r.
    split; [reflexivity|constructor].
  - cbn [for_each] in H.
    destruct (reddit_popular_row w item acc) as [s|e] eqn:E; [|discriminate].
    cbn [rbind] in H. unfold reddit_popular_row in E.
    destruct (py_get item (U "data") (PDict [])) as [pd|e] eqn:Epd;
      cbn [rbind] in E; [|discriminate].
    destruct (py_get pd (U "over_18") PNone) as [flag|e] eqn:Eflag;
      cbn [rbind] in E; [|discriminate].
    assert (over_18 item = Ok (truthy flag)) as Hflag.
    { unfold over_18, get2. rewrite Epd. cbn [rbind]. rewrite Eflag. reflexivity. }
    destruct (truthy flag) eqn:Et.
    + inversion E; subst s. apply IH in H as (new & -> & Hk).
      exists new. split; [reflexivity|]. now apply kept_skip.
    + destruct (reddit_post w pd) as [post|e] eqn:Epost; cbn [rbind] in E;
        [|discriminate].
      inversion E; subst s. apply IH in H as (new & -> & Hk).
      exists (post :: new). split; [now rewrite <- app_assoc|].
      apply kept_keep; auto. unfold post_of. rewrite Epd. exact Epost.
Qed.

Lemma kept_posts_comprehension (w : World) (children posts : list pyval) :
  comprehension (fun item => adult <~ over_18 item ;; Ok (negb adult))
                (fun item => pd <~ py_get item (U "data") (PDict []) ;;
                             reddit_post w pd)
                children = Ok posts ->
  kept_posts w children posts.
Proof.
  revert posts. induction children as [|item rest IH]; intros posts H.
  - cbn in H. inversion H; subst. constructor.
  - cbn [comprehension] in H.
    destruct (over_18 item) as [adult|e] eqn:Ea; cbn [rbind] in H; [|discriminate].
    destruct adult; cbn [negb] in H.
    + apply kept_skip; auto.
    + match type of H with
      | rbind ?r _ = _ => destruct r as [post|e] eqn:Ep
      end; cbn [rbind] in H; [|discriminate].
      match type of H with
      | rbind ?r _ = _ => destruct r as [posts'|e] eqn:Er
      end; cbn [rbind] in H; [|discriminate].
      inversion H; subst. apply kept_keep; auto.
Qed.

Lemma posts_of_success (items posts : list pyval) :
  field (success_with (U "posts") items) (U "posts") = Ok (PList posts) ->
  posts = items.
Proof. intros H. vm_compute in H. now inversion H. Qed.

Lemma posts_of_failure (msg : str) (posts : list pyval) :
  field (failure msg) (U "posts") = Ok (PList posts) -> False.
Proof. intros H. vm_compute in H. discriminate. Qed.

Lemma kept_posts_no_adult (w : World) (children posts : list pyval) :
  kept_posts w children posts ->
  length posts = length (filter (fun item => match over_18 item with
                                             | Ok false => true
                                             | _ => false
                                             end) children).
Proof.
  induction 1 as [|item rest posts Hadult _ IH|item post rest posts Hok _ _ IH];
    cbn [filter]; [reflexivity| |].
  - rewrite Hadult. exact IH.
  - rewrite Hok. cbn [length]. now rewrite IH.
Qed.

(** C10. Whenever either Reddit fetcher returns a list of posts, the list
    consists, in order, of the posts built from the children of the
    (sliced) listing whose [over_18] flag is falsy; no child with a truthy
    flag contributes a post. *)
Theorem C10_reddit_excludes_over_18 (w : World) (limit : Z) (l : Log)
    (v : pyval) (posts : list pyval) :
  (fst (fetch_reddit_popular w limit l) = Ok v ->
   field v (U "posts") = Ok (PList posts) ->
   exists response data children,
     http_get w (reddit_popular_url limit) = Ok response
     /\ json response = Ok data
     /\ reddit_children data limit = Ok children
     /\ kept_posts w children posts)
  /\ (fst (fetch_reddit_personal_dynamic w limit l) = Ok v ->
      field v (U "posts") = Ok (PList posts) ->
      exists response data children,
        http_get w (reddit_hot_url limit) = Ok response
        /\ json response = Ok data
        /\ reddit_children data limit = Ok children
        /\ kept_posts w children posts).
Proof.
  split.
  - unfold fetch_reddit_popular, try_except, bind, request, lift, ret.
    destruct (http_get w (reddit_popular_url limit)) as [response|e] eqn:Eh;
      [|cbn; intros Hv Hf; inversion Hv; subst;
        now apply posts_of_failure in Hf].
    destruct (json response) as [data|e] eqn:Ej; cbn [rbind];
      [|cbn; intros Hv Hf; inversion Hv; subst;
        now apply posts_of_failure in Hf].
    destruct (reddit_children data limit) as [children|e] eqn:Ec; cbn [rbind];
      [|cbn; intros Hv Hf; inversion Hv; subst;
        now apply posts_of_failure in Hf].
    destruct (for_each (reddit_popular_row w) children []) as [ps|e] eqn:E;
      cbn [rbind];
      [|cbn; intros Hv Hf; inversion Hv; subst;
        now apply posts_of_failure in Hf].
    apply kept_posts_app in E as (new & -> & Hk). cbn [app].
    destruct new as [|p ps]; cbn; intros Hv Hf; inversion Hv; subst.
    + now apply posts_of_failure in Hf.
    + apply posts_of_success in Hf. subst.
      exists response, data, children. repeat split; auto.
  - unfold fetch_reddit_personal_dynamic, try_except, bind, request, lift, ret.
    destruct (platform_cookies w (U "reddit")) as [|c cs];
      [cbn; intros Hv Hf; inversion Hv; subst;
       now apply posts_of_failure in Hf|].
    destruct (http_get w (reddit_hot_url limit)) as [response|e] eqn:Eh;
      [|cbn; intros Hv Hf; inversion Hv; subst;
        now apply posts_of_failure in Hf].
    destruct (json response) as [data|e] eqn:Ej; cbn [rbind];
      [|cbn; intros Hv Hf; inversion Hv; subst;
        now apply posts_of_failure in Hf].
    destruct (reddit_children data limit) as [children|e] eqn:Ec; cbn [rbind];
      [|cbn; intros Hv Hf; inversion Hv; subst;
        now apply posts_of_failure in Hf].
    match goal with
    | |- context [comprehension ?k ?f children] =>
      destruct (comprehension k f children) as [ps|e] eqn:E
    end; cbn [rbind];
      [|cbn; intros Hv Hf; inversion Hv; subst;
        now apply posts_of_failure in Hf].
    apply kept_posts_comprehension in E.
    cbn; intros Hv Hf; inversion Hv; subst.
    apply posts_of_success in Hf. subst.
    exists response, data, children. repeat split; auto.
Qed.

(** A listing with one adult and one ordinary post yields the ordinary
    post only, from both fetchers. *)
Lemma C10_reddit_excludes_over_18_witness :
  exists v posts,
    fst (fetch_reddit_popular reddit_world 10 []) = Ok v
    /\ fst (fetch_reddit_personal_dynamic reddit_world 10 []) = Ok v
    /\ field v (U "posts") = Ok (PList posts)
    /\ length posts = 1
    /\ (exists response data children,
          http_get reddit_world (reddit_popular_url 10) = Ok response
          /\ json response = Ok data
          /\ reddit_children data 10 = Ok children
          /\ kept_posts reddit_world children posts)
    /\ (exists response data children,
          http_get reddit_world (reddit_hot_url 10) = Ok response
          /\ json response = Ok data
          /\ reddit_children data 10 = Ok children
          /\ kept_posts reddit_world children posts).
Proof.
  eexists. eexists.
  split; [vm_compute; reflexivity|].
  split; [vm_compute; reflexivity|].
  split; [vm_compute; reflexivity|].
  split; [reflexivity|].
  split.
  - refine (proj1 (C10_reddit_excludes_over_18 reddit_world 10 [] _ _) _ _);
      vm_compute; reflexivity.
  - refine (proj2 (C10_reddit_excludes_over_18 reddit_world 10 [] _ _) _ _);
      vm_compute; reflexivity.
Defined.

(** *** Title cleaning *)

Lemma sub_without_match (ic : bool) (r : re) (rep s : str) :
  forall bos off, search_from ic r bos off s = None ->
                  sub_aux ic r rep 0 bos s = s.
Proof.
  induction s as [|c t IH]; intros bos off H; [reflexivity|].
  cbn [search_from] in H. cbn [sub_aux].
  destruct (match_here ic r bos (c :: t)) as [n|]; [discriminate|].
  f_equal. now apply (IH false (S off)).
Qed.

Lemma sub_unmatched (ic : bool) (r : re) (rep s : str) :
  has_match ic r s = false -> sub ic r rep s = s.
Proof.
  unfold has_match, search, sub. intros H.
  destruct (search_from ic r true 0 s) eqn:E; [discriminate|].
  now apply (sub_without_match ic r rep s true 0).
Qed.

Lemma remove_nothing (patterns : list re) (s : str) :
  forallb (fun pattern => negb (has_match true pattern s)) patterns = true ->
  fold_left (fun cleaned pattern => sub true pattern [] cleaned) patterns s = s.
Proof.
  induction patterns as [|p ps IH]; intros H; [reflexivity|].
  cbn [forallb] in H. apply andb_true_iff in H as [Hp Hps].
  apply negb_true_iff in Hp. cbn [fold_left].
  rewrite (sub_unmatched true p [] s Hp). now apply IH.
Qed.

Lemma join_split_single_spaced (s cur : str) :
  single_spaced (is_nil cur) s = true ->
  join (U " ") (split_ws_aux cur s) = rev cur ++ s.
Proof.
  revert cur. induction s as [|c t IH]; intros cur H.
  - cbn [single_spaced] in H. destruct cur as [|x cur]; [discriminate|].
    cbn [split_ws_aux join]. now rewrite app_nil_r.
  - cbn [single_spaced] in H. cbn [split_ws_aux].
    destruct (is_space c) eqn:Ec.
    + apply andb_true_iff in H as [H Ht]. apply andb_true_iff in H as [Hc Hcur].
      apply N.eqb_eq in Hc. subst c.
      destruct cur as [|x cur]; [discriminate|].
      specialize (IH [] Ht). cbn [rev app] in IH.
      destruct (split_ws_aux [] t) as [|p ps] eqn:Es.
      * cbn in IH. subst t. discriminate.
      * cbn [join]. cbn [join] in IH.
        change (U " ") with [32%N] in *.
        destruct ps; rewrite IH; reflexivity.
    + specialize (IH (c :: cur) H). rewrite IH. cbn [rev].
      now rewrite <- app_assoc.
Qed.

Lemma join_split_normal (s : str) :
  whitespace_normal s = true -> join (U " ") (split_ws s) = s.
Proof.
  destruct s as [|c t]; [reflexivity|].
  intros H. unfold split_ws.
  now rewrite (join_split_single_spaced (c :: t) []).
Qed.

Lemma slice_to_all (A : Type) (n : Z) (l : list A) :
  (len l <= n)%Z -> slice_to n l = l.
Proof.
  intros H. unfold slice_to, len in *.
  destruct (0 <=? n)%Z eqn:E; [|lia].
  apply firstn_all2. lia.
Qed.

(** C9. A title of at least three characters from which nothing would be
    removed (no removal rule matches it, its white space is single-spaced
    and trimmed, it has at most a hundred characters) is returned
    unchanged by [clean_window_title]. *)
Theorem C9_clean_title_unchanged (s : str) :
  (3 <= len s)%Z -> already_clean s = true -> clean_window_title s = s.
Proof.
  intros Hlen Hclean. unfold already_clean in Hclean.
  apply andb_true_iff in Hclean as [Hclean Hmax].
  apply andb_true_iff in Hclean as [Hrules Hws].
  apply Z.leb_le in Hmax.
  unfold clean_window_title, remove_patterns.
  destruct s as [|c t] eqn:Es; [reflexivity|]. rewrite <- Es in *.
  rewrite (remove_nothing patterns_to_remove s Hrules).
  rewrite (join_split_normal s Hws).
  destruct (len s <? 3)%Z eqn:E; [apply Z.ltb_lt in E; lia|].
  now apply slice_to_all.
Qed.

Lemma C9_clean_title_unchanged_witness :
  (3 <= len (U "Rocq Prover manual"))%Z
  /\ already_clean (U "Rocq Prover manual") = true
  /\ clean_window_title (U "Rocq Prover manual") = U "Rocq Prover manual".
Proof.
  assert (H1 : (3 <= len (U "Rocq Prover manual"))%Z) by (vm_compute; congruence).
  assert (H2 : already_clean (U "Rocq Prover manual") = true)
    by (vm_compute; reflexivity).
  split; [exact H1|]. split; [exact H2|].
  exact (C9_clean_title_unchanged (U "Rocq Prover manual") H1 H2).
Defined.

(** Cleaning is not idempotent on its own outputs: a second pass may
    remove more. *)
Example clean_twice_differs :
  clean_window_title (U "foo.py.py") = U "foo.py"
  /\ clean_window_title (U "foo.py") = U "foo".
Proof. split; vm_compute; reflexivity. Qed.

Example clean_editor_title :
  clean_window_title (U "README.md - Visual Studio Code") = U "README".
Proof. vm_compute. reflexivity. Qed.

(** A decimal digit outside the Basic Multilingual Plane (U+1D7CF,
    MATHEMATICAL BOLD DIGIT ONE) is a digit for the trailing-number rule:
    such a title is not clean, and the number is removed. *)
Example clean_mathematical_digit :
  already_clean (U "abc - " ++ [120783%N]) = false
  /\ clean_window_title (U "abc - " ++ [120783%N]) = U "abc".
Proof. split; vm_compute; reflexivity. Qed.

(** *** Deduplication of the search results *)

Lemma mem_key (key : str) (seen : list str) :
  existsb (str_eqb key) seen = true <-> In key seen.
Proof.
  rewrite existsb_exists. split.
  - intros (x & Hin & Heq). apply str_eqb_eq in Heq. now subst.
  - intros H. exists key. split; [exact H|apply str_eqb_refl].
Qed.

Lemma deduplicate_fresh_hits (l : list SearchItem) (seen : list str)
    (acc : list SearchItem) :
  deduplicate l seen acc = acc ++ fresh_hits seen l.
Proof.
  revert seen acc. induction l as [|r rest IH]; intros seen acc.
  - cbn. now rewrite app_nil_r.
  - cbn [deduplicate fresh_hits].
    destruct (nonempty (dedup_key r) && negb (existsb (str_eqb (dedup_key r)) seen)).
    + rewrite IH, <- app_assoc. reflexivity.
    + apply IH.
Qed.

Lemma collect_contributions (qs : list str) (rs : list (result SearchResult))
    (acc : list SearchItem) (sq : list str) :
  fst (collect qs rs acc sq)
  = acc ++ concat (map contribution (firstn (length qs) rs)).
Proof.
  revert rs acc sq. induction qs as [|q qs IH]; intros rs acc sq.
  - cbn. now rewrite app_nil_r.
  - destruct rs as [|r rs]; [cbn; now rewrite app_nil_r|].
    cbn [collect length firstn map concat].
    destruct r as [[query [|x results]|error query]|e]; rewrite IH; cbn [contribution];
      try reflexivity.
    now rewrite <- app_assoc.
Qed.

(** The kept hits have fresh, non-empty, pairwise different keys. *)
Lemma fresh_hits_keys (l : list SearchItem) :
  forall seen,
    NoDup (map dedup_key (fresh_hits seen l))
    /\ (forall r, In r (fresh_hits seen l) ->
                  dedup_key r <> [] /\ ~ In (dedup_key r) seen).
Proof.
  induction l as [|x rest IH]; intros seen.
  - cbn. split; [constructor|contradiction].
  - cbn [fresh_hits].
    destruct (nonempty (dedup_key x)) eqn:Hne; cbn [andb];
      [destruct (existsb (str_eqb (dedup_key x)) seen) eqn:Hseen; cbn [negb]|];
      try apply IH.
    destruct (IH (dedup_key x :: seen)) as [Hnd Hfresh].
    split.
    + cbn [map]. constructor; [|exact Hnd].
      intros Hin. apply in_map_iff in Hin as (r & Hk & Hr).
      destruct (Hfresh r Hr) as [_ Hnot]. apply Hnot. left. now symmetry.
    + intros r [<-|Hr].
      * split; [now apply nonempty_length|].
        intros Hin. apply mem_key in Hin. congruence.
      * destruct (Hfresh r Hr) as [Hk Hnot]. split; [exact Hk|].
        intros Hin. apply Hnot. now right.
Qed.

(** Each kept hit is the first one of the input with its key. *)
Lemma fresh_hits_first (l : list SearchItem) :
  forall seen r, In r (fresh_hits seen l) ->
                 first_with_key (dedup_key r) l = Some r.
Proof.
  unfold first_with_key.
  induction l as [|x rest IH]; intros seen r Hr; [contradiction|].
  cbn [fresh_hits] in Hr. cbn [find].
  destruct (nonempty (dedup_key x)) eqn:Hne; cbn [andb] in Hr;
    [destruct (existsb (str_eqb (dedup_key x)) seen) eqn:Hseen; cbn [negb] in Hr|].
  - destruct (proj2 (fresh_hits_keys rest seen) r Hr) as [_ Hnot].
    destruct (str_eqb (dedup_key x) (dedup_key r)) eqn:E.
    + apply str_eqb_eq in E. apply mem_key in Hseen. congruence.
    + now apply (IH seen).
  - destruct Hr as [<-|Hr]; [now rewrite str_eqb_refl|].
    destruct (proj2 (fresh_hits_keys rest (dedup_key x :: seen)) r Hr) as [_ Hnot].
    destruct (str_eqb (dedup_key x) (dedup_key r)) eqn:E.
    + apply str_eqb_eq in E. exfalso. apply Hnot. now left.
    + now apply (IH (dedup_key x :: seen)).
  - destruct (proj2 (fresh_hits_keys rest seen) r Hr) as [Hk _].
    destruct (str_eqb (dedup_key x) (dedup_key r)) eqn:E.
    + apply str_eqb_eq in E. rewrite <- E in Hk.
      apply nonempty_length in Hk. congruence.
    + now apply (IH seen).
Qed.

(** Every non-empty key of the input is the key of a kept hit. *)
Lemma fresh_hits_complete (l : list SearchItem) :
  forall seen r, In r l -> dedup_key r <> [] -> ~ In (dedup_key r) seen ->
                 In (dedup_key r) (map dedup_key (fresh_hits seen l)).
Proof.
  induction l as [|x rest IH]; intros seen r Hr Hk Hnot; [contradiction|].
  cbn [fresh_hits].
  destruct (nonempty (dedup_key x)) eqn:Hne; cbn [andb];
    [destruct (existsb (str_eqb (dedup_key x)) seen) eqn:Hseen; cbn [negb]|].
  - destruct Hr as [->|Hr]; [apply mem_key in Hseen; contradiction|].
    now apply IH.
  - cbn [map].
    destruct (list_eq_dec N.eq_dec (dedup_key x) (dedup_key r)) as [E|E];
      [now left|right].
    destruct Hr as [->|Hr]; [contradiction|].
    apply IH; auto. intros [H|H]; auto.
  - destruct Hr as [->|Hr];
      [apply nonempty_length in Hk; congruence|].
    now apply IH.
Qed.

Lemma in_firstn (A : Type) (x : A) (n : nat) (l : list A) :
  In x (firstn n l) -> In x l.
Proof.
  revert n. induction l as [|y l IH]; intros [|n] H; cbn in H; try contradiction.
  destruct H as [->|H]; [now left|right; now apply (IH n)].
Qed.

Lemma NoDup_firstn (A : Type) (n : nat) (l : list A) :
  NoDup l -> NoDup (firstn n l).
Proof.
  revert n. induction l as [|x l IH]; intros [|n] H; cbn; try constructor.
  - inversion H; subst. intros Hin. apply in_firstn in Hin. contradiction.
  - inversion H; subst. now apply IH.
Qed.

(** C7 (counterexample). Two branches found the same URL and the branch of
    the second query completed first: the merged list keeps the hit of the
    first query, not the hit of the branch that completed first. *)
Lemma C7_counterexample_completion_order :
  merge_results 5 [U "rocq"; U "rocq prover"] (gathered racing_branches)
  = [hit_of_first_query]
  /\ spec_merge_by_completion 5 racing_branches = [hit_of_second_query]
  /\ merge_results 5 [U "rocq"; U "rocq prover"] (gathered racing_branches)
     <> spec_merge_by_completion 5 racing_branches.
Proof.
  split; [vm_compute; reflexivity|].
  split; [vm_compute; reflexivity|].
  vm_compute. intros H. discriminate H.
Qed.

(** C7 (amended). For a non-negative limit, the merged list is a prefix of
    at most [2 * limit] hits of the deduplicated concatenation of the
    successful branches' results taken in the order of the queries (the
    order [gather] returns them in, whenever each branch completed); no
    key (URL, or title when the URL is empty) occurs twice in it, each
    retained hit is the first hit of that concatenation with its key, and
    before the cap every non-empty key of the concatenation is present. *)
Theorem C7_merge_first_in_task_order (limit : Z) (valid_queries : list str)
    (gather_results : list (result SearchResult)) :
  (0 <= limit)%Z ->
  let all_results :=
    concat (map contribution (firstn (length valid_queries) gather_results)) in
  let merged := merge_results limit valid_queries gather_results in
  merged = firstn (Z.to_nat (2 * limit)) (deduplicate all_results [] [])
  /\ (len merged <= 2 * limit)%Z
  /\ NoDup (map dedup_key merged)
  /\ (forall r, In r merged ->
                dedup_key r <> []
                /\ first_with_key (dedup_key r) all_results = Some r)
  /\ (forall r, In r all_results -> dedup_key r <> [] ->
                In (dedup_key r) (map dedup_key (deduplicate all_results [] []))).
Proof.
  intros Hl all_results merged.
  assert (Hm : merged = firstn (Z.to_nat (2 * limit)) (fresh_hits [] all_results)).
  { unfold merged, merge_results.
    pose proof (collect_contributions valid_queries gather_results [] []) as Hc.
    destruct (collect valid_queries gather_results [] []) as [all sq].
    cbn [fst app] in Hc. subst all. fold all_results.
    rewrite deduplicate_fresh_hits. cbn [app].
    unfold slice_to. destruct (0 <=? limit * 2)%Z eqn:E; [|lia].
    now rewrite Z.mul_comm. }
  rewrite deduplicate_fresh_hits. cbn [app].
  destruct (fresh_hits_keys all_results []) as [Hnd Hfresh].
  repeat split.
  - exact Hm.
  - rewrite Hm. unfold len.
    pose proof (firstn_le_length (Z.to_nat (2 * limit)) (fresh_hits [] all_results)).
    lia.
  - rewrite Hm, <- firstn_map. now apply NoDup_firstn.
  - rewrite Hm in H. apply in_firstn in H. now apply (Hfresh r).
  - rewrite Hm in H. apply in_firstn in H. now apply (fresh_hits_first all_results []).
  - intros r Hr Hk. apply fresh_hits_complete; auto.
Qed.

(** The racing branches again: the hit of the first query is kept. *)
Lemma C7_merge_first_in_task_order_witness :
  (0 <= 5)%Z
  /\ merge_results 5 [U "rocq"; U "rocq prover"] (gathered racing_branches)
     = [hit_of_first_query]
  /\ NoDup (map dedup_key
              (merge_results 5 [U "rocq"; U "rocq prover"] (gathered racing_branches))).
Proof.
  assert (H : (0 <= 5)%Z) by (vm_compute; congruence).
  split; [exact H|]. split; [vm_compute; reflexivity|].
  exact (proj1 (proj2 (proj2
           (@C7_merge_first_in_task_order 5 [U "rocq"; U "rocq prover"]
              (gathered racing_branches) H)))).
Defined.

(** *** Query generation and the start of the pipeline *)

Lemma valid_query_spec (q : str) :
  valid_query q = true <-> q <> [] /\ (2 <= len q)%Z.
Proof.
  unfold valid_query. rewrite andb_true_iff, nonempty_length, Z.leb_le. tauto.
Qed.

(** The lines kept from the reply are usable and at most three. *)
Lemma keywords_usable (lines : list str) :
  forall queries,
    Forall (fun q => valid_query q = true) queries ->
    (len queries < 3)%Z ->
    Forall (fun q => valid_query q = true) (keywords lines queries)
    /\ (len (keywords lines queries) <= 3)%Z.
Proof.
  induction lines as [|line rest IH]; intros queries Hq Hlen.
  - cbn. split; [exact Hq|lia].
  - cbn [keywords].
    destruct (nonempty (clean_line line) && (2 <=? len (clean_line line))%Z) eqn:E;
      [|now apply IH].
    assert (Forall (fun q => valid_query q = true) (queries ++ [clean_line line]))
      as Hq'.
    { apply Forall_app. split; [exact Hq|]. constructor; [exact E|constructor]. }
    destruct (3 <=? len (queries ++ [clean_line line]))%Z eqn:E3.
    + split; [exact Hq'|]. rewrite len_app_one. lia.
    + apply IH; [exact Hq'|]. now apply Z.leb_gt in E3.
Qed.

Lemma keywords_from_reply (lines : list str) :
  Forall (fun q => valid_query q = true) (keywords lines [])
  /\ (len (keywords lines []) <= 3)%Z.
Proof. apply keywords_usable; [constructor|rewrite len_nil; lia]. Qed.

Lemma keywords_from_reply_of (w : World) (window_title : str) (lines : list str) :
  assistant_lines w window_title = Some lines ->
  Forall (fun q => valid_query q = true) lines /\ (len lines <= 3)%Z.
Proof.
  unfold assistant_lines.
  destruct (assistant_config w); [|discriminate].
  destruct (assistant w window_title); [|discriminate].
  intros H. inversion H; subst. apply keywords_from_reply.
Qed.

Lemma slice_three (A : Type) (l : list A) : length l = 3 -> slice_to 3 l = l.
Proof. intros H. apply slice_to_all. unfold len. lia. Qed.

(** What [generate_diverse_queries] returns when the assistant failed. *)
Lemma failed_queries (w : World) (window_title : str) (l : Log) :
  assistant_failed w window_title = true ->
  exists l',
    let clean_title := clean_window_title window_title in
    generate_diverse_queries w window_title l
    = (Ok (match assistant_lines w window_title with
           | None => [clean_title; clean_title; clean_title]
           | Some lines => slice_to 3 (pad_queries lines clean_title)
           end), l').
Proof.
  unfold assistant_failed, assistant_lines, generate_diverse_queries,
    try_except, bind, lift, request, ret.
  destruct (assistant_config w) as [u|e]; [|eauto].
  destruct (is_china_region_total w) as [china ->].
  destruct (assistant w window_title) as [content|e]; [|eauto].
  intros H. rewrite H. eauto.
Qed.

Lemma repeat_forall (A : Type) (P : A -> Prop) (x : A) (n : nat) :
  P x -> Forall P (repeat x n).
Proof. intros H. induction n; cbn; constructor; auto. Qed.

Lemma padded_three (lines : list str) (clean_title : str) :
  (len lines < 3)%Z -> clean_title <> [] ->
  length (pad_queries lines clean_title) = 3.
Proof.
  intros Hlen Hne. unfold pad_queries, len in *.
  destruct clean_title as [|c t]; [congruence|].
  rewrite length_app, repeat_length. lia.
Qed.

(** The searches are isolated: [gather] always hands back a list, and the
    search phase always returns a dictionary. *)
Lemma gather_returns (A : Type) (tasks : list (M A)) (l : Log) :
  exists rs l', gather tasks l = (Ok rs, l').
Proof.
  revert l. induction tasks as [|task rest IH]; intros l; cbn [gather].
  - unfold ret. eauto.
  - destruct (task l) as [r l1]. destruct (IH l1) as (rs & l2 & ->). eauto.
Qed.

Lemma search_phase_returns (w : World) (china : bool) (sanitized_title : str)
    (queries : list str) (limit : Z) (l : Log) :
  exists v l', search_phase w china sanitized_title queries limit l = (Ok v, l').
Proof.
  unfold search_phase.
  destruct (filter valid_query queries) as [|q qs]; [unfold ret; eauto|].
  unfold bind.
  match goal with
  | |- context [gather ?tasks l] =>
    destruct (gather_returns tasks l) as (rs & l1 & ->)
  end.
  match goal with
  | |- context [merge_results ?n ?a ?b] => destruct (merge_results n a b)
  end; unfold ret; eauto.
Qed.

(** The loop over the reply keeps the first three usable lines, in the
    order of the reply. *)
Lemma keywords_selected (lines : list str) :
  forall queries,
    length queries < 3 ->
    keywords lines queries
    = firstn 3 (queries ++ filter valid_query (map clean_line lines)).
Proof.
  induction lines as [|line rest IH]; intros queries Hq.
  - cbn [keywords map filter]. rewrite app_nil_r. symmetry. apply firstn_all2. lia.
  - cbn [keywords map filter].
    change (nonempty (clean_line line) && (2 <=? len (clean_line line))%Z)
      with (valid_query (clean_line line)).
    destruct (valid_query (clean_line line)); [|now apply IH].
    replace (queries ++ clean_line line :: filter valid_query (map clean_line rest))
      with ((queries ++ [clean_line line])
            ++ filter valid_query (map clean_line rest))
      by (now rewrite <- app_assoc).
    destruct (3 <=? len (queries ++ [clean_line line]))%Z eqn:E.
    + apply Z.leb_le in E. unfold len in E. rewrite length_app in E. cbn in E.
      assert (length (queries ++ [clean_line line]) = 3) as H3
        by (rewrite length_app; cbn; lia).
      rewrite firstn_app, H3, firstn_O, app_nil_r.
      symmetry. apply firstn_all2. lia.
    + apply Z.leb_gt in E. unfold len in E. rewrite length_app in E. cbn in E.
      apply IH. rewrite length_app. cbn. lia.
Qed.

Lemma assistant_lines_usable (w : World) (window_title content : str) :
  assistant_config w = Ok tt ->
  assistant w window_title = Ok content ->
  assistant_lines w window_title = Some (usable_lines content).
Proof.
  intros Hc Ha. unfold assistant_lines, usable_lines. rewrite Hc, Ha.
  rewrite keywords_selected by (cbn; lia). reflexivity.
Qed.

(** C6 (counterexample). The active window is titled "- 12 - 12" and the
    assistant times out. The title cleans to the four characters "- 12",
    yet query generation cleans that once more, to the empty string, and
    returns three empty queries; the pipeline stops with the failure "no
    usable search keywords" before any search. *)
Lemma C6_counterexample_recleaned_title :
  clean_window_title (U "- 12 - 12") = U "- 12"
  /\ (3 <= len (clean_window_title (U "- 12 - 12")))%Z
  /\ assistant_failed desktop_world (clean_window_title (U "- 12 - 12")) = true
  /\ value_of (generate_diverse_queries desktop_world
                 (clean_window_title (U "- 12 - 12"))) = Ok [[]; []; []]
  /\ value_of (fetch_window_context_content desktop_world 5)
     = Ok (no_keywords (U "- 12 - 12")).
Proof.
  split; [vm_compute; reflexivity|].
  split; [vm_compute; congruence|].
  repeat split; vm_compute; reflexivity.
Qed.

(** C6 (amended). When the assistant call fails (it raises, times out, or
    gives fewer than three usable lines) and the title, cleaned once more
    by query generation, is not empty, [generate_diverse_queries] returns
    exactly three non-empty queries: the usable lines of the reply, if
    any, followed by copies of that re-cleaned title (three copies when the
    call raised). In the pipeline the title handed to query generation is
    the cleaned raw title; the pipeline goes on to the searches whenever
    the re-cleaned title has at least two characters, and it stops at the
    keyword check only when the re-cleaned title has fewer than two. *)
Theorem C6_fallback_queries (w : World) (limit : Z) :
  (forall window_title l,
      assistant_failed w window_title = true ->
      clean_window_title window_title <> [] ->
      exists queries l',
        generate_diverse_queries w window_title l = (Ok queries, l')
        /\ length queries = 3
        /\ Forall (fun q => q <> []) queries
        /\ In (clean_window_title window_title) queries
        /\ (forall q, In q queries ->
              q = clean_window_title window_title
              \/ exists lines, assistant_lines w window_title = Some lines
                               /\ In q lines)
        /\ (assistant_lines w window_title = None ->
            queries = repeat (clean_window_title window_title) 3)
        /\ (forall lines,
              assistant_lines w window_title = Some lines ->
              queries
              = lines ++ repeat (clean_window_title window_title)
                                (3 - length lines))
        /\ (forall content,
              assistant_config w = Ok tt ->
              assistant w window_title = Ok content ->
              assistant_lines w window_title = Some (usable_lines content)))
  /\ (forall sanitized_title raw l,
      get_active_window_title w = Some (sanitized_title, raw) ->
      assistant_failed w (clean_window_title raw) = true ->
      exists queries l' china,
        generate_diverse_queries w (clean_window_title raw) l = (Ok queries, l')
        /\ fetch_window_context_content w limit l
           = (if unusable queries
              then (Ok (no_keywords sanitized_title), l')
              else search_phase w china sanitized_title queries limit l')
        /\ ((2 <= len (clean_window_title (clean_window_title raw)))%Z ->
            unusable queries = false)
        /\ (unusable queries = true ->
            (len (clean_window_title (clean_window_title raw)) < 2)%Z)).
Proof.
  split.
  - intros window_title l Hfail Hne.
    destruct (failed_queries w window_title l Hfail) as [l' Hrun].
    cbn zeta in Hrun. unfold assistant_failed in Hfail.
    destruct (assistant_lines w window_title) as [lines|] eqn:El.
    + apply Z.ltb_lt in Hfail.
      pose proof (@padded_three lines _ Hfail Hne) as H3.
      rewrite (slice_three _ H3) in Hrun.
      exists (pad_queries lines (clean_window_title window_title)), l'.
      split; [exact Hrun|]. split; [exact H3|].
      destruct (@keywords_from_reply_of w window_title lines El) as [Hvalid _].
      unfold pad_queries in *.
      destruct (clean_window_title window_title) as [|c t] eqn:Ec; [congruence|].
      repeat split.
      * apply Forall_app. split.
        -- eapply Forall_impl; [|exact Hvalid].
           intros q Hq. now apply valid_query_spec in Hq.
        -- apply repeat_forall. discriminate.
      * apply in_or_app. right.
        unfold len in Hfail.
        destruct (3 - length lines) as [|n] eqn:En; [lia|]. now left.
      * intros q Hq. apply in_app_or in Hq as [Hq|Hq].
        -- right. exists lines. auto.
        -- left. now apply repeat_spec in Hq.
      * intros H. discriminate H.
      * intros lines0 H. inversion H; subst. reflexivity.
      * intros content Hc Ha. rewrite <- El. now apply assistant_lines_usable.
    + exists (repeat (clean_window_title window_title) 3), l'.
      split; [exact Hrun|]. split; [reflexivity|].
      repeat split.
      * apply repeat_forall. exact Hne.
      * now left.
      * intros q Hq. left. now apply repeat_spec in Hq.
      * intros lines0 H. discriminate H.
      * intros content Hc Ha. rewrite <- El. now apply assistant_lines_usable.
  - intros sanitized_title raw l Htitle Hfail.
    destruct (failed_queries w (clean_window_title raw) l Hfail) as [l' Hrun].
    cbn zeta in Hrun.
    destruct (is_china_region_total w) as [china Hchina].
    eexists. exists l', china.
    split; [exact Hrun|]. split.
    + unfold fetch_window_context_content, try_except at 1, bind at 1, lift at 1.
      rewrite Hchina, Htitle. unfold bind at 1. rewrite Hrun.
      match goal with |- context [unusable ?q] => destruct (unusable q) end;
        [reflexivity|].
      match goal with
      | |- context [search_phase w china sanitized_title ?q limit l'] =>
        destruct (search_phase_returns w china sanitized_title q limit l')
          as (v & l2 & ->)
      end.
      reflexivity.
    + unfold assistant_failed in Hfail.
      set (c := clean_window_title (clean_window_title raw)) in *.
      destruct (assistant_lines w (clean_window_title raw)) as [lines|] eqn:El.
      * apply Z.ltb_lt in Hfail.
        destruct (@keywords_from_reply_of w (clean_window_title raw) lines El)
          as [Hvalid _].
        destruct c as [|x t] eqn:Ec.
        -- split; [rewrite len_nil; lia|]. intros _. rewrite len_nil. lia.
        -- assert (x :: t <> []) as Hxt by discriminate.
           rewrite (slice_three _ (@padded_three lines (x :: t) Hfail Hxt)).
           unfold pad_queries.
           assert (unusable (lines ++ repeat (x :: t) (3 - length lines)) = true
                   -> (len (x :: t) < 2)%Z) as Hstop.
           { unfold unusable. intros H. apply orb_true_iff in H as [H|H].
             - apply negb_true_iff in H.
               destruct lines; cbn in H; try discriminate.
             - rewrite forallb_app in H. apply andb_true_iff in H as [_ H].
               unfold len in Hfail.
               destruct (3 - length lines) as [|n] eqn:En; [lia|].
               cbn [repeat forallb] in H. apply andb_true_iff in H as [H _].
               apply negb_true_iff in H. unfold valid_query in H.
               cbn [nonempty andb] in H. now apply Z.leb_gt in H. }
           split; [|exact Hstop].
           intros H2. apply not_true_is_false. intros Hu.
           pose proof (Hstop Hu). lia.
      * assert (unusable [c; c; c] = true -> (len c < 2)%Z) as Hstop.
        { unfold unusable. cbn [nonempty negb orb forallb].
          intros H. apply andb_true_iff in H as [H _].
          apply negb_true_iff in H. unfold valid_query in H.
          destruct c as [|x t]; [rewrite len_nil; lia|].
          cbn [nonempty andb] in H. now apply Z.leb_gt in H. }
        split; [|exact Hstop].
        intros H2. apply not_true_is_false. intros Hu.
        pose proof (Hstop Hu). lia.
Qed.

(** A browser window titled "Rocq Prover manual - Mozilla Firefox" and an
    assistant whose reply has only two usable lines: the two lines, in
    the order of the reply, then one copy of the cleaned title; the
    pipeline goes on to search. *)
Lemma C6_fallback_queries_witness :
  assistant_failed terse_world (U "Rocq Prover manual") = true
  /\ clean_window_title (U "Rocq Prover manual") <> []
  /\ get_active_window_title terse_world
     = Some (sanitize (U "Rocq Prover manual - Mozilla Firefox"),
             U "Rocq Prover manual - Mozilla Firefox")
  /\ (exists l',
        generate_diverse_queries terse_world (U "Rocq Prover manual") []
        = (Ok [U "rocq"; U "prover"; U "Rocq Prover manual"], l'))
  /\ (exists queries,
        value_of (generate_diverse_queries terse_world
                    (clean_window_title (U "Rocq Prover manual - Mozilla Firefox")))
        = Ok queries
        /\ unusable queries = false).
Proof.
  assert (Hfail : assistant_failed terse_world (U "Rocq Prover manual") = true)
    by (vm_compute; reflexivity).
  assert (Hne : clean_window_title (U "Rocq Prover manual") <> [])
    by (vm_compute; discriminate).
  assert (Htitle : get_active_window_title terse_world
                   = Some (sanitize (U "Rocq Prover manual - Mozilla Firefox"),
                           U "Rocq Prover manual - Mozilla Firefox"))
    by reflexivity.
  assert (Hfail' : assistant_failed terse_world
                     (clean_window_title (U "Rocq Prover manual - Mozilla Firefox"))
                   = true) by (vm_compute; reflexivity).
  assert (Hlen : (2 <= len (clean_window_title
                              (clean_window_title
                                 (U "Rocq Prover manual - Mozilla Firefox"))))%Z)
    by (vm_compute; discriminate).
  assert (Hlines : assistant_lines terse_world (U "Rocq Prover manual")
                   = Some [U "rocq"; U "prover"]) by (vm_compute; reflexivity).
  destruct (C6_fallback_queries terse_world 5) as [Hgen Hpipe].
  destruct (Hgen (U "Rocq Prover manual") [] Hfail Hne)
    as (queries & l' & Hrun & _ & _ & _ & _ & _ & Hexact & _).
  destruct (Hpipe _ _ [] Htitle Hfail')
    as (queries' & l'' & china & Hrun' & _ & Hgo & _).
  split; [exact Hfail|]. split; [exact Hne|]. split; [exact Htitle|].
  split.
  - exists l'. rewrite Hrun, (Hexact _ Hlines). vm_compute. reflexivity.
  - exists queries'. split.
    + unfold value_of. rewrite Hrun'. reflexivity.
    + exact (Hgo Hlen).
Defined.

Example manual_world_queries :
  value_of (generate_diverse_queries manual_world (U "Rocq Prover manual"))
  = Ok [U "Rocq Prover manual"; U "Rocq Prover manual"; U "Rocq Prover manual"].
Proof. vm_compute. reflexivity. Qed.

(* ------------------------------------------------------------------ *)
(** *** Exception safety and request budget of the fetchers *)

Lemma requested_none (l : Log) (options : list (list str)) :
  In [] options -> requested l l options.
Proof. intros H. exists []. split; [exact H|now rewrite app_nil_r]. Qed.

Lemma requested_one (l : Log) (u : str) (options : list (list str)) :
  In [u] options -> requested l (l ++ [u]) options.
Proof. intros H. exists [u]. split; [exact H|reflexivity]. Qed.

Lemma requested_two (l : Log) (u1 u2 : str) (options : list (list str)) :
  In [u1; u2] options -> requested l ((l ++ [u1]) ++ [u2]) options.
Proof.
  intros H. exists [u1; u2]. split; [exact H|now rewrite <- app_assoc].
Qed.

Lemma ran_intro (c : M pyval) (l l' : Log) (v : pyval) (options : list (list str)) :
  c l = (Ok v, l') -> fetch_result_shape v -> requested l l' options ->
  ran c l options.
Proof. intros H1 H2 H3. exists v, l'. auto. Qed.

Lemma shape_of_failure (msg : str) : fetch_result_shape (failure msg).
Proof. shape_failure. Qed.

Lemma bilibili_trending_run (w : World) (limit : Z) (l : Log) :
  ran (fetch_bilibili_trending w limit) l [[]; [bilibili_homepage_api]].
Proof.
  unfold ran, fetch_bilibili_trending, try_except, bind, request, lift, ret, raise.
  destruct (bilibili_api_installed w).
  - destruct (homepage_get_videos w) as [res|e].
    + destruct (bilibili_videos limit res) as [videos|e].
      * eexists; eexists; split; [reflexivity|]. split; [shape_success|].
        apply requested_one; cbn [In]; auto.
      * destruct (exn_kind e); eexists; eexists; (split; [reflexivity|]);
          (split; [shape_failure|]); apply requested_one; cbn [In]; auto.
    + destruct (exn_kind e); eexists; eexists; (split; [reflexivity|]);
        (split; [shape_failure|]); apply requested_one; cbn [In]; auto.
  - eexists; eexists; split; [reflexivity|]. split; [shape_failure|].
    apply requested_none; cbn [In]; auto.
Qed.

Lemma weibo_fallback_shape (w : World) (limit : Z) (response : Response) (v : pyval) :
  weibo_fallback_body w limit response = Ok v -> fetch_result_shape v.
Proof.
  unfold weibo_fallback_body. intros H. step_through H; inversion H; subst;
    try shape_failure; shape_success.
Qed.

Lemma weibo_fallback_run (w : World) (limit : Z) (l : Log) :
  ran (_fetch_weibo_trending_fallback w limit) l [[weibo_hotsearch_url]].
Proof.
  unfold ran, _fetch_weibo_trending_fallback, try_except, bind, request, lift, ret.
  destruct (http_get w weibo_hotsearch_url) as [response|e].
  - destruct (weibo_fallback_body w limit response) as [v|e] eqn:E.
    + eexists; eexists; split; [reflexivity|].
      split; [eapply weibo_fallback_shape; eauto|].
      apply requested_one; cbn [In]; auto.
    + eexists; eexists; split; [reflexivity|]. split; [shape_failure|].
      apply requested_one; cbn [In]; auto.
  - eexists; eexists; split; [reflexivity|]. split; [shape_failure|].
    apply requested_one; cbn [In]; auto.
Qed.

(** After the primary request, the fallback adds its one request. *)
Lemma weibo_after_primary (w : World) (limit : Z) (l : Log) :
  exists v,
    _fetch_weibo_trending_fallback w limit (l ++ [weibo_summary_url])
    = (Ok v, (l ++ [weibo_summary_url]) ++ [weibo_hotsearch_url])
    /\ fetch_result_shape v.
Proof.
  destruct (weibo_fallback_run w limit (l ++ [weibo_summary_url]))
    as (v & l' & Hrun & Hshape & extra & Hin & ->).
  cbn [In] in Hin. destruct Hin as [<-|[]]. eauto.
Qed.

Lemma weibo_trending_run (w : World) (limit : Z) (l : Log) :
  ran (fetch_weibo_trending w limit) l
      [[weibo_summary_url]; [weibo_summary_url; weibo_hotsearch_url]].
Proof.
  destruct (weibo_after_primary w limit l) as (vf & Hf & Hshape).
  assert (Hfall : ran (fun l0 => (Ok vf, (l ++ [weibo_summary_url]) ++ [weibo_hotsearch_url]))
                      l [[weibo_summary_url]; [weibo_summary_url; weibo_hotsearch_url]]).
  { eapply ran_intro; [reflexivity|exact Hshape|].
    apply requested_two; cbn [In]; auto. }
  unfold ran in *. unfold fetch_weibo_trending, try_except, bind, request, lift, ret.
  destruct (http_get w weibo_summary_url) as [response|e];
    [|rewrite Hf; exact Hfall].
  destruct (contains (U "passport") (final_url response));
    [rewrite Hf; exact Hfall|].
  destruct (td_items response) as [|td rows]; [rewrite Hf; exact Hfall|].
  destruct (for_each (weibo_row limit) (enumerate 0 (td :: rows)) [])
    as [[|t ts]|e]; try (rewrite Hf; exact Hfall).
  eexists; eexists; split; [reflexivity|]. split; [shape_success|].
  apply requested_one; cbn [In]; auto.
Qed.

Lemma reddit_popular_run (w : World) (limit : Z) (l : Log) :
  ran (fetch_reddit_popular w limit) l [[reddit_popular_url limit]].
Proof.
  unfold ran, fetch_reddit_popular, try_except, bind, request, lift, ret.
  destruct (http_get w (reddit_popular_url limit)) as [response|e].
  - match goal with
    | |- context [match ?c with Ok _ => _ | Raise _ => _ end] =>
      destruct c as [v|e] eqn:E
    end.
    + eexists; eexists; split; [reflexivity|]. split.
      * step_through E; inversion E; subst; [shape_failure|shape_success].
      * apply requested_one; cbn [In]; auto.
    + eexists; eexists; split; [reflexivity|]. split; [shape_failure|].
      apply requested_one; cbn [In]; auto.
  - eexists; eexists; split; [reflexivity|]. split; [shape_failure|].
    apply requested_one; cbn [In]; auto.
Qed.

Lemma twitter_trending_run (w : World) (limit : Z) (l : Log) :
  ran (fetch_twitter_trending w limit) l [[trends24_url]].
Proof.
  unfold ran, fetch_twitter_trending, try_except, bind, request, ret.
  destruct (http_get w trends24_url) as [response|e].
  - destruct (map (twitter_trend w)
                (filter (fun t => nonempty t) (slice_to limit (trend_links response))));
      eexists; eexists; (split; [reflexivity|]);
      (split; [first [shape_failure|shape_success]|]);
      apply requested_one; cbn [In]; auto.
  - eexists; eexists; split; [reflexivity|]. split; [shape_failure|].
    apply requested_one; cbn [In]; auto.
Qed.

Lemma bilibili_dynamics_shape (w : World) (limit : Z) (data v : pyval) :
  bilibili_dynamics w limit data = Ok v -> fetch_result_shape v.
Proof.
  unfold bilibili_dynamics. intros H. step_through H; inversion H; subst;
    try shape_failure; shape_success.
Qed.

Lemma bilibili_personal_run (w : World) (limit : Z) (l : Log) :
  ran (fetch_bilibili_personal_dynamic w limit) l [[]; [bilibili_feed_url]].
Proof.
  unfold ran, fetch_bilibili_personal_dynamic, try_except, bind, request, lift, ret.
  destruct (_get_bilibili_credential w).
  - destruct (http_get w bilibili_feed_url) as [response|e].
    + match goal with
      | |- context [match ?c with Ok _ => _ | Raise _ => _ end] =>
        destruct c as [v|e] eqn:E
      end.
      * eexists; eexists; split; [reflexivity|]. split.
        -- step_through E. eapply bilibili_dynamics_shape; eauto.
        -- apply requested_one; cbn [In]; auto.
      * eexists; eexists; split; [reflexivity|]. split; [shape_failure|].
        apply requested_one; cbn [In]; auto.
    + eexists; eexists; split; [reflexivity|]. split; [shape_failure|].
      apply requested_one; cbn [In]; auto.
  - eexists; eexists; split; [reflexivity|]. split; [shape_failure|].
    apply requested_none; cbn [In]; auto.
Qed.

Lemma weibo_statuses_shape (limit : Z) (response : Response) (v : pyval) :
  weibo_statuses limit response = Ok v -> fetch_result_shape v.
Proof.
  unfold weibo_statuses. intros H. step_through H; inversion H; subst;
    try shape_failure; shape_success.
Qed.

Lemma weibo_personal_run (w : World) (limit : Z) (l : Log) :
  ran (fetch_weibo_personal_dynamic w limit) l [[]; [weibo_feed_url]].
Proof.
  unfold ran, fetch_weibo_personal_dynamic, try_except, bind, request, lift, ret.
  destruct (platform_cookies w (U "weibo")) as [|c cs].
  - eexists; eexists; split; [reflexivity|]. split; [shape_failure|].
    apply requested_none; cbn [In]; auto.
  - match goal with
    | |- context [match ?t with [] => _ | _ :: _ => _ end] => destruct t
    end.
    + eexists; eexists; split; [reflexivity|]. split; [shape_failure|].
      apply requested_none; cbn [In]; auto.
    + destruct (http_get w weibo_feed_url) as [response|e].
      * destruct (weibo_statuses limit response) as [v|e] eqn:E.
        -- eexists; eexists; split; [reflexivity|].
           split; [eapply weibo_statuses_shape; eauto|].
           apply requested_one; cbn [In]; auto.
        -- eexists; eexists; split; [reflexivity|]. split; [shape_failure|].
           apply requested_one; cbn [In]; auto.
      * eexists; eexists; split; [reflexivity|]. split; [shape_failure|].
        apply requested_one; cbn [In]; auto.
Qed.

Lemma reddit_personal_run (w : World) (limit : Z) (l : Log) :
  ran (fetch_reddit_personal_dynamic w limit) l [[]; [reddit_hot_url limit]].
Proof.
  unfold ran, fetch_reddit_personal_dynamic, try_except, bind, request, lift, ret.
  destruct (platform_cookies w (U "reddit")) as [|c cs].
  - eexists; eexists; split; [reflexivity|]. split; [shape_failure|].
    apply requested_none; cbn [In]; auto.
  - destruct (http_get w (reddit_hot_url limit)) as [response|e].
    + match goal with
      | |- context [match ?c with Ok _ => _ | Raise _ => _ end] =>
        destruct c as [v|e] eqn:E
      end.
      * eexists; eexists; split; [reflexivity|]. split.
        -- step_through E; inversion E; subst; shape_success.
        -- apply requested_one; cbn [In]; auto.
      * eexists; eexists; split; [reflexivity|]. split; [shape_failure|].
        apply requested_one; cbn [In]; auto.
    + eexists; eexists; split; [reflexivity|]. split; [shape_failure|].
      apply requested_one; cbn [In]; auto.
Qed.

Lemma twitter_scraping_run (w : World) (limit : Z) (cookies : list (str * str))
    (l : Log) :
  ran (_fetch_twitter_personal_web_scraping w limit cookies) l [[twitter_home_url]].
Proof.
  unfold ran, _fetch_twitter_personal_web_scraping, try_except, bind, request, ret.
  destruct (http_get w twitter_home_url) as [res|e].
  - destruct (contains (U "login") (final_url res)
              || contains (U "logout") (final_url res)).
    + eexists; eexists; split; [reflexivity|]. split; [shape_failure|].
      apply requested_one; cbn [In]; auto.
    + destruct (scraped_tweets (slice_to limit (tweet_texts res)) (screen_names res));
        eexists; eexists; (split; [reflexivity|]);
        (split; [first [shape_failure|shape_success]|]);
        apply requested_one; cbn [In]; auto.
  - eexists; eexists; split; [reflexivity|]. split; [shape_failure|].
    apply requested_one; cbn [In]; auto.
Qed.

Lemma timeline_tweets_shape (limit : Z) (data v : pyval) :
  timeline_tweets limit data = Ok v -> fetch_result_shape v.
Proof.
  unfold timeline_tweets. intros H.
  destruct data; try (inversion H; subst; shape_failure).
  step_through H; inversion H; subst; [shape_failure|shape_success].
Qed.

Lemma twitter_personal_run (w : World) (limit : Z) (l : Log) :
  ran (fetch_twitter_personal_dynamic w limit) l
      [[]; [twitter_timeline_url limit];
       [twitter_timeline_url limit; twitter_home_url]].
Proof.
  unfold ran, fetch_twitter_personal_dynamic, try_except, bind, request, lift, ret.
  destruct (platform_cookies w (U "twitter")) as [|c cs].
  - eexists; eexists; split; [reflexivity|]. split; [shape_failure|].
    apply requested_none; cbn [In]; auto.
  - destruct (http_get w (twitter_timeline_url limit)) as [response|e].
    + destruct (negb (status_code response =? 200)%Z).
      * destruct (twitter_scraping_run w limit (c :: cs)
                    (l ++ [twitter_timeline_url limit]))
          as (v & l' & Hrun & Hshape & extra & Hin & ->).
        cbn [In] in Hin. destruct Hin as [<-|[]].
        rewrite Hrun. eexists; eexists; split; [reflexivity|].
        split; [exact Hshape|]. apply requested_two; cbn [In]; auto.
      * match goal with
        | |- context [match ?c with Ok _ => _ | Raise _ => _ end] =>
          destruct c as [v|e] eqn:E
        end.
        -- eexists; eexists; split; [reflexivity|]. split.
           ++ step_through E. eapply timeline_tweets_shape; eauto.
           ++ apply requested_one; cbn [In]; auto.
        -- eexists; eexists; split; [reflexivity|]. split; [shape_failure|].
           apply requested_one; cbn [In]; auto.
    + eexists; eexists; split; [reflexivity|]. split; [shape_failure|].
      apply requested_one; cbn [In]; auto.
Qed.

Lemma ran_value (c : M pyval) (l : Log) (options : list (list str)) :
  ran c l options ->
  exists v l', c l = (Ok v, l') /\ fetch_result_shape v.
Proof. intros (v & l' & H & Hs & _). eauto. Qed.

Lemma ran_requests (c : M pyval) (l : Log) (options : list (list str)) :
  ran c l options -> requested l (snd (c l)) options.
Proof. intros (v & l' & H & _ & Hr). now rewrite H. Qed.

(** X1. No exception escapes a fetcher: whatever the upstream answers or
    raises, each of the ten fetch functions returns a dictionary, and it is
    either [{'success': False, 'error': msg}] or [{'success': True}] with
    one item list under one of the six item keys. *)
Theorem X1_fetchers_return_shaped_results (w : World) (limit : Z) (l : Log)
    (cookies : list (str * str)) :
  (exists v l', fetch_bilibili_trending w limit l = (Ok v, l')
                /\ fetch_result_shape v)
  /\ (exists v l', fetch_weibo_trending w limit l = (Ok v, l')
                   /\ fetch_result_shape v)
  /\ (exists v l', _fetch_weibo_trending_fallback w limit l = (Ok v, l')
                   /\ fetch_result_shape v)
  /\ (exists v l', fetch_reddit_popular w limit l = (Ok v, l')
                   /\ fetch_result_shape v)
  /\ (exists v l', fetch_twitter_trending w limit l = (Ok v, l')
                   /\ fetch_result_shape v)
  /\ (exists v l', fetch_bilibili_personal_dynamic w limit l = (Ok v, l')
                   /\ fetch_result_shape v)
  /\ (exists v l', fetch_weibo_personal_dynamic w limit l = (Ok v, l')
                   /\ fetch_result_shape v)
  /\ (exists v l', fetch_reddit_personal_dynamic w limit l = (Ok v, l')
                   /\ fetch_result_shape v)
  /\ (exists v l', _fetch_twitter_personal_web_scraping w limit cookies l = (Ok v, l')
                   /\ fetch_result_shape v)
  /\ (exists v l', fetch_twitter_personal_dynamic w limit l = (Ok v, l')
                   /\ fetch_result_shape v).
Proof.
  repeat split.
  - exact (ran_value (bilibili_trending_run w limit l)).
  - exact (ran_value (weibo_trending_run w limit l)).
  - exact (ran_value (weibo_fallback_run w limit l)).
  - exact (ran_value (reddit_popular_run w limit l)).
  - exact (ran_value (twitter_trending_run w limit l)).
  - exact (ran_value (bilibili_personal_run w limit l)).
  - exact (ran_value (weibo_personal_run w limit l)).
  - exact (ran_value (reddit_personal_run w limit l)).
  - exact (ran_value (twitter_scraping_run w limit cookies l)).
  - exact (ran_value (twitter_personal_run w limit l)).
Qed.

(** X2. Request budget: a fetcher issues its one primary request (none
    when the library or the credentials are missing); only the Weibo
    trending fetcher and the Twitter timeline fetcher may add one request
    to their fallback endpoint after it.  Nothing is ever requested twice:
    there is no retry. *)
Theorem X2_fetchers_request_budget (w : World) (limit : Z) (l : Log)
    (cookies : list (str * str)) :
  requested l (snd (fetch_bilibili_trending w limit l)) [[]; [bilibili_homepage_api]]
  /\ requested l (snd (fetch_weibo_trending w limit l))
       [[weibo_summary_url]; [weibo_summary_url; weibo_hotsearch_url]]
  /\ requested l (snd (_fetch_weibo_trending_fallback w limit l))
       [[weibo_hotsearch_url]]
  /\ requested l (snd (fetch_reddit_popular w limit l)) [[reddit_popular_url limit]]
  /\ requested l (snd (fetch_twitter_trending w limit l)) [[trends24_url]]
  /\ requested l (snd (fetch_bilibili_personal_dynamic w limit l))
       [[]; [bilibili_feed_url]]
  /\ requested l (snd (fetch_weibo_personal_dynamic w limit l)) [[]; [weibo_feed_url]]
  /\ requested l (snd (fetch_reddit_personal_dynamic w limit l))
       [[]; [reddit_hot_url limit]]
  /\ requested l (snd (_fetch_twitter_personal_web_scraping w limit cookies l))
       [[twitter_home_url]]
  /\ requested l (snd (fetch_twitter_personal_dynamic w limit l))
       [[]; [twitter_timeline_url limit];
        [twitter_timeline_url limit; twitter_home_url]].
Proof.
  repeat split.
  - exact (ran_requests (bilibili_trending_run w limit l)).
  - exact (ran_requests (weibo_trending_run w limit l)).
  - exact (ran_requests (weibo_fallback_run w limit l)).
  - exact (ran_requests (reddit_popular_run w limit l)).
  - exact (ran_requests (twitter_trending_run w limit l)).
  - exact (ran_requests (bilibili_personal_run w limit l)).
  - exact (ran_requests (weibo_personal_run w limit l)).
  - exact (ran_requests (reddit_personal_run w limit l)).
  - exact (ran_requests (twitter_scraping_run w limit cookies l)).
  - exact (ran_requests (twitter_personal_run w limit l)).
Qed.

Example feed_world_weibo :
  exists statuses,
    fetch_weibo_personal_dynamic feed_world 10 []
    = (Ok (success_with (U "statuses") statuses), [weibo_feed_url])
    /\ length statuses = 1.
Proof. eexists. split; vm_compute; reflexivity. Qed.

(* ------------------------------------------------------------------ *)
(** *** Region gating of the aggregations *)

Lemma requested_seq (l l1 l2 : Log) (first second : list (list str)) :
  requested l l1 first -> requested l1 l2 second ->
  requested l l2 (sequences first second).
Proof.
  intros (a & Ha & ->) (b & Hb & ->). exists (a ++ b). split.
  - unfold sequences. apply in_flat_map. exists a. split; [exact Ha|].
    apply in_map_iff. exists b. auto.
  - now rewrite app_assoc.
Qed.

Lemma succeeded_of_shape (v : pyval) :
  fetch_result_shape v -> exists b, succeeded v = Ok b.
Proof.
  intros [(msg & ->)|(key & items & _ & ->)]; eexists; reflexivity.
Qed.

(** Both fan-outs run the first branch, then the second, and return. *)
Lemma fan_out_requests (china : bool) (ta tb tc td : M pyval) (l : Log)
    (first second : list (list str)) :
  ran (fst (active china ta tb tc td)) l first ->
  (forall l1, ran (snd (active china ta tb tc td)) l1 second) ->
  requested l (snd (public_content_of (Ok china) ta tb tc td l))
            (sequences first second)
  /\ requested l (snd (personal_dynamics_of (Ok china) ta tb tc td l))
               (sequences first second).
Proof.
  intros (va & l1 & Ha & Hsa & Hra) Hb.
  destruct (Hb l1) as (vb & l2 & Hb' & Hsb & Hrb).
  destruct (succeeded_of_shape Hsa) as [oa Hoa].
  destruct (succeeded_of_shape Hsb) as [ob Hob].
  split.
  - destruct (@public_envelope china ta tb tc td l l1 l2 (Ok va) (Ok vb) oa ob
                Ha Hb' Hoa Hob) as (env & Hrun & _).
    rewrite Hrun. cbn [snd]. eapply requested_seq; eauto.
  - destruct (@personal_envelope china ta tb tc td l l1 l2 (Ok va) (Ok vb) Ha Hb')
      as (env & Hrun & _).
    rewrite Hrun. cbn [snd]. eapply requested_seq; eauto.
Qed.

Lemma interleaving_app (a b : list str) : interleaving a b (a ++ b).
Proof.
  induction a as [|x a IH]; cbn [app].
  - induction b as [|y b IH]; constructor. exact IH.
  - constructor. exact IH.
Qed.

Lemma interleaving_members (a b c : list str) :
  interleaving a b c -> forall u, In u c <-> In u a \/ In u b.
Proof.
  induction 1 as [|x a b c _ IH|x a b c _ IH]; intros u; cbn [In];
    [tauto| |]; rewrite IH; tauto.
Qed.

Lemma requested_concurrent (l l' : Log) (first second : list (list str)) :
  requested l l' (sequences first second) -> concurrent l l' first second.
Proof.
  intros (extra & Hin & ->). unfold sequences in Hin.
  apply in_flat_map in Hin as (a & Ha & Hin).
  apply in_map_iff in Hin as (b & <- & Hb).
  exists a, b, (a ++ b). repeat split; auto. apply interleaving_app.
Qed.

(** The requests of the two aggregations under the schedule that runs the
    first branch to its end before the second. *)
Lemma region_requests_in_turn (w : World)
    (bilibili_limit douyin_limit kuaishou_limit weibo_limit reddit_limit
     twitter_limit limit : Z) (l : Log) :
  requested l
    (snd (fetch_public_content w bilibili_limit douyin_limit kuaishou_limit
            weibo_limit reddit_limit twitter_limit l))
    (if domestic w
     then sequences [[]; [bilibili_homepage_api]]
                    [[weibo_summary_url]; [weibo_summary_url; weibo_hotsearch_url]]
     else sequences [[reddit_popular_url reddit_limit]] [[trends24_url]])
  /\ requested l (snd (fetch_personal_dynamics w limit l))
       (if domestic w
        then sequences [[]; [bilibili_feed_url]] [[]; [weibo_feed_url]]
        else sequences [[]; [reddit_hot_url limit]]
                       [[]; [twitter_timeline_url limit];
                        [twitter_timeline_url limit; twitter_home_url]]).
Proof.
  unfold fetch_public_content, fetch_personal_dynamics.
  rewrite (is_china_region_value w). fold (domestic w).
  destruct (domestic w); split.
  - exact (proj1 (@fan_out_requests true (fetch_bilibili_trending w bilibili_limit)
                    (fetch_weibo_trending w weibo_limit)
                    (fetch_reddit_popular w reddit_limit)
                    (fetch_twitter_trending w twitter_limit) l _ _
                    (bilibili_trending_run w bilibili_limit l)
                    (weibo_trending_run w weibo_limit))).
  - exact (proj2 (@fan_out_requests true (fetch_bilibili_personal_dynamic w limit)
                    (fetch_weibo_personal_dynamic w limit)
                    (fetch_reddit_personal_dynamic w limit)
                    (fetch_twitter_personal_dynamic w limit) l _ _
                    (bilibili_personal_run w limit l)
                    (weibo_personal_run w limit))).
  - exact (proj1 (@fan_out_requests false (fetch_bilibili_trending w bilibili_limit)
                    (fetch_weibo_trending w weibo_limit)
                    (fetch_reddit_popular w reddit_limit)
                    (fetch_twitter_trending w twitter_limit) l _ _
                    (reddit_popular_run w reddit_limit l)
                    (twitter_trending_run w twitter_limit))).
  - exact (proj2 (@fan_out_requests false (fetch_bilibili_personal_dynamic w limit)
                    (fetch_weibo_personal_dynamic w limit)
                    (fetch_reddit_personal_dynamic w limit)
                    (fetch_twitter_personal_dynamic w limit) l _ _
                    (reddit_personal_run w limit l)
                    (twitter_personal_run w limit))).
Qed.

(** X3. Region gating: in the Domestic region the public aggregation
    requests only Bilibili's and Weibo's endpoints and the personal one
    only their feed endpoints; in the International region only Reddit's
    and Twitter's.  The requests are those of the first platform's fetcher
    and those of the second, each fetcher's in its own order and merged in
    some order: the two fetchers run concurrently, so no order between
    them is stated. *)
Theorem X3_region_gates_requests (w : World)
    (bilibili_limit douyin_limit kuaishou_limit weibo_limit reddit_limit
     twitter_limit limit : Z) (l : Log) :
  (if domestic w
   then concurrent l
          (snd (fetch_public_content w bilibili_limit douyin_limit kuaishou_limit
                  weibo_limit reddit_limit twitter_limit l))
          [[]; [bilibili_homepage_api]]
          [[weibo_summary_url]; [weibo_summary_url; weibo_hotsearch_url]]
   else concurrent l
          (snd (fetch_public_content w bilibili_limit douyin_limit kuaishou_limit
                  weibo_limit reddit_limit twitter_limit l))
          [[reddit_popular_url reddit_limit]] [[trends24_url]])
  /\ (if domestic w
      then concurrent l (snd (fetch_personal_dynamics w limit l))
             [[]; [bilibili_feed_url]] [[]; [weibo_feed_url]]
      else concurrent l (snd (fetch_personal_dynamics w limit l))
             [[]; [reddit_hot_url limit]]
             [[]; [twitter_timeline_url limit];
              [twitter_timeline_url limit; twitter_home_url]]).
Proof.
  destruct (region_requests_in_turn w bilibili_limit douyin_limit kuaishou_limit
              weibo_limit reddit_limit twitter_limit limit l) as [Hpublic Hpersonal].
  destruct (domestic w); split; now apply requested_concurrent.
Qed.

Example walled_world_requests :
  requests_of (fetch_public_content walled_world 10 10 10 10 10 10)
  = [weibo_summary_url; weibo_hotsearch_url].
Proof. vm_compute. reflexivity. Qed.

(* ------------------------------------------------------------------ *)
(** *** Single-content variants *)

Lemma single_envelope (w : World) (f g : Z -> M pyval) (limit : Z) (key : str)
    (l : Log) (options : list (list str)) :
  key = U "video" \/ key = U "news" ->
  ran ((if domestic w then f else g) limit) l options ->
  exists r l' env e,
    (if domestic w then f else g) limit l = (Ok r, l')
    /\ _fetch_content_by_region w f g limit key l = (Ok env, l')
    /\ fetch_result_shape r
    /\ field env (U "success") = field r (U "success")
    /\ field env (U "region")
       = Ok (PStr (if domestic w then U "china" else U "non-china"))
    /\ field env key = Ok r
    /\ field r (U "error") = Ok e
    /\ field env (U "error") = Ok (if truthy e then e else PNone).
Proof.
  intros Hkey (r & l' & Hrun & Hshape & _).
  exists r, l'.
  unfold _fetch_content_by_region, bind at 1, lift at 1.
  rewrite (is_china_region_value w). fold (domestic w).
  unfold try_except, bind, lift, ret.
  destruct (domestic w); rewrite Hrun; clear Hrun;
    (destruct Hshape as [(msg & ->)|(ikey & items & Hin & ->)];
     [destruct msg as [|c t]
     |cbn [In item_keys] in Hin;
      repeat (destruct Hin as [<-|Hin]); try contradiction]);
    destruct Hkey as [->| ->];
    eexists; eexists;
    (split; [reflexivity|]); (split; [reflexivity|]);
    (split; [first [shape_failure|shape_success]|]);
    repeat split; reflexivity.
Qed.

(** X4. The single-content variants launch exactly the one fetcher of the
    region and wrap its result without altering it: the envelope repeats
    the fetcher's success flag, names the region, stores the result under
    ['video'] (resp. ['news']) and surfaces the fetcher's error at the top
    level exactly when that error is non-empty; the request log is the
    fetcher's. *)
Theorem X4_single_content_envelope (w : World) (limit : Z) (l : Log) :
  (exists r l' env e,
      (if domestic w then fetch_bilibili_trending w else fetch_reddit_popular w)
        limit l = (Ok r, l')
      /\ fetch_video_content w limit l = (Ok env, l')
      /\ fetch_result_shape r
      /\ field env (U "success") = field r (U "success")
      /\ field env (U "region")
         = Ok (PStr (if domestic w then U "china" else U "non-china"))
      /\ field env (U "video") = Ok r
      /\ field r (U "error") = Ok e
      /\ field env (U "error") = Ok (if truthy e then e else PNone))
  /\ (exists r l' env e,
      (if domestic w then fetch_weibo_trending w else fetch_twitter_trending w)
        limit l = (Ok r, l')
      /\ fetch_news_content w limit l = (Ok env, l')
      /\ fetch_result_shape r
      /\ field env (U "success") = field r (U "success")
      /\ field env (U "region")
         = Ok (PStr (if domestic w then U "china" else U "non-china"))
      /\ field env (U "news") = Ok r
      /\ field r (U "error") = Ok e
      /\ field env (U "error") = Ok (if truthy e then e else PNone)).
Proof.
  split.
  - apply (@single_envelope w (fetch_bilibili_trending w) (fetch_reddit_popular w)
             limit (U "video") l
             (if domestic w then [[]; [bilibili_homepage_api]]
              else [[reddit_popular_url limit]])); [now left|].
    destruct (domestic w);
      [apply bilibili_trending_run|apply reddit_popular_run].
  - apply (@single_envelope w (fetch_weibo_trending w) (fetch_twitter_trending w)
             limit (U "news") l
             (if domestic w
              then [[weibo_summary_url]; [weibo_summary_url; weibo_hotsearch_url]]
              else [[trends24_url]])); [now right|].
    destruct (domestic w);
      [apply weibo_trending_run|apply twitter_trending_run].
Qed.

Example bare_world_video :
  value_of (fetch_video_content bare_world 10)
  = Ok (PDict [(U "success", PBool false); (U "region", PStr (U "non-china"));
               (U "video", failure (exn_str unreachable));
               (U "error", PStr (exn_str unreachable))]).
Proof. vm_compute. reflexivity. Qed.

(* ------------------------------------------------------------------ *)
(** *** The items of a successful result are dictionaries *)

Lemma dict_items_failure (key msg : str) : dict_items key (Ok (failure msg)).
Proof. intros v H. inversion H; subst. left. eauto. Qed.

Lemma dict_items_success (key : str) (items : list pyval) :
  all_dicts items -> dict_items key (Ok (success_with key items)).
Proof. intros Hd v H. inversion H; subst. right. eauto. Qed.

Lemma dict_items_run (key : str) (c : M pyval) (l l' : Log) (v : pyval) :
  dict_items key (fst (c l)) -> c l = (Ok v, l') -> returns_items key v.
Proof. intros H E. apply H. now rewrite E. Qed.

Lemma for_each_dicts (X : Type)
    (body : X -> list pyval -> result (step (list pyval))) :
  (forall x acc s, body x acc = Ok s -> appends_dicts acc s) ->
  forall xs acc r, all_dicts acc -> for_each body xs acc = Ok r -> all_dicts r.
Proof.
  intros Hbody. induction xs as [|x xs IH]; intros acc r Hacc H.
  - cbn in H. now inversion H; subst.
  - cbn [for_each] in H. destruct (body x acc) as [s|e] eqn:E; [|discriminate].
    cbn [rbind] in H. destruct (Hbody x acc s E) as (extra & Hs & Hd).
    assert (all_dicts (step_value s)) as Hnew.
    { rewrite Hs. apply Forall_app. auto. }
    destruct s as [a|a]; cbn [step_value] in Hnew.
    + now apply (IH a).
    + now inversion H; subst.
Qed.

Lemma comprehension_dicts (X : Type) (keep : X -> result bool)
    (f : X -> result pyval) :
  (forall x y, f x = Ok y -> is_dict y = true) ->
  forall xs ys, comprehension keep f xs = Ok ys -> all_dicts ys.
Proof.
  intros Hf. induction xs as [|x xs IH]; intros ys H.
  - cbn in H. inversion H; subst. constructor.
  - cbn [comprehension] in H.
    destruct (keep x) as [[|]|e]; cbn [rbind] in H; try discriminate.
    + destruct (f x) as [y|e] eqn:Ef; cbn [rbind] in H; [|discriminate].
      destruct (comprehension keep f xs) as [ys'|e]; cbn [rbind] in H;
        [|discriminate].
      inversion H; subst. constructor; [now apply (Hf x)|now apply IH].
    + now apply IH.
Qed.

Lemma bilibili_video_dicts (limit : Z) (item : pyval) (videos : list pyval)
    (s : step (list pyval)) :
  bilibili_video limit item videos = Ok s -> appends_dicts videos s.
Proof.
  unfold bilibili_video. intros H. step_through H; inversion H; subst;
    first [appended_none|appended_one].
Qed.

Lemma weibo_row_dicts (limit : Z) (row : Z * TdItem) (trending_list : list pyval)
    (s : step (list pyval)) :
  weibo_row limit row trending_list = Ok s -> appends_dicts trending_list s.
Proof.
  unfold weibo_row. destruct row as [i td]. intros H.
  destruct (limit <=? len trending_list)%Z; [inversion H; subst; appended_none|].
  destruct (td_a td) as [[word href]|]; [|inversion H; subst; appended_none].
  destruct (nonempty word); inversion H; subst; first [appended_none|appended_one].
Qed.

Lemma reddit_post_dict (w : World) (pd post : pyval) :
  reddit_post w pd = Ok post -> is_dict post = true.
Proof.
  unfold reddit_post. intros H. step_through H. now inversion H; subst.
Qed.

Lemma reddit_popular_row_dicts (w : World) (item : pyval) (posts : list pyval)
    (s : step (list pyval)) :
  reddit_popular_row w item posts = Ok s -> appends_dicts posts s.
Proof.
  unfold reddit_popular_row. intros H. step_through H; inversion H; subst;
    [appended_none|].
  eexists [_]. split; [reflexivity|].
  constructor; [|constructor]. eapply reddit_post_dict; eauto.
Qed.

Lemma weibo_fallback_entry_dict (w : World) (item entry : pyval) :
  weibo_fallback_entry w item = Ok entry -> is_dict entry = true.
Proof.
  unfold weibo_fallback_entry. intros H. step_through H; now inversion H; subst.
Qed.

Lemma bilibili_dynamic_dicts (w : World) (limit : Z) (item : pyval)
    (dynamic_list : list pyval) (s : step (list pyval)) :
  bilibili_dynamic_row w limit item dynamic_list = Ok s ->
  appends_dicts dynamic_list s.
Proof.
  unfold bilibili_dynamic_row. destruct (negb (is_dict item)).
  - intros H. inversion H; subst. appended_none.
  - destruct (bilibili_dynamic w limit item dynamic_list) as [s'|e] eqn:E;
      cbn [rcatch]; intros H; inversion H; subst; [|appended_none].
    unfold bilibili_dynamic in E. step_through E; inversion E; subst;
      first [appended_none|appended_one].
Qed.

Lemma weibo_status_dicts (limit : Z) (card : pyval) (weibo_list : list pyval)
    (s : step (list pyval)) :
  weibo_status limit card weibo_list = Ok s -> appends_dicts weibo_list s.
Proof.
  unfold weibo_status. intros H. step_through H; inversion H; subst;
    first [appended_none|appended_one].
Qed.

Lemma timeline_tweet_dicts (tweet : pyval) (tweets : list pyval)
    (s : step (list pyval)) :
  timeline_tweet tweet tweets = Ok s -> appends_dicts tweets s.
Proof.
  unfold timeline_tweet. intros H. step_through H; inversion H; subst;
    first [appended_none|appended_one].
Qed.

Lemma scraped_tweets_dicts (texts names : list str) :
  all_dicts (scraped_tweets texts names).
Proof.
  revert names. induction texts as [|t texts IH]; intros names; cbn [scraped_tweets].
  - constructor.
  - constructor; [reflexivity|apply IH].
Qed.

Lemma twitter_trend_dicts (w : World) (texts : list str) :
  all_dicts (map (twitter_trend w) texts).
Proof. induction texts; cbn [map]; constructor; auto. Qed.

Lemma bilibili_trending_items (w : World) (limit : Z) (l : Log) :
  dict_items (U "videos") (fst (fetch_bilibili_trending w limit l)).
Proof.
  unfold fetch_bilibili_trending, try_except, bind, request, lift, ret, raise.
  destruct (bilibili_api_installed w); [|apply dict_items_failure].
  destruct (homepage_get_videos w) as [res|e];
    [|destruct (exn_kind e); apply dict_items_failure].
  destruct (bilibili_videos limit res) as [videos|e] eqn:E;
    [|destruct (exn_kind e); apply dict_items_failure].
  apply dict_items_success. unfold bilibili_videos in E.
  destruct (truthy res); [|inversion E; subst; constructor].
  step_through E.
  eapply for_each_dicts; eauto using bilibili_video_dicts. constructor.
Qed.

Lemma weibo_fallback_items (w : World) (limit : Z) (l : Log) :
  dict_items (U "trending") (fst (_fetch_weibo_trending_fallback w limit l)).
Proof.
  unfold _fetch_weibo_trending_fallback, try_except, bind, request, lift, ret.
  destruct (http_get w weibo_hotsearch_url) as [response|e];
    [|apply dict_items_failure].
  destruct (weibo_fallback_body w limit response) as [v|e] eqn:E;
    [|apply dict_items_failure].
  unfold weibo_fallback_body in E. step_through E; inversion E; subst;
    try apply dict_items_failure.
  apply dict_items_success.
  match goal with
  | H : comprehension _ _ _ = Ok _ |- _ => eapply comprehension_dicts; [|exact H]
  end.
  intros x y. apply weibo_fallback_entry_dict.
Qed.

Lemma weibo_trending_items (w : World) (limit : Z) (l : Log) :
  dict_items (U "trending") (fst (fetch_weibo_trending w limit l)).
Proof.
  destruct (weibo_after_primary w limit l) as (vf & Hf & _).
  pose proof (weibo_fallback_items w limit (l ++ [weibo_summary_url])) as Hitems.
  rewrite Hf in Hitems. cbn [fst] in Hitems.
  unfold fetch_weibo_trending, try_except, bind, request, lift, ret.
  destruct (http_get w weibo_summary_url) as [response|e];
    [|rewrite Hf; exact Hitems].
  destruct (contains (U "passport") (final_url response));
    [rewrite Hf; exact Hitems|].
  destruct (td_items response) as [|td rows]; [rewrite Hf; exact Hitems|].
  destruct (for_each (weibo_row limit) (enumerate 0 (td :: rows)) [])
    as [trending_list|e] eqn:E; [|rewrite Hf; exact Hitems].
  assert (all_dicts trending_list) as Hd.
  { eapply for_each_dicts; eauto using weibo_row_dicts. constructor. }
  destruct trending_list; [rewrite Hf; exact Hitems|].
  now apply dict_items_success.
Qed.

Lemma reddit_popular_items (w : World) (limit : Z) (l : Log) :
  dict_items (U "posts") (fst (fetch_reddit_popular w limit l)).
Proof.
  unfold fetch_reddit_popular, try_except, bind, request, lift, ret.
  destruct (http_get w (reddit_popular_url limit)) as [response|e];
    [|apply dict_items_failure].
  match goal with
  | |- context [match ?c with Ok _ => _ | Raise _ => _ end] =>
    destruct c as [v|e] eqn:E
  end; [|apply dict_items_failure].
  step_through E; inversion E; subst; [apply dict_items_failure|].
  apply dict_items_success.
  eapply for_each_dicts; eauto using reddit_popular_row_dicts. constructor.
Qed.

Lemma twitter_trending_items (w : World) (limit : Z) (l : Log) :
  dict_items (U "trending") (fst (fetch_twitter_trending w limit l)).
Proof.
  unfold fetch_twitter_trending, try_except, bind, request, ret.
  destruct (http_get w trends24_url) as [response|e]; [|apply dict_items_failure].
  destruct (map (twitter_trend w)
              (filter (fun t => nonempty t) (slice_to limit (trend_links response))))
    as [|t ts] eqn:E; [apply dict_items_failure|].
  apply dict_items_success. rewrite <- E. apply twitter_trend_dicts.
Qed.

Lemma bilibili_personal_items (w : World) (limit : Z) (l : Log) :
  dict_items (U "dynamics") (fst (fetch_bilibili_personal_dynamic w limit l)).
Proof.
  unfold fetch_bilibili_personal_dynamic, try_except, bind, request, lift, ret.
  destruct (_get_bilibili_credential w); [|apply dict_items_failure].
  destruct (http_get w bilibili_feed_url) as [response|e];
    [|apply dict_items_failure].
  match goal with
  | |- context [match ?c with Ok _ => _ | Raise _ => _ end] =>
    destruct c as [v|e] eqn:E
  end; [|apply dict_items_failure].
  step_through E. unfold bilibili_dynamics in E. step_through E;
    inversion E; subst; try apply dict_items_failure.
  apply dict_items_success.
  eapply for_each_dicts; eauto using bilibili_dynamic_dicts. constructor.
Qed.

Lemma weibo_personal_items (w : World) (limit : Z) (l : Log) :
  dict_items (U "statuses") (fst (fetch_weibo_personal_dynamic w limit l)).
Proof.
  unfold fetch_weibo_personal_dynamic, try_except, bind, request, lift, ret.
  destruct (platform_cookies w (U "weibo")) as [|c cs]; [apply dict_items_failure|].
  match goal with
  | |- context [match ?t with [] => _ | _ :: _ => _ end] => destruct t
  end; [apply dict_items_failure|].
  destruct (http_get w weibo_feed_url) as [response|e]; [|apply dict_items_failure].
  destruct (weibo_statuses limit response) as [v|e] eqn:E;
    [|apply dict_items_failure].
  unfold weibo_statuses in E. step_through E;
    inversion E; subst; try apply dict_items_failure.
  apply dict_items_success.
  eapply for_each_dicts; eauto using weibo_status_dicts. constructor.
Qed.

Lemma reddit_personal_items (w : World) (limit : Z) (l : Log) :
  dict_items (U "posts") (fst (fetch_reddit_personal_dynamic w limit l)).
Proof.
  unfold fetch_reddit_personal_dynamic, try_except, bind, request, lift, ret.
  destruct (platform_cookies w (U "reddit")) as [|c cs]; [apply dict_items_failure|].
  destruct (http_get w (reddit_hot_url limit)) as [response|e];
    [|apply dict_items_failure].
  match goal with
  | |- context [match ?c with Ok _ => _ | Raise _ => _ end] =>
    destruct c as [v|e] eqn:E
  end; [|apply dict_items_failure].
  step_through E. inversion E; subst.
  apply dict_items_success.
  match goal with
  | H : comprehension _ _ _ = Ok _ |- _ => eapply comprehension_dicts; [|exact H]
  end.
  intros x y Hy. cbn beta in Hy. step_through Hy. eapply reddit_post_dict; eauto.
Qed.

Lemma twitter_scraping_items (w : World) (limit : Z) (cookies : list (str * str))
    (l : Log) :
  dict_items (U "tweets") (fst (_fetch_twitter_personal_web_scraping w limit cookies l)).
Proof.
  unfold _fetch_twitter_personal_web_scraping, try_except, bind, request, ret.
  destruct (http_get w twitter_home_url) as [res|e]; [|apply dict_items_failure].
  destruct (contains (U "login") (final_url res)
            || contains (U "logout") (final_url res)); [apply dict_items_failure|].
  destruct (scraped_tweets (slice_to limit (tweet_texts res)) (screen_names res))
    as [|t ts] eqn:E; [apply dict_items_failure|].
  apply dict_items_success. rewrite <- E. apply scraped_tweets_dicts.
Qed.

Lemma twitter_personal_items (w : World) (limit : Z) (l : Log) :
  dict_items (U "tweets") (fst (fetch_twitter_personal_dynamic w limit l)).
Proof.
  unfold fetch_twitter_personal_dynamic, try_except, bind, request, lift, ret.
  destruct (platform_cookies w (U "twitter")) as [|c cs]; [apply dict_items_failure|].
  destruct (http_get w (twitter_timeline_url limit)) as [response|e];
    [|apply dict_items_failure].
  destruct (negb (status_code response =? 200)%Z).
  - destruct (_fetch_twitter_personal_web_scraping w limit (c :: cs)
                (l ++ [twitter_timeline_url limit])) as [[v|e] l'] eqn:E;
      [|apply dict_items_failure].
    change (Ok v) with (fst (Ok v, l')). rewrite <- E.
    apply twitter_scraping_items.
  - match goal with
    | |- context [match ?c with Ok _ => _ | Raise _ => _ end] =>
      destruct c as [v|e] eqn:E
    end; [|apply dict_items_failure].
    step_through E. unfold timeline_tweets in E.
    match type of E with
    | match ?d with PList _ => _ | _ => _ end = Ok _ =>
      destruct d as [| | | |tl|]; try (inversion E; subst; apply dict_items_failure)
    end.
    step_through E; inversion E; subst; [apply dict_items_failure|].
    apply dict_items_success.
    eapply for_each_dicts; eauto using timeline_tweet_dicts. constructor.
Qed.

(* ------------------------------------------------------------------ *)
(** *** Formatters *)

Lemma get_of_field (env : pyval) (k : str) (v default : pyval) :
  field env k = Ok v -> v <> PNone -> py_get env k default = Ok v.
Proof.
  unfold field. destruct env as [| | | | |d]; cbn [py_get]; try discriminate.
  destruct (lookup k d); intros H Hv; inversion H; subst; congruence.
Qed.

Lemma returns_items_value (key : str) (v : pyval) : returns_items key v -> v <> PNone.
Proof. intros [(msg & ->)|(items & -> & _)]; discriminate. Qed.

Lemma all_dicts_forallb (items : list pyval) :
  forallb is_dict items = true -> all_dicts items.
Proof.
  intros H. apply Forall_forall. intros x Hx.
  rewrite forallb_forall in H. now apply H.
Qed.

Lemma slice_to_dicts (limit : Z) (items : list pyval) :
  all_dicts items -> all_dicts (slice_to limit items).
Proof.
  intros H. unfold slice_to.
  destruct (0 <=? limit)%Z; apply Forall_forall; intros x Hx;
    apply in_firstn in Hx; revert x Hx; now apply Forall_forall.
Qed.

Lemma slice_to_length (A : Type) (limit : Z) (l : list A) :
  (0 <= limit)%Z -> len (slice_to limit l) = Z.min limit (len l).
Proof.
  intros H. unfold slice_to, len.
  destruct (0 <=? limit)%Z eqn:E; [|lia].
  rewrite length_firstn. lia.
Qed.

Lemma enumerate_length (X : Type) (xs : list X) (start : Z) :
  length (enumerate start xs) = length xs.
Proof.
  revert start. induction xs as [|x xs IH]; intros start; cbn [enumerate length];
    [reflexivity|now rewrite IH].
Qed.

Lemma enumerate_dicts (items : list pyval) (start : Z) :
  all_dicts items ->
  Forall (fun row => is_dict (snd row) = true) (enumerate start items).
Proof.
  intros H. revert start. induction H as [|x xs Hx Hxs IH]; intros start;
    cbn [enumerate]; constructor; auto.
Qed.

Lemma for_each_renders (k : nat)
    (item_lines : Z * pyval -> list str -> result (step (list str))) :
  renders k item_lines ->
  forall rows acc,
    Forall (fun row => is_dict (snd row) = true) rows ->
    exists extra,
      for_each item_lines rows acc = Ok (acc ++ extra)
      /\ length rows <= length extra <= k * length rows.
Proof.
  intros Hbody. induction rows as [|[i x] rows IH]; intros acc Hrows.
  - exists []. cbn [for_each length]. rewrite app_nil_r. split; [reflexivity|lia].
  - inversion Hrows as [|? ? Hx Hrest]; subst. cbn [snd] in Hx.
    destruct (Hbody i x acc Hx) as (first & Hfirst & Hlen).
    destruct (IH (acc ++ first) Hrest) as (more & Hmore & Hlen').
    exists (first ++ more). cbn [for_each]. rewrite Hfirst. cbn [rbind].
    rewrite Hmore, app_assoc. split; [reflexivity|].
    rewrite length_app. cbn [length]. lia.
Qed.

(** The common body of the four list formatters. *)
Lemma rendered_list (k : nat)
    (item_lines : Z * pyval -> list str -> result (step (list str)))
    (heading : str) (items : list pyval) (limit : Z) :
  renders k item_lines ->
  all_dicts items ->
  exists lines,
    (rows <~ listed (PList items) limit ;;
     output_lines <~ for_each item_lines rows [heading] ;;
     Ok (output_lines ++ [[]]))
    = Ok (heading :: lines ++ [[]])
    /\ length (slice_to limit items) <= length lines
       <= k * length (slice_to limit items).
Proof.
  intros Hbody Hitems. unfold listed. cbn [py_slice_to py_iter rbind].
  destruct (@for_each_renders k item_lines Hbody
              (enumerate 1 (slice_to limit items)) [heading]) as (lines & -> & Hlen).
  { apply enumerate_dicts. now apply slice_to_dicts. }
  rewrite enumerate_length in Hlen.
  exists lines. cbn [rbind app]. split; [reflexivity|exact Hlen].
Qed.

Lemma bilibili_video_renders : renders 3 bilibili_video_lines.
Proof.
  intros i [| | | | |d] acc Hx; try discriminate.
  unfold bilibili_video_lines. cbn [py_get rbind].
  match goal with |- context [if ?c then _ else _] => destruct c end;
    rewrite <- !app_assoc; eexists; (split; [reflexivity|]); cbn; lia.
Qed.

Lemma reddit_post_renders : renders 2 reddit_post_lines.
Proof.
  intros i [| | | | |d] acc Hx; try discriminate.
  unfold reddit_post_lines. cbn [py_get rbind].
  match goal with |- context [if ?c then _ else _] => destruct c end;
    rewrite <- ?app_assoc; eexists; (split; [reflexivity|]); cbn; lia.
Qed.

Lemma weibo_topic_renders : renders 1 weibo_topic_lines.
Proof.
  intros i [| | | | |d] acc Hx; try discriminate.
  unfold weibo_topic_lines. cbn [py_get rbind].
  eexists; (split; [reflexivity|]); cbn; lia.
Qed.

Lemma twitter_topic_renders : renders 1 twitter_topic_lines.
Proof.
  intros i [| | | | |d] acc Hx; try discriminate.
  unfold twitter_topic_lines. cbn [py_get rbind].
  eexists; (split; [reflexivity|]); cbn; lia.
Qed.

Lemma dynamic_renders : renders 2 dynamic_lines.
Proof.
  intros i [| | | | |d] acc Hx; try discriminate.
  unfold dynamic_lines. cbn [py_get rbind].
  eexists; (split; [reflexivity|]); cbn; lia.
Qed.

Lemma subscribed_post_renders : renders 2 subscribed_post_lines.
Proof.
  intros i [| | | | |d] acc Hx; try discriminate.
  unfold subscribed_post_lines. cbn [py_get rbind].
  eexists; (split; [reflexivity|]); cbn; lia.
Qed.

Lemma tweet_renders : renders 1 tweet_lines.
Proof.
  intros i [| | | | |d] acc Hx; try discriminate.
  unfold tweet_lines. cbn [py_get rbind].
  eexists; (split; [reflexivity|]); cbn; lia.
Qed.

Lemma rendered_count (limit : Z) (items : list pyval) (k n : nat) :
  (0 <= limit)%Z ->
  length (slice_to limit items) <= n <= k * length (slice_to limit items) ->
  (Z.min limit (len items) <= Z.of_nat n <= Z.of_nat k * Z.min limit (len items))%Z.
Proof.
  intros Hl Hn. rewrite <- (@slice_to_length _ limit items Hl). unfold len. nia.
Qed.

Lemma for_each_appends (block : Z * pyval -> list str)
    (item_lines : Z * pyval -> list str -> result (step (list str))) :
  appends block item_lines ->
  forall rows acc,
    Forall (fun row => is_dict (snd row) = true) rows ->
    for_each item_lines rows acc = Ok (acc ++ flat_map block rows).
Proof.
  intros Hbody. induction rows as [|[i x] rows IH]; intros acc Hrows.
  - cbn [for_each flat_map]. now rewrite app_nil_r.
  - inversion Hrows as [|? ? Hx Hrest]; subst. cbn [snd] in Hx.
    cbn [for_each flat_map]. rewrite (Hbody i x acc Hx). cbn [rbind].
    rewrite (IH _ Hrest). now rewrite app_assoc.
Qed.

(** The common body of the four list formatters, line by line. *)
Lemma listed_blocks (block : Z * pyval -> list str)
    (item_lines : Z * pyval -> list str -> result (step (list str)))
    (heading : str) (items : list pyval) (limit : Z) :
  appends block item_lines ->
  all_dicts items ->
  (0 <= limit)%Z ->
  (rows <~ listed (PList items) limit ;;
   output_lines <~ for_each item_lines rows [heading] ;;
   Ok (output_lines ++ [[]]))
  = Ok (heading :: flat_map block (shown items limit) ++ [[]]).
Proof.
  intros Hbody Hitems Hlimit. unfold listed, shown. cbn [py_slice_to py_iter rbind].
  assert (Hs : slice_to limit items = firstn (Z.to_nat limit) items).
  { unfold slice_to. apply Z.leb_le in Hlimit. now rewrite Hlimit. }
  rewrite (@for_each_appends block item_lines Hbody).
  - cbn [rbind app]. now rewrite Hs.
  - apply enumerate_dicts. now apply slice_to_dicts.
Qed.

Lemma video_block_appended : appends video_block bilibili_video_lines.
Proof.
  intros i [| | | | |d] acc Hx; try discriminate.
  unfold bilibili_video_lines, video_block. cbn [py_get rbind entry].
  match goal with |- context [if ?c then _ else _] => destruct c end;
    cbn [app]; rewrite <- ?app_assoc; reflexivity.
Qed.

Lemma post_block_appended : appends post_block reddit_post_lines.
Proof.
  intros i [| | | | |d] acc Hx; try discriminate.
  unfold reddit_post_lines, post_block. cbn [py_get rbind entry].
  match goal with |- context [if ?c then _ else _] => destruct c end;
    rewrite <- ?app_assoc; cbn [app]; rewrite ?app_nil_r; reflexivity.
Qed.

Lemma weibo_topic_block_appended : appends weibo_topic_block weibo_topic_lines.
Proof.
  intros i [| | | | |d] acc Hx; try discriminate.
  unfold weibo_topic_lines, weibo_topic_block. cbn [py_get rbind entry].
  match goal with |- context [if ?c then _ else _] => destruct c end; reflexivity.
Qed.

Lemma twitter_topic_block_appended : appends twitter_topic_block twitter_topic_lines.
Proof.
  intros i [| | | | |d] acc Hx; try discriminate.
  unfold twitter_topic_lines, twitter_topic_block. cbn [py_get rbind entry].
  match goal with |- context [if ?c then _ else _] => destruct c end; reflexivity.
Qed.

Lemma shown_slice (items : list pyval) (limit : Z) :
  (0 <= limit)%Z -> length (shown items limit) = length (slice_to limit items).
Proof.
  intros H. unfold shown, slice_to. apply Z.leb_le in H. rewrite H.
  apply enumerate_length.
Qed.

Lemma blocks_count (block : Z * pyval -> list str) (k : nat)
    (rows : list (Z * pyval)) :
  (forall row, 1 <= length (block row) <= k) ->
  length rows <= length (flat_map block rows) <= k * length rows.
Proof.
  intros H. induction rows as [|row rows IH]; cbn [flat_map length]; [lia|].
  rewrite length_app. specialize (H row). lia.
Qed.

Lemma shown_count (block : Z * pyval -> list str) (k : nat)
    (items : list pyval) (limit : Z) :
  (forall row, 1 <= length (block row) <= k) ->
  (0 <= limit)%Z ->
  (Z.min limit (len items) <= len (flat_map block (shown items limit))
   <= Z.of_nat k * Z.min limit (len items))%Z.
Proof.
  intros Hblock Hlimit.
  apply (@rendered_count limit items k _ Hlimit).
  rewrite <- (shown_slice items Hlimit). now apply blocks_count.
Qed.

(** X5. Given a list of dictionaries and a non-negative limit, each list
    formatter returns its heading, then, for each of the first
    min(limit, len(items)) items in their order and numbered from 1, the
    lines of that item, then one empty line; it does not raise.  A video
    gives its numbered title, its author and, when there is one, the
    reason it was recommended; a post its numbered title and, when it names
    a subreddit, the subreddit with the score; a topic one line: its
    numbered word, followed by the note (Weibo) or the tweet count
    (Twitter, unless N/A) when there is one. *)
Theorem X5_list_formatters_render_within_limit (items : list pyval) (limit : Z) :
  forallb is_dict items = true ->
  (0 <= limit)%Z ->
  (_format_bilibili_videos (PList items) limit
   = Ok (U "【B站首页推荐】" :: flat_map video_block (shown items limit) ++ [[]])
   /\ (Z.min limit (len items) <= len (flat_map video_block (shown items limit))
       <= 3 * Z.min limit (len items))%Z)
  /\ (_format_reddit_posts (PList items) limit
      = Ok (U "【Reddit Hot Posts】" :: flat_map post_block (shown items limit) ++ [[]])
      /\ (Z.min limit (len items) <= len (flat_map post_block (shown items limit))
          <= 2 * Z.min limit (len items))%Z)
  /\ (_format_weibo_trending (PList items) limit
      = Ok (U "【微博热议话题】"
              :: flat_map weibo_topic_block (shown items limit) ++ [[]])
      /\ len (flat_map weibo_topic_block (shown items limit))
         = Z.min limit (len items))
  /\ (_format_twitter_trending (PList items) limit
      = Ok (U "【Twitter Trending Topics】"
              :: flat_map twitter_topic_block (shown items limit) ++ [[]])
      /\ len (flat_map twitter_topic_block (shown items limit))
         = Z.min limit (len items)).
Proof.
  intros Hitems Hlimit. apply all_dicts_forallb in Hitems.
  split; [|split; [|split]]; split.
  - exact (@listed_blocks video_block bilibili_video_lines _ items limit
             video_block_appended Hitems Hlimit).
  - apply (@shown_count video_block 3); [|exact Hlimit].
    intros [i x]. unfold video_block.
    destruct (truthy (entry x (U "rcmd_reason"))); cbn [app length]; lia.
  - exact (@listed_blocks post_block reddit_post_lines _ items limit
             post_block_appended Hitems Hlimit).
  - apply (@shown_count post_block 2); [|exact Hlimit].
    intros [i x]. unfold post_block.
    destruct (truthy (entry x (U "subreddit"))); cbn [app length]; lia.
  - exact (@listed_blocks weibo_topic_block weibo_topic_lines _ items limit
             weibo_topic_block_appended Hitems Hlimit).
  - assert (H : (Z.min limit (len items)
                 <= len (flat_map weibo_topic_block (shown items limit))
                 <= Z.of_nat 1 * Z.min limit (len items))%Z).
    { apply (@shown_count weibo_topic_block 1); [|exact Hlimit].
      intros [i x]. unfold weibo_topic_block. cbn [length]. lia. }
    lia.
  - exact (@listed_blocks twitter_topic_block twitter_topic_lines _ items limit
             twitter_topic_block_appended Hitems Hlimit).
  - assert (H : (Z.min limit (len items)
                 <= len (flat_map twitter_topic_block (shown items limit))
                 <= Z.of_nat 1 * Z.min limit (len items))%Z).
    { apply (@shown_count twitter_topic_block 1); [|exact Hlimit].
      intros [i x]. unfold twitter_topic_block. cbn [length]. lia. }
    lia.
Qed.

Lemma X5_list_formatters_render_within_limit_witness :
  forallb is_dict [PDict [(U "word", PStr (U "rocq")); (U "note", PStr (U "new"))];
                   PDict []; PDict []] = true
  /\ (0 <= 2)%Z
  /\ _format_weibo_trending
       (PList [PDict [(U "word", PStr (U "rocq")); (U "note", PStr (U "new"))];
               PDict []; PDict []]) 2
     = Ok [U "【微博热议话题】"; U "1. rocq [new]"; U "2. "; []].
Proof.
  split; [reflexivity|]. split; [lia|].
  rewrite (proj1 (proj1 (proj2 (proj2
    (@X5_list_formatters_render_within_limit
       [PDict [(U "word", PStr (U "rocq")); (U "note", PStr (U "new"))];
        PDict []; PDict []] 2
       eq_refl (proj1 (Z.leb_le 0 2) eq_refl)))))).
  vm_compute. reflexivity.
Defined.

Example videos_rendered :
  _format_bilibili_videos
    (PList [PDict [(U "title", PStr (U "proofs")); (U "author", PStr (U "inria"));
                   (U "rcmd_reason", PStr (U "hot"))];
            PDict [(U "title", PStr (U "tactics"))];
            PDict [(U "title", PStr (U "left out"))]]) 2
  = Ok [U "【B站首页推荐】"; U "1. proofs"; U "   UP主: inria"; U "   推荐理由: hot";
        U "2. tactics"; U "   UP主: "; []].
Proof. vm_compute. reflexivity. Qed.

(* ------------------------------------------------------------------ *)
(** *** Formatting what the orchestrators return *)

Lemma headed_formatter (k : nat)
    (item_lines : Z * pyval -> list str -> result (step (list str)))
    (heading : str) :
  renders k item_lines ->
  hd 0%N heading = heading_mark ->
  nonempty heading = true ->
  heads_its_lines
    (fun items limit =>
       rows <~ listed items limit ;;
       output_lines <~ for_each item_lines rows [heading] ;;
       Ok (output_lines ++ [[]])).
Proof.
  intros Hbody Hmark Hne items limit Hitems.
  destruct (@rendered_list k item_lines heading items limit Hbody Hitems)
    as (lines & H & _).
  eexists. split; [exact H|].
  destruct heading as [|c s]; [discriminate|]. cbn [hd] in Hmark. subst c.
  unfold headed. eauto.
Qed.

Lemma bilibili_videos_headed : heads_its_lines _format_bilibili_videos.
Proof.
  apply (@headed_formatter 3 bilibili_video_lines (U "【B站首页推荐】")
           bilibili_video_renders); vm_compute; reflexivity.
Qed.

Lemma reddit_posts_headed : heads_its_lines _format_reddit_posts.
Proof.
  apply (@headed_formatter 2 reddit_post_lines (U "【Reddit Hot Posts】")
           reddit_post_renders); vm_compute; reflexivity.
Qed.

Lemma weibo_trending_headed : heads_its_lines _format_weibo_trending.
Proof.
  apply (@headed_formatter 1 weibo_topic_lines (U "【微博热议话题】")
           weibo_topic_renders); vm_compute; reflexivity.
Qed.

Lemma twitter_trending_headed : heads_its_lines _format_twitter_trending.
Proof.
  apply (@headed_formatter 1 twitter_topic_lines (U "【Twitter Trending Topics】")
           twitter_topic_renders); vm_compute; reflexivity.
Qed.

Lemma headed_app (a b : list str) : headed a -> headed (a ++ b).
Proof. intros (s & rest & ->). exists s, (rest ++ b). reflexivity. Qed.

Lemma join_headed (lines : list str) :
  headed lines -> exists t, join newline lines = heading_mark :: t.
Proof.
  intros (s & rest & ->). destruct rest as [|r rest]; cbn [join app]; eauto.
Qed.

Lemma lstrip_keeps_last (f : N -> bool) (c : N) (s : str) :
  f c = false -> exists t, lstrip_by f (s ++ [c]) = t ++ [c].
Proof.
  intros Hc. induction s as [|x s IH]; cbn [app lstrip_by].
  - rewrite Hc. now exists [].
  - destruct (f x); [exact IH|]. now exists (x :: s).
Qed.

Lemma strip_headed (t : str) : exists t', strip (heading_mark :: t) = heading_mark :: t'.
Proof.
  unfold strip, strip_by, rstrip_by. cbn [lstrip_by].
  replace (is_space heading_mark) with false by reflexivity.
  cbn [rev].
  destruct (@lstrip_keeps_last is_space heading_mark (rev t) eq_refl) as (u & ->).
  rewrite rev_app_distr. cbn [rev app]. eauto.
Qed.

Lemma succeeded_items (key : str) (v : pyval) :
  returns_items key v -> exists b, succeeded v = Ok b.
Proof. intros [(msg & ->)|(items & -> & _)]; eexists; reflexivity. Qed.

Lemma success_items (key : str) (items : list pyval) :
  str_eqb key (U "success") = false ->
  py_get (success_with key items) key (PList []) = Ok (PList items).
Proof.
  intros Hkey. unfold success_with. cbn [py_get lookup].
  now rewrite Hkey, str_eqb_refl.
Qed.

(** One [if data.get('success'): output_lines.extend(...)] block. *)
Lemma extend_total (content : pyval) (key list_key : str)
    (formatter : pyval -> Z -> result (list str)) (output_lines : list str)
    (v : pyval) :
  py_get content key (PDict []) = Ok v ->
  returns_items list_key v ->
  str_eqb list_key (U "success") = false ->
  heads_its_lines formatter ->
  exists extra,
    extend_with content key list_key formatter output_lines
    = Ok (output_lines ++ extra)
    /\ (succeeded v = Ok false -> extra = [])
    /\ (succeeded v = Ok true -> headed extra).
Proof.
  intros Hget Hv Hkey Hfmt. unfold extend_with. rewrite Hget. cbn [rbind].
  destruct Hv as [(msg & ->)|(items & -> & Hitems)].
  - exists []. replace (py_get (failure msg) (U "success") PNone)
      with (Ok (PBool false)) by reflexivity.
    cbn [rbind truthy]. rewrite app_nil_r. repeat split.
    rewrite succeeded_failure. discriminate.
  - destruct (Hfmt items 5%Z Hitems) as (lines & Hlines & Hhead).
    exists lines. replace (py_get (success_with list_key items) (U "success") PNone)
      with (Ok (PBool true)) by reflexivity.
    cbn [rbind truthy]. rewrite (@success_items list_key items Hkey). cbn [rbind].
    rewrite Hlines. cbn [rbind]. repeat split; auto.
    rewrite succeeded_success. discriminate.
Qed.

Lemma public_reply (china : bool) (ta tb tc td : M pyval) (l l1 l2 : Log)
    (va vb : pyval) (oa ob : bool) :
  fst (active china ta tb tc td) l = (Ok va, l1) ->
  snd (active china ta tb tc td) l1 = (Ok vb, l2) ->
  succeeded va = Ok oa ->
  succeeded vb = Ok ob ->
  exists env,
    public_content_of (Ok china) ta tb tc td l = (Ok env, l2)
    /\ field env (U "success") = Ok (PBool (oa || ob))
    /\ field env (U "region") = Ok (PStr (region_name china))
    /\ field env (fst (public_keys china)) = Ok va
    /\ field env (snd (public_keys china)) = Ok vb.
Proof.
  intros Ha Hb Hoa Hob.
  unfold public_content_of, try_except, bind, lift.
  destruct china; cbn [active fst snd] in Ha, Hb;
    unfold public_fan_out, bind, gather2, lift, ret;
    rewrite Ha, Hb; cbn [fst snd isolate]; rewrite Hoa;
    destruct oa; cbn [orb]; try rewrite Hob; try destruct ob; cbn [negb];
    eexists; (split; [reflexivity|]); repeat split; reflexivity.
Qed.

Lemma personal_reply (china : bool) (ta tb tc td : M pyval) (l l1 l2 : Log)
    (va vb : pyval) :
  fst (active china ta tb tc td) l = (Ok va, l1) ->
  snd (active china ta tb tc td) l1 = (Ok vb, l2) ->
  exists env,
    personal_dynamics_of (Ok china) ta tb tc td l = (Ok env, l2)
    /\ field env (U "success") = Ok (PBool true)
    /\ field env (U "region") = Ok (PStr (region_name china))
    /\ field env (fst (personal_keys china)) = Ok va
    /\ field env (snd (personal_keys china)) = Ok vb.
Proof.
  intros Ha Hb.
  unfold personal_dynamics_of, try_except, bind, lift.
  destruct china; cbn [active fst snd] in Ha, Hb;
    unfold personal_fan_out, bind, gather2, ret;
    rewrite Ha, Hb; cbn [fst snd isolate];
    eexists; (split; [reflexivity|]); repeat split; reflexivity.
Qed.

Lemma headed_text (lines : list str) (sorry : str) :
  headed lines ->
  hd 0%N sorry <> heading_mark ->
  join newline lines <> [] /\ join newline lines <> sorry.
Proof.
  intros Hh Hs. destruct (join_headed Hh) as (t & ->).
  split; [discriminate|]. intros <-. now apply Hs.
Qed.

(** The text [format_trending_content] makes of an envelope whose two
    branches are fetcher results. *)
Lemma trending_text (china : bool) (env va vb : pyval) (oa ob : bool) :
  field env (U "region") = Ok (PStr (region_name china)) ->
  field env (fst (public_keys china)) = Ok va ->
  field env (snd (public_keys china)) = Ok vb ->
  returns_items (fst (public_list_keys china)) va ->
  returns_items (snd (public_list_keys china)) vb ->
  succeeded va = Ok oa ->
  succeeded vb = Ok ob ->
  exists text,
    format_trending_content env = Ok text
    /\ text <> []
    /\ (oa || ob = false
        <-> text = if china then unavailable_cn else unavailable_en).
Proof.
  intros Hregion Ha Hb Hva Hvb Hoa Hob.
  unfold format_trending_content.
  rewrite (@get_of_field env (U "region") _ (PStr (U "china")) Hregion) by discriminate.
  cbn [rbind].
  destruct china; cbn [region_name public_keys public_list_keys active fst snd] in *.
  - replace (py_eq_str (PStr (U "china")) (U "china")) with true by reflexivity.
    destruct (@extend_total env (U "bilibili") (U "videos") _format_bilibili_videos
                [] va (@get_of_field env _ va (PDict []) Ha (returns_items_value Hva))
                Hva eq_refl bilibili_videos_headed) as (e1 & -> & H1f & H1t).
    cbn [rbind app].
    destruct (@extend_total env (U "weibo") (U "trending") _format_weibo_trending
                e1 vb (@get_of_field env _ vb (PDict []) Hb (returns_items_value Hvb))
                Hvb eq_refl weibo_trending_headed) as (e2 & -> & H2f & H2t).
    cbn [rbind].
    destruct oa; [|destruct ob].
    + assert (headed (e1 ++ e2)) as Hh by (apply headed_app; auto).
      destruct (@headed_text _ unavailable_cn Hh) as (Hne & Hsorry);
        [vm_compute; discriminate|].
      destruct Hh as (s & rest & Heq). rewrite Heq in *.
      eexists. split; [reflexivity|]. split; [exact Hne|].
      cbn [orb]. split; [discriminate|]. intros H. now elim Hsorry.
    + rewrite (H1f Hoa). cbn [app].
      destruct (H2t Hob) as (s & rest & Heq).
      destruct (@headed_text e2 unavailable_cn) as (Hne & Hsorry);
        [rewrite Heq; unfold headed; eauto|vm_compute; discriminate|].
      rewrite Heq in *.
      eexists. split; [reflexivity|]. split; [exact Hne|].
      cbn [orb]. split; [discriminate|]. intros H. now elim Hsorry.
    + rewrite (H1f Hoa), (H2f Hob). cbn [app orb].
      eexists. split; [reflexivity|]. split; [vm_compute; discriminate|].
      split; reflexivity.
  - replace (py_eq_str (PStr (U "non-china")) (U "china")) with false by reflexivity.
    destruct (@extend_total env (U "reddit") (U "posts") _format_reddit_posts
                [] va (@get_of_field env _ va (PDict []) Ha (returns_items_value Hva))
                Hva eq_refl reddit_posts_headed) as (e1 & -> & H1f & H1t).
    cbn [rbind app].
    destruct (@extend_total env (U "twitter") (U "trending") _format_twitter_trending
                e1 vb (@get_of_field env _ vb (PDict []) Hb (returns_items_value Hvb))
                Hvb eq_refl twitter_trending_headed) as (e2 & -> & H2f & H2t).
    cbn [rbind].
    destruct oa; [|destruct ob].
    + assert (headed (e1 ++ e2)) as Hh by (apply headed_app; auto).
      destruct (@headed_text _ unavailable_en Hh) as (Hne & Hsorry);
        [vm_compute; discriminate|].
      destruct Hh as (s & rest & Heq). rewrite Heq in *.
      eexists. split; [reflexivity|]. split; [exact Hne|].
      cbn [orb]. split; [discriminate|]. intros H. now elim Hsorry.
    + rewrite (H1f Hoa). cbn [app].
      destruct (H2t Hob) as (s & rest & Heq).
      destruct (@headed_text e2 unavailable_en) as (Hne & Hsorry);
        [rewrite Heq; unfold headed; eauto|vm_compute; discriminate|].
      rewrite Heq in *.
      eexists. split; [reflexivity|]. split; [exact Hne|].
      cbn [orb]. split; [discriminate|]. intros H. now elim Hsorry.
    + rewrite (H1f Hoa), (H2f Hob). cbn [app orb].
      eexists. split; [reflexivity|]. split; [vm_compute; discriminate|].
      split; reflexivity.
Qed.

(** The two branches of a region, run one after the other. *)
Lemma branches_run (china : bool) (ta tb tc td : M pyval) (l : Log)
    (keys : str * str) (first second : list (list str)) :
  ran (fst (active china ta tb tc td)) l first ->
  (forall l1, ran (snd (active china ta tb tc td)) l1 second) ->
  (forall l0, dict_items (fst keys) (fst (fst (active china ta tb tc td) l0))) ->
  (forall l0, dict_items (snd keys) (fst (snd (active china ta tb tc td) l0))) ->
  exists va l1 vb l2,
    fst (active china ta tb tc td) l = (Ok va, l1)
    /\ snd (active china ta tb tc td) l1 = (Ok vb, l2)
    /\ returns_items (fst keys) va
    /\ returns_items (snd keys) vb.
Proof.
  intros Ha Hb Hia Hib.
  destruct (ran_value Ha) as (va & l1 & Hra & _).
  destruct (ran_value (Hb l1)) as (vb & l2 & Hrb & _).
  exists va, l1, vb, l2. repeat split; auto.
  - eapply dict_items_run; [apply Hia|exact Hra].
  - eapply dict_items_run; [apply Hib|exact Hrb].
Qed.

(** X6. Whatever the outside world does, [fetch_public_content] returns
    an envelope that [format_trending_content] turns into a non-empty
    text without raising; the text is the region's apology sentence
    exactly when the envelope's success flag is False. *)
Theorem X6_public_content_formats (w : World)
    (bilibili_limit douyin_limit kuaishou_limit weibo_limit reddit_limit
     twitter_limit : Z) (l : Log) :
  exists env l' text,
    fetch_public_content w bilibili_limit douyin_limit kuaishou_limit weibo_limit
      reddit_limit twitter_limit l = (Ok env, l')
    /\ format_trending_content env = Ok text
    /\ text <> []
    /\ (field env (U "success") = Ok (PBool false)
        <-> text = if domestic w then unavailable_cn else unavailable_en).
Proof.
  unfold fetch_public_content. rewrite (is_china_region_value w). fold (domestic w).
  destruct (@branches_run (domestic w)
              (fetch_bilibili_trending w bilibili_limit)
              (fetch_weibo_trending w weibo_limit)
              (fetch_reddit_popular w reddit_limit)
              (fetch_twitter_trending w twitter_limit) l
              (public_list_keys (domestic w))
              (if domestic w then [[]; [bilibili_homepage_api]]
               else [[reddit_popular_url reddit_limit]])
              (if domestic w
               then [[weibo_summary_url]; [weibo_summary_url; weibo_hotsearch_url]]
               else [[trends24_url]]))
    as (va & l1 & vb & l2 & Ha & Hb & Hva & Hvb).
  - destruct (domestic w); cbn [active fst];
      [apply bilibili_trending_run|apply reddit_popular_run].
  - intros l1. destruct (domestic w); cbn [active snd];
      [apply weibo_trending_run|apply twitter_trending_run].
  - intros l0. destruct (domestic w); cbn [active public_list_keys fst];
      [apply bilibili_trending_items|apply reddit_popular_items].
  - intros l0. destruct (domestic w); cbn [active public_list_keys snd];
      [apply weibo_trending_items|apply twitter_trending_items].
  - destruct (succeeded_items Hva) as (oa & Hoa).
    destruct (succeeded_items Hvb) as (ob & Hob).
    destruct (@public_reply _ _ _ _ _ _ _ _ _ _ _ _ Ha Hb Hoa Hob)
      as (env & Hrun & Hsuccess & Hregion & Hfa & Hfb).
    destruct (@trending_text _ _ _ _ _ _ Hregion Hfa Hfb Hva Hvb Hoa Hob)
      as (text & Htext & Hne & Hiff).
    exists env, l2, text. repeat split; auto.
    + intros H. apply Hiff. rewrite Hsuccess in H. now inversion H.
    + intros H. apply Hiff in H. now rewrite Hsuccess, H.
Qed.

(** The text [format_video_content] and [format_news_content] make of an
    envelope whose single branch is a fetcher result. *)
Lemma single_text (china : bool) (env r : pyval) (key : str)
    (cn_key : str) (cn_formatter : pyval -> Z -> result (list str)) (cn_sorry : str)
    (en_key : str) (en_formatter : pyval -> Z -> result (list str)) (en_sorry : str) :
  field env (U "region") = Ok (PStr (region_name china)) ->
  field env key = Ok r ->
  returns_items (if china then cn_key else en_key) r ->
  str_eqb cn_key (U "success") = false ->
  str_eqb en_key (U "success") = false ->
  heads_its_lines cn_formatter ->
  heads_its_lines en_formatter ->
  nonempty cn_sorry = true -> hd 0%N cn_sorry <> heading_mark ->
  nonempty en_sorry = true -> hd 0%N en_sorry <> heading_mark ->
  exists text,
    format_single env key cn_key cn_formatter cn_sorry en_key en_formatter en_sorry
    = Ok text
    /\ text <> []
    /\ (field r (U "success") = Ok (PBool false)
        <-> text = if china then cn_sorry else en_sorry).
Proof.
  intros Hregion Hkey Hr Hcn Hen Hfcn Hfen Hncn Hhcn Hnen Hhen.
  unfold format_single.
  rewrite (@get_of_field env (U "region") _ (PStr (U "china")) Hregion) by discriminate.
  rewrite (@get_of_field env key r (PDict []) Hkey (returns_items_value Hr)).
  cbn [rbind].
  destruct china; cbn [region_name];
    [replace (py_eq_str (PStr (U "china")) (U "china")) with true by reflexivity
    |replace (py_eq_str (PStr (U "non-china")) (U "china")) with false by reflexivity];
    (destruct Hr as [(msg & ->)|(items & -> & Hitems)];
     [replace (py_get (failure msg) (U "success") PNone)
        with (Ok (PBool false)) by reflexivity;
      replace (field (failure msg) (U "success"))
        with (Ok (PBool false)) by reflexivity;
      cbn [rbind truthy];
      eexists; (split; [reflexivity|]); split;
      [intros ->; discriminate|split; reflexivity]
     |match goal with
      | |- context [field (success_with ?k items) (U "success")] =>
        replace (py_get (success_with k items) (U "success") PNone)
          with (Ok (PBool true)) by reflexivity;
        replace (field (success_with k items) (U "success"))
          with (Ok (PBool true)) by reflexivity
      end;
      cbn [rbind truthy]]).
  - rewrite (@success_items cn_key items Hcn). cbn [rbind].
    destruct (Hfcn items 5%Z Hitems) as (lines & -> & Hhead). cbn [rbind].
    destruct (@headed_text lines cn_sorry Hhead Hhcn) as (Hne & Hsorry).
    eexists. split; [reflexivity|]. split; [exact Hne|].
    split; [discriminate|]. intros H. now elim Hsorry.
  - rewrite (@success_items en_key items Hen). cbn [rbind].
    destruct (Hfen items 5%Z Hitems) as (lines & -> & Hhead). cbn [rbind].
    destruct (@headed_text lines en_sorry Hhead Hhen) as (Hne & Hsorry).
    eexists. split; [reflexivity|]. split; [exact Hne|].
    split; [discriminate|]. intros H. now elim Hsorry.
Qed.

(** X7. Whatever the outside world does, [fetch_video_content] followed by
    [format_video_content], and [fetch_news_content] followed by
    [format_news_content], return a non-empty text without raising; the
    text is the region's apology sentence exactly when the envelope's
    success flag is False. *)
Theorem X7_single_content_formats (w : World) (limit : Z) (l : Log) :
  (exists env l' text,
      fetch_video_content w limit l = (Ok env, l')
      /\ format_video_content env = Ok text
      /\ text <> []
      /\ (field env (U "success") = Ok (PBool false)
          <-> text = if domestic w then U "暂时无法获取视频推荐内容"
                     else U "Unable to fetch trending posts at the moment"))
  /\ (exists env l' text,
      fetch_news_content w limit l = (Ok env, l')
      /\ format_news_content env = Ok text
      /\ text <> []
      /\ (field env (U "success") = Ok (PBool false)
          <-> text = if domestic w then U "暂时无法获取热议话题"
                     else U "Unable to fetch trending topics at the moment")).
Proof.
  split.
  - destruct (@single_envelope w (fetch_bilibili_trending w) (fetch_reddit_popular w)
                limit (U "video") l
                (if domestic w then [[]; [bilibili_homepage_api]]
                 else [[reddit_popular_url limit]]))
      as (r & l' & env & e & Hrun & Henv & _ & Hsuccess & Hregion & Hkey & _).
    { now left. }
    { destruct (domestic w); [apply bilibili_trending_run|apply reddit_popular_run]. }
    assert (returns_items (if domestic w then U "videos" else U "posts") r) as Hr.
    { destruct (domestic w); eapply dict_items_run; try exact Hrun;
        [apply bilibili_trending_items|apply reddit_popular_items]. }
    destruct (@single_text (domestic w) env r (U "video")
                (U "videos") _format_bilibili_videos (U "暂时无法获取视频推荐内容")
                (U "posts") _format_reddit_posts
                (U "Unable to fetch trending posts at the moment")
                Hregion Hkey Hr eq_refl eq_refl
                bilibili_videos_headed reddit_posts_headed
                eq_refl ltac:(vm_compute; discriminate)
                eq_refl ltac:(vm_compute; discriminate))
      as (text & Htext & Hne & Hiff).
    exists env, l', text. rewrite Hsuccess. auto.
  - destruct (@single_envelope w (fetch_weibo_trending w) (fetch_twitter_trending w)
                limit (U "news") l
                (if domestic w
                 then [[weibo_summary_url]; [weibo_summary_url; weibo_hotsearch_url]]
                 else [[trends24_url]]))
      as (r & l' & env & e & Hrun & Henv & _ & Hsuccess & Hregion & Hkey & _).
    { now right. }
    { destruct (domestic w); [apply weibo_trending_run|apply twitter_trending_run]. }
    assert (returns_items (if domestic w then U "trending" else U "trending") r) as Hr.
    { destruct (domestic w); eapply dict_items_run; try exact Hrun;
        [apply weibo_trending_items|apply twitter_trending_items]. }
    destruct (@single_text (domestic w) env r (U "news")
                (U "trending") _format_weibo_trending (U "暂时无法获取热议话题")
                (U "trending") _format_twitter_trending
                (U "Unable to fetch trending topics at the moment")
                Hregion Hkey Hr eq_refl eq_refl
                weibo_trending_headed twitter_trending_headed
                eq_refl ltac:(vm_compute; discriminate)
                eq_refl ltac:(vm_compute; discriminate))
      as (text & Htext & Hne & Hiff).
    exists env, l', text. rewrite Hsuccess. auto.
Qed.

(* ------------------------------------------------------------------ *)
(** *** Formatting the personal timeline *)

Lemma offers_failure (msg list_key : str) : offers (failure msg) list_key = false.
Proof.
  unfold offers.
  replace (field (failure msg) (U "success")) with (Ok (PBool false)) by reflexivity.
  cbn [truthy andb]. now destruct (py_get (failure msg) list_key (PList [])).
Qed.

Lemma offers_success (list_key : str) (items : list pyval) :
  str_eqb list_key (U "success") = false ->
  offers (success_with list_key items) list_key = nonempty items.
Proof.
  intros Hkey. unfold offers. rewrite (@success_items list_key items Hkey).
  reflexivity.
Qed.

(** One turn of the loop over the [platforms] table. *)
Lemma section_total (k : nat) (data : pyval) (key heading list_key : str)
    (item_lines : Z * pyval -> list str -> result (step (list str)))
    (output_lines : list str) (v : pyval) :
  py_get data key (PDict []) = Ok v ->
  returns_items list_key v ->
  str_eqb list_key (U "success") = false ->
  renders k item_lines ->
  exists extra,
    platform_section data key heading list_key item_lines output_lines
    = Ok (output_lines ++ extra)
    /\ (offers v list_key = false -> extra = [])
    /\ (offers v list_key = true -> headed extra).
Proof.
  intros Hget Hv Hkey Hbody. unfold platform_section. rewrite Hget. cbn [rbind].
  destruct Hv as [(msg & ->)|(items & -> & Hitems)].
  - exists []. replace (py_get (failure msg) (U "success") PNone)
      with (Ok (PBool false)) by reflexivity.
    cbn [rbind truthy]. rewrite app_nil_r. repeat split.
    rewrite offers_failure. discriminate.
  - replace (py_get (success_with list_key items) (U "success") PNone)
      with (Ok (PBool true)) by reflexivity.
    cbn [rbind truthy]. rewrite (@success_items list_key items Hkey). cbn [rbind].
    rewrite (@offers_success list_key items Hkey).
    destruct items as [|x items]; cbn [truthy nonempty].
    + exists []. rewrite app_nil_r. repeat split. discriminate.
    + unfold listed. cbn [py_slice_to py_iter rbind].
      destruct (@for_each_renders k item_lines Hbody
                  (enumerate 1 (slice_to 5 (x :: items)))
                  (output_lines ++ [U "【" ++ heading ++ U "】"]))
        as (lines & -> & _).
      { apply enumerate_dicts. now apply slice_to_dicts. }
      cbn [rbind]. rewrite <- !app_assoc.
      eexists. split; [reflexivity|]. split; [discriminate|].
      intros _. exists (heading ++ U "】"), (lines ++ [[]]). reflexivity.
Qed.

Lemma stripped_or_headed (lines : list str) (sorry : str) :
  headed lines ->
  nonempty sorry = true -> hd 0%N sorry <> heading_mark ->
  stripped_or lines sorry <> [] /\ stripped_or lines sorry <> sorry.
Proof.
  intros Hh Hne Hs. unfold stripped_or.
  destruct (join_headed Hh) as (t & ->).
  destruct (strip_headed t) as (t' & ->).
  split; [discriminate|]. intros <-. now apply Hs.
Qed.

(** The text [format_personal_dynamics] makes of an envelope whose two
    branches are fetcher results. *)
Lemma personal_text (china : bool) (env va vb : pyval) :
  field env (U "region") = Ok (PStr (region_name china)) ->
  field env (fst (personal_keys china)) = Ok va ->
  field env (snd (personal_keys china)) = Ok vb ->
  returns_items (fst (personal_list_keys china)) va ->
  returns_items (snd (personal_list_keys china)) vb ->
  exists text,
    format_personal_dynamics env = Ok text
    /\ text <> []
    /\ (text = (if china then nothing_cn else nothing_en)
        <-> offers va (fst (personal_list_keys china)) = false
            /\ offers vb (snd (personal_list_keys china)) = false).
Proof.
  intros Hregion Ha Hb Hva Hvb.
  unfold format_personal_dynamics.
  rewrite (@get_of_field env (U "region") _ (PStr (U "china")) Hregion) by discriminate.
  cbn [rbind].
  destruct china; cbn [region_name personal_keys personal_list_keys active fst snd] in *.
  - replace (py_eq_str (PStr (U "china")) (U "china")) with true by reflexivity.
    destruct (@section_total 2 env (U "bilibili_dynamic") (U "B站关注UP主动态")
                (U "dynamics") dynamic_lines [] va
                (@get_of_field env _ va (PDict []) Ha (returns_items_value Hva))
                Hva eq_refl dynamic_renders) as (e1 & -> & H1f & H1t).
    cbn [rbind app].
    destruct (@section_total 2 env (U "weibo_dynamic") (U "微博个人关注动态")
                (U "statuses") dynamic_lines e1 vb
                (@get_of_field env _ vb (PDict []) Hb (returns_items_value Hvb))
                Hvb eq_refl dynamic_renders) as (e2 & -> & H2f & H2t).
    cbn [rbind]. eexists. split; [reflexivity|].
    destruct (offers va (U "dynamics")) eqn:Oa;
      [|destruct (offers vb (U "statuses")) eqn:Ob].
    + destruct (@stripped_or_headed (e1 ++ e2) nothing_cn) as (Hne & Hsorry);
        [apply headed_app; auto|reflexivity|vm_compute; discriminate|].
      split; [exact Hne|]. split; [intros H; now elim Hsorry|intros [H _]; discriminate].
    + rewrite (H1f eq_refl). cbn [app].
      destruct (@stripped_or_headed e2 nothing_cn) as (Hne & Hsorry);
        [auto|reflexivity|vm_compute; discriminate|].
      split; [exact Hne|]. split; [intros H; now elim Hsorry|intros [_ H]; discriminate].
    + rewrite (H1f eq_refl), (H2f eq_refl). cbn [app].
      split; [vm_compute; discriminate|]. split; [auto|reflexivity].
  - replace (py_eq_str (PStr (U "non-china")) (U "china")) with false by reflexivity.
    destruct (@section_total 2 env (U "reddit_dynamic") (U "Reddit Subscribed Posts")
                (U "posts") subscribed_post_lines [] va
                (@get_of_field env _ va (PDict []) Ha (returns_items_value Hva))
                Hva eq_refl subscribed_post_renders) as (e1 & -> & H1f & H1t).
    cbn [rbind app].
    destruct (@section_total 1 env (U "twitter_dynamic") (U "Twitter Timeline")
                (U "tweets") tweet_lines e1 vb
                (@get_of_field env _ vb (PDict []) Hb (returns_items_value Hvb))
                Hvb eq_refl tweet_renders) as (e2 & -> & H2f & H2t).
    cbn [rbind]. eexists. split; [reflexivity|].
    destruct (offers va (U "posts")) eqn:Oa;
      [|destruct (offers vb (U "tweets")) eqn:Ob].
    + destruct (@stripped_or_headed (e1 ++ e2) nothing_en) as (Hne & Hsorry);
        [apply headed_app; auto|reflexivity|vm_compute; discriminate|].
      split; [exact Hne|]. split; [intros H; now elim Hsorry|intros [H _]; discriminate].
    + rewrite (H1f eq_refl). cbn [app].
      destruct (@stripped_or_headed e2 nothing_en) as (Hne & Hsorry);
        [auto|reflexivity|vm_compute; discriminate|].
      split; [exact Hne|]. split; [intros H; now elim Hsorry|intros [_ H]; discriminate].
    + rewrite (H1f eq_refl), (H2f eq_refl). cbn [app].
      split; [vm_compute; discriminate|]. split; [auto|reflexivity].
Qed.

(** The personal timeline and its text, whatever the outside world does. *)
Lemma personal_timeline_text (w : World) (limit : Z) (l : Log) :
  exists env l' a b text,
    fetch_personal_dynamics w limit l = (Ok env, l')
    /\ field env (U "success") = Ok (PBool true)
    /\ field env (fst (personal_keys (domestic w))) = Ok a
    /\ field env (snd (personal_keys (domestic w))) = Ok b
    /\ format_personal_dynamics env = Ok text
    /\ text <> []
    /\ (text = (if domestic w then nothing_cn else nothing_en)
        <-> offers a (fst (personal_list_keys (domestic w))) = false
            /\ offers b (snd (personal_list_keys (domestic w))) = false).
Proof.
  unfold fetch_personal_dynamics. rewrite (is_china_region_value w). fold (domestic w).
  destruct (@branches_run (domestic w)
              (fetch_bilibili_personal_dynamic w limit)
              (fetch_weibo_personal_dynamic w limit)
              (fetch_reddit_personal_dynamic w limit)
              (fetch_twitter_personal_dynamic w limit) l
              (personal_list_keys (domestic w))
              (if domestic w then [[]; [bilibili_feed_url]]
               else [[]; [reddit_hot_url limit]])
              (if domestic w then [[]; [weibo_feed_url]]
               else [[]; [twitter_timeline_url limit];
                     [twitter_timeline_url limit; twitter_home_url]]))
    as (va & l1 & vb & l2 & Ha & Hb & Hva & Hvb).
  - destruct (domestic w); cbn [active fst];
      [apply bilibili_personal_run|apply reddit_personal_run].
  - intros l1. destruct (domestic w); cbn [active snd];
      [apply weibo_personal_run|apply twitter_personal_run].
  - intros l0. destruct (domestic w); cbn [active personal_list_keys fst];
      [apply bilibili_personal_items|apply reddit_personal_items].
  - intros l0. destruct (domestic w); cbn [active personal_list_keys snd];
      [apply weibo_personal_items|apply twitter_personal_items].
  - destruct (@personal_reply _ _ _ _ _ _ _ _ _ _ Ha Hb)
      as (env & Hrun & Hsuccess & Hregion & Hfa & Hfb).
    destruct (@personal_text _ _ _ _ Hregion Hfa Hfb Hva Hvb)
      as (text & Htext & Hne & Hiff).
    exists env, l2, va, vb, text. repeat split; auto; apply Hiff; auto.
Qed.

(** X8. Whatever the outside world does, [fetch_personal_dynamics] returns
    an envelope whose success flag is True and which
    [format_personal_dynamics] turns into a non-empty text without
    raising; the text is the region's apology sentence exactly when
    neither branch succeeded with a non-empty list. *)
Theorem X8_personal_dynamics_formats (w : World) (limit : Z) (l : Log) :
  exists env l' a b text,
    fetch_personal_dynamics w limit l = (Ok env, l')
    /\ field env (U "success") = Ok (PBool true)
    /\ field env (fst (personal_keys (domestic w))) = Ok a
    /\ field env (snd (personal_keys (domestic w))) = Ok b
    /\ format_personal_dynamics env = Ok text
    /\ text <> []
    /\ (text = (if domestic w then nothing_cn else nothing_en)
        <-> offers a (fst (personal_list_keys (domestic w))) = false
            /\ offers b (snd (personal_list_keys (domestic w))) = false).
Proof. exact (personal_timeline_text w limit l). Qed.

Example bare_world_timeline :
  exists env,
    fst (fetch_personal_dynamics bare_world 5 []) = Ok env
    /\ field env (U "success") = Ok (PBool true)
    /\ format_personal_dynamics env = Ok nothing_en.
Proof. eexists. repeat split; vm_compute; reflexivity. Qed.

Example feed_world_timeline :
  exists env,
    fst (fetch_personal_dynamics feed_world 5 []) = Ok env
    /\ format_personal_dynamics env
       = Ok (U "【微博个人关注动态】" ++ newline
             ++ U "1. 未知博主 ()" ++ newline
             ++ U "   内容: 博主【未知博主】: hello").
Proof. eexists. split; vm_compute; reflexivity. Qed.

(* ------------------------------------------------------------------ *)
(** *** Search functions and the context pipeline *)

Lemma search_baidu_run (w : World) (query : str) (limit : Z) (l : Log) :
  exists r,
    search_baidu w query limit l
    = (Ok r, l ++ (if too_short query then [] else [baidu_url w (strip query)]))
    /\ (too_short query = true -> r = NotFound (U "搜索关键词太短") None)
    /\ (forall q results,
          r = Found q results ->
          q = strip query /\ results <> []
          /\ ((0 <= limit)%Z -> (len results <= limit)%Z)).
Proof. unfold search_baidu, baidu_url. search_script slice_to_bound. Qed.

Lemma search_google_run (w : World) (query : str) (limit : Z) (l : Log) :
  exists r,
    search_google w query limit l
    = (Ok r, l ++ (if too_short query then [] else [google_url w (strip query)]))
    /\ (too_short query = true -> r = NotFound (U "搜索关键词太短") None)
    /\ (forall q results,
          r = Found q results ->
          q = strip query /\ results <> []
          /\ ((0 <= limit)%Z -> (len results <= limit)%Z)).
Proof. unfold search_google, google_url. search_script slice_to_bound. Qed.

Lemma search_of_run (w : World) (china : bool) (query : str) (limit : Z) (l : Log) :
  exists r,
    search_of w china query limit l
    = (Ok r, l ++ (if too_short query then []
                   else [search_url w china (strip query)]))
    /\ (too_short query = true -> r = NotFound (U "搜索关键词太短") None)
    /\ (forall q results,
          r = Found q results ->
          q = strip query /\ results <> []
          /\ ((0 <= limit)%Z -> (len results <= limit)%Z)).
Proof.
  destruct china; [apply search_baidu_run|apply search_google_run].
Qed.

(** X9. Both search functions catch every exception and return a result
    dictionary.  A query that is empty, or shorter than two characters once
    stripped, is refused without any request; otherwise exactly one
    request is made, to the engine's URL for the stripped query.  A
    successful result carries the stripped query and a non-empty list of
    hits, at most [limit] of them for a non-negative [limit]. *)
Theorem X9_search_gate_and_result (w : World) (china : bool) (query : str)
    (limit : Z) (l : Log) :
  exists r,
    (if china then search_baidu w else search_google w) query limit l
    = (Ok r, l ++ (if too_short query then []
                   else [search_url w china (strip query)]))
    /\ (too_short query = true -> r = NotFound (U "搜索关键词太短") None)
    /\ (forall q results,
          r = Found q results ->
          q = strip query /\ results <> []
          /\ ((0 <= limit)%Z -> (len results <= limit)%Z)).
Proof. exact (search_of_run w china query limit l). Qed.

Lemma gather_searches (w : World) (china : bool) (limit : Z) (queries : list str) :
  forall l,
    exists rs,
      gather (map (fun q => search_of w china q limit) queries) l
      = (Ok rs, l ++ searches w china queries).
Proof.
  induction queries as [|q queries IH]; intros l.
  - exists []. unfold searches. cbn. now rewrite app_nil_r.
  - destruct (search_of_run w china q limit l) as (r & Hr & _).
    destruct (IH (l ++ (if too_short q then []
                        else [search_url w china (strip q)]))) as (rs & Hrs).
    exists (Ok r :: rs). cbn [map gather]. rewrite Hr, Hrs.
    unfold searches. cbn [map concat]. now rewrite app_assoc.
Qed.

Lemma searches_length (w : World) (china : bool) (queries : list str) :
  length (searches w china queries) <= length queries.
Proof.
  unfold searches. induction queries as [|q queries IH]; cbn [map concat length];
    [lia|].
  rewrite length_app. destruct (too_short q); cbn [length]; lia.
Qed.

Lemma searches_engine (w : World) (china : bool) (queries : list str) :
  Forall (fun u => exists q, In q queries /\ u = search_url w china (strip q))
         (searches w china queries).
Proof.
  unfold searches. induction queries as [|q queries IH]; cbn [map concat];
    [constructor|].
  apply Forall_app. split.
  - destruct (too_short q); constructor; [|constructor].
    exists q. split; [now left|reflexivity].
  - eapply Forall_impl; [|exact IH].
    intros u (q' & Hin & ->). exists q'. split; [now right|reflexivity].
Qed.

(** The successful queries are picked from the queries, and there is one
    whenever a branch contributed a hit. *)
Lemma collect_queries (qs : list str) :
  forall (rs : list (result SearchResult)) (acc : list SearchItem) (sq : list str),
    exists picked,
      snd (collect qs rs acc sq) = sq ++ picked
      /\ incl picked qs
      /\ (picked = [] -> fst (collect qs rs acc sq) = acc).
Proof.
  induction qs as [|q qs IH]; intros rs acc sq.
  - exists []. cbn. rewrite app_nil_r. repeat split. apply incl_refl.
  - destruct rs as [|r rs].
    + exists []. cbn. rewrite app_nil_r. repeat split. intros x [].
    + cbn [collect].
      assert (Hskip : exists picked,
                 snd (collect qs rs acc sq) = sq ++ picked
                 /\ incl picked (q :: qs)
                 /\ (picked = [] -> fst (collect qs rs acc sq) = acc)).
      { destruct (IH rs acc sq) as (picked & H1 & H2 & H3).
        exists picked. repeat split; auto. now apply incl_tl. }
      destruct r as [[query [|x results]|error query]|e]; try exact Hskip.
      destruct (IH rs (acc ++ x :: results) (sq ++ [q])) as (picked & H1 & H2 & H3).
      exists (q :: picked). rewrite H1, <- app_assoc. split; [reflexivity|].
      split; [|discriminate].
      intros y [<-|Hy]; [now left|right; now apply H2].
Qed.

Lemma search_phase_run (w : World) (china : bool) (sanitized_title : str)
    (queries : list str) (limit : Z) (l : Log) :
  exists env,
    search_phase w china sanitized_title queries limit l
    = (Ok env, l ++ searches w china (filter valid_query queries))
    /\ (field env (U "success") = Ok (PBool true) ->
        exists items successful,
          field env (U "search_results") = Ok (PList (map py_item_of items))
          /\ items <> []
          /\ ((0 <= limit)%Z -> (len items <= 2 * limit)%Z)
          /\ field env (U "search_queries") = Ok (py_strs successful)
          /\ successful <> []
          /\ incl successful (filter valid_query queries)
          /\ field env (U "region") = Ok (PStr (region_name china))).
Proof.
  unfold search_phase. fold (search_of w china).
  destruct (filter valid_query queries) as [|q valid] eqn:Ev.
  - eexists. unfold ret, searches. cbn [map concat]. rewrite app_nil_r.
    split; [reflexivity|]. intros H. vm_compute in H. discriminate.
  - destruct (gather_searches w china limit (q :: valid) l) as (rs & Hrs).
    unfold bind. rewrite Hrs.
    destruct (merge_results limit (q :: valid) rs) as [|x items] eqn:Em; unfold ret.
    + eexists. split; [reflexivity|]. intros H. vm_compute in H. discriminate.
    + eexists. split; [reflexivity|]. intros _.
      exists (x :: items), (snd (collect (q :: valid) rs [] [])).
      split; [reflexivity|]. split; [discriminate|].
      split.
      { intros Hl. rewrite <- Em. unfold merge_results.
        destruct (collect (q :: valid) rs [] []) as [all_results sq].
        replace (2 * limit)%Z with (limit * 2)%Z by lia.
        apply slice_to_bound. lia. }
      split; [reflexivity|].
      destruct (collect_queries (q :: valid) rs [] []) as (picked & Hs & Hincl & Hnone).
      rewrite Hs. cbn [app]. split; [|split; [exact Hincl|now destruct china]].
      intros ->. specialize (Hnone eq_refl).
      unfold merge_results in Em.
      destruct (collect (q :: valid) rs [] []) as [all_results sq].
      cbn [fst] in Hnone. subst all_results.
      cbn [deduplicate] in Em. unfold slice_to in Em.
      destruct (0 <=? limit * 2)%Z; rewrite firstn_nil in Em; discriminate.
Qed.

Lemma all_valid_filter (queries : list str) :
  Forall (fun q => valid_query q = true) (filter valid_query queries).
Proof.
  apply Forall_forall. intros q Hq. now apply filter_In in Hq.
Qed.

(** The run of query generation, whatever the assistant does. *)
Lemma queries_run (w : World) (window_title : str) (l : Log) :
  exists queries extra,
    generate_diverse_queries w window_title l = (Ok queries, l ++ extra)
    /\ (extra = [] \/ extra = [assistant_endpoint])
    /\ length queries <= 3
    /\ (clean_window_title window_title <> [] -> length queries = 3)
    /\ Forall (fun q => q = clean_window_title window_title
                        \/ valid_query q = true) queries.
Proof.
  unfold generate_diverse_queries, try_except, bind, lift, request, ret.
  set (clean_title := clean_window_title window_title).
  assert (Hcopies : Forall (fun q => q = clean_title \/ valid_query q = true)
                           [clean_title; clean_title; clean_title]).
  { repeat constructor. }
  destruct (assistant_config w) as [[]|e].
  - rewrite (is_china_region_value w).
    destruct (assistant w window_title) as [content|e].
    + set (lines := keywords (split_char 10 (strip content)) []).
      destruct (keywords_from_reply (split_char 10 (strip content)))
        as (Hvalid & Hlen). fold lines in Hvalid, Hlen.
      exists (slice_to 3 (if (len lines <? 3)%Z then pad_queries lines clean_title
                          else lines)), [assistant_endpoint].
      split; [reflexivity|]. split; [now right|].
      assert (Hlines : Forall (fun q => q = clean_title \/ valid_query q = true) lines).
      { eapply Forall_impl; [|exact Hvalid]. intros q Hq. now right. }
      destruct (len lines <? 3)%Z eqn:E; cbv iota.
      * apply Z.ltb_lt in E.
        destruct clean_title as [|c t] eqn:Ect; unfold pad_queries; cbv iota.
        -- rewrite slice_to_all by lia. unfold len in E.
           split; [lia|]. split; [congruence|exact Hlines].
        -- match goal with
           | |- context [slice_to 3 ?padded] => assert (length padded = 3) as H3
           end.
           { rewrite length_app, repeat_length. unfold len in E. lia. }
           rewrite (slice_three _ H3). split; [lia|]. split; [auto|].
           apply Forall_app. split; [exact Hlines|].
           apply Forall_forall. intros q Hq. apply repeat_spec in Hq. now left.
      * apply Z.ltb_ge in E. unfold len in *.
        rewrite slice_to_all by (unfold len; lia).
        split; [lia|]. split; [intros _; lia|exact Hlines].
    + exists [clean_title; clean_title; clean_title], [assistant_endpoint].
      split; [reflexivity|]. split; [now right|]. cbn [length].
      split; [lia|]. split; [reflexivity|exact Hcopies].
  - exists [clean_title; clean_title; clean_title], [].
    rewrite app_nil_r.
    split; [reflexivity|]. split; [now left|]. cbn [length].
    split; [lia|]. split; [reflexivity|exact Hcopies].
Qed.

(** The queries themselves, whatever the assistant does. *)
Lemma queries_exact (w : World) (window_title : str) (l : Log) :
  fst (generate_diverse_queries w window_title l)
  = Ok (expected_queries w window_title).
Proof.
  unfold generate_diverse_queries, expected_queries, assistant_lines,
    try_except, bind, lift, request, ret.
  destruct (assistant_config w) as [[]|e]; [|reflexivity].
  rewrite (is_china_region_value w).
  destruct (assistant w window_title) as [content|e]; [|reflexivity].
  cbn [fst]. f_equal.
  set (lines := keywords (split_char 10 (strip content)) []).
  destruct (keywords_from_reply (split_char 10 (strip content))) as (_ & Hlen).
  fold lines in Hlen. unfold len in Hlen.
  set (clean_title := clean_window_title window_title).
  destruct (len lines <? 3)%Z eqn:E.
  - apply Z.ltb_lt in E. unfold len in E.
    destruct clean_title as [|c t]; unfold pad_queries; cbn [nonempty].
    + rewrite app_nil_r. apply slice_to_all. unfold len. lia.
    + apply slice_three. rewrite length_app, repeat_length. lia.
  - apply Z.ltb_ge in E. unfold len in E.
    replace (3 - length lines) with 0 by lia. cbn [repeat].
    replace (if nonempty clean_title then [] else []) with (@nil str)
      by (now destruct (nonempty clean_title)).
    rewrite app_nil_r. apply slice_to_all. unfold len. lia.
Qed.

(** X10. Query generation never raises and calls the assistant at most
    once.  It returns the usable lines of the assistant's reply (its
    lines, cleaned, of at least two characters, the first three of them, in
    the order of the reply) followed by copies of the re-cleaned title up
    to three queries, and three copies of that title when the call
    raised: at most three queries, exactly three unless the re-cleaned
    title is empty. *)
Theorem X10_query_generation_envelope (w : World) (window_title : str) (l : Log) :
  exists queries extra,
    generate_diverse_queries w window_title l = (Ok queries, l ++ extra)
    /\ (extra = [] \/ extra = [assistant_endpoint])
    /\ length queries <= 3
    /\ (clean_window_title window_title <> [] -> length queries = 3)
    /\ Forall (fun q => q = clean_window_title window_title
                        \/ valid_query q = true) queries
    /\ queries = expected_queries w window_title
    /\ (forall content,
          assistant_config w = Ok tt ->
          assistant w window_title = Ok content ->
          assistant_lines w window_title = Some (usable_lines content)).
Proof.
  destruct (queries_run w window_title l) as (queries & extra & Hq & H1 & H2 & H3 & H4).
  exists queries, extra. repeat split; auto.
  - pose proof (queries_exact w window_title l) as He. rewrite Hq in He.
    cbn [fst] in He. now inversion He.
  - intros content Hc Ha. now apply assistant_lines_usable.
Qed.

Example terse_world_queries :
  fst (generate_diverse_queries terse_world (U "Rocq Prover manual") [])
  = Ok [U "rocq"; U "prover"; U "Rocq Prover manual"].
Proof. vm_compute. reflexivity. Qed.

Lemma filter_length_bound (A : Type) (f : A -> bool) (l : list A) :
  length (filter f l) <= length l.
Proof.
  induction l as [|x l IH]; cbn [filter length]; [lia|].
  destruct (f x); cbn [length]; lia.
Qed.

Lemma unusable_filter (queries : list str) :
  unusable queries = true -> filter valid_query queries = [].
Proof.
  unfold unusable. intros H. apply orb_true_iff in H as [H|H].
  - now destruct queries.
  - induction queries as [|q queries IH]; [reflexivity|].
    cbn [forallb] in H. apply andb_true_iff in H as [Hq H].
    apply negb_true_iff in Hq. cbn [filter]. rewrite Hq. now apply IH.
Qed.

(** X11. The context pipeline never raises.  Without an active window it
    fails before any request.  Otherwise it calls the assistant at most
    once, for the queries of the cleaned title, and then makes exactly the
    searches of the valid queries (two characters at least) on the region's
    engine (Baidu when Domestic, Google otherwise): three at most, and in
    no stated order, as the searches run concurrently.  When it reports success, the results are non-empty and
    at most 2×limit (for a non-negative limit), and the reported queries
    are a non-empty selection of those valid queries. *)
Theorem X11_context_pipeline_envelope (w : World) (limit : Z) (l : Log) :
  exists env assistant_calls search_calls,
    fetch_window_context_content w limit l
    = (Ok env, l ++ assistant_calls ++ search_calls)
    /\ (assistant_calls = [] \/ assistant_calls = [assistant_endpoint])
    /\ length search_calls <= 3
    /\ Forall (fun u => exists q, valid_query q = true
                                  /\ u = search_url w (domestic w) (strip q))
              search_calls
    /\ (get_active_window_title w = None ->
        env = failure (U "无法获取当前活跃窗口标题")
        /\ assistant_calls = [] /\ search_calls = [])
    /\ (field env (U "success") = Ok (PBool true) ->
        exists items successful,
          field env (U "search_results") = Ok (PList (map py_item_of items))
          /\ items <> []
          /\ ((0 <= limit)%Z -> (len items <= 2 * limit)%Z)
          /\ field env (U "search_queries") = Ok (py_strs successful)
          /\ successful <> []
          /\ Forall (fun q => valid_query q = true) successful
          /\ field env (U "region") = Ok (PStr (region_name (domestic w)))
          /\ exists sanitized_title raw queries,
               get_active_window_title w = Some (sanitized_title, raw)
               /\ generate_diverse_queries w (clean_window_title raw) l
                  = (Ok queries, l ++ assistant_calls)
               /\ incl successful (filter valid_query queries))
    /\ (forall sanitized_title raw,
          get_active_window_title w = Some (sanitized_title, raw) ->
          exists queries,
            generate_diverse_queries w (clean_window_title raw) l
            = (Ok queries, l ++ assistant_calls)
            /\ Permutation search_calls
                 (searches w (domestic w) (filter valid_query queries))).
Proof.
  unfold fetch_window_context_content, try_except, bind, lift.
  rewrite (is_china_region_value w). fold (domestic w).
  destruct (get_active_window_title w) as [[sanitized_title raw]|].
  - destruct (queries_run w (clean_window_title raw) l)
      as (queries & extra & Hq & Hextra & Hlen & _).
    rewrite Hq.
    destruct (unusable queries) eqn:Eu.
    + exists (no_keywords sanitized_title), extra, [].
      unfold ret. rewrite app_nil_r. split; [reflexivity|].
      split; [exact Hextra|]. split; [cbn; lia|]. split; [constructor|].
      split; [discriminate|].
      split; [intros H; vm_compute in H; discriminate|].
      intros s0 r0 H. inversion H; subst. exists queries. split; [exact Hq|].
      rewrite (unusable_filter _ Eu). apply perm_nil.
    + destruct (search_phase_run w (domestic w) sanitized_title queries limit
                  (l ++ extra)) as (env & Hrun & Hshape).
      rewrite Hrun.
      exists env, extra, (searches w (domestic w) (filter valid_query queries)).
      rewrite app_assoc. split; [reflexivity|].
      split; [exact Hextra|].
      split.
      { pose proof (searches_length w (domestic w) (filter valid_query queries)).
        pose proof (filter_length_bound valid_query queries). lia. }
      split.
      { eapply Forall_impl; [|apply searches_engine].
        intros u (q & Hin & ->). exists q. split; [|reflexivity].
        now apply filter_In in Hin. }
      split; [discriminate|].
      split.
      { intros Hs. destruct (Hshape Hs)
          as (items & successful & H1 & H2 & H3 & H4 & H5 & H6 & H7).
        exists items, successful.
        split; [exact H1|]. split; [exact H2|]. split; [exact H3|].
        split; [exact H4|]. split; [exact H5|].
        split.
        { apply Forall_forall. intros q Hin. apply H6 in Hin.
          now apply filter_In in Hin. }
        split; [exact H7|].
        exists sanitized_title, raw, queries.
        split; [reflexivity|]. split; [exact Hq|exact H6]. }
      intros s0 r0 H. inversion H; subst. exists queries.
      split; [exact Hq|apply Permutation_refl].
  - exists (failure (U "无法获取当前活跃窗口标题")), [], [].
    unfold ret. cbn [app]. rewrite app_nil_r. split; [reflexivity|].
    split; [now left|]. split; [cbn; lia|]. split; [constructor|].
    split; [auto|].
    split; [intros H; vm_compute in H; discriminate|].
    intros s0 r0 H. discriminate.
Qed.

(* ------------------------------------------------------------------ *)
(** *** Cookie management endpoints *)

Lemma status_loop_run (b : Router.Backend) (platforms : list str) :
  forall data s,
    (exists data', Router.status_loop b platforms data s = (Router.Return data', s))
    \/ (exists e, Router.status_loop b platforms data s
                  = (Router.Raised (Router.Exception e), s)).
Proof.
  induction platforms as [|p platforms IH]; intros data s.
  - left. eexists. reflexivity.
  - cbn [Router.status_loop]. run_endpoint.
    destruct (Router.load_cookies_from_file b p) as [cookies|e].
    + apply IH.
    + right. eexists. reflexivity.
Qed.

(** X12. No endpoint lets an exception other than [HTTPException] out,
    and each raises only the status codes of its own checks: 500 for the
    two listings, 400, 403 and 500 for [save_cookie], 400 and 500 for
    reading and deleting a platform's cookies.  The legacy endpoint never
    raises. *)
Theorem X12_endpoints_raise_only_http (b : Router.Backend)
    (data : Router.CookieSubmit) (platform : str) (s : Router.Calls) :
  answers (fst (Router.get_supported_platforms b s)) [500%Z]
  /\ answers (fst (Router.save_cookie b data s)) [400%Z; 403%Z; 500%Z]
  /\ answers (fst (Router.get_all_cookies_status b s)) [500%Z]
  /\ answers (fst (Router.get_platform_cookies b platform s)) [400%Z; 500%Z]
  /\ answers (fst (Router.delete_platform_cookies b platform s)) [400%Z; 500%Z]
  /\ (exists reply, fst (Router.api_save_cookie b data s) = Router.Return reply).
Proof.
  repeat split.
  - unfold Router.get_supported_platforms. run_endpoint.
    destruct (Router.supported_platforms b) as [platforms|e]; cbn; auto.
    destruct (comprehension _ Router.platform_entry platforms); cbn; auto.
  - unfold Router.save_cookie. run_endpoint.
    destruct (Router.suspicious (Router.cookie_string data)); [cbn; auto|].
    destruct (Router.supported_platforms b) as [platforms|e]; [|cbn; auto].
    destruct (Router.has_key (Router.platform data) platforms); [|cbn; auto].
    destruct (Router.parse_cookie_string b (Router.cookie_string data))
      as [cookies|e]; [|cbn; auto].
    destruct cookies as [|c cookies]; [cbn; auto|]. cbn [nonempty negb].
    destruct (Router.missing_fields (Router.platform data) (c :: cookies));
      [|cbn; auto]. cbn [nonempty].
    destruct (Router.save_cookies_to_file b (Router.platform data) (c :: cookies) _)
      as [[|]|e]; cbn; auto.
  - unfold Router.get_all_cookies_status. run_endpoint.
    destruct (Router.supported_platforms b) as [platforms|e]; [|cbn; auto].
    destruct (status_loop_run b (map fst platforms)
                [(U "platforms", PDict platforms)] s) as [(d & ->)|(e & ->)];
      cbn; auto.
  - unfold Router.get_platform_cookies. run_endpoint.
    destruct (Router.supported_platforms b) as [platforms|e]; [|cbn; auto].
    destruct (Router.has_key platform platforms); [|cbn; auto].
    destruct (Router.load_cookies_from_file b platform) as [[|c cookies]|e];
      cbn; auto.
  - unfold Router.delete_platform_cookies. run_endpoint.
    destruct (Router.supported_platforms b) as [platforms|e]; [|cbn; auto].
    destruct (Router.has_key platform platforms); [|cbn; auto].
    destruct (Router.cookie_file b platform) as [[[|]|]|e]; cbn; auto.
    destruct (Router.unlink b platform) as [[]|e]; cbn; auto.
  - unfold Router.api_save_cookie. run_endpoint.
    destruct (Router.parse_cookie_string b (Router.cookie_string data))
      as [cookies|e]; [|eexists; reflexivity].
    destruct cookies as [|c cookies]; [eexists; reflexivity|]. cbn [nonempty negb].
    destruct (Router.legacy_missing (Router.platform data) (c :: cookies));
      [eexists; reflexivity|].
    destruct (Router.save_cookies_to_file b (Router.platform data) (c :: cookies) None)
      as [[|]|e]; eexists; reflexivity.
Qed.

Lemma missing_none (platform : str) (cookies : list (str * str)) :
  Router.missing_fields platform cookies = [] <->
  (forall required_fields,
      lookup platform Router.platform_validations = Some required_fields ->
      Forall (fun field => Router.has_key field cookies = true) required_fields).
Proof.
  unfold Router.missing_fields.
  destruct (lookup platform Router.platform_validations) as [required|].
  - split.
    + intros H required' E. inversion E; subst required'.
      apply Forall_forall. intros f Hf.
      destruct (Router.has_key f cookies) eqn:Ek; [reflexivity|].
      assert (In f (filter (fun field => negb (Router.has_key field cookies)) required))
        as Hin by (apply filter_In; rewrite Ek; auto).
      rewrite H in Hin. destruct Hin.
    + intros H. specialize (H required eq_refl).
      induction H as [|f required Hf Hall IH]; [reflexivity|].
      cbn [filter]. rewrite Hf. exact IH.
  - split; [intros _ required E; discriminate|reflexivity].
Qed.

(** [save_cookie] on a validated body: what it answers and what it
    stores. *)
Lemma save_cookie_run (b : Router.Backend)
    (data : Router.CookieSubmit) (s : Router.Calls) :
  exists out s',
    Router.save_cookie b data s = (out, s')
    /\ ((exists reply, out = Router.Return reply)
        <-> (exists cookies encrypt, accepted b data cookies encrypt))
    /\ (forall cookies encrypt,
          accepted b data cookies encrypt ->
          (exists reply, out = Router.Return reply
                         /\ field reply (U "success") = Ok (PBool true))
          /\ s' = s ++ [Router.SaveCookies (Router.platform data) cookies
                          (Some encrypt)])
    /\ (forall status_code detail,
          out = Router.Raised (Router.HTTPException status_code detail) ->
          (status_code = 403%Z
           <-> Router.suspicious (Router.cookie_string data) = true)
          /\ (status_code <> 500%Z -> s' = s)).
Proof.
  unfold accepted, Router.save_cookie. run_endpoint.
  destruct (Router.suspicious (Router.cookie_string data)) eqn:Es.
  { eexists; eexists. split; [reflexivity|]. split; [|split].
    - split; [intros (r & H); discriminate|].
      intros (c & e & H & _). discriminate.
    - intros c e (H & _). discriminate.
    - intros code detail H. inversion H; subst. split; [tauto|reflexivity]. }
  destruct (Router.supported_platforms b) as [platforms|e] eqn:Ep.
  2:{ eexists; eexists. split; [reflexivity|]. split; [|split].
      - split; [intros (r & H); discriminate|].
        intros (c & e' & _ & (ps & H & _) & _). discriminate.
      - intros c e' (_ & (ps & H & _) & _). discriminate.
      - intros code detail H. inversion H; subst.
        split; [split; discriminate|intros H'; now elim H']. }
  destruct (Router.has_key (Router.platform data) platforms) eqn:Ek.
  2:{ eexists; eexists. split; [reflexivity|]. split; [|split].
      - split; [intros (r & H); discriminate|].
        intros (c & e' & _ & (ps & H & Hk) & _).
        inversion H; subst. congruence.
      - intros c e' (_ & (ps & H & Hk) & _). inversion H; subst. congruence.
      - intros code detail H. inversion H; subst.
        split; [split; discriminate|reflexivity]. }
  cbn [negb].
  destruct (Router.parse_cookie_string b (Router.cookie_string data))
    as [cookies|e] eqn:Ec.
  2:{ eexists; eexists. split; [reflexivity|]. split; [|split].
      - split; [intros (r & H); discriminate|].
        intros (c & e' & _ & _ & H & _). discriminate.
      - intros c e' (_ & _ & H & _). discriminate.
      - intros code detail H. inversion H; subst.
        split; [split; discriminate|intros H'; now elim H']. }
  destruct cookies as [|c0 cookies].
  { eexists; eexists. split; [reflexivity|]. split; [|split].
    - split; [intros (r & H); discriminate|].
      intros (c & e' & _ & _ & H & Hne & _). inversion H; subst. now elim Hne.
    - intros c e' (_ & _ & H & Hne & _). inversion H; subst. now elim Hne.
    - intros code detail H. inversion H; subst.
      split; [split; discriminate|reflexivity]. }
  cbn [nonempty negb].
  destruct (Router.missing_fields (Router.platform data) (c0 :: cookies))
    as [|f missing] eqn:Em.
  2:{ eexists; eexists. split; [reflexivity|]. split; [|split].
      - split; [intros (r & H); discriminate|].
        intros (c & e' & _ & _ & H & _ & Hreq & _). inversion H; subst.
        apply missing_none in Hreq. congruence.
      - intros c e' (_ & _ & H & _ & Hreq & _). inversion H; subst.
        apply missing_none in Hreq. congruence.
      - intros code detail H. inversion H; subst.
        split; [split; discriminate|reflexivity]. }
  cbn [nonempty].
  set (enc := match Router.encrypt data with Some e => e | None => true end).
  destruct (Router.save_cookies_to_file b (Router.platform data) (c0 :: cookies)
              (Some enc)) as [[|]|e] eqn:Esave.
  - eexists; eexists. split; [reflexivity|]. split; [|split].
    + split; [|eauto]. intros _. exists (c0 :: cookies), enc.
      split; [reflexivity|]. split; [eauto|]. split; [reflexivity|].
      split; [discriminate|]. split; [now apply missing_none|].
      split; [reflexivity|exact Esave].
    + intros c e' (_ & _ & H & _ & _ & He & _). inversion H; subst.
      split; [|reflexivity]. eexists. split; reflexivity.
    + intros code detail H. discriminate.
  - eexists; eexists. split; [reflexivity|]. split; [|split].
    + split; [intros (r & H); discriminate|].
      intros (c & e' & _ & _ & H & _ & _ & He & Hs). inversion H; subst.
      fold enc in Hs. congruence.
    + intros c e' (_ & _ & H & _ & _ & He & Hs). inversion H; subst.
      fold enc in Hs. congruence.
    + intros code detail H. inversion H; subst.
      split; [split; discriminate|intros H'; now elim H'].
  - eexists; eexists. split; [reflexivity|]. split; [|split].
    + split; [intros (r & H); discriminate|].
      intros (c & e' & _ & _ & H & _ & _ & He & Hs). inversion H; subst.
      fold enc in Hs. congruence.
    + intros c e' (_ & _ & H & _ & _ & He & Hs). inversion H; subst.
      fold enc in Hs. congruence.
    + intros code detail H. inversion H; subst.
      split; [split; discriminate|intros H'; now elim H'].
Qed.

(** X13. For a request body that passes validation, [save_cookie] answers
    with its success dictionary exactly when the submission is accepted:
    the cookie string is not suspicious, the platform is supported, the
    string parses to at least one cookie, every core field of the platform
    is among the cookie names, and the store reports success.  Then the
    cookies have been stored once, with the [encrypt] of the request: its
    value when the request gives one, [false] when the request leaves the
    field out (the declared default), and [true] only for an explicit
    null.  A refusal with status 403 means a suspicious cookie string and
    conversely, and after a refusal with 400 or 403 nothing has been
    stored. *)
Theorem X13_save_cookie_acceptance (b : Router.Backend)
    (request : Router.CookieRequest) (data : Router.CookieSubmit)
    (s : Router.Calls) :
  Router.validate request = Some data ->
  exists out s',
    Router.save_cookie b data s = (out, s')
    /\ ((exists reply, out = Router.Return reply)
        <-> (exists cookies encrypt, accepted b data cookies encrypt))
    /\ (forall cookies encrypt,
          accepted b data cookies encrypt ->
          (exists reply, out = Router.Return reply
                         /\ field reply (U "success") = Ok (PBool true)
                         /\ (exists details,
                               field reply (U "data") = Ok details
                               /\ field details (U "encrypted")
                                  = Ok (PBool encrypt)))
          /\ s' = s ++ [Router.SaveCookies (Router.platform data) cookies
                          (Some encrypt)]
          /\ encrypt = match Router.json_encrypt request with
                       | Router.Absent => false
                       | Router.Null => true
                       | Router.Given e => e
                       end)
    /\ (forall status_code detail,
          out = Router.Raised (Router.HTTPException status_code detail) ->
          (status_code = 403%Z
           <-> Router.suspicious (Router.cookie_string data) = true)
          /\ (status_code <> 500%Z -> s' = s))
    /\ Router.platform data = Router.json_platform request
    /\ Router.cookie_string data = Router.json_cookie_string request.
Proof.
  intros Hv.
  assert (Hdata : data = Router.MkCookieSubmit (Router.json_platform request)
                           (Router.json_cookie_string request)
                           (match Router.json_encrypt request with
                            | Router.Absent => Some false
                            | Router.Null => None
                            | Router.Given e => Some e
                            end)).
  { unfold Router.validate in Hv.
    match type of Hv with (if ?c then _ else _) = _ => destruct c end;
      [now inversion Hv|discriminate]. }
  destruct (save_cookie_run b data s) as (out & s' & Hrun & Hiff & Hstored & Hrefused).
  exists out, s'. split; [exact Hrun|]. split; [exact Hiff|].
  split; [|split; [exact Hrefused|rewrite Hdata; split; reflexivity]].
  intros cookies encrypt Hacc.
  destruct (Hstored cookies encrypt Hacc) as ((reply & -> & Hsuccess) & Hs').
  assert (Hreply : Router.save_cookie b data s
                   = (Router.Return reply, s')) by exact Hrun.
  destruct Hacc as (Hsafe & (platforms & Hp & Hk) & Hc & Hne & _ & He & Hsave).
  split; [|split; [exact Hs'|]].
  - exists reply. split; [reflexivity|]. split; [exact Hsuccess|].
    revert Hreply. unfold Router.save_cookie. run_endpoint.
    rewrite Hsafe, Hp, Hk, Hc. cbn [negb].
    destruct cookies as [|c0 cookies]; [now elim Hne|]. cbn [nonempty negb].
    destruct (Router.missing_fields (Router.platform data) (c0 :: cookies));
      [|discriminate].
    cbn [nonempty]. rewrite <- He, Hsave. intros Hr. inversion Hr; subst.
    eexists. split; reflexivity.
  - rewrite He, Hdata. cbn [Router.encrypt].
    now destruct (Router.json_encrypt request).
Qed.

Lemma X13_save_cookie_acceptance_witness :
  Router.validate (Router.MkCookieRequest (U "weibo") (U "SUB=abc") Router.Absent)
  = Some (Router.MkCookieSubmit (U "weibo") (U "SUB=abc") (Some false))
  /\ exists out s',
      Router.save_cookie open_backend
        (Router.MkCookieSubmit (U "weibo") (U "SUB=abc") (Some false)) []
      = (out, s')
      /\ (forall cookies encrypt,
            accepted open_backend
              (Router.MkCookieSubmit (U "weibo") (U "SUB=abc") (Some false))
              cookies encrypt ->
            encrypt = false).
Proof.
  assert (Hv : Router.validate
                 (Router.MkCookieRequest (U "weibo") (U "SUB=abc") Router.Absent)
               = Some (Router.MkCookieSubmit (U "weibo") (U "SUB=abc") (Some false))).
  { vm_compute. reflexivity. }
  split; [exact Hv|].
  destruct (@X13_save_cookie_acceptance open_backend _ _ [] Hv)
    as (out & s' & Hrun & _ & Hstored & _).
  exists out, s'. split; [exact Hrun|].
  intros cookies encrypt Hacc. exact (proj2 (proj2 (Hstored cookies encrypt Hacc))).
Defined.

Example unencrypted_by_default :
  Router.validate (Router.MkCookieRequest (U "weibo") (U "SUB=abc") Router.Absent)
  = Some (Router.MkCookieSubmit (U "weibo") (U "SUB=abc") (Some false))
  /\ Router.save_cookie open_backend
       (Router.MkCookieSubmit (U "weibo") (U "SUB=abc") (Some false)) []
     = (Router.Return
          (PDict [(U "success", PBool true);
                  (U "message", PStr (U "✅ weibo 凭证已安全保存！"));
                  (U "data", PDict [(U "platform", PStr (U "weibo"));
                                    (U "cookies_count", PInt 1);
                                    (U "encrypted", PBool false)])]),
        [Router.SaveCookies (U "weibo") [(U "SUB", U "SUB=abc")] (Some false)]).
Proof. split; vm_compute; reflexivity. Qed.

Example open_backend_accepts :
  Router.save_cookie open_backend
    (Router.MkCookieSubmit (U "weibo") (U "SUB=abc") None) []
  = (Router.Return
       (PDict [(U "success", PBool true);
               (U "message", PStr (U "✅ weibo 凭证已安全保存！"));
               (U "data", PDict [(U "platform", PStr (U "weibo"));
                                 (U "cookies_count", PInt 1);
                                 (U "encrypted", PBool true)])]),
     [Router.SaveCookies (U "weibo") [(U "SUB", U "SUB=abc")] (Some true)]).
Proof. vm_compute. reflexivity. Qed.

(** A run of literals matches every spelling that folds to the same
    characters, and hands the rest to the continuation. *)
Lemma m_lits (p : str) :
  forall (variant rest : str) (bos : bool) (k : bool -> str -> option str),
    p <> [] ->
    map fold_case variant = map fold_case p ->
    m true (lits p) bos (variant ++ rest) k = k false rest.
Proof.
  induction p as [|c p IH]; intros variant rest bos k Hne Hv; [congruence|].
  destruct variant as [|x variant]; [discriminate|].
  cbn [map] in Hv. inversion Hv as [[Hx Hrest]].
  destruct p as [|c' p].
  - destruct variant; [|discriminate].
    cbn [lits m app]. unfold chr_eq. now rewrite Hx, N.eqb_refl.
  - change (lits (c :: c' :: p)) with (Seq (Lit c) (lits (c' :: p))).
    cbn [m app]. unfold chr_eq. rewrite Hx, N.eqb_refl.
    apply IH; [discriminate|exact Hrest].
Qed.

Lemma alts_matches (rs : list re) (r : re) (bos : bool) (s : str)
    (k : bool -> str -> option str) :
  In r rs -> m true r bos s k <> None -> m true (alts rs) bos s k <> None.
Proof.
  induction rs as [|r0 rs IH]; intros Hin Hm; [destruct Hin|].
  destruct rs as [|r1 rs].
  - destruct Hin as [->|[]]. exact Hm.
  - change (alts (r0 :: r1 :: rs)) with (Alt r0 (alts (r1 :: rs))). cbn [m].
    destruct (m true r0 bos s k) eqn:E; [discriminate|].
    destruct Hin as [->|Hin]; [congruence|]. now apply IH.
Qed.

Lemma search_from_finds (r : re) (s : str) :
  (forall bos, match_here true r bos s <> None) ->
  forall (pre : str) (bos : bool) (off : nat),
    search_from true r bos off (pre ++ s) <> None.
Proof.
  intros H. induction pre as [|c pre IH]; intros bos off.
  - cbn [app]. specialize (H bos).
    destruct s; cbn [search_from];
      destruct (match_here true r bos _); congruence.
  - cbn [app search_from].
    destruct (match_here true r bos (c :: pre ++ s)); [discriminate|]. apply IH.
Qed.

Lemma needles_nonempty : Forall (fun needle => needle <> []) Router.needles.
Proof. repeat constructor; vm_compute; discriminate. Qed.

Lemma needle_suspicious (needle variant before after : str) :
  In needle Router.needles ->
  map fold_case variant = map fold_case needle ->
  Router.suspicious (before ++ variant ++ after) = true.
Proof.
  intros Hin Hv. unfold Router.suspicious, search.
  destruct (search_from true Router.suspicious_pattern true 0
              (before ++ variant ++ after)) eqn:E; [reflexivity|].
  exfalso. revert E. apply search_from_finds. intros bos. unfold match_here.
  destruct (m true Router.suspicious_pattern bos (variant ++ after)
              (fun _ rest => Some rest)) eqn:Em; [discriminate|].
  exfalso. revert Em. unfold Router.suspicious_pattern.
  apply (@alts_matches _ (lits needle)); [now apply in_map|].
  rewrite m_lits; [discriminate| |exact Hv].
  pose proof needles_nonempty as Hall. rewrite Forall_forall in Hall. now apply Hall.
Qed.

(** X14. A cookie string that contains one of the six needles of the
    pattern ([<script], [javascript:], [onload=], [eval(], [UNION SELECT],
    [../]) in any spelling that case folding identifies with it is refused
    by [save_cookie] with status 403, whatever the platform and the
    backend, and nothing is stored. *)
Theorem X14_injection_patterns_refused (b : Router.Backend)
    (data : Router.CookieSubmit) (s : Router.Calls)
    (needle variant before after : str) :
  In needle Router.needles ->
  map fold_case variant = map fold_case needle ->
  Router.cookie_string data = before ++ variant ++ after ->
  Router.save_cookie b data s
  = (Router.Raised
       (Router.HTTPException 403 (U "检测到非法/危险字符，请求已被系统拦截。")), s).
Proof.
  intros Hin Hv Hs. unfold Router.save_cookie. run_endpoint.
  rewrite Hs, (@needle_suspicious needle variant before after Hin Hv). reflexivity.
Qed.

Lemma X14_injection_patterns_refused_witness :
  In (U "<script") Router.needles
  /\ map fold_case (U "<SCRIPT") = map fold_case (U "<script")
  /\ Router.save_cookie open_backend
       (Router.MkCookieSubmit (U "weibo") (U "SUB=<SCRIPT>") None) []
     = (Router.Raised
          (Router.HTTPException 403 (U "检测到非法/危险字符，请求已被系统拦截。")), []).
Proof.
  assert (H1 : In (U "<script") Router.needles) by (left; reflexivity).
  assert (H2 : map fold_case (U "<SCRIPT") = map fold_case (U "<script"))
    by (vm_compute; reflexivity).
  split; [exact H1|]. split; [exact H2|].
  exact (@X14_injection_patterns_refused open_backend
           (Router.MkCookieSubmit (U "weibo") (U "SUB=<SCRIPT>") None) []
           (U "<script") (U "<SCRIPT") (U "SUB=") (U ">") H1 H2
           ltac:(vm_compute; reflexivity)).
Defined.

(** X15. The reply of [get_platform_cookies] does not depend on the
    values of the stored cookies: two backends that support the same
    platforms and store cookies of the same names for the platform get the
    same outcome, whatever the values are. *)
Theorem X15_cookie_values_not_disclosed (b b' : Router.Backend) (platform : str)
    (s : Router.Calls) :
  Router.supported_platforms b = Router.supported_platforms b' ->
  cookie_names (Router.load_cookies_from_file b platform)
  = cookie_names (Router.load_cookies_from_file b' platform) ->
  Router.get_platform_cookies b platform s
  = Router.get_platform_cookies b' platform s.
Proof.
  intros Hp Hn. unfold Router.get_platform_cookies. run_endpoint. rewrite <- Hp.
  destruct (Router.supported_platforms b) as [platforms|e]; [|reflexivity].
  destruct (Router.has_key platform platforms); [|reflexivity]. cbn [negb].
  destruct (Router.load_cookies_from_file b platform) as [c|e],
           (Router.load_cookies_from_file b' platform) as [c'|e'];
    cbn [cookie_names] in Hn; try discriminate; [|reflexivity].
  inversion Hn as [Hnames].
  assert (length c = length c') as Hlen.
  { rewrite <- (length_map fst c), <- (length_map fst c'). now rewrite Hnames. }
  assert (map (fun kv : str * str => PStr (fst kv)) c
          = map (fun kv : str * str => PStr (fst kv)) c') as Hlist.
  { rewrite <- (map_map fst PStr c), <- (map_map fst PStr c'). now rewrite Hnames. }
  destruct c as [|x c], c' as [|x' c']; try discriminate; [reflexivity|].
  cbn [nonempty negb]. unfold len. now rewrite Hlen, Hlist.
Qed.

Lemma X15_cookie_values_not_disclosed_witness :
  Router.supported_platforms open_backend = Router.supported_platforms other_backend
  /\ cookie_names (Router.load_cookies_from_file open_backend (U "weibo"))
     = cookie_names (Router.load_cookies_from_file other_backend (U "weibo"))
  /\ Router.load_cookies_from_file open_backend (U "weibo")
     <> Router.load_cookies_from_file other_backend (U "weibo")
  /\ Router.get_platform_cookies open_backend (U "weibo") []
     = Router.get_platform_cookies other_backend (U "weibo") [].
Proof.
  split; [reflexivity|]. split; [reflexivity|].
  split; [vm_compute; discriminate|].
  exact (@X15_cookie_values_not_disclosed open_backend other_backend (U "weibo") []
           eq_refl eq_refl).
Defined.

Example open_backend_names :
  Router.get_platform_cookies open_backend (U "weibo") []
  = (Router.Return
       (PDict [(U "success", PBool true);
               (U "data", PDict [(U "platform", PStr (U "weibo"));
                                 (U "has_cookies", PBool true);
                                 (U "cookies_count", PInt 1);
                                 (U "cookie_names", PList [PStr (U "SUB")])])]),
     []).
Proof. vm_compute. reflexivity. Qed.

(** X16. The legacy endpoint never raises: it always returns a dictionary
    with a boolean [success] and a message.  It reports success exactly
    when the cookie string parses to at least one cookie, the one core
    field it knows for the platform (if any) is present and the store
    reports success; neither the list of supported platforms nor the
    pattern of suspicious strings is consulted.  It stores at most once,
    and without an [encrypt] argument. *)
Theorem X16_legacy_endpoint_acceptance (b : Router.Backend)
    (data : Router.CookieSubmit) (s : Router.Calls) :
  exists ok msg s',
    Router.api_save_cookie b data s = (Router.Return (Router.legacy_reply ok msg), s')
    /\ (ok = true <-> exists cookies, legacy_accepted b data cookies)
    /\ (forall cookies,
          legacy_accepted b data cookies ->
          s' = s ++ [Router.SaveCookies (Router.platform data) cookies None])
    /\ (s' = s
        \/ exists cookies,
             s' = s ++ [Router.SaveCookies (Router.platform data) cookies None]).
Proof.
  unfold legacy_accepted, Router.api_save_cookie. run_endpoint.
  destruct (Router.parse_cookie_string b (Router.cookie_string data))
    as [cookies|e] eqn:Ec.
  2:{ eexists; eexists; eexists. split; [reflexivity|]. split; [|split; [|now left]].
      - split; [discriminate|]. intros (c & H & _). discriminate.
      - intros c (H & _). discriminate. }
  destruct cookies as [|c0 cookies].
  { eexists; eexists; eexists. split; [reflexivity|]. split; [|split; [|now left]].
    - split; [discriminate|]. intros (c & H & Hne & _). inversion H; subst.
      now elim Hne.
    - intros c (H & Hne & _). inversion H; subst. now elim Hne. }
  cbn [nonempty negb].
  destruct (Router.legacy_missing (Router.platform data) (c0 :: cookies))
    as [shown|] eqn:Em.
  { eexists; eexists; eexists. split; [reflexivity|]. split; [|split; [|now left]].
    - split; [discriminate|]. intros (c & H & _ & Hm & _). inversion H; subst.
      congruence.
    - intros c (H & _ & Hm & _). inversion H; subst. congruence. }
  destruct (Router.save_cookies_to_file b (Router.platform data) (c0 :: cookies) None)
    as [[|]|e] eqn:Es.
  - eexists; eexists; eexists. split; [reflexivity|].
    split; [|split; [|right; eauto]].
    + split; [|reflexivity]. intros _. exists (c0 :: cookies).
      repeat split; auto. discriminate.
    + intros c (H & _). inversion H; subst. reflexivity.
  - eexists; eexists; eexists. split; [reflexivity|].
    split; [|split; [|right; eauto]].
    + split; [discriminate|]. intros (c & H & _ & _ & Hs). inversion H; subst.
      congruence.
    + intros c (H & _). inversion H; subst. reflexivity.
  - eexists; eexists; eexists. split; [reflexivity|].
    split; [|split; [|right; eauto]].
    + split; [discriminate|]. intros (c & H & _ & _ & Hs). inversion H; subst.
      congruence.
    + intros c (H & _). inversion H; subst. reflexivity.
Qed.

(** A submission the new endpoint refuses and the legacy endpoint
    stores. *)
Example legacy_stores_refused_submission :
  let data := Router.MkCookieSubmit (U "nowhere") (U "<script>alert(1)</script>") None in
  Router.save_cookie open_backend data []
  = (Router.Raised
       (Router.HTTPException 403 (U "检测到非法/危险字符，请求已被系统拦截。")), [])
  /\ Router.api_save_cookie open_backend data []
     = (Router.Return
          (Router.legacy_reply true (U "✅ nowhere 凭证已安全保存！")),
        [Router.SaveCookies (U "nowhere")
           [(U "SUB", U "<script>alert(1)</script>")] None]).
Proof. split; vm_compute; reflexivity. Qed.

Lemma app_one_differs (A : Type) (l : list A) (x : A) : l ++ [x] <> l.
Proof.
  intros H. apply (f_equal (@length A)) in H. rewrite length_app in H.
  cbn in H. lia.
Qed.

(** X17. [delete_platform_cookies] removes a file only when the platform
    is supported and its cookie file exists, and then exactly once; for
    an unsupported platform, a platform without a file entry or a missing
    file nothing is removed.  Every reply it returns says success. *)
Theorem X17_delete_only_existing (b : Router.Backend) (platform : str)
    (s : Router.Calls) :
  exists out s',
    Router.delete_platform_cookies b platform s = (out, s')
    /\ (s' = s ++ [Router.Unlink platform] <-> deletable b platform)
    /\ (s' = s \/ s' = s ++ [Router.Unlink platform])
    /\ (forall reply,
          out = Router.Return reply -> field reply (U "success") = Ok (PBool true)).
Proof.
  unfold deletable, Router.delete_platform_cookies. run_endpoint.
  destruct (Router.supported_platforms b) as [platforms|e] eqn:Ep.
  2:{ eexists; eexists. split; [reflexivity|]. split; [|split; [now left|]].
      - split; [intros H; symmetry in H; now apply app_one_differs in H|].
        intros ((ps & H & _) & _). discriminate.
      - intros reply H. discriminate. }
  destruct (Router.has_key platform platforms) eqn:Ek.
  2:{ eexists; eexists. split; [reflexivity|]. split; [|split; [now left|]].
      - split; [intros H; symmetry in H; now apply app_one_differs in H|].
        intros ((ps & H & Hk) & _). inversion H; subst. congruence.
      - intros reply H. discriminate. }
  cbn [negb].
  destruct (Router.cookie_file b platform) as [[[|]|]|e] eqn:Ef.
  - destruct (Router.unlink b platform) as [[]|e];
      eexists; eexists; (split; [reflexivity|]);
      (split; [|split; [now right|]]);
      try (split; [intros _; split; [eauto|reflexivity]|reflexivity]).
    + intros reply H. inversion H; subst. reflexivity.
    + intros reply H. discriminate.
  - eexists; eexists. split; [reflexivity|]. split; [|split; [now left|]].
    + split; [intros H; symmetry in H; now apply app_one_differs in H|].
      intros (_ & H). discriminate.
    + intros reply H. inversion H; subst. reflexivity.
  - eexists; eexists. split; [reflexivity|]. split; [|split; [now left|]].
    + split; [intros H; symmetry in H; now apply app_one_differs in H|].
      intros (_ & H). discriminate.
    + intros reply H. inversion H; subst. reflexivity.
  - eexists; eexists. split; [reflexivity|]. split; [|split; [now left|]].
    + split; [intros H; symmetry in H; now apply app_one_differs in H|].
      intros (_ & H). discriminate.
    + intros reply H. discriminate.
Qed.

Lemma lookup_set_same (A : Type) (k : str) (v : A) (d : list (str * A)) :
  lookup k (dict_set k v d) = Some v.
Proof.
  induction d as [|[k' v'] d IH]; cbn [dict_set lookup].
  - now rewrite str_eqb_refl.
  - destruct (str_eqb k k') eqn:E; cbn [lookup]; rewrite E; [reflexivity|exact IH].
Qed.

Lemma lookup_set_other (A : Type) (k k' : str) (v : A) (d : list (str * A)) :
  k <> k' -> lookup k' (dict_set k v d) = lookup k' d.
Proof.
  intros Hk.
  assert (str_eqb k' k = false) as Hkk.
  { apply not_true_is_false. intros H. apply str_eqb_eq in H. congruence. }
  induction d as [|[k0 v0] d IH]; cbn [dict_set lookup].
  - now rewrite Hkk.
  - destruct (str_eqb k k0) eqn:E; cbn [lookup].
    + apply str_eqb_eq in E. subst k0. now rewrite Hkk.
    + destruct (str_eqb k' k0); [reflexivity|exact IH].
Qed.

Lemma str_eq_dec (a b : str) : {a = b} + {a <> b}.
Proof. apply list_eq_dec, N.eq_dec. Qed.

Lemma status_loop_entries (b : Router.Backend) (platforms : list str) :
  forall data s,
    (forall p, In p platforms ->
               exists cookies, Router.load_cookies_from_file b p = Ok cookies) ->
    exists data',
      Router.status_loop b platforms data s = (Router.Return data', s)
      /\ (forall p cookies,
            In p platforms ->
            Router.load_cookies_from_file b p = Ok cookies ->
            lookup p data' = Some (Router.cookie_status cookies))
      /\ (forall p, ~ In p platforms -> lookup p data' = lookup p data).
Proof.
  induction platforms as [|q platforms IH]; intros data s Hload.
  - exists data. split; [reflexivity|]. split; [intros p c []|reflexivity].
  - destruct (Hload q (or_introl eq_refl)) as (cq & Hq).
    cbn [Router.status_loop]. run_endpoint. rewrite Hq.
    destruct (IH (dict_set q (Router.cookie_status cq) data) s) as (data' & Hrun & Hin & Hout).
    { intros p Hp. apply Hload. now right. }
    exists data'. split; [exact Hrun|]. split.
    + intros p c Hp Hc.
      destruct (in_dec str_eq_dec p platforms) as [Hrest|Hrest]; [now apply Hin|].
      destruct Hp as [->|Hp]; [|contradiction].
      rewrite (Hout p Hrest), lookup_set_same. congruence.
    + intros p Hp. rewrite Hout by (intros H; apply Hp; now right).
      apply lookup_set_other. intros ->. apply Hp. now left.
Qed.

(** X18. When the platform list and every platform's cookies can be read,
    [get_all_cookies_status] returns success without storing or removing
    anything, and its [data] has, under each supported platform's name,
    that platform's status: whether cookies are stored and how many. *)
Theorem X18_status_lists_every_platform (b : Router.Backend) (s : Router.Calls)
    (platforms : list (str * pyval)) :
  Router.supported_platforms b = Ok platforms ->
  (forall p, In p (map fst platforms) ->
             exists cookies, Router.load_cookies_from_file b p = Ok cookies) ->
  exists data,
    Router.get_all_cookies_status b s
    = (Router.Return (PDict [(U "success", PBool true); (U "data", PDict data)]), s)
    /\ (forall p cookies,
          In p (map fst platforms) ->
          Router.load_cookies_from_file b p = Ok cookies ->
          lookup p data
          = Some (PDict [(U "has_cookies", PBool (nonempty cookies));
                         (U "cookies_count", PInt (len cookies))])).
Proof.
  intros Hp Hload. unfold Router.get_all_cookies_status. run_endpoint. rewrite Hp.
  destruct (@status_loop_entries b (map fst platforms)
              [(U "platforms", PDict platforms)] s Hload) as (data & -> & Hin & _).
  exists data. split; [reflexivity|].
  intros p cookies Hpin Hc. rewrite (Hin p cookies Hpin Hc).
  unfold Router.cookie_status. now destruct cookies.
Qed.

Lemma X18_status_lists_every_platform_witness :
  Router.supported_platforms open_backend
  = Ok [(U "weibo", PDict [(U "name", PStr (U "Weibo"));
                           (U "methods", PList [PStr (U "cookie")]);
                           (U "default_method", PStr (U "cookie"))])]
  /\ exists data,
       Router.get_all_cookies_status open_backend []
       = (Router.Return (PDict [(U "success", PBool true); (U "data", PDict data)]),
          [])
       /\ (forall p cookies,
             In p [U "weibo"] ->
             Router.load_cookies_from_file open_backend p = Ok cookies ->
             lookup p data
             = Some (PDict [(U "has_cookies", PBool (nonempty cookies));
                            (U "cookies_count", PInt (len cookies))])).
Proof.
  split; [reflexivity|].
  exact (@X18_status_lists_every_platform open_backend [] _ eq_refl
           (fun p _ => ex_intro _ [(U "SUB", U "secret")] eq_refl)).
Defined.

(* ------------------------------------------------------------------ *)
(** *** The test entry point *)

Lemma item_of_field (env : pyval) (k : str) (v : pyval) :
  field env k = Ok v -> v <> PNone -> py_item env k = Ok v.
Proof.
  unfold field. destruct env as [| | | | |d]; cbn [py_get py_item]; try discriminate.
  destruct (lookup k d); intros H Hv; inversion H; subst; congruence.
Qed.

Lemma public_flag (china : bool) (ta tb tc td : M pyval) (l l1 l2 : Log)
    (va vb : pyval) (oa ob : bool) :
  fst (active china ta tb tc td) l = (Ok va, l1) ->
  snd (active china ta tb tc td) l1 = (Ok vb, l2) ->
  succeeded va = Ok oa ->
  succeeded vb = Ok ob ->
  exists env,
    public_content_of (Ok china) ta tb tc td l = (Ok env, l2)
    /\ field env (U "success") = Ok (PBool (oa || ob))
    /\ (oa || ob = false ->
        field env (U "error") = Ok (PStr (U "无法获取任何热门内容"))).
Proof.
  intros Ha Hb Hoa Hob.
  unfold public_content_of, try_except, bind, lift.
  destruct china; cbn [active fst snd] in Ha, Hb;
    unfold public_fan_out, bind, gather2, lift, ret;
    rewrite Ha, Hb; cbn [fst snd isolate]; rewrite Hoa;
    destruct oa; cbn [orb]; try rewrite Hob; try destruct ob; cbn [negb];
    eexists; (split; [reflexivity|]); split;
    first [reflexivity|discriminate|intros _; reflexivity].
Qed.

Lemma public_content_flag (w : World)
    (bilibili_limit douyin_limit kuaishou_limit weibo_limit reddit_limit
     twitter_limit : Z) (l : Log) :
  exists env l1 ok,
    fetch_public_content w bilibili_limit douyin_limit kuaishou_limit weibo_limit
      reddit_limit twitter_limit l = (Ok env, l1)
    /\ field env (U "success") = Ok (PBool ok)
    /\ (ok = false ->
        field env (U "error") = Ok (PStr (U "无法获取任何热门内容"))).
Proof.
  unfold fetch_public_content. rewrite (is_china_region_value w). fold (domestic w).
  destruct (@branches_run (domestic w)
              (fetch_bilibili_trending w bilibili_limit)
              (fetch_weibo_trending w weibo_limit)
              (fetch_reddit_popular w reddit_limit)
              (fetch_twitter_trending w twitter_limit) l
              (public_list_keys (domestic w))
              (if domestic w then [[]; [bilibili_homepage_api]]
               else [[reddit_popular_url reddit_limit]])
              (if domestic w
               then [[weibo_summary_url]; [weibo_summary_url; weibo_hotsearch_url]]
               else [[trends24_url]]))
    as (va & l1 & vb & l2 & Ha & Hb & Hva & Hvb).
  - destruct (domestic w); cbn [active fst];
      [apply bilibili_trending_run|apply reddit_popular_run].
  - intros l1. destruct (domestic w); cbn [active snd];
      [apply weibo_trending_run|apply twitter_trending_run].
  - intros l0. destruct (domestic w); cbn [active public_list_keys fst];
      [apply bilibili_trending_items|apply reddit_popular_items].
  - intros l0. destruct (domestic w); cbn [active public_list_keys snd];
      [apply weibo_trending_items|apply twitter_trending_items].
  - destruct (succeeded_items Hva) as (oa & Hoa).
    destruct (succeeded_items Hvb) as (ob & Hob).
    destruct (@public_flag _ _ _ _ _ _ _ _ _ _ _ _ Ha Hb Hoa Hob)
      as (env & Hrun & Hsuccess & Herror).
    exists env, l2, (oa || ob). auto.
Qed.

(** X19. The test entry point [main] never prints public content: when
    the public aggregation reports success, [main] stops with the
    NameError of the unbound name [format_public_content], before the
    personal part makes any request.  When the public aggregation fails,
    [main] prints the failure line and then always the formatted personal
    timeline, never the line for a failed personal aggregation. *)
Theorem X19_main_stops_on_public_success (w : World) (l : Log) :
  exists env l1,
    fetch_public_content w 5 10 10 5 5 5 l = (Ok env, l1)
    /\ ((field env (U "success") = Ok (PBool true)
         /\ main w l = (Raise name_error, l1))
        \/ (field env (U "success") = Ok (PBool false)
            /\ exists personal l2 text,
                 fetch_personal_dynamics w 5 l1 = (Ok personal, l2)
                 /\ format_personal_dynamics personal = Ok text
                 /\ main w l
                    = (Ok (banner (domestic w)
                           ++ [newline ++ rule;
                               U "获取公共热点失败: 无法获取任何热门内容";
                               rule; newline ++ rule; text; rule]), l2))).
Proof.
  destruct (public_content_flag w 5 10 10 5 5 5 l)
    as (env & l1 & ok & Hrun & Hsuccess & Herror).
  exists env, l1. split; [exact Hrun|].
  assert (Hitem : py_item env (U "success") = Ok (PBool ok))
    by (apply item_of_field; [exact Hsuccess|discriminate]).
  destruct ok.
  - left. split; [exact Hsuccess|].
    unfold main, bind, lift, ret. rewrite (is_china_region_value w), Hrun, Hitem.
    reflexivity.
  - right. split; [exact Hsuccess|].
    destruct (personal_timeline_text w 5 l1)
      as (personal & l2 & a & b & text & Hp & Hps & _ & _ & Htext & _).
    exists personal, l2, text. split; [exact Hp|]. split; [exact Htext|].
    assert (Hpitem : py_item personal (U "success") = Ok (PBool true))
      by (apply item_of_field; [exact Hps|discriminate]).
    assert (Herr : py_get env (U "error") PNone
                   = Ok (PStr (U "无法获取任何热门内容")))
      by (apply Herror; reflexivity).
    unfold main, bind, lift, ret. rewrite (is_china_region_value w), Hrun, Hitem.
    fold (domestic w). cbn [truthy]. rewrite Herr, Hp, Hpitem. cbn [truthy].
    rewrite Htext. rewrite <- !app_assoc. cbn [app py_str].
    replace (U "获取公共热点失败: " ++ U "无法获取任何热门内容")
      with (U "获取公共热点失败: 无法获取任何热门内容")
      by (vm_compute; reflexivity).
    reflexivity.
Qed.

Example bare_world_main :
  fst (main bare_world [])
  = Ok [U "检测到非中文区域"; U "正在获取热门内容（Reddit、Twitter）...";
        newline ++ rule; U "获取公共热点失败: 无法获取任何热门内容"; rule;
        newline ++ rule; nothing_en; rule].
Proof. vm_compute. reflexivity. Qed.

Example video_world_main : fst (main video_world []) = Raise name_error.
Proof. vm_compute. reflexivity. Qed.

(* ------------------------------------------------------------------ *)
(** *** Formatting search results and the window context *)

Lemma item_title_get (r : SearchItem) (default : pyval) :
  py_get (py_item_of r) (U "title") default = Ok (PStr (item_title r)).
Proof. reflexivity. Qed.

Lemma item_abstract_get (r : SearchItem) (default : pyval) :
  py_get (py_item_of r) (U "abstract") default = Ok (PStr (item_abstract r)).
Proof. reflexivity. Qed.

Lemma item_abstract_item (r : SearchItem) :
  py_item (py_item_of r) (U "abstract") = Ok (PStr (item_abstract r)).
Proof. reflexivity. Qed.

Lemma item_url_get (r : SearchItem) (default : pyval) :
  py_get (py_item_of r) (U "url") default = Ok (PStr (item_url r)).
Proof. reflexivity. Qed.

Lemma search_rows_run (items : list SearchItem) :
  forall start acc,
    exists extra,
      for_each search_result_lines (enumerate start (map py_item_of items)) acc
      = Ok (acc ++ extra).
Proof.
  induction items as [|r items IH]; intros start acc.
  - exists []. cbn. now rewrite app_nil_r.
  - cbn [map enumerate for_each]. unfold search_result_lines at 1.
    rewrite item_title_get, item_abstract_get. cbn [rbind truthy py_str].
    destruct (nonempty (item_abstract r)).
    + rewrite item_abstract_item. cbn [rbind py_slice_to py_str].
      match goal with
      | |- context [for_each _ _ ?acc'] => destruct (IH (start + 1)%Z acc') as (extra & ->)
      end.
      rewrite <- !app_assoc. eexists. reflexivity.
    + cbn [rbind].
      match goal with
      | |- context [for_each _ _ ?acc'] => destruct (IH (start + 1)%Z acc') as (extra & ->)
      end.
      rewrite <- !app_assoc. eexists. reflexivity.
Qed.

Lemma context_rows_run (china : bool) (items : list SearchItem) :
  forall start acc,
    exists extra,
      for_each (context_result_lines china)
               (enumerate start (map py_item_of items)) acc
      = Ok (acc ++ extra).
Proof.
  induction items as [|r items IH]; intros start acc.
  - exists []. cbn. now rewrite app_nil_r.
  - cbn [map enumerate for_each]. unfold context_result_lines at 1.
    rewrite item_title_get, !item_abstract_get, !item_url_get.
    cbn [rbind truthy py_str py_slice_to].
    destruct (nonempty (item_abstract r)), (nonempty (item_url r));
      cbn [rbind py_str];
      match goal with
      | |- context [for_each _ _ ?acc'] => destruct (IH (start + 1)%Z acc') as (extra & ->)
      end;
      rewrite <- !app_assoc; eexists; reflexivity.
Qed.

Lemma join_items_strs (queries : list str) :
  forall i, join_items i (map PStr queries) = Ok queries.
Proof.
  induction queries as [|q queries IH]; intros i; cbn [map join_items];
    [reflexivity|]. now rewrite IH.
Qed.

Lemma py_join_strs (sep : str) (queries : list str) :
  py_join sep (py_strs queries) = Ok (join sep queries).
Proof.
  unfold py_join, py_strs. cbn [py_iter rbind]. now rewrite join_items_strs.
Qed.

Lemma join_starts (c : N) (s : str) (rest : list str) :
  exists t, join newline ((c :: s) :: rest) = c :: t.
Proof. destruct rest; cbn [join app]; eauto. Qed.

Lemma app_nonempty (p e : str) : nonempty p = true -> p ++ e <> [].
Proof. destruct p; [discriminate|]. intros _. discriminate. Qed.

Lemma join_nonempty (line : str) (rest : list str) :
  line <> [] -> join newline (line :: rest) <> [].
Proof.
  destruct line; [congruence|]. intros _. destruct rest; cbn [join app]; discriminate.
Qed.

Lemma search_text (w : World) (r : SearchResult) :
  (forall query results, r = Found query results -> results <> []) ->
  exists text,
    format_search_results w (py_search_result r) = Ok text
    /\ text <> []
    /\ (domestic w = true ->
        format_baidu_search_results (py_search_result r) = Ok text)
    /\ (forall error query,
          r = NotFound error query -> text = search_apology (domestic w) ++ error).
Proof.
  intros Hfound. unfold format_search_results, format_baidu_search_results.
  rewrite (is_china_region_value w). fold (domestic w). cbn [rbind].
  destruct r as [query results|error [query|]].
  - destruct results as [|x results]; [now elim (Hfound query [] eq_refl)|].
    replace (py_get (py_search_result (Found query (x :: results))) (U "success") PNone)
      with (Ok (PBool true)) by reflexivity.
    replace (py_get (py_search_result (Found query (x :: results))) (U "query")
               (PStr []))
      with (Ok (PStr query)) by reflexivity.
    replace (py_get (py_search_result (Found query (x :: results))) (U "results") PNone)
      with (Ok (PList (map py_item_of (x :: results)))) by reflexivity.
    replace (result_rows (py_search_result (Found query (x :: results))))
      with (Ok (enumerate 1 (map py_item_of (x :: results)))) by reflexivity.
    cbn [rbind truthy negb py_str].
    destruct (domestic w).
    + destruct (search_rows_run (x :: results) 1
                  [(U "【关于「" ++ query ++ U "」的搜索结果】") ++ newline])
        as (extra & ->).
      cbn [rbind map nonempty negb].
      eexists. split; [reflexivity|]. split; [|split; [reflexivity|discriminate]].
      cbn [app]. apply join_nonempty. apply app_nonempty. reflexivity.
    + destruct (search_rows_run (x :: results) 1
                  [(U "【Search results for「" ++ query ++ U "」】") ++ newline])
        as (extra & ->).
      cbn [rbind map nonempty negb].
      eexists. split; [reflexivity|]. split; [|split; [discriminate|discriminate]].
      cbn [app]. apply join_nonempty. apply app_nonempty. reflexivity.
  - replace (py_get (py_search_result (NotFound error (Some query))) (U "success") PNone)
      with (Ok (PBool false)) by reflexivity.
    replace (py_get (py_search_result (NotFound error (Some query))) (U "error")
               (PStr (U "未知错误")))
      with (Ok (PStr error)) by reflexivity.
    replace (py_get (py_search_result (NotFound error (Some query))) (U "error")
               (PStr (U "Unknown error")))
      with (Ok (PStr error)) by reflexivity.
    cbn [rbind truthy negb py_str].
    destruct (domestic w); cbn [rbind]; eexists; (split; [reflexivity|]);
      (split; [apply app_nonempty; reflexivity|]);
      (split; [first [reflexivity|discriminate]|]);
      intros e q H; inversion H; subst; reflexivity.
  - replace (py_get (py_search_result (NotFound error None)) (U "success") PNone)
      with (Ok (PBool false)) by reflexivity.
    replace (py_get (py_search_result (NotFound error None)) (U "error")
               (PStr (U "未知错误")))
      with (Ok (PStr error)) by reflexivity.
    replace (py_get (py_search_result (NotFound error None)) (U "error")
               (PStr (U "Unknown error")))
      with (Ok (PStr error)) by reflexivity.
    cbn [rbind truthy negb py_str].
    destruct (domestic w); cbn [rbind]; eexists; (split; [reflexivity|]);
      (split; [apply app_nonempty; reflexivity|]);
      (split; [first [reflexivity|discriminate]|]);
      intros e q H; inversion H; subst; reflexivity.
Qed.

(** X20. Whatever a search function returns is formatted by
    [format_search_results] into a non-empty text without raising; a
    failed search gives the region's failure prefix followed by the
    error.  In the China region [format_baidu_search_results] gives the
    same text (the two would differ on a successful result with no hits,
    which the search functions never return). *)
Theorem X20_search_results_format (w : World) (china : bool) (query : str)
    (limit : Z) (l : Log) :
  exists r l' text,
    (if china then search_baidu w else search_google w) query limit l = (Ok r, l')
    /\ format_search_results w (py_search_result r) = Ok text
    /\ text <> []
    /\ (domestic w = true ->
        format_baidu_search_results (py_search_result r) = Ok text)
    /\ (forall error q,
          r = NotFound error q -> text = search_apology (domestic w) ++ error).
Proof.
  destruct (search_of_run w china query limit l) as (r & Hrun & _ & Hfound).
  destruct (@search_text w r) as (text & H1 & H2 & H3 & H4).
  { intros q results H. now apply (Hfound q results). }
  eexists r, _, text. split; [exact Hrun|]. auto.
Qed.

Lemma search_phase_shape (w : World) (china : bool) (sanitized_title : str)
    (queries : list str) (limit : Z) (l : Log) :
  exists env l',
    search_phase w china sanitized_title queries limit l = (Ok env, l')
    /\ context_shape env.
Proof.
  unfold search_phase.
  destruct (filter valid_query queries) as [|q valid].
  - eexists; eexists. split; [reflexivity|].
    left. split; [reflexivity|]. eexists. reflexivity.
  - match goal with
    | |- context [gather ?tasks] => destruct (gather_returns tasks l) as (rs & l' & Hrs)
    end.
    unfold bind. rewrite Hrs.
    destruct (merge_results limit (q :: valid) rs) as [|x items]; unfold ret.
    + eexists; eexists. split; [reflexivity|].
      left. split; [reflexivity|]. eexists. reflexivity.
    + eexists; eexists. split; [reflexivity|].
      right. split; [reflexivity|].
      exists sanitized_title, (snd (collect (q :: valid) rs [] [])), (x :: items).
      repeat split.
Qed.

Lemma context_pipeline_shape (w : World) (limit : Z) (l : Log) :
  exists env l',
    fetch_window_context_content w limit l = (Ok env, l')
    /\ context_shape env
    /\ (get_active_window_title w = None ->
        field env (U "success") = Ok (PBool false)
        /\ field env (U "error") = Ok (PStr (U "无法获取当前活跃窗口标题"))).
Proof.
  unfold fetch_window_context_content, try_except, bind, lift.
  rewrite (is_china_region_value w). fold (domestic w).
  destruct (get_active_window_title w) as [[sanitized_title raw]|].
  - destruct (queries_run w (clean_window_title raw) l)
      as (queries & extra & Hq & _).
    rewrite Hq.
    destruct (unusable queries).
    + eexists; eexists. unfold ret. split; [reflexivity|].
      split; [|discriminate].
      left. split; [reflexivity|]. eexists. reflexivity.
    + destruct (search_phase_shape w (domestic w) sanitized_title queries limit
                  (l ++ extra)) as (env & l' & Hrun & Hshape).
      rewrite Hrun. exists env, l'. split; [reflexivity|].
      split; [exact Hshape|discriminate].
  - eexists; eexists. unfold ret. split; [reflexivity|].
    split; [|intros _; split; reflexivity].
    left. split; [reflexivity|]. eexists. reflexivity.
Qed.

Lemma context_text (w : World) (env : pyval) :
  context_shape env ->
  exists text,
    format_window_context_content w env = Ok text
    /\ text <> []
    /\ (forall error,
          field env (U "success") = Ok (PBool false) ->
          field env (U "error") = Ok (PStr error) ->
          text = context_apology (domestic w) ++ error).
Proof.
  intros Hshape. unfold format_window_context_content.
  rewrite (is_china_region_value w). fold (domestic w). cbn [rbind].
  change (py_get env (U "success") PNone) with (field env (U "success")).
  destruct Hshape as [(Hs & error & He)|(Hs & title & queries & items & Ht & Hq & Hr)];
    rewrite Hs; cbn [rbind truthy negb].
  - destruct (domestic w);
      rewrite (@get_of_field env (U "error") (PStr error) _ He) by discriminate;
      cbn [rbind py_str]; eexists; (split; [reflexivity|]);
      (split; [apply app_nonempty; reflexivity|]);
      intros e _ He'; rewrite He in He'; inversion He'; subst;
      unfold context_apology; reflexivity.
  - rewrite (@get_of_field env (U "window_title") (PStr title) _ Ht) by discriminate.
    rewrite (@get_of_field env (U "search_queries") (py_strs queries) _ Hq)
      by discriminate.
    rewrite (@get_of_field env (U "search_results") (PList (map py_item_of items)) _ Hr)
      by discriminate.
    cbn [rbind py_str py_iter].
    assert (Hjoined :
              exists lines,
                (if truthy (py_strs queries)
                 then joined <~ py_join (U ", ") (py_strs queries) ;;
                      Ok ([(if domestic w then U "【当前活跃窗口】"
                            else U "【Active Window】") ++ title]
                          ++ [(if domestic w then U "【搜索关键词】"
                               else U "【Search Keywords】") ++ joined])
                 else Ok [(if domestic w then U "【当前活跃窗口】"
                           else U "【Active Window】") ++ title])
                = Ok (((if domestic w then U "【当前活跃窗口】"
                        else U "【Active Window】") ++ title) :: lines)).
    { destruct (truthy (py_strs queries)).
      - rewrite py_join_strs. cbn [rbind app]. eauto.
      - eauto. }
    destruct Hjoined as (lines & ->). cbn [rbind].
    match goal with
    | |- context [for_each _ _ ?acc] =>
      destruct (context_rows_run (domestic w) items 1 acc) as (extra & ->)
    end.
    cbn [rbind]. eexists. split; [reflexivity|]. split; [|intros e H; discriminate].
    destruct (truthy (PList (map py_item_of items))); cbn [negb app];
      apply join_nonempty; apply app_nonempty; now destruct (domestic w).
Qed.

(** X21. Whatever the outside world does, the dictionary returned by
    [fetch_window_context_content] is formatted by
    [format_window_context_content] into a non-empty text without raising.
    When the pipeline failed, the text is the region's failure prefix
    followed by the pipeline's error; without an active window that error
    is the missing-title message. *)
Theorem X21_window_context_formats (w : World) (limit : Z) (l : Log) :
  exists env l' text,
    fetch_window_context_content w limit l = (Ok env, l')
    /\ format_window_context_content w env = Ok text
    /\ text <> []
    /\ (forall error,
          field env (U "success") = Ok (PBool false) ->
          field env (U "error") = Ok (PStr error) ->
          text = context_apology (domestic w) ++ error)
    /\ (get_active_window_title w = None ->
        text = context_apology (domestic w) ++ U "无法获取当前活跃窗口标题").
Proof.
  destruct (context_pipeline_shape w limit l) as (env & l' & Hrun & Hshape & Hnone).
  destruct (@context_text w env Hshape) as (text & Htext & Hne & Hfail).
  exists env, l', text. repeat split; auto.
  intros Hw. destruct (Hnone Hw) as (Hs & He). now apply Hfail.
Qed.

Example desktop_world_context :
  exists env,
    fst (fetch_window_context_content desktop_world 5 []) = Ok env
    /\ format_window_context_content desktop_world env
       = Ok (U "Failed to fetch window context: 无法提取有效搜索关键词").
Proof. eexists. split; vm_compute; reflexivity. Qed.

(* ------------------------------------------------------------------ *)
(** *** Locale names *)

Lemma lower_char_idem (c : N) : lower_char (lower_char c) = lower_char c.
Proof.
  unfold lower_char, in_range.
  destruct ((65 <=? c)%N && (c <=? 90)%N) eqn:E; [|now rewrite E].
  apply andb_true_iff in E as [E1 E2]. apply N.leb_le in E1.
  replace (c + 32 <=? 90)%N with false by (symmetry; apply N.leb_gt; lia).
  now rewrite andb_false_r.
Qed.

Lemma lower_char_settled (c : N) :
  settled (if (lower_char c =? 45)%N then 95%N else lower_char c) = true.
Proof.
  destruct (lower_char c =? 45)%N eqn:E; [reflexivity|].
  unfold settled. now rewrite lower_char_idem, N.eqb_refl, E.
Qed.

Lemma folded_settled (s : str) :
  forallb settled (replace_char 45 95 (lower s)) = true.
Proof.
  unfold replace_char, lower. rewrite map_map.
  induction s as [|c s IH]; cbn [map forallb]; [reflexivity|].
  now rewrite lower_char_settled, IH.
Qed.

Lemma settled_fixed (s : str) :
  forallb settled s = true -> replace_char 45 95 (lower s) = s.
Proof.
  unfold replace_char, lower. rewrite map_map.
  induction s as [|c s IH]; cbn [map forallb]; [reflexivity|].
  intros H. apply andb_true_iff in H as [Hc Hs].
  unfold settled in Hc. apply andb_true_iff in Hc as [Hl Hh].
  apply N.eqb_eq in Hl. rewrite Hl.
  destruct (c =? 45)%N; [discriminate|]. now rewrite IH.
Qed.

(** The first field of a split: a prefix that has no separator. *)
Lemma split_head_field (d : N) (s : str) :
  forall cur,
    exists pre post,
      hd [] (split_char_aux d cur s) = rev cur ++ pre
      /\ s = pre ++ post
      /\ existsb (N.eqb d) pre = false.
Proof.
  induction s as [|c s IH]; intros cur.
  - exists [], []. cbn. rewrite app_nil_r. repeat split.
  - cbn [split_char_aux]. destruct (c =? d)%N eqn:E.
    + exists [], (c :: s). cbn. rewrite app_nil_r. repeat split.
    + destruct (IH (c :: cur)) as (pre & post & H1 & H2 & H3).
      exists (c :: pre), post. rewrite H1. cbn [rev]. rewrite <- app_assoc.
      cbn [app existsb]. rewrite N.eqb_sym, E, H3, H2. repeat split.
Qed.

Lemma forallb_prefix (A : Type) (f : A -> bool) (pre post : list A) :
  forallb f (pre ++ post) = true -> forallb f pre = true.
Proof. rewrite forallb_app. intros H. now apply andb_true_iff in H. Qed.

Lemma normalized_plain (loc : str) :
  forallb settled (normalize_locale loc) = true
  /\ existsb (N.eqb 46) (normalize_locale loc) = false.
Proof.
  unfold normalize_locale. destruct loc as [|c loc]; [split; reflexivity|].
  set (y := replace_char 45 95 (lower (c :: loc))).
  pose proof (folded_settled (c :: loc)) as Hy. fold y in Hy.
  destruct (existsb (N.eqb 46) y) eqn:E; [|now split].
  unfold before_dot, split_char.
  destruct (split_head_field 46 y []) as (pre & post & -> & Hpre & Hdot).
  cbn [rev app]. split; [|exact Hdot].
  rewrite Hpre in Hy. now apply forallb_prefix in Hy.
Qed.

(** X22. [normalize_locale] is idempotent: its result has no upper-case
    ASCII letter, no hyphen and no encoding suffix, and normalising it
    again changes nothing.  So [check_locale] gives the same answer for a
    locale name and for its normal form. *)
Theorem X22_normalize_locale_idempotent (loc : str) :
  normalize_locale (normalize_locale loc) = normalize_locale loc
  /\ check_locale (normalize_locale loc) = check_locale loc
  /\ forallb settled (normalize_locale loc) = true
  /\ existsb (N.eqb 46) (normalize_locale loc) = false.
Proof.
  destruct (normalized_plain loc) as (Hs & Hd).
  assert (normalize_locale (normalize_locale loc) = normalize_locale loc) as Hi.
  { revert Hs Hd. generalize (normalize_locale loc). intros n Hs Hd.
    unfold normalize_locale. destruct n as [|c n]; [reflexivity|].
    rewrite (settled_fixed _ Hs), Hd. reflexivity. }
  split; [exact Hi|]. split; [|split; assumption].
  unfold check_locale. now rewrite Hi.
Qed.

(* ------------------------------------------------------------------ *)
(** *** The window title in the pipeline's result *)

Lemma sanitize_bound (raw_title : str) :
  (len (sanitize raw_title) <= 33)%Z
  /\ ((len raw_title <= 30)%Z -> sanitize raw_title = raw_title).
Proof.
  unfold sanitize. destruct (30 <? len raw_title)%Z eqn:E.
  - apply Z.ltb_lt in E. split; [|lia].
    unfold len. rewrite length_app.
    pose proof (@slice_to_bound _ 30 raw_title ltac:(lia)) as H. unfold len in H.
    replace (length (U "...")) with 3 by reflexivity. lia.
  - apply Z.ltb_ge in E. split; [lia|reflexivity].
Qed.

Lemma active_title_sanitized (w : World) (sanitized_title raw : str) :
  get_active_window_title w = Some (sanitized_title, raw) ->
  sanitized_title = sanitize raw.
Proof.
  unfold get_active_window_title.
  destruct (negb (on_windows w)); [discriminate|].
  destruct (negb (pygetwindow_installed w)); [discriminate|].
  destruct (active_window_title w) as [[t|]|e]; try discriminate.
  intros H. now inversion H.
Qed.

Lemma search_phase_title (w : World) (china : bool) (sanitized_title : str)
    (queries : list str) (limit : Z) (l : Log) :
  exists env l',
    search_phase w china sanitized_title queries limit l = (Ok env, l')
    /\ field env (U "window_title") = Ok (PStr sanitized_title).
Proof.
  unfold search_phase.
  destruct (filter valid_query queries) as [|q valid].
  - eexists; eexists. split; reflexivity.
  - match goal with
    | |- context [gather ?tasks] => destruct (gather_returns tasks l) as (rs & l' & Hrs)
    end.
    unfold bind. rewrite Hrs.
    destruct (merge_results limit (q :: valid) rs) as [|x items]; unfold ret;
      eexists; eexists; split; reflexivity.
Qed.

(** X23. The window title in the pipeline's result is the sanitized one:
    the raw title itself when it has at most 30 characters, otherwise its
    first 30 characters and an ellipsis, so never more than 33 characters.
    Every result made after a title was read carries it; the result made
    without an active window carries none. *)
Theorem X23_result_title_is_sanitized (w : World) (limit : Z) (l : Log) :
  exists env l',
    fetch_window_context_content w limit l = (Ok env, l')
    /\ match get_active_window_title w with
       | None => field env (U "window_title") = Ok PNone
       | Some (sanitized_title, raw) =>
         field env (U "window_title") = Ok (PStr sanitized_title)
         /\ sanitized_title = sanitize raw
         /\ (len sanitized_title <= 33)%Z
         /\ ((len raw <= 30)%Z -> sanitized_title = raw)
       end.
Proof.
  unfold fetch_window_context_content, try_except, bind, lift.
  rewrite (is_china_region_value w). fold (domestic w).
  destruct (get_active_window_title w) as [[sanitized_title raw]|] eqn:Ew.
  - pose proof (active_title_sanitized _ Ew) as Hs.
    destruct (sanitize_bound raw) as (Hb & Hshort). rewrite <- Hs in Hb, Hshort.
    destruct (queries_run w (clean_window_title raw) l)
      as (queries & extra & Hq & _).
    rewrite Hq.
    destruct (unusable queries).
    + eexists; eexists. unfold ret. split; [reflexivity|].
      split; [reflexivity|auto].
    + destruct (search_phase_title w (domestic w) sanitized_title queries limit
                  (l ++ extra)) as (env & l' & Hrun & Ht).
      rewrite Hrun. exists env, l'. split; [reflexivity|auto].
  - eexists; eexists. unfold ret. split; reflexivity.
Qed.
